(** * YourNews: subscription-gated visibility, role transitions and
      notifications of the Django news application

    A shallow embedding of [news/models.py], [news/views.py],
    [news/api/views.py], [news/api/permissions.py],
    [news/api/serializers.py], [news/admin.py], [news/emails.py] and
    [news/utils.py].  A table is the list of its rows in insertion order,
    primary keys and timestamps are integers, and a view is a function from
    the database and the request to the new database, the response and the
    mail handed to the mail backend. *)

From Stdlib Require Import ZArith List String Ascii Bool Lia.
From Stdlib Require Import Permutation Sorting.Sorted.
Import ListNotations.
Open Scope Z_scope.

(** ** Data model ([news/models.py]) *)

Module Role.
(** [CustomUser.ROLE_CHOICES]. *)
Inductive t := reader | journalist | editor | publisher.
Definition eqb (a b : t) : bool :=
  match a, b with
  | reader, reader | journalist, journalist
  | editor, editor | publisher, publisher => true
  | _, _ => false
  end.
End Role.

(** The status choices shared by [Article] and [RoleApplication]. *)
Inductive Status := pending | approved | rejected.

Definition Status_eqb (a b : Status) : bool :=
  match a, b with
  | pending, pending | approved, approved | rejected, rejected => true
  | _, _ => false
  end.

Module CustomUser.
Record t := mk {
  pk : Z;
  username : string;
  email : string;
  password : string;
  role : Role.t
}.
Definition with_pk (u : t) (k : Z) : t :=
  mk k (username u) (email u) (password u) (role u).
Definition with_role (u : t) (r : Role.t) : t :=
  mk (pk u) (username u) (email u) (password u) r.
Definition with_password (u : t) (p : string) : t :=
  mk (pk u) (username u) (email u) p (role u).
End CustomUser.

Module RoleApplication.
(** [RoleApplication.ROLE_CHOICES]: the reader role cannot be applied for. *)
Inductive role_choice := journalist | editor | publisher.
Record t := mk {
  pk : Z;
  user_id : Z;
  applied_role : role_choice;
  motivation : string;
  status : Status
}.
Definition with_status (a : t) (s : Status) : t :=
  mk (pk a) (user_id a) (applied_role a) (motivation a) s.
End RoleApplication.

(** The role stored by [user.role = application.applied_role]. *)
Definition to_role (c : RoleApplication.role_choice) : Role.t :=
  match c with
  | RoleApplication.journalist => Role.journalist
  | RoleApplication.editor => Role.editor
  | RoleApplication.publisher => Role.publisher
  end.

Module Publisher.
Record t := mk { pk : Z; user_id : Z; name : string }.
End Publisher.

Module Editor.
Record t := mk { pk : Z; user_id : Z; publisher_id : Z }.
End Editor.

Module Journalist.
Record t := mk { pk : Z; user_id : Z; publisher_id : Z }.
End Journalist.

Module Article.
(** A row of the article table.  The column [updated_at], which every
    [save()] sets to the time of the call and only the serializers read,
    is not part of the record; the same holds for newsletters. *)
Record t := mk {
  pk : Z;
  title : string;
  content : string;
  journalist_id : Z;
  publisher_id : Z;
  status : Status;
  created_at : Z
}.
Definition with_status (a : t) (s : Status) : t :=
  mk (pk a) (title a) (content a) (journalist_id a) (publisher_id a) s
     (created_at a).
End Article.

Module Newsletter.
Record t := mk {
  pk : Z;
  title : string;
  content : string;
  journalist_id : Z;
  publisher_id : Z;
  created_at : Z
}.
End Newsletter.

Module JournalistSubscription.
Record t := mk {
  pk : Z;
  reader_id : Z;
  journalist_id : Z;
  is_active : bool
}.
Definition with_is_active (s : t) (b : bool) : t :=
  mk (pk s) (reader_id s) (journalist_id s) b.
End JournalistSubscription.

Module PublisherSubscription.
Record t := mk {
  pk : Z;
  reader_id : Z;
  publisher_id : Z;
  is_active : bool
}.
Definition with_is_active (s : t) (b : bool) : t :=
  mk (pk s) (reader_id s) (publisher_id s) b.
End PublisherSubscription.

Module ResetToken.
Record t := mk {
  pk : Z;
  user_id : Z;
  token : string;
  expiry_date : Z;
  used : bool
}.
Definition with_used (r : t) (b : bool) : t :=
  mk (pk r) (user_id r) (token r) (expiry_date r) b.
End ResetToken.

(** The relational store: one list of rows per model. *)
Record Database := mkDB {
  users : list CustomUser.t;
  publishers : list Publisher.t;
  editors : list Editor.t;
  journalists : list Journalist.t;
  articles : list Article.t;
  newsletters : list Newsletter.t;
  journalist_subscriptions : list JournalistSubscription.t;
  publisher_subscriptions : list PublisherSubscription.t;
  role_applications : list RoleApplication.t;
  reset_tokens : list ResetToken.t
}.

Definition set_users (db : Database) l :=
  mkDB l (publishers db) (editors db) (journalists db) (articles db)
       (newsletters db) (journalist_subscriptions db)
       (publisher_subscriptions db) (role_applications db) (reset_tokens db).

Definition set_publishers (db : Database) l :=
  mkDB (users db) l (editors db) (journalists db) (articles db)
       (newsletters db) (journalist_subscriptions db)
       (publisher_subscriptions db) (role_applications db) (reset_tokens db).

Definition set_editors (db : Database) l :=
  mkDB (users db) (publishers db) l (journalists db) (articles db)
       (newsletters db) (journalist_subscriptions db)
       (publisher_subscriptions db) (role_applications db) (reset_tokens db).

Definition set_journalists (db : Database) l :=
  mkDB (users db) (publishers db) (editors db) l (articles db)
       (newsletters db) (journalist_subscriptions db)
       (publisher_subscriptions db) (role_applications db) (reset_tokens db).

Definition set_articles (db : Database) l :=
  mkDB (users db) (publishers db) (editors db) (journalists db) l
       (newsletters db) (journalist_subscriptions db)
       (publisher_subscriptions db) (role_applications db) (reset_tokens db).

Definition set_journalist_subscriptions (db : Database) l :=
  mkDB (users db) (publishers db) (editors db) (journalists db) (articles db)
       (newsletters db) l
       (publisher_subscriptions db) (role_applications db) (reset_tokens db).

Definition set_publisher_subscriptions (db : Database) l :=
  mkDB (users db) (publishers db) (editors db) (journalists db) (articles db)
       (newsletters db) (journalist_subscriptions db)
       l (role_applications db) (reset_tokens db).

Definition set_role_applications (db : Database) l :=
  mkDB (users db) (publishers db) (editors db) (journalists db) (articles db)
       (newsletters db) (journalist_subscriptions db)
       (publisher_subscriptions db) l (reset_tokens db).

Definition set_reset_tokens (db : Database) l :=
  mkDB (users db) (publishers db) (editors db) (journalists db) (articles db)
       (newsletters db) (journalist_subscriptions db)
       (publisher_subscriptions db) (role_applications db) l.

(** ** The object-relational layer used by the views *)

(** Exceptions a view lets escape; the framework answers them with a
    server error. *)
Inductive Exception :=
| IntegrityError
| MultipleObjectsReturned
| RelatedObjectDoesNotExist
| ValueError.

Section QuerySet.
Context {A : Type}.

(** [order_by("-key")]: a stable insertion sort, greatest key first. *)
Fixpoint insert_desc (key : A -> Z) (x : A) (l : list A) : list A :=
  match l with
  | [] => [x]
  | y :: l' =>
      if key y <=? key x then x :: y :: l' else y :: insert_desc key x l'
  end.

Definition order_by_desc (key : A -> Z) (l : list A) : list A :=
  fold_right (insert_desc key) [] l.

(** [QuerySet.filter(cond).update(...)]: rows keep their place. *)
Definition update_where (f : A -> bool) (g : A -> A) (l : list A) : list A :=
  map (fun r => if f r then g r else r) l.

(** The key an auto-increment column gives to an insert: above every key
    in use. *)
Definition next_pk (pk : A -> Z) (l : list A) : Z :=
  fold_right (fun r m => Z.max (pk r + 1) m) 1 l.

(** [Model.save()] of an instance loaded from the table: the row with its
    key is overwritten. *)
Definition save_row (pk : A -> Z) (x : A) (l : list A) : list A :=
  update_where (fun r => pk r =? pk x) (fun _ => x) l.

(** [Model.save()] in general: an instance without a key (key 0 stands
    for [None]) is inserted under a fresh key, an instance whose key is in
    the table overwrites that row, and any other instance is inserted
    under its own key. *)
Definition save_instance (pk : A -> Z) (with_pk : A -> Z -> A) (x : A)
    (l : list A) : list A :=
  if pk x =? 0 then l ++ [with_pk x (next_pk pk l)]
  else if existsb (fun r => pk r =? pk x) l then save_row pk x l
  else l ++ [x].

(** Lookup by primary key: [get_object_or_404(Model, pk=k)] and the
    access through a foreign key. *)
Definition find_pk (pk : A -> Z) (k : Z) (l : list A) : option A :=
  find (fun r => pk r =? k) l.

(** [Manager.get(cond)]: the single matching row, [DoesNotExist] or
    [MultipleObjectsReturned]. *)
Inductive Lookup := DoesNotExist | Found (row : A) | Multiple.

Definition objects_get (f : A -> bool) (l : list A) : Lookup :=
  match filter f l with
  | [] => DoesNotExist
  | [row] => Found row
  | _ :: _ :: _ => Multiple
  end.
End QuerySet.

Arguments Lookup A : clear implicits.

(** [value in ids], the [__in] lookup over a list of keys. *)
Definition mem (k : Z) (ids : list Z) : bool := existsb (Z.eqb k) ids.

(** ** Content visibility ([news/api/views.py], [news/views.py]) *)

(** A REST response: status code and payload.  The payload of a success
    is what is handed to the serializer, the payload of an error is the
    JSON object of messages by key. *)
Inductive Response (A : Type) :=
| HTTP_200_OK (data : A)
| HTTP_201_CREATED (data : A)
| HTTP_400_BAD_REQUEST (errors : list (string * string))
| HTTP_403_FORBIDDEN (errors : list (string * string)).

Arguments HTTP_200_OK {A} data.
Arguments HTTP_201_CREATED {A} data.
Arguments HTTP_400_BAD_REQUEST {A} errors.
Arguments HTTP_403_FORBIDDEN {A} errors.

(** [JournalistSubscription.objects.filter(reader=user, is_active=True)
    .values_list("journalist_id", flat=True)]. *)
Definition subscribed_journalist_ids (db : Database) (user : CustomUser.t)
  : list Z :=
  map JournalistSubscription.journalist_id
    (filter (fun s => (JournalistSubscription.reader_id s =? CustomUser.pk user)
                      && JournalistSubscription.is_active s)
            (journalist_subscriptions db)).

Definition subscribed_publisher_ids (db : Database) (user : CustomUser.t)
  : list Z :=
  map PublisherSubscription.publisher_id
    (filter (fun s => (PublisherSubscription.reader_id s =? CustomUser.pk user)
                      && PublisherSubscription.is_active s)
            (publisher_subscriptions db)).

(** [status="approved"]. *)
Definition is_approved (a : Article.t) : bool :=
  Status_eqb (Article.status a) approved.

(** [ArticleViewSet.get_queryset]. *)
Definition ArticleViewSet_get_queryset (db : Database) (user : CustomUser.t)
  : list Article.t :=
  if Role.eqb (CustomUser.role user) Role.reader then
    order_by_desc Article.created_at
      (filter (fun a => mem (Article.journalist_id a)
                            (subscribed_journalist_ids db user)
                        || mem (Article.publisher_id a)
                               (subscribed_publisher_ids db user))
              (filter is_approved (articles db)))
  else
    order_by_desc Article.created_at (filter is_approved (articles db)).

(** [NewsletterViewSet.get_queryset]. *)
Definition NewsletterViewSet_get_queryset (db : Database) (user : CustomUser.t)
  : list Newsletter.t :=
  if Role.eqb (CustomUser.role user) Role.reader then
    order_by_desc Newsletter.created_at
      (filter (fun n => mem (Newsletter.journalist_id n)
                            (subscribed_journalist_ids db user)
                        || mem (Newsletter.publisher_id n)
                               (subscribed_publisher_ids db user))
              (newsletters db))
  else
    order_by_desc Newsletter.created_at (newsletters db).

(** [ArticleViewSet.by_journalist] on the query parameter as the lookups
    read it: [None] when it is absent or empty ([not journalist_id]) and
    [Some k] when it spells the key [k].  [GET_articles_by_journalist]
    below starts from the text of the parameter. *)
Definition ArticleViewSet_by_journalist (db : Database) (user : CustomUser.t)
    (journalist_id : option Z) : Response (list Article.t) :=
  match journalist_id with
  | None =>
      HTTP_400_BAD_REQUEST
        [("error", "journalist_id parameter is required")]%string
  | Some journalist_id =>
      let articles :=
        order_by_desc Article.created_at
          (filter (fun a => (Article.journalist_id a =? journalist_id)
                            && is_approved a)
                  (articles db)) in
      if Role.eqb (CustomUser.role user) Role.reader then
        let is_subscribed :=
          existsb (fun s =>
                     (JournalistSubscription.reader_id s
                      =? CustomUser.pk user)
                     && (JournalistSubscription.journalist_id s
                         =? journalist_id)
                     && JournalistSubscription.is_active s)
                  (journalist_subscriptions db) in
        if negb is_subscribed then
          HTTP_403_FORBIDDEN
            [("error", "You are not subscribed to this journalist")]%string
        else HTTP_200_OK articles
      else HTTP_200_OK articles
  end.

(** [ArticleViewSet.by_publisher], in the same way. *)
Definition ArticleViewSet_by_publisher (db : Database) (user : CustomUser.t)
    (publisher_id : option Z) : Response (list Article.t) :=
  match publisher_id with
  | None =>
      HTTP_400_BAD_REQUEST
        [("error", "publisher_id parameter is required")]%string
  | Some publisher_id =>
      let articles :=
        order_by_desc Article.created_at
          (filter (fun a => (Article.publisher_id a =? publisher_id)
                            && is_approved a)
                  (articles db)) in
      if Role.eqb (CustomUser.role user) Role.reader then
        let is_subscribed :=
          existsb (fun s =>
                     (PublisherSubscription.reader_id s
                      =? CustomUser.pk user)
                     && (PublisherSubscription.publisher_id s
                         =? publisher_id)
                     && PublisherSubscription.is_active s)
                  (publisher_subscriptions db) in
        if negb is_subscribed then
          HTTP_403_FORBIDDEN
            [("error", "You are not subscribed to this publisher")]%string
        else HTTP_200_OK articles
      else HTTP_200_OK articles
  end.

Section QueryParameters.
(** The conversion of a lookup value by the integer field of a key
    ([IntegerField.get_prep_value], that is [int(value)]): the key a text
    spells, or nothing when [int] raises [ValueError]. *)
Variable get_prep_value : string -> option Z.

(** [GET /articles/by_journalist/?journalist_id=...]:
    [ArticleViewSet.by_journalist] on the parameter as the request
    carries it, [None] when the request has none.  The view hands the
    text to the lookups as it is, to the subscription test for a reader
    and to the article filter for everyone else, so a text that spells no
    number makes the first lookup raise [ValueError], which nothing
    catches. *)
Definition GET_articles_by_journalist (db : Database) (user : CustomUser.t)
    (journalist_id : option string)
  : Response (list Article.t) + Exception :=
  match journalist_id with
  | None | Some EmptyString => inl (ArticleViewSet_by_journalist db user None)
  | Some text =>
      match get_prep_value text with
      | None => inr ValueError
      | Some key => inl (ArticleViewSet_by_journalist db user (Some key))
      end
  end.

(** [GET /articles/by_publisher/?publisher_id=...]. *)
Definition GET_articles_by_publisher (db : Database) (user : CustomUser.t)
    (publisher_id : option string)
  : Response (list Article.t) + Exception :=
  match publisher_id with
  | None | Some EmptyString => inl (ArticleViewSet_by_publisher db user None)
  | Some text =>
      match get_prep_value text with
      | None => inr ValueError
      | Some key => inl (ArticleViewSet_by_publisher db user (Some key))
      end
  end.
End QueryParameters.

(** [article_list] and [newsletter_list], the server-rendered pages.  Both
    are [@login_required], so [user] is an authenticated user; the result
    is the queryset put in the template context. *)
Definition article_list (db : Database) (user : CustomUser.t)
  : list Article.t :=
  order_by_desc Article.created_at (filter is_approved (articles db)).

Definition newsletter_list (db : Database) (user : CustomUser.t)
  : list Newsletter.t :=
  order_by_desc Newsletter.created_at (newsletters db).

(** ** Page views ([news/views.py]) *)

Module messages.
(** The level of a flash message: [messages.success], [messages.info],
    [messages.warning], [messages.error]. *)
Inductive level := success | info | warning | error.
End messages.

(** The flash messages of the views below, by what they say. *)
Inductive Flash :=
| only_readers_can_subscribe
| only_readers_can_manage_subscriptions
| successfully_subscribed
| re_subscribed
| already_subscribed
| successfully_unsubscribed
| not_subscribed
| article_approved
| cannot_approve_article
| article_rejected
| cannot_reject_article
| only_journalists_can_submit
| article_submitted
| application_approved
| application_rejected
| invalid_or_expired_reset_link
| reset_link_has_expired
| password_reset_successfully.

(** What a page view answers: a redirect, with or without a flash message,
    a rendered form, a 404 from [get_object_or_404], or an exception that
    escapes the view. *)
Inductive HttpResponse :=
| redirect_with (l : messages.level) (text : Flash)
| redirect
| render
| Http404
| server_error (e : Exception).

(** *** Subscription toggle *)

(** [subscribe_to_journalist]. *)
Definition subscribe_to_journalist (db : Database) (user : CustomUser.t)
    (journalist_id : Z) : Database * HttpResponse :=
  if negb (Role.eqb (CustomUser.role user) Role.reader) then
    (db, redirect_with messages.error only_readers_can_subscribe)
  else
    match find_pk Journalist.pk journalist_id (journalists db) with
    | None => (db, Http404)
    | Some journalist =>
        (* JournalistSubscription.objects.get_or_create(reader, journalist,
           defaults={"is_active": True}) *)
        match objects_get
                (fun s => (JournalistSubscription.reader_id s
                           =? CustomUser.pk user)
                          && (JournalistSubscription.journalist_id s
                              =? Journalist.pk journalist))
                (journalist_subscriptions db) with
        | DoesNotExist =>
            let subscription :=
              JournalistSubscription.mk
                (next_pk JournalistSubscription.pk
                         (journalist_subscriptions db))
                (CustomUser.pk user) (Journalist.pk journalist) true in
            (set_journalist_subscriptions db
               (journalist_subscriptions db ++ [subscription]),
             redirect_with messages.success successfully_subscribed)
        | Found subscription =>
            if negb (JournalistSubscription.is_active subscription) then
              (set_journalist_subscriptions db
                 (save_row JournalistSubscription.pk
                    (JournalistSubscription.with_is_active subscription true)
                    (journalist_subscriptions db)),
               redirect_with messages.success re_subscribed)
            else
              (db, redirect_with messages.info already_subscribed)
        | Multiple => (db, server_error MultipleObjectsReturned)
        end
    end.

(** [unsubscribe_from_journalist]. *)
Definition unsubscribe_from_journalist (db : Database) (user : CustomUser.t)
    (journalist_id : Z) : Database * HttpResponse :=
  if negb (Role.eqb (CustomUser.role user) Role.reader) then
    (db, redirect_with messages.error only_readers_can_manage_subscriptions)
  else
    match find_pk Journalist.pk journalist_id (journalists db) with
    | None => (db, Http404)
    | Some journalist =>
        match objects_get
                (fun s => (JournalistSubscription.reader_id s
                           =? CustomUser.pk user)
                          && (JournalistSubscription.journalist_id s
                              =? Journalist.pk journalist)
                          && JournalistSubscription.is_active s)
                (journalist_subscriptions db) with
        | Found subscription =>
            (set_journalist_subscriptions db
               (save_row JournalistSubscription.pk
                  (JournalistSubscription.with_is_active subscription false)
                  (journalist_subscriptions db)),
             redirect_with messages.success successfully_unsubscribed)
        | DoesNotExist => (db, redirect_with messages.info not_subscribed)
        | Multiple => (db, server_error MultipleObjectsReturned)
        end
    end.

(** [subscribe_to_publisher]. *)
Definition subscribe_to_publisher (db : Database) (user : CustomUser.t)
    (publisher_id : Z) : Database * HttpResponse :=
  if negb (Role.eqb (CustomUser.role user) Role.reader) then
    (db, redirect_with messages.error only_readers_can_subscribe)
  else
    match find_pk Publisher.pk publisher_id (publishers db) with
    | None => (db, Http404)
    | Some publisher =>
        match objects_get
                (fun s => (PublisherSubscription.reader_id s
                           =? CustomUser.pk user)
                          && (PublisherSubscription.publisher_id s
                              =? Publisher.pk publisher))
                (publisher_subscriptions db) with
        | DoesNotExist =>
            let subscription :=
              PublisherSubscription.mk
                (next_pk PublisherSubscription.pk
                         (publisher_subscriptions db))
                (CustomUser.pk user) (Publisher.pk publisher) true in
            (set_publisher_subscriptions db
               (publisher_subscriptions db ++ [subscription]),
             redirect_with messages.success successfully_subscribed)
        | Found subscription =>
            if negb (PublisherSubscription.is_active subscription) then
              (set_publisher_subscriptions db
                 (save_row PublisherSubscription.pk
                    (PublisherSubscription.with_is_active subscription true)
                    (publisher_subscriptions db)),
               redirect_with messages.success re_subscribed)
            else
              (db, redirect_with messages.info already_subscribed)
        | Multiple => (db, server_error MultipleObjectsReturned)
        end
    end.

(** [unsubscribe_from_publisher]. *)
Definition unsubscribe_from_publisher (db : Database) (user : CustomUser.t)
    (publisher_id : Z) : Database * HttpResponse :=
  if negb (Role.eqb (CustomUser.role user) Role.reader) then
    (db, redirect_with messages.error only_readers_can_manage_subscriptions)
  else
    match find_pk Publisher.pk publisher_id (publishers db) with
    | None => (db, Http404)
    | Some publisher =>
        match objects_get
                (fun s => (PublisherSubscription.reader_id s
                           =? CustomUser.pk user)
                          && (PublisherSubscription.publisher_id s
                              =? Publisher.pk publisher)
                          && PublisherSubscription.is_active s)
                (publisher_subscriptions db) with
        | Found subscription =>
            (set_publisher_subscriptions db
               (save_row PublisherSubscription.pk
                  (PublisherSubscription.with_is_active subscription false)
                  (publisher_subscriptions db)),
             redirect_with messages.success successfully_unsubscribed)
        | DoesNotExist => (db, redirect_with messages.info not_subscribed)
        | Multiple => (db, server_error MultipleObjectsReturned)
        end
    end.

(** ** Outbound mail ([news/emails.py]) *)

(** What an email is about; the subject and body are built from it. *)
Inductive EmailKind :=
| role_approved (applied_role : RoleApplication.role_choice)
| role_rejected (applied_role : RoleApplication.role_choice)
| article_status (article : Article.t)
| new_article_notification (article : Article.t).

(** [EmailMessage(subject, body, DEFAULT_FROM_EMAIL, to)]. *)
Record EmailMessage := mkEmail { kind : EmailKind; to : list string }.

Module EmailBuilder.
Definition build_role_approved_email (user : CustomUser.t)
    (applied_role : RoleApplication.role_choice) :=
  mkEmail (role_approved applied_role) [CustomUser.email user].
Definition build_role_rejected_email (user : CustomUser.t)
    (applied_role : RoleApplication.role_choice) :=
  mkEmail (role_rejected applied_role) [CustomUser.email user].
Definition build_article_status_email (user : CustomUser.t)
    (article : Article.t) :=
  mkEmail (article_status article) [CustomUser.email user].
Definition build_new_article_notification_email
    (subscriber_user : CustomUser.t) (article : Article.t) :=
  mkEmail (new_article_notification article)
          [CustomUser.email subscriber_user].
End EmailBuilder.

(** ** Roles ([news/models.py], [news/views.py], [news/admin.py]) *)

(** [JournalistSubscription.objects.filter(reader=user, is_active=True)
    .update(is_active=False)]. *)
Definition deactivate_journalist_subscriptions (db : Database)
    (user : CustomUser.t) : Database :=
  set_journalist_subscriptions db
    (update_where
       (fun s => (JournalistSubscription.reader_id s =? CustomUser.pk user)
                 && JournalistSubscription.is_active s)
       (fun s => JournalistSubscription.with_is_active s false)
       (journalist_subscriptions db)).

(** [PublisherSubscription.objects.filter(reader=user, is_active=True)
    .update(is_active=False)]. *)
Definition deactivate_publisher_subscriptions (db : Database)
    (user : CustomUser.t) : Database :=
  set_publisher_subscriptions db
    (update_where
       (fun s => (PublisherSubscription.reader_id s =? CustomUser.pk user)
                 && PublisherSubscription.is_active s)
       (fun s => PublisherSubscription.with_is_active s false)
       (publisher_subscriptions db)).

(** [CustomUser._deactivate_subscriptions]. *)
Definition _deactivate_subscriptions (db : Database) (self : CustomUser.t)
  : Database :=
  deactivate_publisher_subscriptions
    (deactivate_journalist_subscriptions db self) self.

(** [CustomUser.save] on the tables of the database.  An unsaved instance
    has key 0 ([self.pk] is falsy).  The group membership the method
    keeps in step with the role lives in the tables of the groups, which
    [CustomUser_save_groups] and [CustomUser_save_with_groups] add. *)
Definition CustomUser_save (db : Database) (self : CustomUser.t) : Database :=
  let old_user :=
    if CustomUser.pk self =? 0 then None
    else find_pk CustomUser.pk (CustomUser.pk self) (users db) in
  let is_role_changing :=
    match old_user with
    | Some old_user =>
        negb (Role.eqb (CustomUser.role old_user) (CustomUser.role self))
    | None => false
    end in
  let old_role_is_reader :=
    match old_user with
    | Some old_user => Role.eqb (CustomUser.role old_user) Role.reader
    | None => false
    end in
  (* super().save() *)
  let db :=
    set_users db
      (save_instance CustomUser.pk CustomUser.with_pk self (users db)) in
  if is_role_changing && old_role_is_reader
     && negb (Role.eqb (CustomUser.role self) Role.reader)
  then _deactivate_subscriptions db self
  else db.

(** What [register] writes to the database for a form that is valid,
    whatever the form holds: the new user is a reader.  The view itself,
    with its method, its form and the groups, is [register]. *)
Definition register_write (db : Database) (form_user : CustomUser.t)
  : Database :=
  let user := CustomUser.with_pk form_user 0 in
  let user := CustomUser.with_role user Role.reader in
  CustomUser_save db user.

(** [Editor.objects.get_or_create(user=user, publisher=publisher)].  The
    insert is refused when the user already has an editor profile (the
    one-to-one field). *)
Definition Editor_get_or_create (l : list Editor.t) (user_id publisher_id : Z)
  : list Editor.t + Exception :=
  match objects_get (fun e => (Editor.user_id e =? user_id)
                              && (Editor.publisher_id e =? publisher_id)) l with
  | Found _ => inl l
  | Multiple => inr MultipleObjectsReturned
  | DoesNotExist =>
      if existsb (fun e => Editor.user_id e =? user_id) l
      then inr IntegrityError
      else inl (l ++ [Editor.mk (next_pk Editor.pk l) user_id publisher_id])
  end.

(** [Journalist.objects.get_or_create(user=user, publisher=publisher)]. *)
Definition Journalist_get_or_create (l : list Journalist.t)
    (user_id publisher_id : Z) : list Journalist.t + Exception :=
  match objects_get (fun j => (Journalist.user_id j =? user_id)
                              && (Journalist.publisher_id j =? publisher_id))
                    l with
  | Found _ => inl l
  | Multiple => inr MultipleObjectsReturned
  | DoesNotExist =>
      if existsb (fun j => Journalist.user_id j =? user_id) l
      then inr IntegrityError
      else inl (l ++ [Journalist.mk (next_pk Journalist.pk l)
                                    user_id publisher_id])
  end.

(** [Publisher.objects.get_or_create(user=user, name=name)].  The insert
    is refused when the user already has a publisher profile or the name is
    taken ([unique=True]). *)
Definition Publisher_get_or_create (l : list Publisher.t) (user_id : Z)
    (name : string) : list Publisher.t + Exception :=
  match objects_get (fun p => (Publisher.user_id p =? user_id)
                              && String.eqb (Publisher.name p) name) l with
  | Found _ => inl l
  | Multiple => inr MultipleObjectsReturned
  | DoesNotExist =>
      if existsb (fun p => (Publisher.user_id p =? user_id)
                           || String.eqb (Publisher.name p) name) l
      then inr IntegrityError
      else inl (l ++ [Publisher.mk (next_pk Publisher.pk l) user_id name])
  end.

(** The block "create role-specific profiles", which
    [approve_role_application] and [RoleApplicationAdmin.save_model] both
    carry. *)
Definition create_role_profile (db : Database) (user : CustomUser.t)
    (applied_role : RoleApplication.role_choice)
    (publisher : option Publisher.t) : Database + Exception :=
  match applied_role, publisher with
  | RoleApplication.editor, Some publisher =>
      match Editor_get_or_create (editors db) (CustomUser.pk user)
                                 (Publisher.pk publisher) with
      | inl l => inl (set_editors db l)
      | inr e => inr e
      end
  | RoleApplication.journalist, Some publisher =>
      match Journalist_get_or_create (journalists db) (CustomUser.pk user)
                                     (Publisher.pk publisher) with
      | inl l => inl (set_journalists db l)
      | inr e => inr e
      end
  | RoleApplication.publisher, _ =>
      match Publisher_get_or_create (publishers db) (CustomUser.pk user)
              (CustomUser.username user ++ " Publishing")%string with
      | inl l => inl (set_publishers db l)
      | inr e => inr e
      end
  | _, None => inl db
  end.

Inductive Method := GET | POST.

(** [approve_role_application].  [POST_publisher] is
    [request.POST.get("publisher")]: [None] when absent or empty, [Some k]
    when it spells the key [k].  Every statement commits as it runs, so
    what was written before an exception stays written. *)
Definition approve_role_application (db : Database) (pk : Z)
    (method : Method) (POST_publisher : option Z)
  : Database * HttpResponse * list EmailMessage :=
  match find_pk RoleApplication.pk pk (role_applications db) with
  | None => (db, Http404, [])
  | Some application =>
      match method with
      | GET => (db, redirect, [])
      | POST =>
          let publisher :=
            match POST_publisher with
            | Some publisher_id =>
                match find_pk Publisher.pk publisher_id (publishers db) with
                | Some p => inl (Some p)
                | None => inr Http404
                end
            | None => inl None
            end in
          match publisher with
          | inr response => (db, response, [])
          | inl publisher =>
              let application :=
                RoleApplication.with_status application approved in
              let db :=
                set_role_applications db
                  (save_row RoleApplication.pk application
                            (role_applications db)) in
              match find_pk CustomUser.pk (RoleApplication.user_id application)
                            (users db) with
              | None => (db, server_error RelatedObjectDoesNotExist, [])
              | Some user =>
                  let user :=
                    CustomUser.with_role user
                      (to_role (RoleApplication.applied_role application)) in
                  let db := CustomUser_save db user in
                  let db := deactivate_journalist_subscriptions db user in
                  let db := deactivate_publisher_subscriptions db user in
                  match create_role_profile db user
                          (RoleApplication.applied_role application)
                          publisher with
                  | inr e => (db, server_error e, [])
                  | inl db =>
                      (db,
                       redirect_with messages.success application_approved,
                       [EmailBuilder.build_role_approved_email user
                          (RoleApplication.applied_role application)])
                  end
              end
          end
      end
  end.

(** [reject_role_application]. *)
Definition reject_role_application (db : Database) (pk : Z)
  : Database * HttpResponse * list EmailMessage :=
  match find_pk RoleApplication.pk pk (role_applications db) with
  | None => (db, Http404, [])
  | Some application =>
      let application := RoleApplication.with_status application rejected in
      let db :=
        set_role_applications db
          (save_row RoleApplication.pk application (role_applications db)) in
      match find_pk CustomUser.pk (RoleApplication.user_id application)
                    (users db) with
      | None => (db, server_error RelatedObjectDoesNotExist, [])
      | Some user =>
          (db, redirect_with messages.info application_rejected,
           [EmailBuilder.build_role_rejected_email user
              (RoleApplication.applied_role application)])
      end
  end.

(** [RoleApplicationAdmin.save_model].  [obj] is the application as the
    admin form leaves it and [form_publisher] is
    [form.cleaned_data.get("publisher")], a row of the publisher table or
    [None]. *)
Definition RoleApplicationAdmin_save_model (db : Database)
    (obj : RoleApplication.t) (form_publisher : option Publisher.t)
  : Database * option Exception * list EmailMessage :=
  (* super().save_model(request, obj, form, change) *)
  let db :=
    set_role_applications db
      (save_instance RoleApplication.pk
         (fun a k => RoleApplication.mk k (RoleApplication.user_id a)
                       (RoleApplication.applied_role a)
                       (RoleApplication.motivation a)
                       (RoleApplication.status a))
         obj (role_applications db)) in
  match find_pk CustomUser.pk (RoleApplication.user_id obj) (users db) with
  | None => (db, Some RelatedObjectDoesNotExist, [])
  | Some user =>
      match RoleApplication.status obj with
      | approved =>
          let user :=
            CustomUser.with_role user
              (to_role (RoleApplication.applied_role obj)) in
          let db := CustomUser_save db user in
          let db := deactivate_journalist_subscriptions db user in
          let db := deactivate_publisher_subscriptions db user in
          match create_role_profile db user (RoleApplication.applied_role obj)
                                    form_publisher with
          | inr e => (db, Some e, [])
          | inl db =>
              (db, None,
               [EmailBuilder.build_role_approved_email user
                  (RoleApplication.applied_role obj)])
          end
      | rejected =>
          (db, None,
           [EmailBuilder.build_role_rejected_email user
              (RoleApplication.applied_role obj)])
      | pending => (db, None, [])
      end
  end.

(** ** Article review and its notifications
       ([news/views.py], [news/utils.py]) *)

(** [user.editor_profile] and [user.journalist_profile], the reverse side
    of the one-to-one fields. *)
Definition editor_profile (db : Database) (user : CustomUser.t)
  : option Editor.t :=
  find (fun e => Editor.user_id e =? CustomUser.pk user) (editors db).

Definition journalist_profile (db : Database) (user : CustomUser.t)
  : option Journalist.t :=
  find (fun j => Journalist.user_id j =? CustomUser.pk user) (journalists db).

(** [send_article_approval_notification]: the status email to the owning
    journalist; an exception on the way is caught and nothing is sent. *)
Definition send_article_approval_notification (db : Database)
    (article : Article.t) : list EmailMessage :=
  match find_pk Journalist.pk (Article.journalist_id article)
                (journalists db) with
  | None => []
  | Some journalist =>
      match find_pk CustomUser.pk (Journalist.user_id journalist)
                    (users db) with
      | None => []
      | Some journalist_user =>
          [EmailBuilder.build_article_status_email journalist_user article]
      end
  end.

(** The loop of [send_article_subscriber_notifications] over
    [all_subscribers], with the set [subscriber_emails] of addresses
    already served. *)
Fixpoint notify_subscribers (article : Article.t)
    (all_subscribers : list CustomUser.t) (subscriber_emails : list string)
  : list EmailMessage :=
  match all_subscribers with
  | [] => []
  | subscriber_user :: rest =>
      if existsb (String.eqb (CustomUser.email subscriber_user))
                 subscriber_emails
      then notify_subscribers article rest subscriber_emails
      else
        EmailBuilder.build_new_article_notification_email
          subscriber_user article
        :: notify_subscribers article rest
             (CustomUser.email subscriber_user :: subscriber_emails)
  end.

(** [subscription.reader] for every subscription of a queryset built with
    [select_related("reader")]. *)
Definition readers_of (db : Database) (reader_ids : list Z)
  : list CustomUser.t :=
  flat_map (fun k => match find_pk CustomUser.pk k (users db) with
                     | Some u => [u]
                     | None => []
                     end)
           reader_ids.

(** [send_article_subscriber_notifications]. *)
Definition send_article_subscriber_notifications (db : Database)
    (article : Article.t) : list EmailMessage :=
  if negb (Status_eqb (Article.status article) approved) then []
  else
    let journalist_subscribers :=
      filter (fun s => (JournalistSubscription.journalist_id s
                        =? Article.journalist_id article)
                       && JournalistSubscription.is_active s)
             (journalist_subscriptions db) in
    let publisher_subscribers :=
      filter (fun s => (PublisherSubscription.publisher_id s
                        =? Article.publisher_id article)
                       && PublisherSubscription.is_active s)
             (publisher_subscriptions db) in
    let all_subscribers :=
      readers_of db (map JournalistSubscription.reader_id
                         journalist_subscribers)
      ++ readers_of db (map PublisherSubscription.reader_id
                            publisher_subscribers) in
    notify_subscribers article all_subscribers [].

(** [approve_article].  The post to the social network that follows the
    notifications is best effort and leaves the database and the mail
    alone. *)
Definition approve_article (db : Database) (user : CustomUser.t) (pk : Z)
  : Database * HttpResponse * list EmailMessage :=
  match find_pk Article.pk pk (articles db) with
  | None => (db, Http404, [])
  | Some article =>
      if Role.eqb (CustomUser.role user) Role.editor then
        match editor_profile db user with
        | None => (db, server_error RelatedObjectDoesNotExist, [])
        | Some editor =>
            if Article.publisher_id article =? Editor.publisher_id editor then
              let article := Article.with_status article approved in
              let db :=
                set_articles db (save_row Article.pk article (articles db)) in
              (db, redirect_with messages.success article_approved,
               send_article_approval_notification db article
               ++ send_article_subscriber_notifications db article)
            else
              (db, redirect_with messages.error cannot_approve_article, [])
        end
      else (db, redirect_with messages.error cannot_approve_article, [])
  end.

(** [reject_article]. *)
Definition reject_article (db : Database) (user : CustomUser.t) (pk : Z)
  : Database * HttpResponse * list EmailMessage :=
  match find_pk Article.pk pk (articles db) with
  | None => (db, Http404, [])
  | Some article =>
      if Role.eqb (CustomUser.role user) Role.editor then
        match editor_profile db user with
        | None => (db, server_error RelatedObjectDoesNotExist, [])
        | Some editor =>
            if Article.publisher_id article =? Editor.publisher_id editor then
              let article := Article.with_status article rejected in
              let db :=
                set_articles db (save_row Article.pk article (articles db)) in
              (db, redirect_with messages.info article_rejected,
               send_article_approval_notification db article)
            else
              (db, redirect_with messages.error cannot_reject_article, [])
        end
      else (db, redirect_with messages.error cannot_reject_article, [])
  end.

(** [ArticleAdmin.approve_articles] and [ArticleAdmin.reject_articles],
    the staff actions on the articles selected in the admin list:
    [queryset.update(status=...)]. *)
Definition ArticleAdmin_approve_articles (db : Database) (queryset : list Z)
  : Database :=
  set_articles db
    (update_where (fun a => mem (Article.pk a) queryset)
                  (fun a => Article.with_status a approved) (articles db)).

Definition ArticleAdmin_reject_articles (db : Database) (queryset : list Z)
  : Database :=
  set_articles db
    (update_where (fun a => mem (Article.pk a) queryset)
                  (fun a => Article.with_status a rejected) (articles db)).

(** ** Creating articles
       ([news/api/views.py], [news/api/serializers.py],
        [news/api/permissions.py], [news/views.py]) *)

(** [str.isspace] on one character, a code point below 256: tab to
    carriage return (9 to 13), the four separators (28 to 31), the space
    (32), the next-line control (133, U+0085) and the no-break space
    (160, U+00A0).  These are the characters [str.strip()] removes. *)
Definition isspace (c : ascii) : bool :=
  let n := nat_of_ascii c in
  ((9 <=? n) && (n <=? 13) || (28 <=? n) && (n <=? 32)
   || (n =? 133) || (n =? 160))%nat.

(** [str.lstrip()], [str.rstrip()] and [str.strip()]. *)
Fixpoint lstrip (s : string) : string :=
  match s with
  | EmptyString => EmptyString
  | String c s' => if isspace c then lstrip s' else s
  end.

Fixpoint rstrip (s : string) : string :=
  match s with
  | EmptyString => EmptyString
  | String c s' =>
      match rstrip s' with
      | EmptyString => if isspace c then EmptyString else String c EmptyString
      | r => String c r
      end
  end.

Definition strip (s : string) : string := rstrip (lstrip s).

(** [not value], the emptiness test on a string. *)
Definition is_empty (s : string) : bool :=
  match s with EmptyString => true | _ => false end.

(** A string with a null character in it, which the character fields of
    the framework refuse. *)
Fixpoint has_null (s : string) : bool :=
  match s with
  | EmptyString => false
  | String c s' => (nat_of_ascii c =? 0)%nat || has_null s'
  end.

(** The outcome of a validator: the cleaned value or a
    [serializers.ValidationError]. *)
Inductive Validation :=
| Valid (value : string)
| ValidationError (message : string).

(** [ArticleCreateSerializer.validate_title]. *)
Definition validate_title (value : string) : Validation :=
  if is_empty value || is_empty (strip value) then
    ValidationError "Title cannot be empty."
  else if (255 <? String.length (strip value))%nat then
    ValidationError "Title cannot exceed 255 characters."
  else Valid (strip value).

(** [ArticleCreateSerializer.validate_content]. *)
Definition validate_content (value : string) : Validation :=
  if is_empty value || is_empty (strip value) then
    ValidationError "Content cannot be empty."
  else Valid (strip value).

(** The serializer field generated for a model [CharField] or [TextField]:
    required, not blank, whitespace trimmed, then free of null characters
    and within the length bound of the column when it has one. *)
Definition CharField_run_validation (max_length : option nat)
    (data : option string) : Validation :=
  match data with
  | None => ValidationError "This field is required."
  | Some data =>
      let value := strip data in
      if is_empty value then ValidationError "This field may not be blank."
      else if has_null value then
        ValidationError "Null characters are not allowed."
      else
        match max_length with
        | Some n =>
            if (n <? String.length value)%nat then
              ValidationError
                "Ensure this field has no more than 255 characters."
            else Valid value
        | None => Valid value
        end
  end.

(** The body of a POST: the fields the client may send. *)
Record ArticleData := mkData {
  data_title : option string;
  data_content : option string;
  data_status : option string
}.

(** [Meta.fields = ["title", "content"]]: each declared field is run
    through its field validation and then its [validate_<field>] method;
    anything else in the body is dropped. *)
Definition run_field (name : string) (max_length : option nat)
    (validate : string -> Validation) (data : option string)
  : string + list (string * string) :=
  match CharField_run_validation max_length data with
  | ValidationError m => inr [(name, m)]
  | Valid value =>
      match validate value with
      | ValidationError m => inr [(name, m)]
      | Valid value => inl value
      end
  end.

(** [serializer.is_valid()]: the validated title and content, or the
    errors by field. *)
Definition ArticleCreateSerializer_is_valid (data : ArticleData)
  : (string * string) + list (string * string) :=
  match run_field "title" (Some 255%nat) validate_title (data_title data),
        run_field "content" None validate_content (data_content data) with
  | inl title, inl content => inl (title, content)
  | inr e, inl _ => inr e
  | inl _, inr e => inr e
  | inr e1, inr e2 => inr (e1 ++ e2)
  end.

(** [IsJournalistOrPublisher.has_permission] for an authenticated user. *)
Definition IsJournalistOrPublisher_has_permission (user : CustomUser.t)
  : bool :=
  Role.eqb (CustomUser.role user) Role.journalist
  || Role.eqb (CustomUser.role user) Role.publisher
  || Role.eqb (CustomUser.role user) Role.editor.

(** [ArticleViewSet.create]; [now] is the clock read by [auto_now_add]. *)
Definition ArticleViewSet_create (db : Database) (user : CustomUser.t)
    (data : ArticleData) (now : Z) : Database * Response Article.t :=
  match journalist_profile db user with
  | None =>
      (db, HTTP_403_FORBIDDEN
             [("error", "Only journalists can create articles")]%string)
  | Some journalist =>
      match ArticleCreateSerializer_is_valid data with
      | inr errors => (db, HTTP_400_BAD_REQUEST errors)
      | inl (title, content) =>
          let publisher_id := Journalist.publisher_id journalist in
          let article :=
            Article.mk (next_pk Article.pk (articles db)) title content
                       (Journalist.pk journalist) publisher_id pending now in
          (set_articles db (articles db ++ [article]),
           HTTP_201_CREATED article)
      end
  end.

(** [POST /articles/]: the permission of [ArticleViewSet.get_permissions]
    for the create action, then [ArticleViewSet.create]. *)
Definition POST_articles (db : Database) (user : CustomUser.t)
    (data : ArticleData) (now : Z) : Database * Response Article.t :=
  if IsJournalistOrPublisher_has_permission user then
    ArticleViewSet_create db user data now
  else
    (db, HTTP_403_FORBIDDEN
           [("detail",
             "You do not have permission to perform this action.")]%string).

(** The form field of a [ModelForm] for a model [CharField] or
    [TextField]: trimmed, required, free of null characters, bounded by
    the column. *)
Definition ModelForm_clean_field (max_length : option nat) (data : string)
  : option string :=
  let value := strip data in
  if is_empty value then None
  else if has_null value then None
  else
    match max_length with
    | Some n => if (n <? String.length value)%nat then None else Some value
    | None => Some value
    end.

(** [submit_article]; [form] is [None] on a GET and the posted title and
    content on a POST. *)
Definition submit_article (db : Database) (user : CustomUser.t)
    (form : option (string * string)) (now : Z) : Database * HttpResponse :=
  if negb (Role.eqb (CustomUser.role user) Role.journalist) then
    (db, redirect_with messages.warning only_journalists_can_submit)
  else
    match form with
    | None => (db, render)
    | Some (title, content) =>
        match ModelForm_clean_field (Some 255%nat) title,
              ModelForm_clean_field None content with
        | Some title, Some content =>
            match journalist_profile db user with
            | None => (db, server_error RelatedObjectDoesNotExist)
            | Some journalist =>
                let article :=
                  Article.mk (next_pk Article.pk (articles db)) title content
                             (Journalist.pk journalist)
                             (Journalist.publisher_id journalist)
                             pending now in
                (set_articles db (articles db ++ [article]),
                 redirect_with messages.success article_submitted)
            end
        | _, _ => (db, render)
        end
    end.

(** ** Password-reset tokens ([news/utils.py], [news/views.py]) *)

(** [timedelta(minutes=m)], in microseconds, the resolution of the
    clock. *)
Definition timedelta_minutes (m : Z) : Z := m * 60 * 1000000.

(** [ResetPasswordForm]: the two posted fields. *)
Record ResetPasswordForm := mkResetForm {
  new_password : string;
  confirm_password : string
}.

Section ResetTokens.
(** [sha1(token.encode()).hexdigest()], [make_password] and the configured
    [validate_password] come from the standard library and the framework. *)
Variable sha1_hexdigest : string -> string.
Variable make_password : string -> string.
Variable validate_password : string -> bool.

(** [generate_reset_url]; [token] is the value drawn by
    [secrets.token_urlsafe(16)] and [now] the clock.  The insert is refused
    when the hash is already stored ([unique=True]). *)
Definition generate_reset_url (db : Database) (user : CustomUser.t)
    (token : string) (now : Z) : (Database * string) + Exception :=
  let reset_url := "http://127.0.0.1:8000/reset_password/"%string in
  let expiry_date := now + timedelta_minutes 5 in
  let hashed := sha1_hexdigest token in
  if existsb (fun r => String.eqb (ResetToken.token r) hashed)
             (reset_tokens db)
  then inr IntegrityError
  else
    let row :=
      ResetToken.mk (next_pk ResetToken.pk (reset_tokens db))
                    (CustomUser.pk user) hashed expiry_date false in
    inl (set_reset_tokens db (reset_tokens db ++ [row]),
         (reset_url ++ token ++ "/")%string).

(** [ResetPasswordForm.is_valid()]: both fields are required, trimmed and
    free of null characters, the new password passes the validators and
    the two agree; the cleaned new password is returned. *)
Definition ResetPasswordForm_is_valid (form : ResetPasswordForm)
  : option string :=
  let password := strip (new_password form) in
  let confirm := strip (confirm_password form) in
  if is_empty password || is_empty confirm then None
  else if has_null password || has_null confirm then None
  else if negb (validate_password password) then None
  else if negb (String.eqb password confirm) then None
  else Some password.

(** [reset_password] on the tables of the database; on a GET there is no
    form.  [reset_password_with_groups] is the view with the groups that
    the save of the account writes as well. *)
Definition reset_password (db : Database) (token : string)
    (POST : option ResetPasswordForm) (now : Z) : Database * HttpResponse :=
  let hashed_token := sha1_hexdigest token in
  match objects_get (fun r => String.eqb (ResetToken.token r) hashed_token
                              && negb (ResetToken.used r))
                    (reset_tokens db) with
  | DoesNotExist =>
      (db, redirect_with messages.error invalid_or_expired_reset_link)
  | Multiple => (db, server_error MultipleObjectsReturned)
  | Found reset_obj =>
      if ResetToken.expiry_date reset_obj <? now then
        (db, redirect_with messages.error reset_link_has_expired)
      else
        match POST with
        | None => (db, render)
        | Some form =>
            match ResetPasswordForm_is_valid form with
            | None => (db, render)
            | Some new_password =>
                match find_pk CustomUser.pk (ResetToken.user_id reset_obj)
                              (users db) with
                | None => (db, server_error RelatedObjectDoesNotExist)
                | Some user =>
                    let user :=
                      CustomUser.with_password user
                        (make_password new_password) in
                    let db := CustomUser_save db user in
                    let reset_obj := ResetToken.with_used reset_obj true in
                    let db :=
                      set_reset_tokens db
                        (save_row ResetToken.pk reset_obj (reset_tokens db)) in
                    (db, redirect_with messages.success
                           password_reset_successfully)
                end
            end
        end
  end.
End ResetTokens.

(** ** Vocabulary of the properties *)

(** Greatest key first. *)
Definition descending {A : Type} (key : A -> Z) (l : list A) : Prop :=
  StronglySorted (fun a b => key b <= key a) l.

(** The user holds an active subscription to the journalist. *)
Definition follows_journalist (db : Database) (user_id journalist_id : Z)
  : Prop :=
  exists s, In s (journalist_subscriptions db)
            /\ JournalistSubscription.reader_id s = user_id
            /\ JournalistSubscription.journalist_id s = journalist_id
            /\ JournalistSubscription.is_active s = true.

(** The user holds an active subscription to the publisher. *)
Definition follows_publisher (db : Database) (user_id publisher_id : Z)
  : Prop :=
  exists s, In s (publisher_subscriptions db)
            /\ PublisherSubscription.reader_id s = user_id
            /\ PublisherSubscription.publisher_id s = publisher_id
            /\ PublisherSubscription.is_active s = true.

(** Referential integrity of the article table on its journalist and on
    its publisher. *)
Definition article_journalists_exist (db : Database) : Prop :=
  forall a, In a (articles db) ->
    exists j, In j (journalists db)
              /\ Journalist.pk j = Article.journalist_id a.

Definition article_publishers_exist (db : Database) : Prop :=
  forall a, In a (articles db) ->
    exists p, In p (publishers db)
              /\ Publisher.pk p = Article.publisher_id a.

(** The rows of a subscription table for a pair of reader and target,
    and what the schema enforces on such a table: the primary key, and
    [unique_together] on the pair. *)
Section PairTable.
Context {A : Type}.
Variables (pk reader target : A -> Z).

Definition pair_rows (r t : Z) (l : list A) : list A :=
  filter (fun s => (reader s =? r) && (target s =? t)) l.

Definition pair_unique (l : list A) : Prop :=
  NoDup (map pk l) /\ forall r t, (List.length (pair_rows r t l) <= 1)%nat.
End PairTable.

Definition journalist_rows (db : Database) (reader_id journalist_id : Z)
  : list JournalistSubscription.t :=
  pair_rows JournalistSubscription.reader_id
            JournalistSubscription.journalist_id
            reader_id journalist_id (journalist_subscriptions db).

Definition publisher_rows (db : Database) (reader_id publisher_id : Z)
  : list PublisherSubscription.t :=
  pair_rows PublisherSubscription.reader_id
            PublisherSubscription.publisher_id
            reader_id publisher_id (publisher_subscriptions db).

Definition journalist_subscriptions_unique (db : Database) : Prop :=
  pair_unique JournalistSubscription.pk JournalistSubscription.reader_id
              JournalistSubscription.journalist_id
              (journalist_subscriptions db).

Definition publisher_subscriptions_unique (db : Database) : Prop :=
  pair_unique PublisherSubscription.pk PublisherSubscription.reader_id
              PublisherSubscription.publisher_id
              (publisher_subscriptions db).

(** What the schema and the views maintain on users and subscriptions:
    user keys are unique, every subscription belongs to a stored user, and
    a user who is not a reader holds no active subscription. *)
Definition subscribers_exist (db : Database) : Prop :=
  (forall s, In s (journalist_subscriptions db) ->
     exists u, In u (users db)
               /\ CustomUser.pk u = JournalistSubscription.reader_id s)
  /\ (forall s, In s (publisher_subscriptions db) ->
        exists u, In u (users db)
                  /\ CustomUser.pk u = PublisherSubscription.reader_id s).

Definition no_active_subscription (db : Database) (user_id : Z) : Prop :=
  (forall j, ~ follows_journalist db user_id j)
  /\ (forall p, ~ follows_publisher db user_id p).

Definition only_readers_subscribe (db : Database) : Prop :=
  forall u, In u (users db) -> CustomUser.role u <> Role.reader ->
    no_active_subscription db (CustomUser.pk u).

Definition subscription_invariant (db : Database) : Prop :=
  NoDup (map CustomUser.pk (users db))
  /\ subscribers_exist db
  /\ only_readers_subscribe db.

(** One request, or one direct [save] of a user, as a transition of the
    database.  The caller of a page view is a stored user.  The views that
    are not listed one by one ([apply_for_role], [forgot_password], the
    dashboards, the updates and deletions of articles, the newsletter
    views) write neither the user table nor a subscription table. *)
Inductive step (db : Database) : Database -> Prop :=
| step_register form_user :
    step db (register_write db form_user)
| step_CustomUser_save self :
    step db (CustomUser_save db self)
| step_subscribe_to_journalist user k :
    In user (users db) ->
    step db (fst (subscribe_to_journalist db user k))
| step_unsubscribe_from_journalist user k :
    In user (users db) ->
    step db (fst (unsubscribe_from_journalist db user k))
| step_subscribe_to_publisher user k :
    In user (users db) ->
    step db (fst (subscribe_to_publisher db user k))
| step_unsubscribe_from_publisher user k :
    In user (users db) ->
    step db (fst (unsubscribe_from_publisher db user k))
| step_approve_role_application pk method POST_publisher :
    step db (fst (fst (approve_role_application db pk method POST_publisher)))
| step_reject_role_application pk :
    step db (fst (fst (reject_role_application db pk)))
| step_RoleApplicationAdmin_save_model obj form_publisher :
    step db (fst (fst (RoleApplicationAdmin_save_model db obj form_publisher)))
| step_approve_article user pk :
    step db (fst (fst (approve_article db user pk)))
| step_reject_article user pk :
    step db (fst (fst (reject_article db user pk)))
| step_ArticleAdmin_approve_articles queryset :
    step db (ArticleAdmin_approve_articles db queryset)
| step_ArticleAdmin_reject_articles queryset :
    step db (ArticleAdmin_reject_articles db queryset)
| step_POST_articles user data now :
    step db (fst (POST_articles db user data now))
| step_submit_article user form now :
    step db (fst (submit_article db user form now))
| step_generate_reset_url sha1_hexdigest user token now db' url :
    generate_reset_url sha1_hexdigest db user token now = inl (db', url) ->
    step db db'
| step_reset_password sha1_hexdigest make_password validate_password
                      token POST now :
    step db (fst (reset_password sha1_hexdigest make_password
                    validate_password db token POST now))
| step_other db' :
    users db' = users db ->
    journalist_subscriptions db' = journalist_subscriptions db ->
    publisher_subscriptions db' = publisher_subscriptions db ->
    step db db'.

(** Any number of transitions. *)
Inductive steps (db : Database) : Database -> Prop :=
| steps_refl : steps db db
| steps_step db1 db2 : steps db db1 -> step db1 db2 -> steps db db2.

(** A subscription table with every row of one reader switched off and
    every other row as it was. *)
Definition journalist_rows_off (user_id : Z)
    (l : list JournalistSubscription.t) : list JournalistSubscription.t :=
  map (fun s => if JournalistSubscription.reader_id s =? user_id
                then JournalistSubscription.with_is_active s false
                else s) l.

Definition publisher_rows_off (user_id : Z)
    (l : list PublisherSubscription.t) : list PublisherSubscription.t :=
  map (fun s => if PublisherSubscription.reader_id s =? user_id
                then PublisherSubscription.with_is_active s false
                else s) l.

(** The filtered query by journalist as the spec has it, for any id
    parameter that is not missing: a reader without an active
    subscription to the journalist the parameter names gets a 403, and
    everybody else a 200 with exactly the approved articles of that
    journalist, none when the parameter names no journalist. *)
Definition filtered_queries_answer_any_id
    (get_prep_value : string -> option Z) : Prop :=
  forall db user text,
    text <> EmptyString ->
    let target := get_prep_value text in
    (CustomUser.role user = Role.reader ->
     (forall k, target = Some k ->
                ~ follows_journalist db (CustomUser.pk user) k) ->
     exists payload,
       GET_articles_by_journalist get_prep_value db user (Some text)
       = inl (HTTP_403_FORBIDDEN payload))
    /\ (CustomUser.role user <> Role.reader
        \/ (exists k, target = Some k
                      /\ follows_journalist db (CustomUser.pk user) k) ->
        exists result,
          GET_articles_by_journalist get_prep_value db user (Some text)
          = inl (HTTP_200_OK result)
          /\ forall a, In a result
                       <-> In a (articles db)
                           /\ Some (Article.journalist_id a) = target
                           /\ Article.status a = approved).

(** The one-to-one fields: a user has at most one profile of each kind. *)
Definition one_profile_per_user (db : Database) : Prop :=
  NoDup (map Editor.user_id (editors db))
  /\ NoDup (map Journalist.user_id (journalists db))
  /\ NoDup (map Publisher.user_id (publishers db)).

(** The guard of [approve_article] and [reject_article]: the caller is an
    editor whose publisher is the publisher of the article. *)
Definition may_review (db : Database) (user : CustomUser.t)
    (article : Article.t) : Prop :=
  CustomUser.role user = Role.editor
  /\ exists e, editor_profile db user = Some e
               /\ Editor.publisher_id e = Article.publisher_id article.

(** "Approved and rejected are terminal": an article that is no longer
    pending keeps its status through [approve_article] and
    [reject_article]. *)
Definition reviewed_status_is_final : Prop :=
  forall db user pk a,
    find_pk Article.pk pk (articles db) = Some a ->
    Article.status a <> pending ->
    (forall a',
        find_pk Article.pk pk
                (articles (fst (fst (approve_article db user pk)))) = Some a' ->
        Article.status a' = Article.status a)
    /\ (forall a',
          find_pk Article.pk pk
                  (articles (fst (fst (reject_article db user pk)))) = Some a' ->
          Article.status a' = Article.status a).

(** A subscriber of an article: the user behind an active subscription to
    the journalist or to the publisher of the article. *)
Definition article_subscriber (db : Database) (article : Article.t)
    (u : CustomUser.t) : Prop :=
  (exists s, In s (journalist_subscriptions db)
             /\ JournalistSubscription.journalist_id s
                = Article.journalist_id article
             /\ JournalistSubscription.is_active s = true
             /\ find_pk CustomUser.pk (JournalistSubscription.reader_id s)
                        (users db) = Some u)
  \/ (exists s, In s (publisher_subscriptions db)
                /\ PublisherSubscription.publisher_id s
                   = Article.publisher_id article
                /\ PublisherSubscription.is_active s = true
                /\ find_pk CustomUser.pk (PublisherSubscription.reader_id s)
                           (users db) = Some u).

(** The addresses a batch of mail goes to, one entry per message and
    address. *)
Definition recipients (out : list EmailMessage) : list string :=
  flat_map to out.

(** The characters that count as whitespace, by code point, and a text
    made of such characters only. *)
Definition whitespace (c : ascii) : Prop :=
  In (nat_of_ascii c) [9; 10; 11; 12; 13; 28; 29; 30; 31; 32; 133; 160]%nat.

Fixpoint all_whitespace (s : string) : Prop :=
  match s with
  | EmptyString => True
  | String c s' => whitespace c /\ all_whitespace s'
  end.

(** [v] is [s] trimmed: [s] without the whitespace at its two ends, so
    that [v] is empty or begins and ends with a character that is not
    whitespace. *)
Definition trimmed (s v : string) : Prop :=
  (exists l r, s = (l ++ v ++ r)%string
               /\ all_whitespace l /\ all_whitespace r)
  /\ (v = EmptyString
      \/ ((exists c v', v = String c v' /\ ~ whitespace c)
          /\ exists v' c, v = (v' ++ String c EmptyString)%string
                          /\ ~ whitespace c)).

(** A field that is missing or blank once trimmed, and a request body the
    serializer must refuse. *)
Definition blank (field : option string) : Prop :=
  match field with
  | None => True
  | Some s => strip s = EmptyString
  end.

Definition invalid_article (data : ArticleData) : Prop :=
  blank (data_title data) \/ blank (data_content data)
  \/ exists t, data_title data = Some t
               /\ (255 < String.length (strip t))%nat.

(** The answer of a reset that changed the password. *)
Definition reset_done : HttpResponse :=
  redirect_with messages.success password_reset_successfully.

(** The database seen from the reset-token table, for a fixed digest: a
    token is issued, a reset is attempted, or anything else happens that
    leaves the table alone. *)
Inductive token_step (sha1_hexdigest make_password : string -> string)
    (validate_password : string -> bool) (db : Database)
  : Database -> Prop :=
| token_step_issue user token now db' url :
    generate_reset_url sha1_hexdigest db user token now = inl (db', url) ->
    token_step sha1_hexdigest make_password validate_password db db'
| token_step_reset token POST now :
    token_step sha1_hexdigest make_password validate_password db
      (fst (reset_password sha1_hexdigest make_password validate_password
              db token POST now))
| token_step_other db' :
    reset_tokens db' = reset_tokens db ->
    token_step sha1_hexdigest make_password validate_password db db'.

Inductive token_steps (sha1_hexdigest make_password : string -> string)
    (validate_password : string -> bool) (db : Database)
  : Database -> Prop :=
| token_steps_refl :
    token_steps sha1_hexdigest make_password validate_password db db
| token_steps_step db1 db2 :
    token_steps sha1_hexdigest make_password validate_password db db1 ->
    token_step sha1_hexdigest make_password validate_password db1 db2 ->
    token_steps sha1_hexdigest make_password validate_password db db2.

(** A hash is spent in a token table: it is stored, and every row that
    stores it is used; keys are unique. *)
Definition token_spent (hashed : string) (l : list ResetToken.t) : Prop :=
  NoDup (map ResetToken.pk l)
  /\ (exists r, In r l /\ ResetToken.token r = hashed)
  /\ (forall r, In r l -> ResetToken.token r = hashed ->
                ResetToken.used r = true).

(** ** A small newsroom, used to run the model

    Reader alice follows journalist bob and his publisher Acme; carol
    edits for Acme, dave owns it, erin is a reader without subscriptions
    who has applied for the editor role. *)
Module Sample.
Definition alice := CustomUser.mk 1 "alice" "alice@example.com" "" Role.reader.
Definition bob := CustomUser.mk 2 "bob" "bob@example.com" "" Role.journalist.
Definition carol := CustomUser.mk 3 "carol" "carol@example.com" "" Role.editor.
Definition dave := CustomUser.mk 4 "dave" "dave@example.com" "" Role.publisher.
Definition erin := CustomUser.mk 5 "erin" "erin@example.com" "" Role.reader.

Definition acme := Publisher.mk 1 4 "Acme".

Definition first_article :=
  Article.mk 1 "First" "Text of the first article" 1 1 approved 10.
Definition pending_article :=
  Article.mk 2 "pending article" "Text still in review" 1 1 pending 20.
Definition third_article :=
  Article.mk 3 "Third" "Text of the third article" 1 1 approved 30.

Definition db : Database :=
  mkDB [alice; bob; carol; dave; erin]
       [acme]
       [Editor.mk 1 3 1]
       [Journalist.mk 1 2 1]
       [first_article; pending_article; third_article]
       [Newsletter.mk 1 "Weekly" "News of the week" 1 1 15]
       [JournalistSubscription.mk 1 1 1 true]
       [PublisherSubscription.mk 1 1 1 true]
       [RoleApplication.mk 1 5 RoleApplication.editor "I edit well" pending]
       [].
End Sample.

(** Stand-ins for the digest, the password hasher and the password
    validators, to run the token views: a digest of the right shape (the
    first 20 bytes in hexadecimal, padded with zeros), a tagging hasher
    and a length check. *)
Module SampleCrypto.
Definition hex_digit (n : nat) : ascii :=
  match n with
  | 0 => "0" | 1 => "1" | 2 => "2" | 3 => "3" | 4 => "4" | 5 => "5"
  | 6 => "6" | 7 => "7" | 8 => "8" | 9 => "9" | 10 => "a" | 11 => "b"
  | 12 => "c" | 13 => "d" | 14 => "e" | _ => "f"
  end%nat%char.
Fixpoint hex_prefix (n : nat) (s : string) : string :=
  match n with
  | O => EmptyString
  | S n' =>
      let byte := match s with
                  | EmptyString => O
                  | String c _ => nat_of_ascii c
                  end in
      let rest := match s with
                  | EmptyString => EmptyString
                  | String _ s' => s'
                  end in
      String (hex_digit (byte / 16))
             (String (hex_digit (byte mod 16)) (hex_prefix n' rest))
  end.
Definition digest (s : string) : string := hex_prefix 20 s.
Definition hasher (s : string) : string := ("hashed$" ++ s)%string.
Definition validators (s : string) : bool := (8 <=? String.length s)%nat.
Definition token : string := "kSx3_bW9QeV4mT1zYhU0aA"%string.
Definition form : ResetPasswordForm :=
  mkResetForm "correct horse" "correct horse".
End SampleCrypto.

(** The sample newsroom after alice asked for a reset link at time 1000. *)
Definition sample_issued : Database :=
  match generate_reset_url SampleCrypto.digest Sample.db Sample.alice
                           SampleCrypto.token 1000 with
  | inl (db', _) => db'
  | inr _ => Sample.db
  end.

(** A stand-in for the reading of a key from a text, to run the filtered
    queries on the samples: a text of decimal digits is read as the
    number it spells, any other text is refused. *)
Fixpoint digits_value (acc : Z) (s : string) : option Z :=
  match s with
  | EmptyString => Some acc
  | String c s' =>
      let n := nat_of_ascii c in
      if ((48 <=? n) && (n <=? 57))%nat
      then digits_value (10 * acc + Z.of_nat (n - 48)) s'
      else None
  end.

Definition sample_get_prep_value (s : string) : option Z :=
  match s with
  | EmptyString => None
  | _ => digits_value 0 s
  end.

(** ** The other page views ([news/views.py]) *)

Module Page.
(** What these views answer: a rendered template with its context, a
    redirect to a named route (with its [pk] argument when it has one) and
    the flash message queued for the next page, the 404 of
    [get_object_or_404], or an exception that escapes the view. *)
Inductive t (C : Type) :=
| render (template : string) (context : C)
| redirect (route : string) (pk : option Z)
           (message : option (messages.level * string))
| Http404
| server_error (e : Exception).
End Page.

Arguments Page.render {C} template context.
Arguments Page.redirect {C} route pk message.
Arguments Page.Http404 {C}.
Arguments Page.server_error {C} e.

(** [request.user.is_authenticated and cond]; an anonymous request has no
    user. *)
Definition authenticated_and (user : option CustomUser.t)
    (cond : CustomUser.t -> bool) : bool :=
  match user with
  | Some u => cond u
  | None => false
  end.

(** [JournalistSubscription.objects.filter(reader=user, journalist=j,
    is_active=True).exists()] and its publisher twin. *)
Definition is_subscribed_to_journalist (db : Database) (user : CustomUser.t)
    (journalist_id : Z) : bool :=
  existsb (fun s => (JournalistSubscription.reader_id s =? CustomUser.pk user)
                    && (JournalistSubscription.journalist_id s
                        =? journalist_id)
                    && JournalistSubscription.is_active s)
          (journalist_subscriptions db).

Definition is_subscribed_to_publisher (db : Database) (user : CustomUser.t)
    (publisher_id : Z) : bool :=
  existsb (fun s => (PublisherSubscription.reader_id s =? CustomUser.pk user)
                    && (PublisherSubscription.publisher_id s =? publisher_id)
                    && PublisherSubscription.is_active s)
          (publisher_subscriptions db).

(** *** Reading one article *)

Module ArticleDetail.
(** The template context of [article_detail]; the two flags are set for
    readers only. *)
Record t := mk {
  article : Article.t;
  is_subscribed_to_journalist : option bool;
  is_subscribed_to_publisher : option bool
}.
End ArticleDetail.

(** [article_detail]; the view is open to anonymous requests. *)
Definition article_detail (db : Database) (user : option CustomUser.t)
    (pk : Z) : Page.t ArticleDetail.t :=
  let article :=
    if authenticated_and user
         (fun u => Role.eqb (CustomUser.role u) Role.editor
                   || Role.eqb (CustomUser.role u) Role.journalist)
    then find_pk Article.pk pk (articles db)
    else find (fun a => (Article.pk a =? pk) && is_approved a) (articles db) in
  match article with
  | None => Page.Http404
  | Some article =>
      match user with
      | Some u =>
          if Role.eqb (CustomUser.role u) Role.reader then
            Page.render "news/article_detail.html"
              (ArticleDetail.mk article
                 (Some (is_subscribed_to_journalist db u
                          (Article.journalist_id article)))
                 (Some (is_subscribed_to_publisher db u
                          (Article.publisher_id article))))
          else
            Page.render "news/article_detail.html"
              (ArticleDetail.mk article None None)
      | None =>
          Page.render "news/article_detail.html"
            (ArticleDetail.mk article None None)
      end
  end.

(** *** Editing and deleting an article *)

(** [ArticleForm(request.POST, instance=article).save()]: the two fields
    of the form are written on the instance, the rest of the row stays. *)
Definition ArticleForm_save (article : Article.t) (title content : string)
  : Article.t :=
  Article.mk (Article.pk article) title content
             (Article.journalist_id article) (Article.publisher_id article)
             (Article.status article) (Article.created_at article).

(** [Model.delete()]: the row with the key of the instance goes. *)
Definition delete_row {A : Type} (pk : A -> Z) (x : A) (l : list A) : list A :=
  filter (fun r => negb (pk r =? pk x)) l.

(** [update_article]; [form] is [None] on a GET and the posted title and
    content on a POST.  The context of the form page is the form itself
    and is left out. *)
Definition update_article (db : Database) (user : CustomUser.t) (pk : Z)
    (form : option (string * string)) : Database * Page.t unit :=
  match find_pk Article.pk pk (articles db) with
  | None => (db, Page.Http404)
  | Some article =>
      let edit :=
        match form with
        | Some (title, content) =>
            match ModelForm_clean_field (Some 255%nat) title,
                  ModelForm_clean_field None content with
            | Some title, Some content =>
                let updated_article :=
                  ArticleForm_save article title content in
                (set_articles db
                   (save_row Article.pk updated_article (articles db)),
                 Page.redirect "news:article_detail" (Some pk)
                   (Some (messages.success,
                          "Article '" ++ Article.title updated_article
                          ++ "' updated successfully!")))
            | _, _ => (db, Page.render "news/update_article.html" tt)
            end
        | None => (db, Page.render "news/update_article.html" tt)
        end%string in
      if Role.eqb (CustomUser.role user) Role.editor then
        match editor_profile db user with
        | None => (db, Page.server_error RelatedObjectDoesNotExist)
        | Some editor =>
            if negb (Article.publisher_id article
                     =? Editor.publisher_id editor)
            then
              (db, Page.redirect "news:article_detail" (Some pk)
                     (Some (messages.error,
                            "You can only edit articles from your publisher."
                           )))%string
            else edit
        end
      else if Role.eqb (CustomUser.role user) Role.journalist then
        match journalist_profile db user with
        | None => (db, Page.server_error RelatedObjectDoesNotExist)
        | Some journalist =>
            if negb (Article.journalist_id article =? Journalist.pk journalist)
            then
              (db, Page.redirect "news:article_detail" (Some pk)
                     (Some (messages.error,
                            "You can only edit your own articles.")))%string
            else edit
        end
      else
        (db, Page.redirect "news:article_detail" (Some pk)
               (Some (messages.error,
                      "You don't have permission to edit articles.")))%string
  end.

(** [delete_article]. *)
Definition delete_article (db : Database) (user : CustomUser.t) (pk : Z)
    (method : Method) : Database * Page.t Article.t :=
  match find_pk Article.pk pk (articles db) with
  | None => (db, Page.Http404)
  | Some article =>
      let delete :=
        match method with
        | POST =>
            let article_title := Article.title article in
            (set_articles db (delete_row Article.pk article (articles db)),
             Page.redirect "news:article_list" None
               (Some (messages.success,
                      "Article '" ++ article_title
                      ++ "' deleted successfully!")))
        | GET => (db, Page.render "news/delete_article.html" article)
        end%string in
      if Role.eqb (CustomUser.role user) Role.editor then
        match editor_profile db user with
        | None => (db, Page.server_error RelatedObjectDoesNotExist)
        | Some editor =>
            if negb (Article.publisher_id article
                     =? Editor.publisher_id editor)
            then
              (db, Page.redirect "news:article_detail" (Some pk)
                     (Some (messages.error,
                            "You can only delete articles from your publisher."
                           )))%string
            else delete
        end
      else if Role.eqb (CustomUser.role user) Role.journalist then
        match journalist_profile db user with
        | None => (db, Page.server_error RelatedObjectDoesNotExist)
        | Some journalist =>
            if negb (Article.journalist_id article =? Journalist.pk journalist)
            then
              (db, Page.redirect "news:article_detail" (Some pk)
                     (Some (messages.error,
                            "You can only delete your own articles.")))%string
            else delete
        end
      else
        (db, Page.redirect "news:article_detail" (Some pk)
               (Some (messages.error,
                      "You don't have permission to delete articles.")))%string
  end.

(** *** Dashboards *)

Section OrderBy.
Context {A : Type}.

(** [order_by] on several columns: a stable insertion sort for the order
    [le] the columns spell. *)
Fixpoint insert_by (le : A -> A -> bool) (x : A) (l : list A) : list A :=
  match l with
  | [] => [x]
  | y :: l' => if le x y then x :: y :: l' else y :: insert_by le x l'
  end.

Definition order_by (le : A -> A -> bool) (l : list A) : list A :=
  fold_right (insert_by le) [] l.
End OrderBy.

(** The place of a status in the order of the stored strings:
    ["approved"], ["pending"], ["rejected"]. *)
Definition status_rank (s : Status) : Z :=
  match s with
  | approved => 0
  | pending => 1
  | rejected => 2
  end.

(** [order_by("status", "-created_at")]: [a] comes no later than [b]. *)
Definition status_then_newest (a b : Article.t) : bool :=
  (status_rank (Article.status a) <? status_rank (Article.status b))
  || ((status_rank (Article.status a) =? status_rank (Article.status b))
      && (Article.created_at b <=? Article.created_at a)).

Definition has_status (s : Status) (a : Article.t) : bool :=
  Status_eqb (Article.status a) s.

Module EditorDashboard.
(** The template context of [editor_dashboard]. *)
Record t := mk {
  articles : list Article.t;
  pending_articles : list Article.t;
  approved_articles : list Article.t;
  rejected_articles : list Article.t;
  total_count : nat;
  pending_count : nat;
  approved_count : nat;
  rejected_count : nat;
  publisher_name : string
}.
End EditorDashboard.

(** [editor_dashboard]. *)
Definition editor_dashboard (db : Database) (user : CustomUser.t)
  : Page.t EditorDashboard.t :=
  if negb (Role.eqb (CustomUser.role user) Role.editor) then
    Page.redirect "news:article_list" None
      (Some (messages.warning, "You do not have access to this page."))%string
  else
    match editor_profile db user with
    | None => Page.server_error RelatedObjectDoesNotExist
    | Some editor =>
        let articles :=
          order_by status_then_newest
            (filter (fun a => Article.publisher_id a
                              =? Editor.publisher_id editor)
                    (articles db)) in
        let pending_articles := filter (has_status pending) articles in
        let approved_articles := filter (has_status approved) articles in
        let rejected_articles := filter (has_status rejected) articles in
        match find_pk Publisher.pk (Editor.publisher_id editor)
                      (publishers db) with
        | None => Page.server_error RelatedObjectDoesNotExist
        | Some publisher =>
            Page.render "news/editor_dashboard.html"
              (EditorDashboard.mk articles pending_articles approved_articles
                 rejected_articles
                 (List.length articles) (List.length pending_articles)
                 (List.length approved_articles)
                 (List.length rejected_articles)
                 (Publisher.name publisher))
        end
    end.

Module JournalistDashboard.
(** The template context of [journalist_dashboard]. *)
Record t := mk {
  articles : list Article.t;
  pending_articles : list Article.t;
  approved_articles : list Article.t;
  rejected_articles : list Article.t;
  total_count : nat;
  pending_count : nat;
  approved_count : nat;
  rejected_count : nat;
  newsletters : list Newsletter.t;
  newsletter_count : nat
}.
End JournalistDashboard.

(** [journalist_dashboard]. *)
Definition journalist_dashboard (db : Database) (user : CustomUser.t)
  : Page.t JournalistDashboard.t :=
  if negb (Role.eqb (CustomUser.role user) Role.journalist) then
    Page.redirect "news:article_list" None
      (Some (messages.warning, "You do not have access to this page."))%string
  else
    match journalist_profile db user with
    | None => Page.server_error RelatedObjectDoesNotExist
    | Some journalist =>
        let articles :=
          order_by status_then_newest
            (filter (fun a => Article.journalist_id a
                              =? Journalist.pk journalist)
                    (articles db)) in
        let newsletters :=
          order_by_desc Newsletter.created_at
            (filter (fun n => Newsletter.journalist_id n
                              =? Journalist.pk journalist)
                    (newsletters db)) in
        let pending_articles := filter (has_status pending) articles in
        let approved_articles := filter (has_status approved) articles in
        let rejected_articles := filter (has_status rejected) articles in
        Page.render "news/journalist_dashboard.html"
          (JournalistDashboard.mk articles pending_articles approved_articles
             rejected_articles
             (List.length articles) (List.length pending_articles)
             (List.length approved_articles) (List.length rejected_articles)
             newsletters (List.length newsletters))
    end.

(** *** The subscriptions page *)

Module MySubscriptions.
(** The template context of [my_subscriptions]. *)
Record t := mk {
  journalist_subscriptions : list JournalistSubscription.t;
  publisher_subscriptions : list PublisherSubscription.t;
  recent_articles : list Article.t;
  total_subscriptions : nat
}.
End MySubscriptions.

(** [my_subscriptions]. *)
Definition my_subscriptions (db : Database) (user : CustomUser.t)
  : Page.t MySubscriptions.t :=
  if negb (Role.eqb (CustomUser.role user) Role.reader) then
    Page.redirect "news:article_list" None
      (Some (messages.error, "Only readers can view subscriptions."))%string
  else
    let journalist_subscriptions :=
      filter (fun s => (JournalistSubscription.reader_id s
                        =? CustomUser.pk user)
                       && JournalistSubscription.is_active s)
             (journalist_subscriptions db) in
    let publisher_subscriptions :=
      filter (fun s => (PublisherSubscription.reader_id s
                        =? CustomUser.pk user)
                       && PublisherSubscription.is_active s)
             (publisher_subscriptions db) in
    let subscribed_journalist_ids :=
      map JournalistSubscription.journalist_id journalist_subscriptions in
    let subscribed_publisher_ids :=
      map PublisherSubscription.publisher_id publisher_subscriptions in
    let recent_articles :=
      firstn 10
        (order_by_desc Article.created_at
           (filter (fun a => mem (Article.journalist_id a)
                                 subscribed_journalist_ids
                             || mem (Article.publisher_id a)
                                    subscribed_publisher_ids)
                   (filter is_approved (articles db)))) in
    Page.render "news/my_subscriptions.html"
      (MySubscriptions.mk journalist_subscriptions publisher_subscriptions
         recent_articles
         (List.length journalist_subscriptions
          + List.length publisher_subscriptions)%nat).

(** *** Applying for a role *)

(** The choice field of [RoleApplicationForm]: one of the three stored
    values of [RoleApplication.ROLE_CHOICES]. *)
Definition RoleApplicationForm_clean_applied_role (data : string)
  : option RoleApplication.role_choice :=
  if String.eqb data "journalist" then Some RoleApplication.journalist
  else if String.eqb data "editor" then Some RoleApplication.editor
  else if String.eqb data "publisher" then Some RoleApplication.publisher
  else None.

Module ApplyForRole.
(** The template context of the application form. *)
Record t := mk {
  has_subscriptions : bool;
  total_subscriptions : nat;
  journalist_subscriptions_count : nat;
  publisher_subscriptions_count : nat
}.
End ApplyForRole.

(** [apply_for_role]; [form] is [None] on a GET and the posted
    [applied_role] and [motivation] on a POST.  The pages
    [application_pending.html] and [applied.html] have no context. *)
Definition apply_for_role (db : Database) (user : CustomUser.t)
    (form : option (string * string))
  : Database * Page.t (option ApplyForRole.t) :=
  if negb (Role.eqb (CustomUser.role user) Role.reader) then
    (db, Page.redirect "news:article_list" None
           (Some (messages.warning,
                  "Only readers can apply for new roles.")))%string
  else
    let existing_application :=
      find (fun a => (RoleApplication.user_id a =? CustomUser.pk user)
                     && Status_eqb (RoleApplication.status a) pending)
           (role_applications db) in
    match existing_application with
    | Some _ => (db, Page.render "news/application_pending.html" None)
    | None =>
        let journalist_subscriptions_count :=
          List.length
            (filter (fun s => (JournalistSubscription.reader_id s
                               =? CustomUser.pk user)
                              && JournalistSubscription.is_active s)
                    (journalist_subscriptions db)) in
        let publisher_subscriptions_count :=
          List.length
            (filter (fun s => (PublisherSubscription.reader_id s
                               =? CustomUser.pk user)
                              && PublisherSubscription.is_active s)
                    (publisher_subscriptions db)) in
        let total_subscriptions :=
          (journalist_subscriptions_count
           + publisher_subscriptions_count)%nat in
        let context :=
          ApplyForRole.mk (0 <? total_subscriptions)%nat total_subscriptions
            journalist_subscriptions_count publisher_subscriptions_count in
        match form with
        | Some (applied_role, motivation) =>
            match RoleApplicationForm_clean_applied_role applied_role,
                  ModelForm_clean_field None motivation with
            | Some applied_role, Some motivation =>
                let application :=
                  RoleApplication.mk
                    (next_pk RoleApplication.pk (role_applications db))
                    (CustomUser.pk user) applied_role motivation pending in
                (set_role_applications db
                   (role_applications db ++ [application]),
                 Page.render "news/applied.html" None)
            | _, _ =>
                (db, Page.render "news/apply_for_role.html" (Some context))
            end
        | None => (db, Page.render "news/apply_for_role.html" (Some context))
        end
    end.

(** ** Newsletters
       ([news/views.py], [news/utils.py], [news/emails.py],
        [news/api/views.py], [news/api/serializers.py]) *)

(** The two emails about a newsletter. *)
Inductive NewsletterEmailKind :=
| newsletter_created_confirmation (newsletter : Newsletter.t)
| new_newsletter_notification (newsletter : Newsletter.t).

Record NewsletterEmail := mkNewsletterEmail {
  newsletter_kind : NewsletterEmailKind;
  newsletter_to : list string
}.

(** [EmailBuilder.build_newsletter_created_confirmation_email] and
    [EmailBuilder.build_new_newsletter_notification_email]. *)
Definition build_newsletter_created_confirmation_email
    (journalist_user : CustomUser.t) (newsletter : Newsletter.t) :=
  mkNewsletterEmail (newsletter_created_confirmation newsletter)
                    [CustomUser.email journalist_user].

Definition build_new_newsletter_notification_email
    (subscriber_user : CustomUser.t) (newsletter : Newsletter.t) :=
  mkNewsletterEmail (new_newsletter_notification newsletter)
                    [CustomUser.email subscriber_user].

(** [send_newsletter_confirmation_email]: an exception on the way to the
    journalist's user is caught and nothing is sent. *)
Definition send_newsletter_confirmation_email (db : Database)
    (newsletter : Newsletter.t) : list NewsletterEmail :=
  match find_pk Journalist.pk (Newsletter.journalist_id newsletter)
                (journalists db) with
  | None => []
  | Some journalist =>
      match find_pk CustomUser.pk (Journalist.user_id journalist)
                    (users db) with
      | None => []
      | Some journalist_user =>
          [build_newsletter_created_confirmation_email journalist_user
             newsletter]
      end
  end.

(** The loop of [send_newsletter_notifications] over [all_subscribers],
    with the set [subscriber_emails] of addresses already served. *)
Fixpoint notify_newsletter_subscribers (newsletter : Newsletter.t)
    (all_subscribers : list CustomUser.t) (subscriber_emails : list string)
  : list NewsletterEmail :=
  match all_subscribers with
  | [] => []
  | subscriber_user :: rest =>
      if existsb (String.eqb (CustomUser.email subscriber_user))
                 subscriber_emails
      then notify_newsletter_subscribers newsletter rest subscriber_emails
      else
        build_new_newsletter_notification_email subscriber_user newsletter
        :: notify_newsletter_subscribers newsletter rest
             (CustomUser.email subscriber_user :: subscriber_emails)
  end.

(** [send_newsletter_notifications]. *)
Definition send_newsletter_notifications (db : Database)
    (newsletter : Newsletter.t) : list NewsletterEmail :=
  let journalist_subscribers :=
    filter (fun s => (JournalistSubscription.journalist_id s
                      =? Newsletter.journalist_id newsletter)
                     && JournalistSubscription.is_active s)
           (journalist_subscriptions db) in
  let publisher_subscribers :=
    filter (fun s => (PublisherSubscription.publisher_id s
                      =? Newsletter.publisher_id newsletter)
                     && PublisherSubscription.is_active s)
           (publisher_subscriptions db) in
  let all_subscribers :=
    readers_of db (map JournalistSubscription.reader_id
                       journalist_subscribers)
    ++ readers_of db (map PublisherSubscription.reader_id
                          publisher_subscribers) in
  notify_newsletter_subscribers newsletter all_subscribers [].

Definition set_newsletters (db : Database) l :=
  mkDB (users db) (publishers db) (editors db) (journalists db) (articles db)
       l (journalist_subscriptions db)
       (publisher_subscriptions db) (role_applications db) (reset_tokens db).

(** *** Reading one newsletter *)

Module NewsletterDetail.
(** The template context of [newsletter_detail]; the two subscription
    flags are set for readers only. *)
Record t := mk {
  newsletter : Newsletter.t;
  is_subscribed_to_journalist : option bool;
  is_subscribed_to_publisher : option bool;
  can_edit : bool
}.
End NewsletterDetail.

(** [newsletter_detail]; the view is open to anonymous requests. *)
Definition newsletter_detail (db : Database) (user : option CustomUser.t)
    (pk : Z) : Page.t NewsletterDetail.t :=
  match find_pk Newsletter.pk pk (newsletters db) with
  | None => Page.Http404
  | Some newsletter =>
      let flags :=
        if authenticated_and user
             (fun u => Role.eqb (CustomUser.role u) Role.reader)
        then
          match user with
          | Some u =>
              (Some (is_subscribed_to_journalist db u
                       (Newsletter.journalist_id newsletter)),
               Some (is_subscribed_to_publisher db u
                       (Newsletter.publisher_id newsletter)))
          | None => (None, None)
          end
        else (None, None) in
      let can_edit : bool + Exception :=
        match user with
        | None => inl false
        | Some u =>
            if Role.eqb (CustomUser.role u) Role.journalist then
              match journalist_profile db u with
              | None => inr RelatedObjectDoesNotExist
              | Some journalist =>
                  inl (Newsletter.journalist_id newsletter
                       =? Journalist.pk journalist)
              end
            else if Role.eqb (CustomUser.role u) Role.editor then
              match editor_profile db u with
              | None => inr RelatedObjectDoesNotExist
              | Some editor =>
                  inl (Newsletter.publisher_id newsletter
                       =? Editor.publisher_id editor)
              end
            else inl false
        end in
      match can_edit with
      | inr e => Page.server_error e
      | inl can_edit =>
          Page.render "news/newsletter_detail.html"
            (NewsletterDetail.mk newsletter (fst flags) (snd flags) can_edit)
      end
  end.

(** *** Writing, editing and deleting a newsletter *)

(** [create_newsletter]; [form] is [None] on a GET and the posted title
    and content on a POST, [now] is the clock read by [auto_now_add]. *)
Definition create_newsletter (db : Database) (user : CustomUser.t)
    (form : option (string * string)) (now : Z)
  : Database * Page.t unit * list NewsletterEmail :=
  if negb (Role.eqb (CustomUser.role user) Role.journalist) then
    (db,
     Page.redirect "news:newsletter_list" None
       (Some (messages.warning,
              "Only journalists can create newsletters."%string)),
     [])
  else
    match form with
    | None => (db, Page.render "news/create_newsletter.html" tt, [])
    | Some (title, content) =>
        match ModelForm_clean_field (Some 255%nat) title,
              ModelForm_clean_field None content with
        | Some title, Some content =>
            match journalist_profile db user with
            | None => (db, Page.server_error RelatedObjectDoesNotExist, [])
            | Some journalist =>
                let newsletter :=
                  Newsletter.mk (next_pk Newsletter.pk (newsletters db))
                                title content (Journalist.pk journalist)
                                (Journalist.publisher_id journalist) now in
                let db :=
                  set_newsletters db (newsletters db ++ [newsletter]) in
                (db,
                 Page.redirect "news:newsletter_detail"
                   (Some (Newsletter.pk newsletter))
                   (Some (messages.success,
                          ("Newsletter created successfully! "
                           ++ "Email notifications have been sent to your "
                           ++ "subscribers.")%string)),
                 send_newsletter_confirmation_email db newsletter
                 ++ send_newsletter_notifications db newsletter)
            end
        | _, _ => (db, Page.render "news/create_newsletter.html" tt, [])
        end
    end.

(** [NewsletterForm(request.POST, instance=newsletter).save()]. *)
Definition NewsletterForm_save (newsletter : Newsletter.t)
    (title content : string) : Newsletter.t :=
  Newsletter.mk (Newsletter.pk newsletter) title content
                (Newsletter.journalist_id newsletter)
                (Newsletter.publisher_id newsletter)
                (Newsletter.created_at newsletter).

(** [update_newsletter]. *)
Definition update_newsletter (db : Database) (user : CustomUser.t) (pk : Z)
    (form : option (string * string)) : Database * Page.t unit :=
  match find_pk Newsletter.pk pk (newsletters db) with
  | None => (db, Page.Http404)
  | Some newsletter =>
      let edit :=
        match form with
        | Some (title, content) =>
            match ModelForm_clean_field (Some 255%nat) title,
                  ModelForm_clean_field None content with
            | Some title, Some content =>
                let updated_newsletter :=
                  NewsletterForm_save newsletter title content in
                (set_newsletters db
                   (save_row Newsletter.pk updated_newsletter
                             (newsletters db)),
                 Page.redirect "news:newsletter_detail" (Some pk)
                   (Some (messages.success,
                          "Newsletter '"
                          ++ Newsletter.title updated_newsletter
                          ++ "' updated successfully!")))
            | _, _ => (db, Page.render "news/update_newsletter.html" tt)
            end
        | None => (db, Page.render "news/update_newsletter.html" tt)
        end%string in
      if Role.eqb (CustomUser.role user) Role.journalist then
        match journalist_profile db user with
        | None => (db, Page.server_error RelatedObjectDoesNotExist)
        | Some journalist =>
            if negb (Newsletter.journalist_id newsletter
                     =? Journalist.pk journalist)
            then
              (db, Page.redirect "news:newsletter_detail" (Some pk)
                     (Some (messages.error,
                            "You can only edit your own newsletters."
                           )))%string
            else edit
        end
      else if Role.eqb (CustomUser.role user) Role.editor then
        match editor_profile db user with
        | None => (db, Page.server_error RelatedObjectDoesNotExist)
        | Some editor =>
            if negb (Newsletter.publisher_id newsletter
                     =? Editor.publisher_id editor)
            then
              (db, Page.redirect "news:newsletter_detail" (Some pk)
                     (Some (messages.error,
                            "You can only edit newsletters from your publisher."
                           )))%string
            else edit
        end
      else
        (db, Page.redirect "news:newsletter_detail" (Some pk)
               (Some (messages.error,
                      "You don't have permission to edit newsletters."
                     )))%string
  end.

(** [delete_newsletter]. *)
Definition delete_newsletter (db : Database) (user : CustomUser.t) (pk : Z)
    (method : Method) : Database * Page.t Newsletter.t :=
  match find_pk Newsletter.pk pk (newsletters db) with
  | None => (db, Page.Http404)
  | Some newsletter =>
      let delete :=
        match method with
        | POST =>
            let newsletter_title := Newsletter.title newsletter in
            (set_newsletters db
               (delete_row Newsletter.pk newsletter (newsletters db)),
             Page.redirect "news:newsletter_list" None
               (Some (messages.success,
                      "Newsletter '" ++ newsletter_title
                      ++ "' deleted successfully!")))
        | GET => (db, Page.render "news/delete_newsletter.html" newsletter)
        end%string in
      if Role.eqb (CustomUser.role user) Role.journalist then
        match journalist_profile db user with
        | None => (db, Page.server_error RelatedObjectDoesNotExist)
        | Some journalist =>
            if negb (Newsletter.journalist_id newsletter
                     =? Journalist.pk journalist)
            then
              (db, Page.redirect "news:newsletter_detail" (Some pk)
                     (Some (messages.error,
                            "You can only delete your own newsletters."
                           )))%string
            else delete
        end
      else if Role.eqb (CustomUser.role user) Role.editor then
        match editor_profile db user with
        | None => (db, Page.server_error RelatedObjectDoesNotExist)
        | Some editor =>
            if negb (Newsletter.publisher_id newsletter
                     =? Editor.publisher_id editor)
            then
              (db, Page.redirect "news:newsletter_detail" (Some pk)
                     (Some (messages.error,
                            "You can only delete newsletters from your publisher."
                           )))%string
            else delete
        end
      else
        (db, Page.redirect "news:newsletter_detail" (Some pk)
               (Some (messages.error,
                      "You don't have permission to delete newsletters."
                     )))%string
  end.

(** *** Creating a newsletter through the API *)

(** [NewsletterCreateSerializer.validate_title]. *)
Definition NewsletterCreateSerializer_validate_title (value : string)
  : Validation :=
  if is_empty value || is_empty (strip value) then
    ValidationError "Title cannot be empty."
  else if (255 <? String.length (strip value))%nat then
    ValidationError "Title cannot exceed 255 characters."
  else Valid (strip value).

(** [NewsletterCreateSerializer.validate_content]. *)
Definition NewsletterCreateSerializer_validate_content (value : string)
  : Validation :=
  if is_empty value || is_empty (strip value) then
    ValidationError "Content cannot be empty."
  else Valid (strip value).

(** The body of a POST to the newsletter endpoint. *)
Record NewsletterData := mkNewsletterData {
  newsletter_data_title : option string;
  newsletter_data_content : option string
}.

(** [serializer.is_valid()] of [NewsletterCreateSerializer]. *)
Definition NewsletterCreateSerializer_is_valid (data : NewsletterData)
  : (string * string) + list (string * string) :=
  match run_field "title" (Some 255%nat)
                  NewsletterCreateSerializer_validate_title
                  (newsletter_data_title data),
        run_field "content" None
                  NewsletterCreateSerializer_validate_content
                  (newsletter_data_content data) with
  | inl title, inl content => inl (title, content)
  | inr e, inl _ => inr e
  | inl _, inr e => inr e
  | inr e1, inr e2 => inr (e1 ++ e2)
  end.

(** [NewsletterViewSet.create]. *)
Definition NewsletterViewSet_create (db : Database) (user : CustomUser.t)
    (data : NewsletterData) (now : Z) : Database * Response Newsletter.t :=
  match journalist_profile db user with
  | None =>
      (db, HTTP_403_FORBIDDEN
             [("error", "Only journalists can create newsletters")]%string)
  | Some journalist =>
      match NewsletterCreateSerializer_is_valid data with
      | inr errors => (db, HTTP_400_BAD_REQUEST errors)
      | inl (title, content) =>
          let publisher_id := Journalist.publisher_id journalist in
          let newsletter :=
            Newsletter.mk (next_pk Newsletter.pk (newsletters db))
                          title content (Journalist.pk journalist)
                          publisher_id now in
          (set_newsletters db (newsletters db ++ [newsletter]),
           HTTP_201_CREATED newsletter)
      end
  end.

(** [POST /newsletters/]: the permission of
    [NewsletterViewSet.get_permissions] for the create action, then
    [NewsletterViewSet.create]. *)
Definition POST_newsletters (db : Database) (user : CustomUser.t)
    (data : NewsletterData) (now : Z) : Database * Response Newsletter.t :=
  if IsJournalistOrPublisher_has_permission user then
    NewsletterViewSet_create db user data now
  else
    (db, HTTP_403_FORBIDDEN
           [("detail",
             "You do not have permission to perform this action.")]%string).

(** ** Asking for a reset link ([news/views.py], [news/emails.py]) *)

Module Mail.
(** [EmailMessage(subject, body, settings.DEFAULT_FROM_EMAIL, to)] with
    its text. *)
Record t := mk {
  subject : string;
  body : string;
  to : list string
}.
End Mail.

(** The line feed of the message bodies. *)
Definition LF : string := String (ascii_of_nat 10) EmptyString.

(** [EmailBuilder.build_pw_reset_email]. *)
Definition build_pw_reset_email (user : CustomUser.t) (reset_url : string)
  : Mail.t :=
  Mail.mk "Password Reset"
          ("Hi " ++ CustomUser.username user ++ "," ++ LF
           ++ "Here is a link to reset your password: " ++ reset_url)
          [CustomUser.email user].

Section ForgotPassword.
(** The digest of [generate_reset_url] and the cleaning of the one field
    of [ForgotPasswordForm], the [EmailField] of the framework: the
    cleaned address, or nothing for an input the field refuses. *)
Variable sha1_hexdigest : string -> string.
Variable EmailField_clean : string -> option string.

(** [forgot_password]; [POST] is [None] on a GET and the posted [email]
    on a POST, [token] is the value drawn by [secrets.token_urlsafe(16)]
    and [now] the clock.  The context of the form page is the message
    queued for it. *)
Definition forgot_password (db : Database) (POST : option string)
    (token : string) (now : Z)
  : Database * Page.t (option (messages.level * string)) * list Mail.t :=
  match POST with
  | None => (db, Page.render "news/forgot_password.html" None, [])
  | Some data =>
      match EmailField_clean data with
      | None => (db, Page.render "news/forgot_password.html" None, [])
      | Some email =>
          match objects_get (fun u => String.eqb (CustomUser.email u) email)
                            (users db) with
          | DoesNotExist =>
              (db,
               Page.render "news/forgot_password.html"
                 (Some (messages.error, "No user with this email exists.")),
               [])
          | Multiple => (db, Page.server_error MultipleObjectsReturned, [])
          | Found user =>
              match generate_reset_url sha1_hexdigest db user token now with
              | inr e => (db, Page.server_error e, [])
              | inl (db, reset_url) =>
                  (db,
                   Page.redirect "news:login" None
                     (Some (messages.success,
                            "Password reset link sent. Check your email.")),
                   [build_pw_reset_email user reset_url])
              end
          end
      end
  end%string.
End ForgotPassword.

(** ** Text sent out ([news/emails.py], [news/twitter_service.py]) *)

(** [s[:n]]. *)
Definition prefix_of (n : nat) (s : string) : string := substring 0 n s.

(** The preview of the content in
    [EmailBuilder.build_new_newsletter_notification_email]:
    [content[:200]] followed by ["..."] when the content is longer. *)
Definition content_preview (content : string) : string :=
  (prefix_of 200 content
   ++ (if (200 <? String.length content)%nat then "..." else ""))%string.

(** The body of [EmailBuilder.build_new_newsletter_notification_email];
    [author_name] is the full name of the journalist, or the user name
    when the full name is empty, and [publisher_name] is
    [newsletter.publisher.name]. *)
Definition new_newsletter_notification_body (subscriber_user : CustomUser.t)
    (author_name publisher_name : string) (newsletter : Newsletter.t)
  : string :=
  ("Hi " ++ CustomUser.username subscriber_user ++ "," ++ LF ++ LF
   ++ "A new newsletter has been published by " ++ author_name ++ "!"
   ++ LF ++ LF
   ++ "Title: " ++ Newsletter.title newsletter ++ LF
   ++ "Publisher: " ++ publisher_name ++ LF ++ LF
   ++ "Content Preview:" ++ LF
   ++ content_preview (Newsletter.content newsletter) ++ LF ++ LF
   ++ "Read the full newsletter at YourNews." ++ LF ++ LF
   ++ "Best regards," ++ LF ++ "The YourNews Team")%string.

(** The text [post_article_to_twitter] posts: the announcement, cut to
    275 characters and an ellipsis when it is over the limit of 280.
    [journalist_name] is the full name of the journalist, or the user
    name when the full name is empty. *)
Definition tweet_text (article : Article.t) (journalist_name : string)
  : string :=
  let tweet_text :=
    ("New article published: " ++ Article.title article ++ LF
     ++ "By: " ++ journalist_name)%string in
  if (280 <? String.length tweet_text)%nat then
    (prefix_of 275 tweet_text ++ "...")%string
  else tweet_text.

(** ** Groups and permissions ([news/signals.py], [news/models.py]) *)

Module Permission.
(** A row of the permission table: its content type and its code name. *)
Record t := mk { pk : Z; content_type_id : Z; codename : string }.
End Permission.

Module Group.
Record t := mk { pk : Z; name : string }.
End Group.

(** The tables behind the roles: the groups, the permissions, the
    permissions of each group as rows (group, permission) and the groups
    of each user as rows (user, group). *)
Record AuthDatabase := mkAuth {
  auth_group : list Group.t;
  auth_permission : list Permission.t;
  auth_group_permissions : list (Z * Z);
  customuser_groups : list (Z * Z)
}.

Definition set_auth_group (auth : AuthDatabase) l :=
  mkAuth l (auth_permission auth) (auth_group_permissions auth)
         (customuser_groups auth).

Definition set_auth_group_permissions (auth : AuthDatabase) l :=
  mkAuth (auth_group auth) (auth_permission auth) l (customuser_groups auth).

Definition set_customuser_groups (auth : AuthDatabase) l :=
  mkAuth (auth_group auth) (auth_permission auth)
         (auth_group_permissions auth) l.

(** [Group.objects.get_or_create(name=name)]; the name of a group is
    unique. *)
Definition Group_get_or_create (auth : AuthDatabase) (name : string)
  : AuthDatabase * Group.t :=
  match find (fun g => String.eqb (Group.name g) name) (auth_group auth) with
  | Some group => (auth, group)
  | None =>
      let group := Group.mk (next_pk Group.pk (auth_group auth)) name in
      (set_auth_group auth (auth_group auth ++ [group]), group)
  end.

(** [group.permissions.set(perms)]: the rows of the group become one row
    per permission of [perms]. *)
Definition Group_permissions_set (auth : AuthDatabase) (group : Group.t)
    (perms : list Permission.t) : AuthDatabase :=
  set_auth_group_permissions auth
    (filter (fun row => negb (fst row =? Group.pk group))
            (auth_group_permissions auth)
     ++ map (fun p => (Group.pk group, Permission.pk p)) perms).

(** [create_roles_and_permissions], the receiver of [post_migrate];
    [sender_name] is [sender.name], and [article_ct] and [newsletter_ct]
    are the content types of the two models. *)
Definition create_roles_and_permissions (sender_name : string)
    (article_ct newsletter_ct : Z) (auth : AuthDatabase) : AuthDatabase :=
  if negb (String.eqb sender_name "news") then auth
  else
    let '(auth, reader_group) := Group_get_or_create auth "Reader" in
    let '(auth, journalist_group) := Group_get_or_create auth "Journalist" in
    let '(auth, editor_group) := Group_get_or_create auth "Editor" in
    let '(auth, publisher_group) := Group_get_or_create auth "Publisher" in
    (* content_type__in=[article_ct, newsletter_ct] *)
    let on_content p :=
      (Permission.content_type_id p =? article_ct)
      || (Permission.content_type_id p =? newsletter_ct) in
    let reader_perms :=
      filter (fun p => on_content p
                       && String.prefix "view_" (Permission.codename p))
             (auth_permission auth) in
    let auth := Group_permissions_set auth reader_group reader_perms in
    let journalist_perms := filter on_content (auth_permission auth) in
    let auth :=
      Group_permissions_set auth journalist_group journalist_perms in
    let editor_perms :=
      filter (fun p => String.prefix "change_" (Permission.codename p)
                       || String.prefix "delete_" (Permission.codename p)
                       || String.prefix "view_" (Permission.codename p))
             (filter on_content (auth_permission auth)) in
    let auth := Group_permissions_set auth editor_group editor_perms in
    let publisher_perms :=
      filter (fun p => String.prefix "change_" (Permission.codename p)
                       || String.prefix "delete_" (Permission.codename p)
                       || String.prefix "view_" (Permission.codename p))
             (filter on_content (auth_permission auth)) in
    Group_permissions_set auth publisher_group publisher_perms.

(** The stored value of a role. *)
Definition Role_value (r : Role.t) : string :=
  match r with
  | Role.reader => "reader"
  | Role.journalist => "journalist"
  | Role.editor => "editor"
  | Role.publisher => "publisher"
  end.

(** [str.capitalize()] on the letters a to z: the first character in
    upper case, the others in lower case. *)
Definition upper (c : ascii) : ascii :=
  let n := nat_of_ascii c in
  if ((97 <=? n) && (n <=? 122))%nat then ascii_of_nat (n - 32) else c.

Definition lower (c : ascii) : ascii :=
  let n := nat_of_ascii c in
  if ((65 <=? n) && (n <=? 90))%nat then ascii_of_nat (n + 32) else c.

Fixpoint lower_all (s : string) : string :=
  match s with
  | EmptyString => EmptyString
  | String c s' => String (lower c) (lower_all s')
  end.

Definition capitalize (s : string) : string :=
  match s with
  | EmptyString => EmptyString
  | String c s' => String (upper c) (lower_all s')
  end.

(** The group part of [CustomUser.save], which runs after the row of
    [self] is written: the user is taken out of every group and put in
    the group named after the role. *)
Definition CustomUser_save_groups (auth : AuthDatabase) (self : CustomUser.t)
  : AuthDatabase :=
  let '(auth, group) :=
    Group_get_or_create auth
      (capitalize (Role_value (CustomUser.role self))) in
  (* self.groups.clear() *)
  let cleared :=
    filter (fun row => negb (fst row =? CustomUser.pk self))
           (customuser_groups auth) in
  (* self.groups.add(group) *)
  set_customuser_groups auth
    (cleared ++ [(CustomUser.pk self, Group.pk group)]).

(** ** Browsing and the publisher dashboard ([news/views.py]) *)

(** [models.Count(relation, distinct=True)] from the keys of the joined
    rows: the number of different keys. *)
Definition Count_distinct (ids : list Z) : nat :=
  List.length (nodup Z.eq_dec ids).

(** [user.publisher_profile], the reverse side of the one-to-one field. *)
Definition publisher_profile (db : Database) (user : CustomUser.t)
  : option Publisher.t :=
  find (fun p => Publisher.user_id p =? CustomUser.pk user) (publishers db).

Module BrowseJournalists.
(** A journalist with the annotation [article_count] and the attribute
    [subscriber_count] the view sets on it. *)
Record row := mk_row {
  journalist : Journalist.t;
  article_count : nat;
  subscriber_count : nat
}.
(** The template context of [browse_journalists];
    [user_subscribed_journalists] is a set, kept as the list of its
    members. *)
Record t := mk {
  journalists : list row;
  user_subscribed_journalists : list Z
}.
End BrowseJournalists.

(** [browse_journalists]. *)
Definition browse_journalists (db : Database) (user : CustomUser.t)
  : Page.t BrowseJournalists.t :=
  if negb (Role.eqb (CustomUser.role user) Role.reader) then
    Page.redirect "news:article_list" None
      (Some (messages.error, "Only readers can browse journalists."))%string
  else
    let journalists :=
      order_by_desc (fun r => Z.of_nat (snd r))
        (map (fun j =>
                (j, Count_distinct
                      (map Article.pk
                           (filter (fun a => (Article.journalist_id a
                                              =? Journalist.pk j)
                                             && is_approved a)
                                   (articles db)))))
             (journalists db)) in
    let journalists :=
      map (fun r =>
             BrowseJournalists.mk_row (fst r) (snd r)
               (List.length
                  (filter (fun s => (JournalistSubscription.journalist_id s
                                     =? Journalist.pk (fst r))
                                    && JournalistSubscription.is_active s)
                          (journalist_subscriptions db))))
          journalists in
    let user_subscribed_journalists := subscribed_journalist_ids db user in
    Page.render "news/browse_journalists.html"
      (BrowseJournalists.mk journalists user_subscribed_journalists).

Module BrowsePublishers.
Record row := mk_row {
  publisher : Publisher.t;
  article_count : nat;
  subscriber_count : nat
}.
(** The template context of [browse_publishers]. *)
Record t := mk {
  publishers : list row;
  user_subscribed_publishers : list Z
}.
End BrowsePublishers.

(** [browse_publishers]. *)
Definition browse_publishers (db : Database) (user : CustomUser.t)
  : Page.t BrowsePublishers.t :=
  if negb (Role.eqb (CustomUser.role user) Role.reader) then
    Page.redirect "news:article_list" None
      (Some (messages.error, "Only readers can browse publishers."))%string
  else
    let publishers :=
      order_by_desc (fun r => Z.of_nat (snd r))
        (map (fun p =>
                (p, Count_distinct
                      (map Article.pk
                           (filter (fun a => (Article.publisher_id a
                                              =? Publisher.pk p)
                                             && is_approved a)
                                   (articles db)))))
             (publishers db)) in
    let publishers :=
      map (fun r =>
             BrowsePublishers.mk_row (fst r) (snd r)
               (List.length
                  (filter (fun s => (PublisherSubscription.publisher_id s
                                     =? Publisher.pk (fst r))
                                    && PublisherSubscription.is_active s)
                          (publisher_subscriptions db))))
          publishers in
    let user_subscribed_publishers := subscribed_publisher_ids db user in
    Page.render "news/browse_publishers.html"
      (BrowsePublishers.mk publishers user_subscribed_publishers).

Module PublisherDashboard.
(** A journalist of the publisher with the five annotations and the
    attribute [subscriber_count]. *)
Record row := mk_row {
  journalist : Journalist.t;
  article_count : nat;
  newsletter_count : nat;
  pending_article_count : nat;
  approved_article_count : nat;
  rejected_article_count : nat;
  subscriber_count : nat
}.
(** The template context of [publisher_dashboard]. *)
Record t := mk {
  publisher : Publisher.t;
  editors : list Editor.t;
  journalists : list row;
  publisher_subscriber_count : nat;
  total_articles_count : nat;
  total_newsletters_count : nat;
  total_pending_articles : nat;
  total_approved_articles : nat;
  total_rejected_articles : nat;
  editors_count : nat;
  journalists_count : nat
}.
End PublisherDashboard.

(** [publisher_dashboard]. *)
Definition publisher_dashboard (db : Database) (user : CustomUser.t)
  : Page.t PublisherDashboard.t :=
  if negb (Role.eqb (CustomUser.role user) Role.publisher) then
    Page.redirect "news:article_list" None
      (Some (messages.warning, "You do not have access to this page."))%string
  else
    match publisher_profile db user with
    | None => Page.server_error RelatedObjectDoesNotExist
    | Some publisher =>
        let editors :=
          filter (fun e => Editor.publisher_id e =? Publisher.pk publisher)
                 (editors db) in
        let articles_of j :=
          filter (fun a => Article.journalist_id a =? Journalist.pk j)
                 (articles db) in
        let newsletters_of j :=
          filter (fun n => Newsletter.journalist_id n =? Journalist.pk j)
                 (newsletters db) in
        let journalists :=
          map (fun j =>
                 PublisherDashboard.mk_row j
                   (Count_distinct (map Article.pk (articles_of j)))
                   (Count_distinct (map Newsletter.pk (newsletters_of j)))
                   (Count_distinct
                      (map Article.pk
                           (filter (has_status pending) (articles_of j))))
                   (Count_distinct
                      (map Article.pk
                           (filter (has_status approved) (articles_of j))))
                   (Count_distinct
                      (map Article.pk
                           (filter (has_status rejected) (articles_of j))))
                   (List.length
                      (filter
                         (fun s => (JournalistSubscription.journalist_id s
                                    =? Journalist.pk j)
                                   && JournalistSubscription.is_active s)
                         (journalist_subscriptions db))))
              (filter (fun j => Journalist.publisher_id j
                                =? Publisher.pk publisher)
                      (journalists db)) in
        let publisher_subscriber_count :=
          List.length
            (filter (fun s => (PublisherSubscription.publisher_id s
                               =? Publisher.pk publisher)
                              && PublisherSubscription.is_active s)
                    (publisher_subscriptions db)) in
        let total_articles :=
          filter (fun a => Article.publisher_id a =? Publisher.pk publisher)
                 (articles db) in
        let total_newsletters :=
          filter (fun n => Newsletter.publisher_id n
                           =? Publisher.pk publisher)
                 (newsletters db) in
        let total_pending_articles :=
          List.length (filter (has_status pending) total_articles) in
        let total_approved_articles :=
          List.length (filter (has_status approved) total_articles) in
        let total_rejected_articles :=
          List.length (filter (has_status rejected) total_articles) in
        Page.render "news/publisher_dashboard.html"
          (PublisherDashboard.mk publisher editors journalists
             publisher_subscriber_count
             (List.length total_articles) (List.length total_newsletters)
             total_pending_articles total_approved_articles
             total_rejected_articles
             (List.length editors) (List.length journalists))
    end.

(** ** API tokens ([news/management/commands/create_api_tokens.py]) *)

Module Token.
(** A row of the token table of the API: the key, and the user it
    belongs to through a one-to-one field. *)
Record t := mk { key : string; user_id : Z }.
End Token.

(** What the command writes to its output. *)
Inductive Line :=
| token_created_for_user (username key : string)
    (* SUCCESS: Token created for user "username": key *)
| token_already_exists_for_user (username key : string)
    (* WARNING: Token already exists for user "username": key *)
| user_does_not_exist (username : string)
    (* ERROR: User "username" does not exist *)
| token_created_for (username key : string)
    (* Token created for username: key *)
| tokens_created (created_count existing_count : nat).
    (* SUCCESS: Tokens created: n, Already existed: m *)

Section CreateApiTokens.
(** The keys the token model draws: [generate_key n] is the key of the
    draw after [n] earlier ones. *)
Variable generate_key : nat -> string.

(** [Token.objects.get_or_create(user=user)] on the token table and the
    number of keys drawn so far; the key is the primary key of the table,
    so the insert of a key that is in the table fails. *)
Definition Token_get_or_create (st : list Token.t * nat) (user : CustomUser.t)
  : (list Token.t * nat) * Token.t * bool + Exception :=
  let '(tokens, drawn) := st in
  match find (fun t => Token.user_id t =? CustomUser.pk user) tokens with
  | Some token => inl (st, token, false)
  | None =>
      let token := Token.mk (generate_key drawn) (CustomUser.pk user) in
      if existsb (fun t => String.eqb (Token.key t) (Token.key token)) tokens
      then inr IntegrityError
      else inl ((tokens ++ [token], S drawn), token, true)
  end.

(** The loop over all users. *)
Fixpoint create_for_all (users : list CustomUser.t) (st : list Token.t * nat)
    (created_count existing_count : nat) (stdout : list Line)
  : (list Token.t * nat) * nat * nat * list Line + Exception :=
  match users with
  | [] => inl (st, created_count, existing_count, stdout)
  | user :: users =>
      match Token_get_or_create st user with
      | inr e => inr e
      | inl (st, token, created) =>
          if created then
            create_for_all users st (S created_count) existing_count
              (stdout ++ [token_created_for (CustomUser.username user)
                                            (Token.key token)])
          else create_for_all users st created_count (S existing_count) stdout
      end
  end.

(** [Command.handle]; [username] is the option of the command line, and
    the result is the token table with the number of draws, and the
    lines written. *)
Definition handle (db : Database) (st : list Token.t * nat)
    (username : option string)
  : (list Token.t * nat) * list Line + Exception :=
  match username with
  | Some (String _ _ as username) =>
      match objects_get (fun u => String.eqb (CustomUser.username u) username)
                        (users db) with
      | Found user =>
          match Token_get_or_create st user with
          | inr e => inr e
          | inl (st, token, created) =>
              if created then
                inl (st, [token_created_for_user username (Token.key token)])
              else
                inl (st,
                     [token_already_exists_for_user username
                                                    (Token.key token)])
          end
      | DoesNotExist => inl (st, [user_does_not_exist username])
      | Multiple => inr MultipleObjectsReturned
      end
  | _ =>
      match create_for_all (users db) st 0 0 [] with
      | inr e => inr e
      | inl (st, created_count, existing_count, stdout) =>
          inl (st, stdout ++ [tokens_created created_count existing_count])
      end
  end.
End CreateApiTokens.

(** ** Accounts, with the groups ([news/models.py], [news/views.py]) *)

(** [CustomUser.save] on the database and the groups together: the row
    and the subscriptions as in [CustomUser_save], and the groups as in
    [CustomUser_save_groups] for the instance with the key the insert
    gave it.  The two parts write different tables.  The result carries
    the instance as the method leaves it. *)
Definition CustomUser_save_with_groups (st : Database * AuthDatabase)
    (self : CustomUser.t) : (Database * AuthDatabase) * CustomUser.t :=
  let '(db, auth) := st in
  let saved :=
    if CustomUser.pk self =? 0
    then CustomUser.with_pk self (next_pk CustomUser.pk (users db))
    else self in
  ((CustomUser_save db self, CustomUser_save_groups auth saved), saved).

Section ResetWithGroups.
Variable sha1_hexdigest : string -> string.
Variable make_password : string -> string.
Variable validate_password : string -> bool.

(** [reset_password] on the database and the groups; on a GET there is
    no form. *)
Definition reset_password_with_groups (st : Database * AuthDatabase)
    (token : string) (POST : option ResetPasswordForm) (now : Z)
  : (Database * AuthDatabase) * HttpResponse :=
  let '(db, auth) := st in
  let hashed_token := sha1_hexdigest token in
  match objects_get (fun r => String.eqb (ResetToken.token r) hashed_token
                              && negb (ResetToken.used r))
                    (reset_tokens db) with
  | DoesNotExist =>
      (st, redirect_with messages.error invalid_or_expired_reset_link)
  | Multiple => (st, server_error MultipleObjectsReturned)
  | Found reset_obj =>
      if ResetToken.expiry_date reset_obj <? now then
        (st, redirect_with messages.error reset_link_has_expired)
      else
        match POST with
        | None => (st, render)
        | Some form =>
            match ResetPasswordForm_is_valid validate_password form with
            | None => (st, render)
            | Some new_password =>
                match find_pk CustomUser.pk (ResetToken.user_id reset_obj)
                              (users db) with
                | None => (st, server_error RelatedObjectDoesNotExist)
                | Some user =>
                    let user :=
                      CustomUser.with_password user
                        (make_password new_password) in
                    let '((db, auth), user) :=
                      CustomUser_save_with_groups (db, auth) user in
                    let reset_obj := ResetToken.with_used reset_obj true in
                    let db :=
                      set_reset_tokens db
                        (save_row ResetToken.pk reset_obj (reset_tokens db)) in
                    ((db, auth),
                     redirect_with messages.success
                       password_reset_successfully)
                end
            end
        end
  end.
End ResetWithGroups.

(** The four fields of [RegisterForm] as posted. *)
Record RegisterData := mkRegisterData {
  register_username : string;
  register_email : string;
  register_password1 : string;
  register_password2 : string
}.

Section Register.
(** [RegisterForm(request.POST).is_valid()] with its [cleaned_data], the
    validation of the framework's [UserCreationForm] against the user
    table: the cleaned user name, address and password, or nothing when
    the form has errors.  [make_password] is the hasher behind
    [set_password]. *)
Variable RegisterForm_clean :
  Database -> RegisterData -> option (string * string * string).
Variable make_password : string -> string.

(** [login(request, user)]: the user becomes the user of the session, and
    the receiver of [user_logged_in] stamps [last_login] with
    [user.save(update_fields=["last_login"])], which runs
    [CustomUser.save] once more.  The stamp is not a column of the
    record. *)
Definition login (st : Database * AuthDatabase) (user : CustomUser.t)
  : (Database * AuthDatabase) * option CustomUser.t :=
  let '(st, user) := CustomUser_save_with_groups st user in
  (st, Some user).

(** [register]; the third part of the result is the user of the session
    after the request, for a request that came without one. *)
Definition register (st : Database * AuthDatabase) (method : Method)
    (data : RegisterData)
  : (Database * AuthDatabase) * Page.t unit * option CustomUser.t :=
  match method with
  | POST =>
      match RegisterForm_clean (fst st) data with
      | Some (username, email, password1) =>
          (* form.save(commit=False) *)
          let user :=
            CustomUser.mk 0 username email (make_password password1)
                          Role.reader in
          let user := CustomUser.with_role user Role.reader in
          let '(st, user) := CustomUser_save_with_groups st user in
          let '(st, session_user) := login st user in
          (st,
           Page.redirect "news:article_list" None
             (Some (messages.success, "Registration successful. Welcome!")),
           session_user)
      | None => (st, Page.render "news/register.html" tt, None)
      end
  | GET => (st, Page.render "news/register.html" tt, None)
  end%string.
End Register.

(** ** Vocabulary of the further properties *)

(** Who is shown an article that is not approved: a logged-in editor or
    journalist. *)
Definition reads_unapproved (user : option CustomUser.t) : Prop :=
  exists u, user = Some u
            /\ (CustomUser.role u = Role.editor
                \/ CustomUser.role u = Role.journalist).

(** The guard of [update_article] and [delete_article]: an editor of the
    publisher of the article, or the journalist who wrote it. *)
Definition may_edit_article (db : Database) (user : CustomUser.t)
    (article : Article.t) : Prop :=
  (CustomUser.role user = Role.editor
   /\ exists e, editor_profile db user = Some e
                /\ Article.publisher_id article = Editor.publisher_id e)
  \/ (CustomUser.role user = Role.journalist
      /\ exists j, journalist_profile db user = Some j
                   /\ Article.journalist_id article = Journalist.pk j).

(** The guard of [update_newsletter] and [delete_newsletter]. *)
Definition may_edit_newsletter (db : Database) (user : CustomUser.t)
    (newsletter : Newsletter.t) : Prop :=
  (CustomUser.role user = Role.journalist
   /\ exists j, journalist_profile db user = Some j
                /\ Newsletter.journalist_id newsletter = Journalist.pk j)
  \/ (CustomUser.role user = Role.editor
      /\ exists e, editor_profile db user = Some e
                   /\ Newsletter.publisher_id newsletter
                      = Editor.publisher_id e).

(** What an edit leaves alone on an article: everything but the title and
    the content. *)
Definition same_article_but_text (a a' : Article.t) : Prop :=
  Article.pk a' = Article.pk a
  /\ Article.journalist_id a' = Article.journalist_id a
  /\ Article.publisher_id a' = Article.publisher_id a
  /\ Article.status a' = Article.status a
  /\ Article.created_at a' = Article.created_at a.

Definition same_newsletter_but_text (n n' : Newsletter.t) : Prop :=
  Newsletter.pk n' = Newsletter.pk n
  /\ Newsletter.journalist_id n' = Newsletter.journalist_id n
  /\ Newsletter.publisher_id n' = Newsletter.publisher_id n
  /\ Newsletter.created_at n' = Newsletter.created_at n.

(** The pending applications of a user. *)
Definition pending_applications (db : Database) (user_id : Z)
  : list RoleApplication.t :=
  filter (fun a => (RoleApplication.user_id a =? user_id)
                   && Status_eqb (RoleApplication.status a) pending)
         (role_applications db).

(** No user has two applications waiting. *)
Definition one_pending_application (db : Database) : Prop :=
  forall user_id, (List.length (pending_applications db user_id) <= 1)%nat.

(** A subscriber of a newsletter: the user behind an active subscription
    to its journalist or to its publisher. *)
Definition newsletter_subscriber (db : Database) (newsletter : Newsletter.t)
    (u : CustomUser.t) : Prop :=
  (exists s, In s (journalist_subscriptions db)
             /\ JournalistSubscription.journalist_id s
                = Newsletter.journalist_id newsletter
             /\ JournalistSubscription.is_active s = true
             /\ find_pk CustomUser.pk (JournalistSubscription.reader_id s)
                        (users db) = Some u)
  \/ (exists s, In s (publisher_subscriptions db)
                /\ PublisherSubscription.publisher_id s
                   = Newsletter.publisher_id newsletter
                /\ PublisherSubscription.is_active s = true
                /\ find_pk CustomUser.pk (PublisherSubscription.reader_id s)
                           (users db) = Some u).

(** The addresses a batch of newsletter mail goes to. *)
Definition newsletter_recipients (out : list NewsletterEmail) : list string :=
  flat_map newsletter_to out.

(** The list a dashboard shows for a status. *)
Definition EditorDashboard_block (ctx : EditorDashboard.t) (s : Status)
  : list Article.t :=
  match s with
  | pending => EditorDashboard.pending_articles ctx
  | approved => EditorDashboard.approved_articles ctx
  | rejected => EditorDashboard.rejected_articles ctx
  end.

Definition JournalistDashboard_block (ctx : JournalistDashboard.t)
    (s : Status) : list Article.t :=
  match s with
  | pending => JournalistDashboard.pending_articles ctx
  | approved => JournalistDashboard.approved_articles ctx
  | rejected => JournalistDashboard.rejected_articles ctx
  end.

(** A request body the newsletter serializer must refuse. *)
Definition invalid_newsletter (data : NewsletterData) : Prop :=
  blank (newsletter_data_title data) \/ blank (newsletter_data_content data)
  \/ exists t, newsletter_data_title data = Some t
               /\ (255 < String.length (strip t))%nat.

(** A stand-in for the cleaning of an email field, to run
    [forgot_password]: the trimmed input, refused when it is empty or has
    no at sign. *)
Definition sample_clean_email (data : string) : option string :=
  let value := strip data in
  if is_empty value then None
  else if existsb (Ascii.eqb "@") (list_ascii_of_string value)
       then Some value
       else None.

(** An account without its password, and a reset token without its
    [used] flag. *)
Definition account_of (u : CustomUser.t) : Z * string * string * Role.t :=
  (CustomUser.pk u, CustomUser.username u, CustomUser.email u,
   CustomUser.role u).

Definition token_of (r : ResetToken.t) : Z * Z * string * Z :=
  (ResetToken.pk r, ResetToken.user_id r, ResetToken.token r,
   ResetToken.expiry_date r).

(** The keys of the rows of a table are those of saved rows: none is the
    key 0 of an instance that was never saved. *)
Definition saved_users (db : Database) : Prop :=
  NoDup (map CustomUser.pk (users db))
  /\ forall u, In u (users db) -> CustomUser.pk u <> 0.

(** The permissions of a group, the groups of a user and the permissions
    a user holds through groups, as lists of keys. *)
Definition group_permissions (auth : AuthDatabase) (group_id : Z) : list Z :=
  map snd (filter (fun row => fst row =? group_id)
                  (auth_group_permissions auth)).

Definition groups_of (auth : AuthDatabase) (user_id : Z) : list Z :=
  map snd (filter (fun row => fst row =? user_id) (customuser_groups auth)).

Definition get_group_permissions (auth : AuthDatabase) (user_id : Z)
  : list Z :=
  flat_map (group_permissions auth) (groups_of auth user_id).

(** The group with a name. *)
Definition group_named (auth : AuthDatabase) (name : string)
  : option Group.t :=
  find (fun g => String.eqb (Group.name g) name) (auth_group auth).

(** The permissions on articles and newsletters, and what a code name
    allows. *)
Definition on_content (article_ct newsletter_ct : Z) (p : Permission.t)
  : bool :=
  (Permission.content_type_id p =? article_ct)
  || (Permission.content_type_id p =? newsletter_ct).

Definition is_view (p : Permission.t) : bool :=
  String.prefix "view_" (Permission.codename p).

Definition is_change_delete_view (p : Permission.t) : bool :=
  String.prefix "change_" (Permission.codename p)
  || String.prefix "delete_" (Permission.codename p)
  || String.prefix "view_" (Permission.codename p).

Definition is_add (p : Permission.t) : bool :=
  String.prefix "add_" (Permission.codename p).

(** The permissions a role is meant to carry on articles and
    newsletters. *)
Definition role_permissions (article_ct newsletter_ct : Z) (r : Role.t)
    (perms : list Permission.t) : list Permission.t :=
  match r with
  | Role.reader =>
      filter (fun p => on_content article_ct newsletter_ct p && is_view p)
             perms
  | Role.journalist => filter (on_content article_ct newsletter_ct) perms
  | Role.editor | Role.publisher =>
      filter is_change_delete_view
             (filter (on_content article_ct newsletter_ct) perms)
  end.

(** A small permission table, to run the model: the four default
    permissions of articles (content type 7) and of newsletters (8), and
    one of another model. *)
Definition sample_auth : AuthDatabase :=
  mkAuth []
         [Permission.mk 1 7 "add_article"; Permission.mk 2 7 "change_article";
          Permission.mk 3 7 "delete_article"; Permission.mk 4 7 "view_article";
          Permission.mk 5 8 "add_newsletter";
          Permission.mk 6 8 "change_newsletter";
          Permission.mk 7 8 "delete_newsletter";
          Permission.mk 8 8 "view_newsletter";
          Permission.mk 9 3 "view_customuser"]
         [] [].

(** The approved articles of a journalist and of a publisher, and the
    active subscriptions to one. *)
Definition approved_of_journalist (db : Database) (journalist_id : Z)
  : list Article.t :=
  filter (fun a => (Article.journalist_id a =? journalist_id)
                   && is_approved a)
         (articles db).

Definition approved_of_publisher (db : Database) (publisher_id : Z)
  : list Article.t :=
  filter (fun a => (Article.publisher_id a =? publisher_id) && is_approved a)
         (articles db).

Definition active_journalist_subscriptions (db : Database) (journalist_id : Z)
  : list JournalistSubscription.t :=
  filter (fun s => (JournalistSubscription.journalist_id s =? journalist_id)
                   && JournalistSubscription.is_active s)
         (journalist_subscriptions db).

Definition active_publisher_subscriptions (db : Database) (publisher_id : Z)
  : list PublisherSubscription.t :=
  filter (fun s => (PublisherSubscription.publisher_id s =? publisher_id)
                   && PublisherSubscription.is_active s)
         (publisher_subscriptions db).

(** The user has a token of the API. *)
Definition has_token (tokens : list Token.t) (user_id : Z) : Prop :=
  exists token, In token tokens /\ Token.user_id token = user_id.

(** The keys drawn from [drawn] on differ from each other and from the
    keys of the table. *)
Definition fresh_keys (generate_key : nat -> string) (tokens : list Token.t)
    (drawn : nat) : Prop :=
  (forall n m, generate_key n = generate_key m -> n = m)
  /\ forall n, (drawn <= n)%nat ->
               ~ In (generate_key n) (map Token.key tokens).

(** Keys drawn for the samples: a different one at each draw. *)
Fixpoint sample_generate_key (n : nat) : string :=
  match n with
  | O => "9944b09199c62bcf9418ad846dd0e4bbdfc6ee4b"
  | S n => String "a" (sample_generate_key n)
  end%string.

(** The groups and permissions of the samples once the receiver of
    [post_migrate] has run. *)
Definition sample_roles : AuthDatabase :=
  create_roles_and_permissions "news" 7 8 sample_auth.

(** A stand-in for the validation of the registration form, to run
    [register]: the user name is trimmed and must be neither empty nor
    taken, the password must pass the stand-in validators and be typed
    twice the same. *)
Definition sample_register_clean (db : Database) (data : RegisterData)
  : option (string * string * string) :=
  let username := strip (register_username data) in
  if is_empty username then None
  else if existsb (fun u => String.eqb (CustomUser.username u) username)
                  (users db) then None
  else if negb (SampleCrypto.validators (register_password1 data)) then None
  else if negb (String.eqb (register_password1 data)
                           (register_password2 data)) then None
  else Some (username, strip (register_email data), register_password1 data).

(** * Properties *)

(** ** Equality tests *)

Lemma Role_eqb_eq a b : Role.eqb a b = true <-> a = b.
Proof. destruct a, b; simpl; split; congruence. Qed.

Lemma Role_eqb_neq a b : Role.eqb a b = false <-> a <> b.
Proof. destruct a, b; simpl; split; congruence. Qed.

Lemma Role_eqb_refl a : Role.eqb a a = true.
Proof. now destruct a. Qed.

Lemma Status_eqb_eq a b : Status_eqb a b = true <-> a = b.
Proof. destruct a, b; simpl; split; congruence. Qed.

Lemma Status_eqb_neq a b : Status_eqb a b = false <-> a <> b.
Proof. destruct a, b; simpl; split; congruence. Qed.

Lemma mem_In k ids : mem k ids = true <-> In k ids.
Proof.
  unfold mem. rewrite existsb_exists. split.
  - intros [x [Hx He]]. apply Z.eqb_eq in He. now subst.
  - intros H. exists k. split; [assumption | apply Z.eqb_refl].
Qed.

(** ** The object-relational layer *)

Section QuerySetFacts.
Context {A : Type}.
Variable key : A -> Z.

Lemma insert_desc_Permutation x l :
  Permutation (insert_desc key x l) (x :: l).
Proof.
  induction l as [|y l IH]; simpl.
  - apply Permutation_refl.
  - destruct (key y <=? key x).
    + apply Permutation_refl.
    + eapply perm_trans; [apply perm_skip, IH | apply perm_swap].
Qed.

Lemma order_by_desc_Permutation l : Permutation (order_by_desc key l) l.
Proof.
  induction l as [|x l IH]; simpl.
  - constructor.
  - eapply perm_trans; [apply insert_desc_Permutation | now apply perm_skip].
Qed.

Lemma order_by_desc_In x l : In x (order_by_desc key l) <-> In x l.
Proof.
  split; apply Permutation_in;
    [| apply Permutation_sym]; apply order_by_desc_Permutation.
Qed.

Lemma insert_desc_descending x l :
  descending key l -> descending key (insert_desc key x l).
Proof.
  unfold descending.
  induction l as [|y l IH]; simpl; intros Hs.
  - repeat constructor.
  - inversion Hs as [|? ? Hl Hy]; subst.
    destruct (key y <=? key x) eqn:E.
    + apply Z.leb_le in E. constructor; [assumption|].
      constructor; [assumption|].
      rewrite Forall_forall in Hy |- *. intros z Hz.
      specialize (Hy z Hz). lia.
    + apply Z.leb_gt in E. constructor; [now apply IH|].
      rewrite Forall_forall in Hy |- *. intros z Hz.
      apply (Permutation_in _ (insert_desc_Permutation x l)) in Hz.
      destruct Hz as [<-|Hz]; [lia | now apply Hy].
Qed.

Lemma order_by_desc_descending l : descending key (order_by_desc key l).
Proof.
  induction l as [|x l IH]; simpl.
  - constructor.
  - now apply insert_desc_descending.
Qed.

Lemma order_by_desc_NoDup {B : Type} (f : A -> B) (l : list A) :
  NoDup (map f l) -> NoDup (map f (order_by_desc key l)).
Proof.
  intros H. eapply Permutation_NoDup; [|exact H].
  apply Permutation_map, Permutation_sym, order_by_desc_Permutation.
Qed.
End QuerySetFacts.

Lemma NoDup_map_filter {A B : Type} (f : A -> B) (p : A -> bool) l :
  NoDup (map f l) -> NoDup (map f (filter p l)).
Proof.
  induction l as [|x l IH]; simpl; intros H; [constructor|].
  inversion H as [|? ? Hn Hd]; subst.
  destruct (p x); simpl; [constructor|]; auto.
  intros Hin. apply Hn. rewrite in_map_iff in Hin |- *.
  destruct Hin as [y [Hy Hin]]. exists y. split; [assumption|].
  now apply filter_In in Hin.
Qed.

(** ** Content visibility *)

Lemma subscribed_journalist_ids_In db user j :
  In j (subscribed_journalist_ids db user)
  <-> follows_journalist db (CustomUser.pk user) j.
Proof.
  unfold subscribed_journalist_ids, follows_journalist.
  rewrite in_map_iff. split.
  - intros [s [Hj Hs]]. apply filter_In in Hs. destruct Hs as [Hin Hc].
    apply andb_true_iff in Hc. destruct Hc as [Hr Ha].
    apply Z.eqb_eq in Hr. now exists s.
  - intros [s (Hin & Hr & Hj & Ha)]. exists s. split; [assumption|].
    apply filter_In. split; [assumption|].
    rewrite Hr, Ha, Z.eqb_refl. reflexivity.
Qed.

Lemma subscribed_publisher_ids_In db user p :
  In p (subscribed_publisher_ids db user)
  <-> follows_publisher db (CustomUser.pk user) p.
Proof.
  unfold subscribed_publisher_ids, follows_publisher.
  rewrite in_map_iff. split.
  - intros [s [Hj Hs]]. apply filter_In in Hs. destruct Hs as [Hin Hc].
    apply andb_true_iff in Hc. destruct Hc as [Hr Ha].
    apply Z.eqb_eq in Hr. now exists s.
  - intros [s (Hin & Hr & Hj & Ha)]. exists s. split; [assumption|].
    apply filter_In. split; [assumption|].
    rewrite Hr, Ha, Z.eqb_refl. reflexivity.
Qed.

Lemma is_approved_true a : is_approved a = true <-> Article.status a = approved.
Proof. apply Status_eqb_eq. Qed.

(** C1.  For a user who is not a reader, [visible_articles] is every
    approved article; for a reader it is exactly the approved articles
    whose journalist or whose publisher the reader actively follows.  In
    both cases the newest comes first, and, primary keys being unique, no
    article is listed twice, also when it matches through both kinds of
    subscription. *)
Theorem visible_articles_spec (db : Database) (user : CustomUser.t) :
  NoDup (map Article.pk (articles db)) ->
  let result := ArticleViewSet_get_queryset db user in
  descending Article.created_at result
  /\ NoDup (map Article.pk result)
  /\ (CustomUser.role user <> Role.reader ->
      forall a, In a result
                <-> In a (articles db) /\ Article.status a = approved)
  /\ (CustomUser.role user = Role.reader ->
      forall a, In a result
                <-> In a (articles db) /\ Article.status a = approved
                    /\ (follows_journalist db (CustomUser.pk user)
                                           (Article.journalist_id a)
                        \/ follows_publisher db (CustomUser.pk user)
                                             (Article.publisher_id a))).
Proof.
  intros Hpk result. subst result. unfold ArticleViewSet_get_queryset.
  destruct (Role.eqb (CustomUser.role user) Role.reader) eqn:Er.
  - apply Role_eqb_eq in Er.
    split; [apply order_by_desc_descending|].
    split; [now apply order_by_desc_NoDup; repeat apply NoDup_map_filter|].
    split; [congruence|]. intros _ a.
    rewrite order_by_desc_In, filter_In, filter_In, is_approved_true.
    rewrite orb_true_iff, !mem_In.
    rewrite subscribed_journalist_ids_In, subscribed_publisher_ids_In.
    tauto.
  - apply Role_eqb_neq in Er.
    split; [apply order_by_desc_descending|].
    split; [now apply order_by_desc_NoDup, NoDup_map_filter|].
    split; [|congruence]. intros _ a.
    rewrite order_by_desc_In, filter_In, is_approved_true. tauto.
Qed.

(** The sample newsroom meets the hypothesis of C1: alice, who follows
    both bob and Acme, sees each approved article once, newest first. *)
Lemma visible_articles_spec_witness :
  NoDup (map Article.pk (articles Sample.db))
  /\ NoDup (map Article.pk
                (ArticleViewSet_get_queryset Sample.db Sample.alice))
  /\ ArticleViewSet_get_queryset Sample.db Sample.alice
     = [Sample.third_article; Sample.first_article].
Proof.
  assert (H : NoDup (map Article.pk (articles Sample.db))).
  { simpl. repeat constructor; simpl; intuition discriminate. }
  split; [exact H|].
  split; [apply (visible_articles_spec Sample.db Sample.alice H)|].
  reflexivity.
Defined.

Lemma journalist_filter_cond (db : Database) (user : CustomUser.t) (j : Z) :
  existsb (fun s =>
             (JournalistSubscription.reader_id s =? CustomUser.pk user)
             && (JournalistSubscription.journalist_id s =? j)
             && JournalistSubscription.is_active s)
          (journalist_subscriptions db) = true
  <-> follows_journalist db (CustomUser.pk user) j.
Proof.
  rewrite existsb_exists. unfold follows_journalist.
  split; intros [s Hs]; exists s.
  - destruct Hs as [Hin Hc].
    apply andb_true_iff in Hc; destruct Hc as [Hc Ha].
    apply andb_true_iff in Hc; destruct Hc as [Hr Hj].
    apply Z.eqb_eq in Hr, Hj. auto.
  - destruct Hs as (Hin & Hr & Hj & Ha). split; [assumption|].
    now rewrite Hr, Hj, Ha, !Z.eqb_refl.
Qed.

Lemma publisher_filter_cond (db : Database) (user : CustomUser.t) (p : Z) :
  existsb (fun s =>
             (PublisherSubscription.reader_id s =? CustomUser.pk user)
             && (PublisherSubscription.publisher_id s =? p)
             && PublisherSubscription.is_active s)
          (publisher_subscriptions db) = true
  <-> follows_publisher db (CustomUser.pk user) p.
Proof.
  rewrite existsb_exists. unfold follows_publisher.
  split; intros [s Hs]; exists s.
  - destruct Hs as [Hin Hc].
    apply andb_true_iff in Hc; destruct Hc as [Hc Ha].
    apply andb_true_iff in Hc; destruct Hc as [Hr Hj].
    apply Z.eqb_eq in Hr, Hj. auto.
  - destruct Hs as (Hin & Hr & Hj & Ha). split; [assumption|].
    now rewrite Hr, Hj, Ha, !Z.eqb_refl.
Qed.

Lemma filter_nil_iff {A : Type} (p : A -> bool) (l : list A) :
  filter p l = [] <-> forall x, In x l -> p x = false.
Proof.
  induction l as [|y l IH]; simpl.
  - split; [intros _ x [] | reflexivity].
  - destruct (p y) eqn:E; split.
    + discriminate.
    + intros H. specialize (H y (or_introl eq_refl)). congruence.
    + intros H x [<-|Hx]; [assumption | now apply IH].
    + intros H. apply IH. intros x Hx. apply H. now right.
Qed.

(** The two filtered queries on a parameter that is absent or spells a
    key. *)
Lemma filtered_queries_by_key (db : Database) (user : CustomUser.t) :
  (exists payload,
      ArticleViewSet_by_journalist db user None = HTTP_400_BAD_REQUEST payload
      /\ payload <> [])
  /\ (forall j,
        CustomUser.role user = Role.reader ->
        ~ follows_journalist db (CustomUser.pk user) j ->
        exists payload,
          ArticleViewSet_by_journalist db user (Some j)
          = HTTP_403_FORBIDDEN payload)
  /\ (forall j,
        CustomUser.role user <> Role.reader
        \/ follows_journalist db (CustomUser.pk user) j ->
        exists result,
          ArticleViewSet_by_journalist db user (Some j) = HTTP_200_OK result
          /\ descending Article.created_at result
          /\ Permutation result
               (filter (fun a => (Article.journalist_id a =? j)
                                 && is_approved a) (articles db))
          /\ (forall a, In a result
                        <-> In a (articles db)
                            /\ Article.journalist_id a = j
                            /\ Article.status a = approved)
          /\ (article_journalists_exist db ->
              find_pk Journalist.pk j (journalists db) = None ->
              result = []))
  /\ (exists payload,
        ArticleViewSet_by_publisher db user None = HTTP_400_BAD_REQUEST payload
        /\ payload <> [])
  /\ (forall p,
        CustomUser.role user = Role.reader ->
        ~ follows_publisher db (CustomUser.pk user) p ->
        exists payload,
          ArticleViewSet_by_publisher db user (Some p)
          = HTTP_403_FORBIDDEN payload)
  /\ (forall p,
        CustomUser.role user <> Role.reader
        \/ follows_publisher db (CustomUser.pk user) p ->
        exists result,
          ArticleViewSet_by_publisher db user (Some p) = HTTP_200_OK result
          /\ descending Article.created_at result
          /\ Permutation result
               (filter (fun a => (Article.publisher_id a =? p)
                                 && is_approved a) (articles db))
          /\ (forall a, In a result
                        <-> In a (articles db)
                            /\ Article.publisher_id a = p
                            /\ Article.status a = approved)
          /\ (article_publishers_exist db ->
              find_pk Publisher.pk p (publishers db) = None ->
              result = [])).
Proof.
  assert (HJ : forall j,
            ArticleViewSet_by_journalist db user (Some j)
            = if Role.eqb (CustomUser.role user) Role.reader
                 && negb (existsb (fun s =>
                      (JournalistSubscription.reader_id s
                       =? CustomUser.pk user)
                      && (JournalistSubscription.journalist_id s =? j)
                      && JournalistSubscription.is_active s)
                     (journalist_subscriptions db))
              then HTTP_403_FORBIDDEN
                     [("error",
                       "You are not subscribed to this journalist")]%string
              else HTTP_200_OK
                     (order_by_desc Article.created_at
                        (filter (fun a => (Article.journalist_id a =? j)
                                          && is_approved a) (articles db)))).
  { intros j. unfold ArticleViewSet_by_journalist.
    destruct (Role.eqb _ _); [|reflexivity].
    now destruct (existsb _ _). }
  assert (HP : forall p,
            ArticleViewSet_by_publisher db user (Some p)
            = if Role.eqb (CustomUser.role user) Role.reader
                 && negb (existsb (fun s =>
                      (PublisherSubscription.reader_id s
                       =? CustomUser.pk user)
                      && (PublisherSubscription.publisher_id s =? p)
                      && PublisherSubscription.is_active s)
                     (publisher_subscriptions db))
              then HTTP_403_FORBIDDEN
                     [("error",
                       "You are not subscribed to this publisher")]%string
              else HTTP_200_OK
                     (order_by_desc Article.created_at
                        (filter (fun a => (Article.publisher_id a =? p)
                                          && is_approved a) (articles db)))).
  { intros p. unfold ArticleViewSet_by_publisher.
    destruct (Role.eqb _ _); [|reflexivity].
    now destruct (existsb _ _). }
  split; [eexists; split; [reflexivity | discriminate]|].
  split.
  { intros j Hr Hn. rewrite HJ, Hr. simpl.
    destruct (existsb _ _) eqn:E.
    - apply journalist_filter_cond in E. contradiction.
    - simpl. eexists. reflexivity. }
  split.
  { intros j Hc. rewrite HJ.
    assert (Hgate :
      Role.eqb (CustomUser.role user) Role.reader
      && negb (existsb (fun s =>
             (JournalistSubscription.reader_id s =? CustomUser.pk user)
             && (JournalistSubscription.journalist_id s =? j)
             && JournalistSubscription.is_active s)
          (journalist_subscriptions db)) = false).
    { destruct Hc as [Hc|Hc].
      - apply Role_eqb_neq in Hc. now rewrite Hc.
      - apply journalist_filter_cond in Hc. rewrite Hc.
        apply andb_false_r. }
    rewrite Hgate. eexists. split; [reflexivity|].
    split; [apply order_by_desc_descending|].
    split; [apply order_by_desc_Permutation|].
    split.
    - intros a. rewrite order_by_desc_In, filter_In, andb_true_iff.
      rewrite Z.eqb_eq, is_approved_true. tauto.
    - intros Hfk Hnone.
      assert (Hf : filter (fun a => (Article.journalist_id a =? j)
                                    && is_approved a) (articles db) = []).
      { apply filter_nil_iff. intros a Ha.
        destruct (Article.journalist_id a =? j) eqn:E; [|reflexivity].
        apply Z.eqb_eq in E. destruct (Hfk a Ha) as [jr [Hin Hpk]].
        exfalso. unfold find_pk in Hnone.
        apply (find_none _ _ Hnone) in Hin.
        rewrite Hpk, E, Z.eqb_refl in Hin. discriminate. }
      rewrite Hf. reflexivity. }
  split; [eexists; split; [reflexivity | discriminate]|].
  split.
  { intros p Hr Hn. rewrite HP, Hr. simpl.
    destruct (existsb _ _) eqn:E.
    - apply publisher_filter_cond in E. contradiction.
    - simpl. eexists. reflexivity. }
  intros p Hc. rewrite HP.
  assert (Hgate :
    Role.eqb (CustomUser.role user) Role.reader
    && negb (existsb (fun s =>
           (PublisherSubscription.reader_id s =? CustomUser.pk user)
           && (PublisherSubscription.publisher_id s =? p)
           && PublisherSubscription.is_active s)
        (publisher_subscriptions db)) = false).
  { destruct Hc as [Hc|Hc].
    - apply Role_eqb_neq in Hc. now rewrite Hc.
    - apply publisher_filter_cond in Hc. rewrite Hc.
      apply andb_false_r. }
  rewrite Hgate. eexists. split; [reflexivity|].
  split; [apply order_by_desc_descending|].
  split; [apply order_by_desc_Permutation|].
  split.
  - intros a. rewrite order_by_desc_In, filter_In, andb_true_iff.
    rewrite Z.eqb_eq, is_approved_true. tauto.
  - intros Hfk Hnone.
    assert (Hf : filter (fun a => (Article.publisher_id a =? p)
                                  && is_approved a) (articles db) = []).
    { apply filter_nil_iff. intros a Ha.
      destruct (Article.publisher_id a =? p) eqn:E; [|reflexivity].
      apply Z.eqb_eq in E. destruct (Hfk a Ha) as [pr [Hin Hpk]].
      exfalso. unfold find_pk in Hnone.
      apply (find_none _ _ Hnone) in Hin.
      rewrite Hpk, E, Z.eqb_refl in Hin. discriminate. }
    rewrite Hf. reflexivity.
Qed.

Section FilteredQueries.
Variable get_prep_value : string -> option Z.

Local Abbreviation by_journalist :=
  (GET_articles_by_journalist get_prep_value).
Local Abbreviation by_publisher :=
  (GET_articles_by_publisher get_prep_value).

End FilteredQueries.



(** C10.  The server-rendered pages never look at subscriptions: for any
    user the article page lists exactly the approved articles and the
    newsletter page every newsletter, newest first, and both lists are the
    same for every user; a reader without active subscriptions gets both in
    full from the pages while the API lists give that reader nothing. *)
Theorem page_lists_are_unfiltered (db : Database) (user : CustomUser.t) :
  (forall a, In a (article_list db user)
             <-> In a (articles db) /\ Article.status a = approved)
  /\ Permutation (article_list db user) (filter is_approved (articles db))
  /\ descending Article.created_at (article_list db user)
  /\ Permutation (newsletter_list db user) (newsletters db)
  /\ descending Newsletter.created_at (newsletter_list db user)
  /\ (forall other, article_list db other = article_list db user
                    /\ newsletter_list db other = newsletter_list db user)
  /\ (CustomUser.role user = Role.reader ->
      (forall j, ~ follows_journalist db (CustomUser.pk user) j) ->
      (forall p, ~ follows_publisher db (CustomUser.pk user) p) ->
      ArticleViewSet_get_queryset db user = []
      /\ NewsletterViewSet_get_queryset db user = []).
Proof.
  unfold article_list, newsletter_list.
  split.
  { intros a. rewrite order_by_desc_In, filter_In, is_approved_true. tauto. }
  split; [apply order_by_desc_Permutation|].
  split; [apply order_by_desc_descending|].
  split; [apply order_by_desc_Permutation|].
  split; [apply order_by_desc_descending|].
  split; [intros other; split; reflexivity|].
  intros Hr Hj Hp.
  assert (Ej : subscribed_journalist_ids db user = []).
  { destruct (subscribed_journalist_ids db user) as [|j l] eqn:E;
      [reflexivity|].
    exfalso. apply (Hj j). apply subscribed_journalist_ids_In.
    rewrite E. now left. }
  assert (Ep : subscribed_publisher_ids db user = []).
  { destruct (subscribed_publisher_ids db user) as [|p l] eqn:E;
      [reflexivity|].
    exfalso. apply (Hp p). apply subscribed_publisher_ids_In.
    rewrite E. now left. }
  unfold ArticleViewSet_get_queryset, NewsletterViewSet_get_queryset.
  rewrite Hr, Ej, Ep. simpl.
  split.
  - replace (filter _ (filter is_approved (articles db))) with (@nil Article.t);
      [reflexivity|].
    symmetry. now apply filter_nil_iff.
  - replace (filter _ (newsletters db)) with (@nil Newsletter.t);
      [reflexivity|].
    symmetry. now apply filter_nil_iff.
Qed.

(** C10 on the sample newsroom: erin, a reader without subscriptions, is
    shown both approved articles by the page and none by the API. *)
Lemma page_lists_are_unfiltered_witness :
  article_list Sample.db Sample.erin
  = [Sample.third_article; Sample.first_article]
  /\ ArticleViewSet_get_queryset Sample.db Sample.erin = []
  /\ NewsletterViewSet_get_queryset Sample.db Sample.erin = [].
Proof.
  split; [reflexivity|].
  apply (page_lists_are_unfiltered Sample.db Sample.erin).
  - reflexivity.
  - intros j [s (Hin & Hr & _)]. simpl in Hin.
    destruct Hin as [<-|[]]. discriminate.
  - intros p [s (Hin & Hr & _)]. simpl in Hin.
    destruct Hin as [<-|[]]. discriminate.
Defined.

(** ** Inserts, saves and lookups *)

Section TableFacts.
Context {A : Type}.
Variable pk : A -> Z.

Lemma filter_app_single (f : A -> bool) (l : list A) (x : A) :
  filter f (l ++ [x]) = filter f l ++ (if f x then [x] else []).
Proof. rewrite filter_app. reflexivity. Qed.

Lemma next_pk_above (l : list A) (r : A) : In r l -> pk r < next_pk pk l.
Proof.
  induction l as [|y l IH]; simpl; [intros []|].
  intros [<-|H]; [|specialize (IH H)]; lia.
Qed.

Lemma next_pk_positive (l : list A) : 0 < next_pk pk l.
Proof. induction l; simpl; lia. Qed.

Lemma next_pk_fresh (l : list A) : ~ In (next_pk pk l) (map pk l).
Proof.
  rewrite in_map_iff. intros [r [He Hin]].
  apply next_pk_above in Hin. lia.
Qed.

Lemma NoDup_pk_insert (l : list A) (x : A) :
  NoDup (map pk l) -> pk x = next_pk pk l -> NoDup (map pk (l ++ [x])).
Proof.
  intros Hd Hx. rewrite map_app. simpl.
  apply NoDup_app_remove_l with (l := []). simpl.
  apply Permutation_NoDup with (l := pk x :: map pk l).
  - apply Permutation_cons_append.
  - constructor; [rewrite Hx; apply next_pk_fresh | assumption].
Qed.

Lemma find_pk_Some (k : Z) (l : list A) (x : A) :
  find_pk pk k l = Some x -> In x l /\ pk x = k.
Proof.
  unfold find_pk. intros H. apply find_some in H.
  destruct H as [Hin He]. apply Z.eqb_eq in He. auto.
Qed.

Lemma find_pk_None (k : Z) (l : list A) :
  find_pk pk k l = None -> forall x, In x l -> pk x <> k.
Proof.
  unfold find_pk. intros H x Hin He.
  apply (find_none _ _ H) in Hin. rewrite He, Z.eqb_refl in Hin.
  discriminate.
Qed.

Lemma find_pk_In (l : list A) (x : A) :
  NoDup (map pk l) -> In x l -> find_pk pk (pk x) l = Some x.
Proof.
  unfold find_pk.
  induction l as [|y l IH]; simpl; [intros _ []|].
  intros Hd Hin. inversion Hd as [|? ? Hn Hd']; subst.
  destruct Hin as [->|Hin].
  - now rewrite Z.eqb_refl.
  - destruct (pk y =? pk x) eqn:E; [|now apply IH].
    apply Z.eqb_eq in E. exfalso. apply Hn. rewrite E.
    now apply in_map.
Qed.

Lemma save_row_length (x : A) (l : list A) :
  List.length (save_row pk x l) = List.length l.
Proof. unfold save_row, update_where. apply length_map. Qed.

Lemma save_row_pks (x : A) (l : list A) :
  map pk (save_row pk x l) = map pk l.
Proof.
  unfold save_row, update_where. rewrite map_map.
  apply map_ext. intros r. destruct (pk r =? pk x) eqn:E;
    [apply Z.eqb_eq in E; congruence | reflexivity].
Qed.

Lemma save_row_absent (x : A) (l : list A) :
  ~ In (pk x) (map pk l) -> save_row pk x l = l.
Proof.
  unfold save_row, update_where. intros Hn.
  rewrite <- (map_id l) at 2. apply map_ext_in. intros r Hr.
  destruct (pk r =? pk x) eqn:E; [|reflexivity].
  apply Z.eqb_eq in E. exfalso. apply Hn. rewrite <- E. now apply in_map.
Qed.

(** With unique keys, saving an instance rewrites the one row that has its
    key and leaves every other row in place. *)
Lemma save_row_split (x s : A) (l : list A) :
  NoDup (map pk l) -> In s l -> pk x = pk s ->
  exists l1 l2, l = l1 ++ s :: l2 /\ save_row pk x l = l1 ++ x :: l2.
Proof.
  intros Hd Hin Hx. apply in_split in Hin. destruct Hin as [l1 [l2 ->]].
  exists l1, l2. split; [reflexivity|].
  rewrite map_app in Hd. simpl in Hd.
  pose proof (NoDup_remove_2 _ _ _ Hd) as Hn.
  unfold save_row, update_where. rewrite map_app. simpl.
  rewrite Hx, Z.eqb_refl. f_equal; [|f_equal].
  - rewrite <- (map_id l1) at 2. apply map_ext_in. intros r Hr.
    destruct (pk r =? pk s) eqn:E; [|reflexivity].
    apply Z.eqb_eq in E. exfalso. apply Hn. rewrite in_app_iff. left.
    rewrite <- E. now apply in_map.
  - rewrite <- (map_id l2) at 2. apply map_ext_in. intros r Hr.
    destruct (pk r =? pk s) eqn:E; [|reflexivity].
    apply Z.eqb_eq in E. exfalso. apply Hn. rewrite in_app_iff. right.
    rewrite <- E. now apply in_map.
Qed.

Lemma objects_get_DoesNotExist (f : A -> bool) (l : list A) :
  objects_get f l = DoesNotExist <-> filter f l = [].
Proof.
  unfold objects_get. destruct (filter f l) as [|a [|b t]];
    split; intros H; try reflexivity; discriminate.
Qed.

Lemma objects_get_Found (f : A -> bool) (l : list A) (s : A) :
  objects_get f l = Found s <-> filter f l = [s].
Proof.
  unfold objects_get. destruct (filter f l) as [|a [|b t]];
    split; intros H; try discriminate; congruence.
Qed.

Lemma objects_get_Multiple (f : A -> bool) (l : list A) :
  objects_get f l = Multiple -> (2 <= List.length (filter f l))%nat.
Proof.
  unfold objects_get. destruct (filter f l) as [|a [|b t]];
    intros H; try discriminate. simpl. lia.
Qed.

Lemma update_where_length (f : A -> bool) (g : A -> A) (l : list A) :
  List.length (update_where f g l) = List.length l.
Proof. apply length_map. Qed.
End TableFacts.

(** ** Subscription toggle *)

Lemma filter_andb {A : Type} (f g : A -> bool) (l : list A) :
  filter (fun x => f x && g x) l = filter g (filter f l).
Proof.
  induction l as [|x l IH]; simpl; [reflexivity|].
  destruct (f x); simpl; [destruct (g x)|]; now rewrite IH.
Qed.

Section PairTableFacts.
Context {A : Type}.
Variables (pk reader target : A -> Z).

Local Abbreviation rows := (pair_rows reader target).
Local Abbreviation unique := (pair_unique pk reader target).

Lemma pair_unique_not_Multiple (l : list A) (r t : Z) :
  unique l ->
  objects_get (fun s => (reader s =? r) && (target s =? t)) l <> Multiple.
Proof.
  intros [_ Hu] H. apply objects_get_Multiple in H.
  specialize (Hu r t). unfold pair_rows in Hu. lia.
Qed.

Lemma pair_rows_other (r t r' t' : Z) (x : A) :
  reader x = r -> target x = t -> (r', t') <> (r, t) ->
  (reader x =? r') && (target x =? t') = false.
Proof.
  intros Hr Ht Hne.
  destruct (reader x =? r') eqn:E1; [|reflexivity].
  destruct (target x =? t') eqn:E2; [|reflexivity].
  apply Z.eqb_eq in E1, E2. exfalso. apply Hne. congruence.
Qed.

(** Inserting the first row of a pair. *)
Lemma pair_insert (l : list A) (x : A) (r t : Z) :
  unique l -> rows r t l = [] ->
  reader x = r -> target x = t -> pk x = next_pk pk l ->
  unique (l ++ [x])
  /\ rows r t (l ++ [x]) = [x]
  /\ forall r' t', (r', t') <> (r, t) -> rows r' t' (l ++ [x]) = rows r' t' l.
Proof.
  intros [Hd Hu] He Hr Ht Hpk.
  assert (Hother : forall r' t', (r', t') <> (r, t) ->
                     rows r' t' (l ++ [x]) = rows r' t' l).
  { intros r' t' Hne. unfold pair_rows. rewrite filter_app_single.
    rewrite (pair_rows_other r t r' t' x Hr Ht Hne). apply app_nil_r. }
  assert (Hsame : rows r t (l ++ [x]) = [x]).
  { unfold pair_rows in *. rewrite filter_app_single, He.
    now rewrite Hr, Ht, !Z.eqb_refl. }
  split; [|split; assumption].
  split; [now apply NoDup_pk_insert|].
  intros r' t'.
  destruct (Z.eq_dec r' r) as [->|Hn1].
  - destruct (Z.eq_dec t' t) as [->|Hn2].
    + rewrite Hsame. simpl. lia.
    + rewrite Hother; [apply Hu | congruence].
  - rewrite Hother; [apply Hu | congruence].
Qed.

Lemma filter_single_split (f : A -> bool) (l1 l2 : list A) (s s' : A) :
  filter f (l1 ++ s :: l2) = [s'] -> f s = true ->
  filter f l1 = [] /\ filter f l2 = [].
Proof.
  rewrite filter_app. simpl. intros H Hs. rewrite Hs in H.
  destruct (filter f l1) as [|a t1].
  - simpl in H. injection H as _ H. auto.
  - simpl in H. injection H as _ H. destruct t1; discriminate.
Qed.

Lemma filter_replace (f : A -> bool) (l1 l2 : list A) (s s' : A) :
  f s' = f s ->
  List.length (filter f (l1 ++ s' :: l2))
  = List.length (filter f (l1 ++ s :: l2)).
Proof.
  intros H. rewrite !filter_app. simpl. rewrite H.
  destruct (f s); rewrite !length_app; reflexivity.
Qed.

(** Saving a row of a pair with its reader and target untouched. *)
Lemma pair_save (l : list A) (s s' : A) (r t : Z) :
  unique l -> rows r t l = [s] ->
  pk s' = pk s -> reader s' = reader s -> target s' = target s ->
  (exists l1 l2, l = l1 ++ s :: l2 /\ save_row pk s' l = l1 ++ s' :: l2)
  /\ unique (save_row pk s' l)
  /\ rows r t (save_row pk s' l) = [s']
  /\ forall r' t', (r', t') <> (r, t) ->
       rows r' t' (save_row pk s' l) = rows r' t' l.
Proof.
  intros [Hd Hu] He Hpk Hr Ht.
  assert (Hin : In s l /\ (reader s =? r) && (target s =? t) = true).
  { apply (filter_In (fun s => (reader s =? r) && (target s =? t))).
    unfold pair_rows in He. rewrite He. now left. }
  destruct Hin as [Hin Hs].
  destruct (save_row_split pk s' s l Hd Hin Hpk) as [l1 [l2 [El Es]]].
  split; [now exists l1, l2|].
  assert (Hsr : reader s = r /\ target s = t).
  { apply andb_true_iff in Hs. now rewrite !Z.eqb_eq in Hs. }
  destruct Hsr as [Hsr Hst].
  split; [|split].
  - split; [now rewrite save_row_pks|].
    intros r' t'. rewrite Es. unfold pair_rows.
    rewrite filter_replace with (s := s); [|now rewrite Hr, Ht].
    rewrite <- El. apply Hu.
  - rewrite Es. unfold pair_rows in *. rewrite El in He.
    destruct (filter_single_split _ _ _ _ _ He Hs) as [E1 E2].
    rewrite filter_app. simpl. rewrite E1, E2, Hr, Ht, Hs. reflexivity.
  - intros r' t' Hne. rewrite Es, El. unfold pair_rows.
    rewrite !filter_app. simpl.
    rewrite (pair_rows_other r t r' t' s Hsr Hst Hne).
    rewrite (pair_rows_other r t r' t' s'); congruence.
Qed.
End PairTableFacts.

Lemma set_journalist_subscriptions_same (db : Database) :
  set_journalist_subscriptions db (journalist_subscriptions db) = db.
Proof. now destruct db. Qed.

Lemma set_publisher_subscriptions_same (db : Database) :
  set_publisher_subscriptions db (publisher_subscriptions db) = db.
Proof. now destruct db. Qed.


(** Subscribing when the pair already has its active row changes
    nothing. *)
Lemma subscribe_to_journalist_noop (db : Database) (user : CustomUser.t)
    (j : Z) (jr : Journalist.t) (s : JournalistSubscription.t) :
  find_pk Journalist.pk j (journalists db) = Some jr ->
  CustomUser.role user = Role.reader ->
  journalist_rows db (CustomUser.pk user) j = [s] ->
  JournalistSubscription.is_active s = true ->
  subscribe_to_journalist db user j
  = (db, redirect_with messages.info already_subscribed).
Proof.
  intros Hj Hr Hrows Ha. unfold subscribe_to_journalist.
  rewrite Hr, Hj. simpl.
  destruct (find_pk_Some _ _ _ _ Hj) as [_ ->].
  unfold journalist_rows, pair_rows in Hrows.
  apply objects_get_Found in Hrows. rewrite Hrows, Ha. reflexivity.
Qed.

Lemma subscribe_to_journalist_spec (db : Database) (user : CustomUser.t)
    (j : Z) (jr : Journalist.t) :
  journalist_subscriptions_unique db ->
  find_pk Journalist.pk j (journalists db) = Some jr ->
  CustomUser.role user = Role.reader ->
  let r := CustomUser.pk user in
  let db1 := fst (subscribe_to_journalist db user j) in
  let response := snd (subscribe_to_journalist db user j) in
  (exists s, journalist_rows db1 r j = [s]
             /\ JournalistSubscription.is_active s = true)
  /\ (forall r' j', (r', j') <> (r, j) ->
        journalist_rows db1 r' j' = journalist_rows db r' j')
  /\ journalist_subscriptions_unique db1
  /\ db1 = set_journalist_subscriptions db (journalist_subscriptions db1)
  /\ (journalist_rows db r j = [] ->
      response = redirect_with messages.success successfully_subscribed
      /\ exists s, journalist_subscriptions db1
                   = journalist_subscriptions db ++ [s]
                   /\ JournalistSubscription.reader_id s = r
                   /\ JournalistSubscription.journalist_id s = j
                   /\ JournalistSubscription.is_active s = true)
  /\ (forall s, journalist_rows db r j = [s] ->
        JournalistSubscription.is_active s = false ->
        response = redirect_with messages.success re_subscribed
        /\ exists l1 l2,
             journalist_subscriptions db = l1 ++ s :: l2
             /\ journalist_subscriptions db1
                = l1 ++ JournalistSubscription.with_is_active s true :: l2)
  /\ (forall s, journalist_rows db r j = [s] ->
        JournalistSubscription.is_active s = true ->
        response = redirect_with messages.info already_subscribed
        /\ db1 = db)
  /\ subscribe_to_journalist db1 user j
     = (db1, redirect_with messages.info already_subscribed).
Proof.
  intros Hu Hj Hr r db1 response. subst r.
  assert (Hnoop1 : forall s,
             journalist_subscriptions_unique db1 ->
             journalists db1 = journalists db ->
             journalist_rows db1 (CustomUser.pk user) j = [s] ->
             JournalistSubscription.is_active s = true ->
             subscribe_to_journalist db1 user j
             = (db1, redirect_with messages.info already_subscribed)).
  { intros s _ Hjs Hrows Ha.
    apply (subscribe_to_journalist_noop db1 user j jr s);
      [now rewrite Hjs | assumption | assumption | assumption]. }
  subst db1 response. unfold subscribe_to_journalist in *.
  rewrite Hr, Hj in *. simpl negb in *. cbv iota in *.
  destruct (find_pk_Some _ _ _ _ Hj) as [_ Hpk]. rewrite Hpk in *.
  destruct (objects_get _ (journalist_subscriptions db)) as [|s|] eqn:Eg.
  - (* no row for the pair: one is created *)
    apply objects_get_DoesNotExist in Eg.
    set (new := JournalistSubscription.mk _ _ _ _) in *.
    destruct (pair_insert JournalistSubscription.pk
                JournalistSubscription.reader_id
                JournalistSubscription.journalist_id
                (journalist_subscriptions db) new (CustomUser.pk user) j Hu Eg
                eq_refl eq_refl eq_refl) as (Hu1 & Hrows1 & Hother).
    simpl fst in *. simpl snd.
    assert (Hex : exists s, journalist_rows
                    (set_journalist_subscriptions db
                       (journalist_subscriptions db ++ [new]))
                    (CustomUser.pk user) j = [s]
                  /\ JournalistSubscription.is_active s = true).
    { exists new. split; [exact Hrows1 | reflexivity]. }
    split; [exact Hex|].
    split; [exact Hother|].
    split; [exact Hu1|].
    split; [reflexivity|].
    split; [intros _; split; [reflexivity | exists new; repeat split]|].
    split.
    { intros s Hs. unfold journalist_rows, pair_rows in Hs.
      rewrite Eg in Hs. discriminate. }
    split.
    { intros s Hs. unfold journalist_rows, pair_rows in Hs.
      rewrite Eg in Hs. discriminate. }
    destruct Hex as [s [Hs Ha]].
    now apply (Hnoop1 s).
  - (* the row exists *)
    apply objects_get_Found in Eg.
    destruct (JournalistSubscription.is_active s) eqn:Ea; simpl negb;
      cbv iota; simpl fst in *; simpl snd.
    + (* active: nothing to do *)
      split; [now exists s|].
      split; [reflexivity|].
      split; [exact Hu|].
      split; [now rewrite set_journalist_subscriptions_same|].
      split.
      { intros Hs. unfold journalist_rows, pair_rows in Hs.
        rewrite Eg in Hs. discriminate. }
      split.
      { intros s0 Hs. unfold journalist_rows, pair_rows in Hs.
        rewrite Eg in Hs. injection Hs as <-. congruence. }
      split; [intros; split; reflexivity|].
      now apply (Hnoop1 s).
    + (* inactive: reactivated in place *)
      set (s' := JournalistSubscription.with_is_active s true) in *.
      destruct (pair_save JournalistSubscription.pk
                  JournalistSubscription.reader_id
                  JournalistSubscription.journalist_id
                  (journalist_subscriptions db) s s' (CustomUser.pk user) j Hu Eg
                  eq_refl eq_refl eq_refl)
        as (Hsplit & Hu1 & Hrows1 & Hother).
      assert (Hex : exists s0, journalist_rows
                      (set_journalist_subscriptions db
                         (save_row JournalistSubscription.pk s'
                            (journalist_subscriptions db)))
                      (CustomUser.pk user) j = [s0]
                    /\ JournalistSubscription.is_active s0 = true).
      { exists s'. split; [exact Hrows1 | reflexivity]. }
      split; [exact Hex|].
      split; [exact Hother|].
      split; [exact Hu1|].
      split; [reflexivity|].
      split.
      { intros Hs. unfold journalist_rows, pair_rows in Hs.
        rewrite Eg in Hs. discriminate. }
      split.
      { intros s0 Hs _. unfold journalist_rows, pair_rows in Hs.
        rewrite Eg in Hs. injection Hs as <-.
        split; [reflexivity | exact Hsplit]. }
      split.
      { intros s0 Hs. unfold journalist_rows, pair_rows in Hs.
        rewrite Eg in Hs. injection Hs as <-. congruence. }
      destruct Hex as [s0 [Hs Ha]].
      now apply (Hnoop1 s0).
  - exfalso. revert Eg. now apply pair_unique_not_Multiple with (pk := JournalistSubscription.pk).
Qed.

Lemma journalist_rows_follows (db : Database) (r j : Z) :
  follows_journalist db r j
  <-> exists s, In s (journalist_rows db r j)
                /\ JournalistSubscription.is_active s = true.
Proof.
  unfold follows_journalist, journalist_rows, pair_rows.
  split; intros [s H]; exists s.
  - destruct H as (Hin & Hr & Hj & Ha). split; [|assumption].
    apply filter_In. split; [assumption|]. now rewrite Hr, Hj, !Z.eqb_refl.
  - destruct H as [Hin Ha]. apply filter_In in Hin.
    destruct Hin as [Hin Hc]. apply andb_true_iff in Hc.
    rewrite !Z.eqb_eq in Hc. tauto.
Qed.

Lemma unsubscribe_from_journalist_spec (db : Database) (user : CustomUser.t)
    (j : Z) (jr : Journalist.t) :
  journalist_subscriptions_unique db ->
  find_pk Journalist.pk j (journalists db) = Some jr ->
  CustomUser.role user = Role.reader ->
  let r := CustomUser.pk user in
  let db1 := fst (unsubscribe_from_journalist db user j) in
  let response := snd (unsubscribe_from_journalist db user j) in
  (forall s, journalist_rows db r j = [s] ->
     JournalistSubscription.is_active s = true ->
     response = redirect_with messages.success successfully_unsubscribed
     /\ journalist_rows db1 r j
        = [JournalistSubscription.with_is_active s false]
     /\ exists l1 l2,
          journalist_subscriptions db = l1 ++ s :: l2
          /\ journalist_subscriptions db1
             = l1 ++ JournalistSubscription.with_is_active s false :: l2)
  /\ (~ follows_journalist db r j ->
      response = redirect_with messages.info not_subscribed /\ db1 = db)
  /\ (forall r' j', (r', j') <> (r, j) ->
        journalist_rows db1 r' j' = journalist_rows db r' j')
  /\ journalist_subscriptions_unique db1
  /\ ~ follows_journalist db1 r j
  /\ db1 = set_journalist_subscriptions db (journalist_subscriptions db1).
Proof.
  intros Hu Hj Hr r db1 response. subst r db1 response.
  unfold unsubscribe_from_journalist.
  rewrite Hr, Hj. simpl negb. cbv iota.
  destruct (find_pk_Some _ _ _ _ Hj) as [_ Hpk]. rewrite Hpk.
  unfold objects_get.
  rewrite (filter_andb
             (fun s => (JournalistSubscription.reader_id s
                        =? CustomUser.pk user)
                       && (JournalistSubscription.journalist_id s =? j))
             JournalistSubscription.is_active).
  assert (Hlen : (List.length (journalist_rows db (CustomUser.pk user) j)
                  <= 1)%nat) by apply Hu.
  pose proof (journalist_rows_follows db (CustomUser.pk user) j) as Hf.
  change (filter _ (journalist_subscriptions db))
    with (journalist_rows db (CustomUser.pk user) j).
  destruct (journalist_rows db (CustomUser.pk user) j) as [|s [|s2 t]] eqn:Er;
    [| |simpl in Hlen; lia].
  - (* no row at all *)
    simpl.
    split; [intros s Hs; discriminate|].
    split; [intros _; split; reflexivity|].
    split; [reflexivity|].
    split; [exact Hu|].
    split.
    { rewrite journalist_rows_follows, Er. intros [s [[] _]]. }
    now rewrite set_journalist_subscriptions_same.
  - simpl filter.
    destruct (JournalistSubscription.is_active s) eqn:Ea.
    + (* the active row is switched off in place *)
      simpl fst; simpl snd.
      set (s' := JournalistSubscription.with_is_active s false) in *.
      destruct (pair_save JournalistSubscription.pk
                  JournalistSubscription.reader_id
                  JournalistSubscription.journalist_id
                  (journalist_subscriptions db) s s' (CustomUser.pk user) j
                  Hu Er eq_refl eq_refl eq_refl)
        as (Hsplit & Hu1 & Hrows1 & Hother).
      split.
      { intros s0 Hs _. injection Hs as <-.
        split; [reflexivity|]. split; [exact Hrows1 | exact Hsplit]. }
      split.
      { intros Hn. exfalso. apply Hn, Hf. exists s. split; [now left|].
        assumption. }
      split; [exact Hother|].
      split; [exact Hu1|].
      split; [|reflexivity].
      rewrite journalist_rows_follows.
      unfold journalist_rows at 1. simpl journalist_subscriptions.
      rewrite Hrows1. intros [s0 [[<-|[]] Ha0]]. discriminate.
    + (* only an inactive row *)
      simpl.
      split; [intros s0 Hs Ha0; injection Hs as <-; congruence|].
      split; [intros _; split; reflexivity|].
      split; [reflexivity|].
      split; [exact Hu|].
      split.
      { rewrite journalist_rows_follows, Er.
        intros [s0 [[<-|[]] Ha0]]. congruence. }
      now rewrite set_journalist_subscriptions_same.
Qed.


(** Subscribing when the pair already has its active row changes
    nothing. *)
Lemma subscribe_to_publisher_noop (db : Database) (user : CustomUser.t)
    (p : Z) (pr : Publisher.t) (s : PublisherSubscription.t) :
  find_pk Publisher.pk p (publishers db) = Some pr ->
  CustomUser.role user = Role.reader ->
  publisher_rows db (CustomUser.pk user) p = [s] ->
  PublisherSubscription.is_active s = true ->
  subscribe_to_publisher db user p
  = (db, redirect_with messages.info already_subscribed).
Proof.
  intros Hp Hr Hrows Ha. unfold subscribe_to_publisher.
  rewrite Hr, Hp. simpl.
  destruct (find_pk_Some _ _ _ _ Hp) as [_ ->].
  unfold publisher_rows, pair_rows in Hrows.
  apply objects_get_Found in Hrows. rewrite Hrows, Ha. reflexivity.
Qed.

Lemma subscribe_to_publisher_spec (db : Database) (user : CustomUser.t)
    (p : Z) (pr : Publisher.t) :
  publisher_subscriptions_unique db ->
  find_pk Publisher.pk p (publishers db) = Some pr ->
  CustomUser.role user = Role.reader ->
  let r := CustomUser.pk user in
  let db1 := fst (subscribe_to_publisher db user p) in
  let response := snd (subscribe_to_publisher db user p) in
  (exists s, publisher_rows db1 r p = [s]
             /\ PublisherSubscription.is_active s = true)
  /\ (forall r' p', (r', p') <> (r, p) ->
        publisher_rows db1 r' p' = publisher_rows db r' p')
  /\ publisher_subscriptions_unique db1
  /\ db1 = set_publisher_subscriptions db (publisher_subscriptions db1)
  /\ (publisher_rows db r p = [] ->
      response = redirect_with messages.success successfully_subscribed
      /\ exists s, publisher_subscriptions db1
                   = publisher_subscriptions db ++ [s]
                   /\ PublisherSubscription.reader_id s = r
                   /\ PublisherSubscription.publisher_id s = p
                   /\ PublisherSubscription.is_active s = true)
  /\ (forall s, publisher_rows db r p = [s] ->
        PublisherSubscription.is_active s = false ->
        response = redirect_with messages.success re_subscribed
        /\ exists l1 l2,
             publisher_subscriptions db = l1 ++ s :: l2
             /\ publisher_subscriptions db1
                = l1 ++ PublisherSubscription.with_is_active s true :: l2)
  /\ (forall s, publisher_rows db r p = [s] ->
        PublisherSubscription.is_active s = true ->
        response = redirect_with messages.info already_subscribed
        /\ db1 = db)
  /\ subscribe_to_publisher db1 user p
     = (db1, redirect_with messages.info already_subscribed).
Proof.
  intros Hu Hp Hr r db1 response. subst r.
  assert (Hnoop1 : forall s,
             publisher_subscriptions_unique db1 ->
             publishers db1 = publishers db ->
             publisher_rows db1 (CustomUser.pk user) p = [s] ->
             PublisherSubscription.is_active s = true ->
             subscribe_to_publisher db1 user p
             = (db1, redirect_with messages.info already_subscribed)).
  { intros s _ Hps Hrows Ha.
    apply (subscribe_to_publisher_noop db1 user p pr s);
      [now rewrite Hps | assumption | assumption | assumption]. }
  subst db1 response. unfold subscribe_to_publisher in *.
  rewrite Hr, Hp in *. simpl negb in *. cbv iota in *.
  destruct (find_pk_Some _ _ _ _ Hp) as [_ Hpk]. rewrite Hpk in *.
  destruct (objects_get _ (publisher_subscriptions db)) as [|s|] eqn:Eg.
  - (* no row for the pair: one is created *)
    apply objects_get_DoesNotExist in Eg.
    set (new := PublisherSubscription.mk _ _ _ _) in *.
    destruct (pair_insert PublisherSubscription.pk
                PublisherSubscription.reader_id
                PublisherSubscription.publisher_id
                (publisher_subscriptions db) new (CustomUser.pk user) p Hu Eg
                eq_refl eq_refl eq_refl) as (Hu1 & Hrows1 & Hother).
    simpl fst in *. simpl snd.
    assert (Hex : exists s, publisher_rows
                    (set_publisher_subscriptions db
                       (publisher_subscriptions db ++ [new]))
                    (CustomUser.pk user) p = [s]
                  /\ PublisherSubscription.is_active s = true).
    { exists new. split; [exact Hrows1 | reflexivity]. }
    split; [exact Hex|].
    split; [exact Hother|].
    split; [exact Hu1|].
    split; [reflexivity|].
    split; [intros _; split; [reflexivity | exists new; repeat split]|].
    split.
    { intros s Hs. unfold publisher_rows, pair_rows in Hs.
      rewrite Eg in Hs. discriminate. }
    split.
    { intros s Hs. unfold publisher_rows, pair_rows in Hs.
      rewrite Eg in Hs. discriminate. }
    destruct Hex as [s [Hs Ha]].
    now apply (Hnoop1 s).
  - (* the row exists *)
    apply objects_get_Found in Eg.
    destruct (PublisherSubscription.is_active s) eqn:Ea; simpl negb;
      cbv iota; simpl fst in *; simpl snd.
    + (* active: nothing to do *)
      split; [now exists s|].
      split; [reflexivity|].
      split; [exact Hu|].
      split; [now rewrite set_publisher_subscriptions_same|].
      split.
      { intros Hs. unfold publisher_rows, pair_rows in Hs.
        rewrite Eg in Hs. discriminate. }
      split.
      { intros s0 Hs. unfold publisher_rows, pair_rows in Hs.
        rewrite Eg in Hs. injection Hs as <-. congruence. }
      split; [intros; split; reflexivity|].
      now apply (Hnoop1 s).
    + (* inactive: reactivated in place *)
      set (s' := PublisherSubscription.with_is_active s true) in *.
      destruct (pair_save PublisherSubscription.pk
                  PublisherSubscription.reader_id
                  PublisherSubscription.publisher_id
                  (publisher_subscriptions db) s s' (CustomUser.pk user) p Hu Eg
                  eq_refl eq_refl eq_refl)
        as (Hsplit & Hu1 & Hrows1 & Hother).
      assert (Hex : exists s0, publisher_rows
                      (set_publisher_subscriptions db
                         (save_row PublisherSubscription.pk s'
                            (publisher_subscriptions db)))
                      (CustomUser.pk user) p = [s0]
                    /\ PublisherSubscription.is_active s0 = true).
      { exists s'. split; [exact Hrows1 | reflexivity]. }
      split; [exact Hex|].
      split; [exact Hother|].
      split; [exact Hu1|].
      split; [reflexivity|].
      split.
      { intros Hs. unfold publisher_rows, pair_rows in Hs.
        rewrite Eg in Hs. discriminate. }
      split.
      { intros s0 Hs _. unfold publisher_rows, pair_rows in Hs.
        rewrite Eg in Hs. injection Hs as <-.
        split; [reflexivity | exact Hsplit]. }
      split.
      { intros s0 Hs. unfold publisher_rows, pair_rows in Hs.
        rewrite Eg in Hs. injection Hs as <-. congruence. }
      destruct Hex as [s0 [Hs Ha]].
      now apply (Hnoop1 s0).
  - exfalso. revert Eg. now apply pair_unique_not_Multiple with (pk := PublisherSubscription.pk).
Qed.

Lemma publisher_rows_follows (db : Database) (r p : Z) :
  follows_publisher db r p
  <-> exists s, In s (publisher_rows db r p)
                /\ PublisherSubscription.is_active s = true.
Proof.
  unfold follows_publisher, publisher_rows, pair_rows.
  split; intros [s H]; exists s.
  - destruct H as (Hin & Hr & Hp & Ha). split; [|assumption].
    apply filter_In. split; [assumption|]. now rewrite Hr, Hp, !Z.eqb_refl.
  - destruct H as [Hin Ha]. apply filter_In in Hin.
    destruct Hin as [Hin Hc]. apply andb_true_iff in Hc.
    rewrite !Z.eqb_eq in Hc. tauto.
Qed.

Lemma unsubscribe_from_publisher_spec (db : Database) (user : CustomUser.t)
    (p : Z) (pr : Publisher.t) :
  publisher_subscriptions_unique db ->
  find_pk Publisher.pk p (publishers db) = Some pr ->
  CustomUser.role user = Role.reader ->
  let r := CustomUser.pk user in
  let db1 := fst (unsubscribe_from_publisher db user p) in
  let response := snd (unsubscribe_from_publisher db user p) in
  (forall s, publisher_rows db r p = [s] ->
     PublisherSubscription.is_active s = true ->
     response = redirect_with messages.success successfully_unsubscribed
     /\ publisher_rows db1 r p
        = [PublisherSubscription.with_is_active s false]
     /\ exists l1 l2,
          publisher_subscriptions db = l1 ++ s :: l2
          /\ publisher_subscriptions db1
             = l1 ++ PublisherSubscription.with_is_active s false :: l2)
  /\ (~ follows_publisher db r p ->
      response = redirect_with messages.info not_subscribed /\ db1 = db)
  /\ (forall r' p', (r', p') <> (r, p) ->
        publisher_rows db1 r' p' = publisher_rows db r' p')
  /\ publisher_subscriptions_unique db1
  /\ ~ follows_publisher db1 r p
  /\ db1 = set_publisher_subscriptions db (publisher_subscriptions db1).
Proof.
  intros Hu Hp Hr r db1 response. subst r db1 response.
  unfold unsubscribe_from_publisher.
  rewrite Hr, Hp. simpl negb. cbv iota.
  destruct (find_pk_Some _ _ _ _ Hp) as [_ Hpk]. rewrite Hpk.
  unfold objects_get.
  rewrite (filter_andb
             (fun s => (PublisherSubscription.reader_id s
                        =? CustomUser.pk user)
                       && (PublisherSubscription.publisher_id s =? p))
             PublisherSubscription.is_active).
  assert (Hlen : (List.length (publisher_rows db (CustomUser.pk user) p)
                  <= 1)%nat) by apply Hu.
  pose proof (publisher_rows_follows db (CustomUser.pk user) p) as Hf.
  change (filter _ (publisher_subscriptions db))
    with (publisher_rows db (CustomUser.pk user) p).
  destruct (publisher_rows db (CustomUser.pk user) p) as [|s [|s2 t]] eqn:Er;
    [| |simpl in Hlen; lia].
  - (* no row at all *)
    simpl.
    split; [intros s Hs; discriminate|].
    split; [intros _; split; reflexivity|].
    split; [reflexivity|].
    split; [exact Hu|].
    split.
    { rewrite publisher_rows_follows, Er. intros [s [[] _]]. }
    now rewrite set_publisher_subscriptions_same.
  - simpl filter.
    destruct (PublisherSubscription.is_active s) eqn:Ea.
    + (* the active row is switched off in place *)
      simpl fst; simpl snd.
      set (s' := PublisherSubscription.with_is_active s false) in *.
      destruct (pair_save PublisherSubscription.pk
                  PublisherSubscription.reader_id
                  PublisherSubscription.publisher_id
                  (publisher_subscriptions db) s s' (CustomUser.pk user) p
                  Hu Er eq_refl eq_refl eq_refl)
        as (Hsplit & Hu1 & Hrows1 & Hother).
      split.
      { intros s0 Hs _. injection Hs as <-.
        split; [reflexivity|]. split; [exact Hrows1 | exact Hsplit]. }
      split.
      { intros Hn. exfalso. apply Hn, Hf. exists s. split; [now left|].
        assumption. }
      split; [exact Hother|].
      split; [exact Hu1|].
      split; [|reflexivity].
      rewrite publisher_rows_follows.
      unfold publisher_rows at 1. simpl publisher_subscriptions.
      rewrite Hrows1. intros [s0 [[<-|[]] Ha0]]. discriminate.
    + (* only an inactive row *)
      simpl.
      split; [intros s0 Hs Ha0; injection Hs as <-; congruence|].
      split; [intros _; split; reflexivity|].
      split; [reflexivity|].
      split; [exact Hu|].
      split.
      { rewrite publisher_rows_follows, Er.
        intros [s0 [[<-|[]] Ha0]]. congruence. }
      now rewrite set_publisher_subscriptions_same.
Qed.


Lemma subscription_views_need_reader (db : Database) (user : CustomUser.t)
    (k : Z) :
  CustomUser.role user <> Role.reader ->
  subscribe_to_journalist db user k
  = (db, redirect_with messages.error only_readers_can_subscribe)
  /\ unsubscribe_from_journalist db user k
     = (db, redirect_with messages.error
              only_readers_can_manage_subscriptions)
  /\ subscribe_to_publisher db user k
     = (db, redirect_with messages.error only_readers_can_subscribe)
  /\ unsubscribe_from_publisher db user k
     = (db, redirect_with messages.error
              only_readers_can_manage_subscriptions).
Proof.
  intros H. apply Role_eqb_neq in H.
  unfold subscribe_to_journalist, unsubscribe_from_journalist,
    subscribe_to_publisher, unsubscribe_from_publisher.
  rewrite H. simpl. repeat split.
Qed.

(** C5.  For a reader and an existing journalist, on a table that meets
    its uniqueness constraints: [subscribe] adds one active row when the
    pair has none, switches the row on again in place when it is inactive,
    and changes nothing when it is active; after one call, and so after
    two, the pair has exactly one row, which is active, and no pair ever
    has a second row.  [unsubscribe] switches an active row off in place
    and, when the pair has no active row, changes nothing and answers "not
    subscribed" without raising.  The same holds for publishers.  For a
    caller who is not a reader all four views answer with the permission
    error and change nothing. *)
Theorem subscription_toggle_spec (db : Database) (user : CustomUser.t) :
  (forall j jr,
      journalist_subscriptions_unique db ->
      find_pk Journalist.pk j (journalists db) = Some jr ->
      CustomUser.role user = Role.reader ->
      let r := CustomUser.pk user in
      let once := fst (subscribe_to_journalist db user j) in
      let twice := fst (subscribe_to_journalist once user j) in
      let off := unsubscribe_from_journalist db user j in
      (journalist_rows db r j = [] ->
       exists s, journalist_subscriptions once
                 = journalist_subscriptions db ++ [s]
                 /\ JournalistSubscription.reader_id s = r
                 /\ JournalistSubscription.journalist_id s = j
                 /\ JournalistSubscription.is_active s = true)
      /\ (forall s, journalist_rows db r j = [s] ->
            JournalistSubscription.is_active s = false ->
            exists l1 l2,
              journalist_subscriptions db = l1 ++ s :: l2
              /\ journalist_subscriptions once
                 = l1 ++ JournalistSubscription.with_is_active s true :: l2)
      /\ (forall s, journalist_rows db r j = [s] ->
            JournalistSubscription.is_active s = true -> once = db)
      /\ twice = once
      /\ (exists s, journalist_rows twice r j = [s]
                    /\ JournalistSubscription.is_active s = true)
      /\ journalist_subscriptions_unique once
      /\ (forall s, journalist_rows db r j = [s] ->
            JournalistSubscription.is_active s = true ->
            exists l1 l2,
              journalist_subscriptions db = l1 ++ s :: l2
              /\ journalist_subscriptions (fst off)
                 = l1 ++ JournalistSubscription.with_is_active s false :: l2)
      /\ (~ follows_journalist db r j ->
          off = (db, redirect_with messages.info not_subscribed)))
  /\ (forall p pr,
      publisher_subscriptions_unique db ->
      find_pk Publisher.pk p (publishers db) = Some pr ->
      CustomUser.role user = Role.reader ->
      let r := CustomUser.pk user in
      let once := fst (subscribe_to_publisher db user p) in
      let twice := fst (subscribe_to_publisher once user p) in
      let off := unsubscribe_from_publisher db user p in
      (publisher_rows db r p = [] ->
       exists s, publisher_subscriptions once
                 = publisher_subscriptions db ++ [s]
                 /\ PublisherSubscription.reader_id s = r
                 /\ PublisherSubscription.publisher_id s = p
                 /\ PublisherSubscription.is_active s = true)
      /\ (forall s, publisher_rows db r p = [s] ->
            PublisherSubscription.is_active s = false ->
            exists l1 l2,
              publisher_subscriptions db = l1 ++ s :: l2
              /\ publisher_subscriptions once
                 = l1 ++ PublisherSubscription.with_is_active s true :: l2)
      /\ (forall s, publisher_rows db r p = [s] ->
            PublisherSubscription.is_active s = true -> once = db)
      /\ twice = once
      /\ (exists s, publisher_rows twice r p = [s]
                    /\ PublisherSubscription.is_active s = true)
      /\ publisher_subscriptions_unique once
      /\ (forall s, publisher_rows db r p = [s] ->
            PublisherSubscription.is_active s = true ->
            exists l1 l2,
              publisher_subscriptions db = l1 ++ s :: l2
              /\ publisher_subscriptions (fst off)
                 = l1 ++ PublisherSubscription.with_is_active s false :: l2)
      /\ (~ follows_publisher db r p ->
          off = (db, redirect_with messages.info not_subscribed)))
  /\ (CustomUser.role user <> Role.reader ->
      forall k,
        subscribe_to_journalist db user k
        = (db, redirect_with messages.error only_readers_can_subscribe)
        /\ unsubscribe_from_journalist db user k
           = (db, redirect_with messages.error
                    only_readers_can_manage_subscriptions)
        /\ subscribe_to_publisher db user k
           = (db, redirect_with messages.error only_readers_can_subscribe)
        /\ unsubscribe_from_publisher db user k
           = (db, redirect_with messages.error
                    only_readers_can_manage_subscriptions)).
Proof.
  split; [|split].
  - intros j jr Hu Hj Hr r once twice off.
    destruct (subscribe_to_journalist_spec db user j jr Hu Hj Hr)
      as (Hex & _ & Hu1 & _ & Hnew & Hre & Hact & Htwice).
    destruct (unsubscribe_from_journalist_spec db user j jr Hu Hj Hr)
      as (Hoff & Hnone & _).
    fold r once in Hex, Hu1, Hnew, Hre, Hact, Htwice.
    fold r off in Hoff, Hnone.
    assert (Et : twice = once) by (subst twice; now rewrite Htwice).
    split; [intros He; apply (Hnew He)|].
    split; [intros s Hs Ha; apply (Hre s Hs Ha)|].
    split; [intros s Hs Ha; apply (Hact s Hs Ha)|].
    split; [exact Et|].
    split; [now rewrite Et|].
    split; [exact Hu1|].
    split; [intros s Hs Ha; apply (Hoff s Hs Ha)|].
    intros Hn. destruct (Hnone Hn) as [E1 E2].
    rewrite (surjective_pairing off). now rewrite E1, E2.
  - intros p pr Hu Hp Hr r once twice off.
    destruct (subscribe_to_publisher_spec db user p pr Hu Hp Hr)
      as (Hex & _ & Hu1 & _ & Hnew & Hre & Hact & Htwice).
    destruct (unsubscribe_from_publisher_spec db user p pr Hu Hp Hr)
      as (Hoff & Hnone & _).
    fold r once in Hex, Hu1, Hnew, Hre, Hact, Htwice.
    fold r off in Hoff, Hnone.
    assert (Et : twice = once) by (subst twice; now rewrite Htwice).
    split; [intros He; apply (Hnew He)|].
    split; [intros s Hs Ha; apply (Hre s Hs Ha)|].
    split; [intros s Hs Ha; apply (Hact s Hs Ha)|].
    split; [exact Et|].
    split; [now rewrite Et|].
    split; [exact Hu1|].
    split; [intros s Hs Ha; apply (Hoff s Hs Ha)|].
    intros Hn. destruct (Hnone Hn) as [E1 E2].
    rewrite (surjective_pairing off). now rewrite E1, E2.
  - intros Hr k. now apply subscription_views_need_reader.
Qed.

(** C5 on the sample newsroom, whose subscription tables meet their
    constraints: erin subscribes twice to bob, and twice to Acme, and each
    pair ends with one active row. *)
Lemma subscription_toggle_spec_witness :
  journalist_subscriptions_unique Sample.db
  /\ publisher_subscriptions_unique Sample.db
  /\ (exists s,
         journalist_rows
           (fst (subscribe_to_journalist
                   (fst (subscribe_to_journalist Sample.db Sample.erin 1))
                   Sample.erin 1)) 5 1 = [s]
         /\ JournalistSubscription.is_active s = true)
  /\ (exists s,
         publisher_rows
           (fst (subscribe_to_publisher
                   (fst (subscribe_to_publisher Sample.db Sample.erin 1))
                   Sample.erin 1)) 5 1 = [s]
         /\ PublisherSubscription.is_active s = true).
Proof.
  assert (Hj : journalist_subscriptions_unique Sample.db).
  { split; [simpl; repeat constructor; simpl; tauto|].
    intros r t. unfold pair_rows. simpl.
    match goal with |- context [if ?b then _ else _] => destruct b end;
      simpl; lia. }
  assert (Hp : publisher_subscriptions_unique Sample.db).
  { split; [simpl; repeat constructor; simpl; tauto|].
    intros r t. unfold pair_rows. simpl.
    match goal with |- context [if ?b then _ else _] => destruct b end;
      simpl; lia. }
  split; [exact Hj|]. split; [exact Hp|].
  destruct (subscription_toggle_spec Sample.db Sample.erin) as (HJ & HP & _).
  split.
  - apply (HJ 1 (Journalist.mk 1 2 1) Hj eq_refl eq_refl).
  - apply (HP 1 Sample.acme Hp eq_refl eq_refl).
Defined.

(** ** Roles and subscriptions *)

Section SaveFacts.
Context {A : Type}.
Variables (pk : A -> Z) (with_pk : A -> Z -> A).
Hypothesis pk_with_pk : forall x k, pk (with_pk x k) = k.

Lemma existsb_find_pk (k : Z) (l : list A) :
  existsb (fun r => pk r =? k) l = true <-> exists x, find_pk pk k l = Some x.
Proof.
  unfold find_pk. split.
  - intros H. apply existsb_exists in H. destruct H as [x [Hin He]].
    destruct (find (fun r => pk r =? k) l) eqn:E; [now eexists|].
    apply (find_none _ _ E) in Hin. congruence.
  - intros [x H]. apply find_some in H. apply existsb_exists. now exists x.
Qed.

Lemma save_row_In (x u : A) (l : list A) :
  In u (save_row pk x l) -> u = x \/ (In u l /\ pk u <> pk x).
Proof.
  unfold save_row, update_where. rewrite in_map_iff.
  intros [r [He Hin]]. destruct (pk r =? pk x) eqn:E.
  - now left.
  - right. subst u. apply Z.eqb_neq in E. auto.
Qed.

Lemma save_row_find_pk (x old : A) (l : list A) :
  find_pk pk (pk x) l = Some old ->
  find_pk pk (pk x) (save_row pk x l) = Some x.
Proof.
  unfold find_pk, save_row, update_where.
  induction l as [|y l IH]; simpl; [discriminate|].
  destruct (pk y =? pk x) eqn:E; simpl.
  - now rewrite Z.eqb_refl.
  - rewrite E. exact IH.
Qed.

Lemma save_row_find_pk_other (x : A) (k : Z) (l : list A) :
  k <> pk x -> find_pk pk k (save_row pk x l) = find_pk pk k l.
Proof.
  intros Hk. unfold find_pk, save_row, update_where.
  induction l as [|y l IH]; simpl; [reflexivity|].
  destruct (pk y =? pk x) eqn:E.
  - apply Z.eqb_eq in E.
    assert (E1 : (pk x =? k) = false) by (apply Z.eqb_neq; congruence).
    assert (E2 : (pk y =? k) = false) by (apply Z.eqb_neq; congruence).
    now rewrite E1, E2.
  - destruct (pk y =? k); [reflexivity | exact IH].
Qed.

(** The three ways [save] writes an instance. *)
Lemma save_instance_cases (x : A) (l : list A) :
  (pk x = 0 /\ save_instance pk with_pk x l
               = l ++ [with_pk x (next_pk pk l)])
  \/ (pk x <> 0 /\ (exists old, find_pk pk (pk x) l = Some old)
      /\ save_instance pk with_pk x l = save_row pk x l)
  \/ (pk x <> 0 /\ find_pk pk (pk x) l = None
      /\ save_instance pk with_pk x l = l ++ [x]).
Proof.
  unfold save_instance. destruct (pk x =? 0) eqn:E0.
  - left. apply Z.eqb_eq in E0. auto.
  - right. apply Z.eqb_neq in E0.
    destruct (existsb (fun r => pk r =? pk x) l) eqn:Ee.
    + left. apply existsb_find_pk in Ee. auto.
    + right. split; [assumption|]. split; [|reflexivity].
      destruct (find_pk pk (pk x) l) eqn:Ef; [|reflexivity].
      assert (H : existsb (fun r => pk r =? pk x) l = true)
        by (apply existsb_find_pk; eexists; exact Ef).
      congruence.
Qed.

Lemma save_instance_NoDup (x : A) (l : list A) :
  NoDup (map pk l) -> NoDup (map pk (save_instance pk with_pk x l)).
Proof.
  intros Hd.
  destruct (save_instance_cases x l)
    as [[_ ->]|[(_ & _ & ->)|(_ & Hn & ->)]].
  - apply NoDup_pk_insert; [assumption | apply pk_with_pk].
  - now rewrite save_row_pks.
  - rewrite map_app. simpl.
    apply Permutation_NoDup with (l := pk x :: map pk l);
      [apply Permutation_cons_append|].
    constructor; [|assumption].
    rewrite in_map_iff. intros [r [He Hin]].
    now apply (find_pk_None pk _ _ Hn r Hin).
Qed.

Lemma save_instance_keeps_pks (x : A) (l : list A) (k : Z) :
  In k (map pk l) -> In k (map pk (save_instance pk with_pk x l)).
Proof.
  intros Hin.
  destruct (save_instance_cases x l)
    as [[_ ->]|[(_ & _ & ->)|(_ & _ & ->)]].
  - rewrite map_app, in_app_iff. now left.
  - now rewrite save_row_pks.
  - rewrite map_app, in_app_iff. now left.
Qed.
End SaveFacts.

Lemma deactivate_journalist_table (db : Database) (u : CustomUser.t) :
  journalist_subscriptions (deactivate_journalist_subscriptions db u)
  = journalist_rows_off (CustomUser.pk u) (journalist_subscriptions db).
Proof.
  unfold deactivate_journalist_subscriptions, update_where,
    journalist_rows_off. simpl.
  apply map_ext. intros [k r j a]; simpl.
  destruct (r =? CustomUser.pk u); [|reflexivity].
  now destruct a.
Qed.

Lemma deactivate_publisher_table (db : Database) (u : CustomUser.t) :
  publisher_subscriptions (deactivate_publisher_subscriptions db u)
  = publisher_rows_off (CustomUser.pk u) (publisher_subscriptions db).
Proof.
  unfold deactivate_publisher_subscriptions, update_where,
    publisher_rows_off. simpl.
  apply map_ext. intros [k r p a]; simpl.
  destruct (r =? CustomUser.pk u); [|reflexivity].
  now destruct a.
Qed.

Lemma deactivate_journalist_follows (db : Database) (u : CustomUser.t)
    (r j : Z) :
  follows_journalist (deactivate_journalist_subscriptions db u) r j
  <-> follows_journalist db r j /\ r <> CustomUser.pk u.
Proof.
  unfold follows_journalist. rewrite deactivate_journalist_table.
  unfold journalist_rows_off. split.
  - intros [s (Hin & Hr & Hj & Ha)]. apply in_map_iff in Hin.
    destruct Hin as [s0 [He Hin]].
    destruct (JournalistSubscription.reader_id s0 =? CustomUser.pk u) eqn:E.
    + subst s. discriminate.
    + subst s0. apply Z.eqb_neq in E. split; [now exists s | congruence].
  - intros [[s (Hin & Hr & Hj & Ha)] Hne]. exists s.
    split; [|auto]. apply in_map_iff. exists s. split; [|assumption].
    assert (E : (JournalistSubscription.reader_id s =? CustomUser.pk u)
                = false) by (apply Z.eqb_neq; congruence).
    now rewrite E.
Qed.

Lemma deactivate_publisher_follows (db : Database) (u : CustomUser.t)
    (r p : Z) :
  follows_publisher (deactivate_publisher_subscriptions db u) r p
  <-> follows_publisher db r p /\ r <> CustomUser.pk u.
Proof.
  unfold follows_publisher. rewrite deactivate_publisher_table.
  unfold publisher_rows_off. split.
  - intros [s (Hin & Hr & Hj & Ha)]. apply in_map_iff in Hin.
    destruct Hin as [s0 [He Hin]].
    destruct (PublisherSubscription.reader_id s0 =? CustomUser.pk u) eqn:E.
    + subst s. discriminate.
    + subst s0. apply Z.eqb_neq in E. split; [now exists s | congruence].
  - intros [[s (Hin & Hr & Hj & Ha)] Hne]. exists s.
    split; [|auto]. apply in_map_iff. exists s. split; [|assumption].
    assert (E : (PublisherSubscription.reader_id s =? CustomUser.pk u)
                = false) by (apply Z.eqb_neq; congruence).
    now rewrite E.
Qed.

(** The invariant reads the users and the two subscription tables only. *)
Lemma no_active_subscription_ext (db db' : Database) (k : Z) :
  journalist_subscriptions db' = journalist_subscriptions db ->
  publisher_subscriptions db' = publisher_subscriptions db ->
  no_active_subscription db k -> no_active_subscription db' k.
Proof.
  unfold no_active_subscription, follows_journalist, follows_publisher.
  intros -> ->. exact (fun H => H).
Qed.

Lemma subscription_invariant_ext (db db' : Database) :
  users db' = users db ->
  journalist_subscriptions db' = journalist_subscriptions db ->
  publisher_subscriptions db' = publisher_subscriptions db ->
  subscription_invariant db -> subscription_invariant db'.
Proof.
  unfold subscription_invariant, subscribers_exist, only_readers_subscribe,
    no_active_subscription, follows_journalist, follows_publisher.
  intros -> -> ->. exact (fun H => H).
Qed.

Lemma deactivate_journalist_no_active (db : Database) (u : CustomUser.t)
    (k : Z) :
  no_active_subscription db k ->
  no_active_subscription (deactivate_journalist_subscriptions db u) k.
Proof.
  intros [Hj Hp]. split.
  - intros j H. apply deactivate_journalist_follows in H. now apply (Hj j).
  - exact Hp.
Qed.

Lemma deactivate_publisher_no_active (db : Database) (u : CustomUser.t)
    (k : Z) :
  no_active_subscription db k ->
  no_active_subscription (deactivate_publisher_subscriptions db u) k.
Proof.
  intros [Hj Hp]. split.
  - exact Hj.
  - intros p H. apply deactivate_publisher_follows in H. now apply (Hp p).
Qed.

(** After both updates the user holds no active subscription. *)
Lemma deactivated_no_active (db : Database) (u : CustomUser.t) :
  no_active_subscription
    (deactivate_publisher_subscriptions
       (deactivate_journalist_subscriptions db u) u)
    (CustomUser.pk u).
Proof.
  split.
  - intros j H.
    change (follows_journalist (deactivate_journalist_subscriptions db u)
              (CustomUser.pk u) j) in H.
    apply deactivate_journalist_follows in H. now destruct H.
  - intros p H. apply deactivate_publisher_follows in H. now destruct H.
Qed.

Lemma deactivate_journalist_invariant (db : Database) (u : CustomUser.t) :
  subscription_invariant db ->
  subscription_invariant (deactivate_journalist_subscriptions db u).
Proof.
  intros (Hd & [Hej Hep] & Hro). split; [exact Hd|]. split; [split|].
  - intros s Hin. rewrite deactivate_journalist_table in Hin.
    unfold journalist_rows_off in Hin. apply in_map_iff in Hin. destruct Hin as [s0 [He Hin]].
    destruct (Hej s0 Hin) as [v [Hv Hpk]]. exists v. split; [exact Hv|].
    subst s. now destruct (_ =? _).
  - exact Hep.
  - intros v Hv Hr. apply deactivate_journalist_no_active.
    now apply Hro.
Qed.

Lemma deactivate_publisher_invariant (db : Database) (u : CustomUser.t) :
  subscription_invariant db ->
  subscription_invariant (deactivate_publisher_subscriptions db u).
Proof.
  intros (Hd & [Hej Hep] & Hro). split; [exact Hd|]. split; [split|].
  - exact Hej.
  - intros s Hin. rewrite deactivate_publisher_table in Hin.
    unfold publisher_rows_off in Hin. apply in_map_iff in Hin. destruct Hin as [s0 [He Hin]].
    destruct (Hep s0 Hin) as [v [Hv Hpk]]. exists v. split; [exact Hv|].
    subst s. now destruct (_ =? _).
  - intros v Hv Hr. apply deactivate_publisher_no_active.
    now apply Hro.
Qed.

Lemma unknown_user_no_active (db : Database) (k : Z) :
  subscribers_exist db -> ~ In k (map CustomUser.pk (users db)) ->
  no_active_subscription db k.
Proof.
  intros [Hej Hep] Hn. split.
  - intros j [s (Hin & Hr & _)]. destruct (Hej s Hin) as [v [Hv Hpk]].
    apply Hn. rewrite <- Hr, <- Hpk. now apply in_map.
  - intros p [s (Hin & Hr & _)]. destruct (Hep s Hin) as [v [Hv Hpk]].
    apply Hn. rewrite <- Hr, <- Hpk. now apply in_map.
Qed.

Lemma CustomUser_pk_with_pk (x : CustomUser.t) (k : Z) :
  CustomUser.pk (CustomUser.with_pk x k) = k.
Proof. reflexivity. Qed.

(** [save] either only writes the user table, or writes it and
    deactivates the subscriptions of the user; the latter exactly when a
    stored reader leaves the reader role. *)
Lemma CustomUser_save_cases (db : Database) (self : CustomUser.t) :
  let written :=
    set_users db
      (save_instance CustomUser.pk CustomUser.with_pk self (users db)) in
  (CustomUser_save db self = _deactivate_subscriptions written self
   /\ CustomUser.pk self <> 0
   /\ CustomUser.role self <> Role.reader
   /\ exists old, find_pk CustomUser.pk (CustomUser.pk self) (users db)
                  = Some old
                  /\ CustomUser.role old = Role.reader)
  \/ (CustomUser_save db self = written
      /\ forall old,
           CustomUser.pk self <> 0 ->
           find_pk CustomUser.pk (CustomUser.pk self) (users db) = Some old ->
           CustomUser.role old = Role.reader ->
           CustomUser.role self = Role.reader).
Proof.
  intros written. unfold CustomUser_save. fold written.
  destruct (CustomUser.pk self =? 0) eqn:E0.
  - right. simpl. split; [reflexivity|].
    apply Z.eqb_eq in E0. intros; contradiction.
  - apply Z.eqb_neq in E0.
    destruct (find_pk CustomUser.pk (CustomUser.pk self) (users db))
      as [old|] eqn:Ef.
    + destruct (Role.eqb (CustomUser.role old) Role.reader) eqn:Eo.
      * apply Role_eqb_eq in Eo.
        destruct (Role.eqb (CustomUser.role self) Role.reader) eqn:Es.
        -- right. rewrite !andb_false_r. split; [reflexivity|].
           intros; now apply Role_eqb_eq.
        -- left. apply Role_eqb_neq in Es.
           assert (Ec : Role.eqb (CustomUser.role old) (CustomUser.role self)
                        = false) by (apply Role_eqb_neq; congruence).
           rewrite Ec. simpl. repeat split; try assumption.
           now exists old.
      * right. rewrite andb_false_r. simpl. split; [reflexivity|].
        intros old' _ Hold Hr. injection Hold as <-.
        apply Role_eqb_neq in Eo. contradiction.
    + right. simpl. split; [reflexivity|]. intros; discriminate.
Qed.

Lemma CustomUser_save_invariant (db : Database) (self : CustomUser.t) :
  subscription_invariant db -> subscription_invariant (CustomUser_save db self).
Proof.
  intros (Hd & Hex & Hro).
  set (written := set_users db
         (save_instance CustomUser.pk CustomUser.with_pk self (users db))).
  assert (Hw : subscription_invariant written
               \/ (CustomUser.role self <> Role.reader
                   /\ CustomUser.pk self <> 0
                   /\ (exists old,
                          find_pk CustomUser.pk (CustomUser.pk self) (users db)
                          = Some old /\ CustomUser.role old = Role.reader)
                   /\ NoDup (map CustomUser.pk (users written))
                   /\ subscribers_exist written
                   /\ forall v, In v (users written) ->
                        CustomUser.role v <> Role.reader ->
                        v <> self ->
                        no_active_subscription written (CustomUser.pk v))).
  { assert (Hd' : NoDup (map CustomUser.pk (users written))).
    { apply save_instance_NoDup;
        [apply CustomUser_pk_with_pk | assumption]. }
    assert (Hex' : subscribers_exist written).
    { destruct Hex as [Hej Hep]. split; intros s Hin.
      - destruct (Hej s Hin) as [v [Hv Hpk]].
        assert (Hk : In (JournalistSubscription.reader_id s)
                        (map CustomUser.pk (users written))).
        { apply save_instance_keeps_pks. rewrite <- Hpk. now apply in_map. }
        apply in_map_iff in Hk. destruct Hk as [v' [Hpk' Hv']]. now exists v'.
      - destruct (Hep s Hin) as [v [Hv Hpk]].
        assert (Hk : In (PublisherSubscription.reader_id s)
                        (map CustomUser.pk (users written))).
        { apply save_instance_keeps_pks. rewrite <- Hpk. now apply in_map. }
        apply in_map_iff in Hk. destruct Hk as [v' [Hpk' Hv']]. now exists v'. }
    assert (Hold : forall v, In v (users db) ->
                     CustomUser.role v <> Role.reader ->
                     no_active_subscription written (CustomUser.pk v)).
    { intros v Hv Hr. apply (no_active_subscription_ext db); try reflexivity.
      now apply Hro. }
    assert (Hnew : forall k, ~ In k (map CustomUser.pk (users db)) ->
                     no_active_subscription written k).
    { intros k Hk. apply (no_active_subscription_ext db); try reflexivity.
      now apply unknown_user_no_active. }
    destruct (save_instance_cases CustomUser.pk CustomUser.with_pk self
                (users db)) as [[E0 Es]|[(E0 & [old Eo] & Es)|(E0 & En & Es)]].
    - (* a new user under a fresh key *)
      left. split; [exact Hd'|]. split; [exact Hex'|].
      intros v Hv Hr. simpl in Hv. rewrite Es in Hv.
      apply in_app_iff in Hv. destruct Hv as [Hv|[<-|[]]].
      + now apply Hold.
      + apply Hnew. simpl. apply next_pk_fresh.
    - (* the stored row is overwritten *)
      destruct (Role.eqb (CustomUser.role self) Role.reader) eqn:Er;
        [apply Role_eqb_eq in Er | apply Role_eqb_neq in Er].
      + left. split; [exact Hd'|]. split; [exact Hex'|].
        intros v Hv Hr. simpl in Hv. rewrite Es in Hv.
        apply save_row_In in Hv. destruct Hv as [->|[Hv _]];
          [contradiction | now apply Hold].
      + destruct (find_pk_Some _ _ _ _ Eo) as [Hoin Hopk].
        destruct (Role.eqb (CustomUser.role old) Role.reader) eqn:Eor;
          [apply Role_eqb_eq in Eor | apply Role_eqb_neq in Eor].
        * right. split; [exact Er|]. split; [exact E0|].
          split; [now exists old|]. split; [exact Hd'|].
          split; [exact Hex'|].
          intros v Hv Hr Hne. simpl in Hv. rewrite Es in Hv.
          apply save_row_In in Hv. destruct Hv as [->|[Hv _]];
            [contradiction | now apply Hold].
        * left. split; [exact Hd'|]. split; [exact Hex'|].
          intros v Hv Hr. simpl in Hv. rewrite Es in Hv.
          apply save_row_In in Hv. destruct Hv as [->|[Hv _]].
          -- rewrite <- Hopk. now apply Hold.
          -- now apply Hold.
    - (* a new user under its own key *)
      left. split; [exact Hd'|]. split; [exact Hex'|].
      intros v Hv Hr. simpl in Hv. rewrite Es in Hv.
      apply in_app_iff in Hv. destruct Hv as [Hv|[<-|[]]].
      + now apply Hold.
      + apply Hnew. rewrite in_map_iff. intros [w [Hpk Hw]].
        now apply (find_pk_None _ _ _ En w Hw). }
  destruct (CustomUser_save_cases db self)
    as [(-> & _ & _ & _)|[-> Hkeep]]; fold written.
  - (* subscriptions deactivated *)
    unfold _deactivate_subscriptions.
    destruct Hw as [Hw|(Hr & E0 & Hold & Hd' & Hex' & Hrest)].
    + now apply deactivate_publisher_invariant,
        deactivate_journalist_invariant.
    + split; [exact Hd'|]. split.
      * assert (Hi : subscription_invariant written
                     -> subscribers_exist
                          (deactivate_publisher_subscriptions
                             (deactivate_journalist_subscriptions written self)
                             self)).
        { intros Hi.
          now apply deactivate_publisher_invariant,
            deactivate_journalist_invariant. }
        destruct Hex' as [Hej Hep]. split; intros s Hin.
        -- simpl in Hin.
           change (In s (journalist_subscriptions
                           (deactivate_journalist_subscriptions written self)))
             in Hin.
           rewrite deactivate_journalist_table in Hin.
           unfold journalist_rows_off in Hin. apply in_map_iff in Hin. destruct Hin as [s0 [He Hin]].
           destruct (Hej s0 Hin) as [v [Hv Hpk]]. exists v.
           split; [exact Hv|]. subst s. now destruct (_ =? _).
        -- rewrite deactivate_publisher_table in Hin.
           unfold publisher_rows_off in Hin. apply in_map_iff in Hin. destruct Hin as [s0 [He Hin]].
           destruct (Hep s0 Hin) as [v [Hv Hpk]]. exists v.
           split; [exact Hv|]. subst s. now destruct (_ =? _).
      * intros v Hv Hrv.
        destruct (Z.eq_dec (CustomUser.pk v) (CustomUser.pk self)) as [E|E].
        -- rewrite E. apply deactivated_no_active.
        -- apply deactivate_publisher_no_active,
             deactivate_journalist_no_active.
           apply Hrest; [exact Hv | exact Hrv | congruence].
  - (* the user table only *)
    destruct Hw as [Hw|(Hr & E0 & [old [Eo Eor]] & _)]; [exact Hw|].
    exfalso. apply Hr. now apply (Hkeep old).
Qed.

(** ** The subscription invariant along every transition *)

Lemma reader_journalist_rows_invariant (db : Database) (user : CustomUser.t)
    (l' : list JournalistSubscription.t) :
  subscription_invariant db ->
  In user (users db) -> CustomUser.role user = Role.reader ->
  (forall s, In s l' ->
     In s (journalist_subscriptions db)
     \/ JournalistSubscription.reader_id s = CustomUser.pk user) ->
  subscription_invariant (set_journalist_subscriptions db l').
Proof.
  intros (Hd & [Hej Hep] & Hro) Hu Hr Hl. split; [exact Hd|]. split; [split|].
  - intros s Hin. destruct (Hl s Hin) as [H|H]; [now apply Hej|].
    now exists user.
  - exact Hep.
  - intros v Hv Hrv. split; [|apply (Hro v Hv Hrv)].
    intros j [s (Hin & Hsr & Hsj & Ha)]. destruct (Hl s Hin) as [H|H].
    + apply (proj1 (Hro v Hv Hrv) j). now exists s.
    + apply Hrv. rewrite <- Hr. f_equal.
      assert (Ev : find_pk CustomUser.pk (CustomUser.pk v) (users db) = Some v)
        by now apply find_pk_In.
      assert (Eu : find_pk CustomUser.pk (CustomUser.pk user) (users db)
                   = Some user) by now apply find_pk_In.
      congruence.
Qed.

Lemma reader_publisher_rows_invariant (db : Database) (user : CustomUser.t)
    (l' : list PublisherSubscription.t) :
  subscription_invariant db ->
  In user (users db) -> CustomUser.role user = Role.reader ->
  (forall s, In s l' ->
     In s (publisher_subscriptions db)
     \/ PublisherSubscription.reader_id s = CustomUser.pk user) ->
  subscription_invariant (set_publisher_subscriptions db l').
Proof.
  intros (Hd & [Hej Hep] & Hro) Hu Hr Hl. split; [exact Hd|]. split; [split|].
  - exact Hej.
  - intros s Hin. destruct (Hl s Hin) as [H|H]; [now apply Hep|].
    now exists user.
  - intros v Hv Hrv. split; [apply (Hro v Hv Hrv)|].
    intros p [s (Hin & Hsr & Hsj & Ha)]. destruct (Hl s Hin) as [H|H].
    + apply (proj2 (Hro v Hv Hrv) p). now exists s.
    + apply Hrv. rewrite <- Hr. f_equal.
      assert (Ev : find_pk CustomUser.pk (CustomUser.pk v) (users db) = Some v)
        by now apply find_pk_In.
      assert (Eu : find_pk CustomUser.pk (CustomUser.pk user) (users db)
                   = Some user) by now apply find_pk_In.
      congruence.
Qed.

Lemma objects_get_Found_In {A : Type} (f : A -> bool) (l : list A) (s : A) :
  objects_get f l = Found s -> In s l /\ f s = true.
Proof.
  intros H. apply objects_get_Found in H. apply filter_In.
  rewrite H. now left.
Qed.

Lemma subscribe_to_journalist_invariant (db : Database) (user : CustomUser.t)
    (k : Z) :
  subscription_invariant db -> In user (users db) ->
  subscription_invariant (fst (subscribe_to_journalist db user k)).
Proof.
  intros Hi Hu. unfold subscribe_to_journalist.
  destruct (Role.eqb (CustomUser.role user) Role.reader) eqn:Er;
    [|exact Hi].
  apply Role_eqb_eq in Er. simpl.
  destruct (find_pk Journalist.pk k (journalists db)) as [jr|]; [|exact Hi].
  destruct (objects_get _ _) as [|s|] eqn:Eg; [| |exact Hi].
  - simpl. apply (reader_journalist_rows_invariant db user); try assumption.
    intros s Hin. apply in_app_iff in Hin.
    destruct Hin as [Hin|[<-|[]]]; [now left | now right].
  - apply objects_get_Found_In in Eg. destruct Eg as [Hin Hc].
    apply andb_true_iff in Hc. destruct Hc as [Hc _]. apply Z.eqb_eq in Hc.
    destruct (negb (JournalistSubscription.is_active s)); [|exact Hi].
    simpl. apply (reader_journalist_rows_invariant db user); try assumption.
    intros s' Hs'. apply save_row_In in Hs'.
    destruct Hs' as [->|[Hs' _]]; [now right | now left].
Qed.

Lemma unsubscribe_from_journalist_invariant (db : Database)
    (user : CustomUser.t) (k : Z) :
  subscription_invariant db -> In user (users db) ->
  subscription_invariant (fst (unsubscribe_from_journalist db user k)).
Proof.
  intros Hi Hu. unfold unsubscribe_from_journalist.
  destruct (Role.eqb (CustomUser.role user) Role.reader) eqn:Er;
    [|exact Hi].
  apply Role_eqb_eq in Er. simpl.
  destruct (find_pk Journalist.pk k (journalists db)) as [jr|]; [|exact Hi].
  destruct (objects_get _ _) as [|s|] eqn:Eg; [exact Hi| |exact Hi].
  apply objects_get_Found_In in Eg. destruct Eg as [Hin Hc].
  apply andb_true_iff in Hc. destruct Hc as [Hc _].
  apply andb_true_iff in Hc. destruct Hc as [Hc _]. apply Z.eqb_eq in Hc.
  simpl. apply (reader_journalist_rows_invariant db user); try assumption.
  intros s' Hs'. apply save_row_In in Hs'.
  destruct Hs' as [->|[Hs' _]]; [now right | now left].
Qed.

Lemma subscribe_to_publisher_invariant (db : Database) (user : CustomUser.t)
    (k : Z) :
  subscription_invariant db -> In user (users db) ->
  subscription_invariant (fst (subscribe_to_publisher db user k)).
Proof.
  intros Hi Hu. unfold subscribe_to_publisher.
  destruct (Role.eqb (CustomUser.role user) Role.reader) eqn:Er;
    [|exact Hi].
  apply Role_eqb_eq in Er. simpl.
  destruct (find_pk Publisher.pk k (publishers db)) as [pr|]; [|exact Hi].
  destruct (objects_get _ _) as [|s|] eqn:Eg; [| |exact Hi].
  - simpl. apply (reader_publisher_rows_invariant db user); try assumption.
    intros s Hin. apply in_app_iff in Hin.
    destruct Hin as [Hin|[<-|[]]]; [now left | now right].
  - apply objects_get_Found_In in Eg. destruct Eg as [Hin Hc].
    apply andb_true_iff in Hc. destruct Hc as [Hc _]. apply Z.eqb_eq in Hc.
    destruct (negb (PublisherSubscription.is_active s)); [|exact Hi].
    simpl. apply (reader_publisher_rows_invariant db user); try assumption.
    intros s' Hs'. apply save_row_In in Hs'.
    destruct Hs' as [->|[Hs' _]]; [now right | now left].
Qed.

Lemma unsubscribe_from_publisher_invariant (db : Database)
    (user : CustomUser.t) (k : Z) :
  subscription_invariant db -> In user (users db) ->
  subscription_invariant (fst (unsubscribe_from_publisher db user k)).
Proof.
  intros Hi Hu. unfold unsubscribe_from_publisher.
  destruct (Role.eqb (CustomUser.role user) Role.reader) eqn:Er;
    [|exact Hi].
  apply Role_eqb_eq in Er. simpl.
  destruct (find_pk Publisher.pk k (publishers db)) as [pr|]; [|exact Hi].
  destruct (objects_get _ _) as [|s|] eqn:Eg; [exact Hi| |exact Hi].
  apply objects_get_Found_In in Eg. destruct Eg as [Hin Hc].
  apply andb_true_iff in Hc. destruct Hc as [Hc _].
  apply andb_true_iff in Hc. destruct Hc as [Hc _]. apply Z.eqb_eq in Hc.
  simpl. apply (reader_publisher_rows_invariant db user); try assumption.
  intros s' Hs'. apply save_row_In in Hs'.
  destruct Hs' as [->|[Hs' _]]; [now right | now left].
Qed.

(** The profile block writes the three profile tables only. *)
Lemma create_role_profile_frame (db db' : Database) (user : CustomUser.t)
    (applied_role : RoleApplication.role_choice)
    (publisher : option Publisher.t) :
  create_role_profile db user applied_role publisher = inl db' ->
  users db' = users db
  /\ journalist_subscriptions db' = journalist_subscriptions db
  /\ publisher_subscriptions db' = publisher_subscriptions db
  /\ role_applications db' = role_applications db
  /\ articles db' = articles db
  /\ reset_tokens db' = reset_tokens db.
Proof.
  unfold create_role_profile.
  destruct applied_role, publisher as [p|];
    try (intros H; injection H as <-; repeat split);
    match goal with
    | |- context [match ?x with inl _ => _ | inr _ => _ end] => destruct x
    end;
    intros H; try discriminate; injection H as <-; repeat split.
Qed.

(** The role change of an approval, from the write of the user to the
    profile block. *)
Lemma role_change_invariant (db : Database) (user : CustomUser.t) :
  subscription_invariant db ->
  subscription_invariant
    (deactivate_publisher_subscriptions
       (deactivate_journalist_subscriptions (CustomUser_save db user) user)
       user).
Proof.
  intros Hi.
  now apply deactivate_publisher_invariant, deactivate_journalist_invariant,
    CustomUser_save_invariant.
Qed.

Lemma approve_role_application_invariant (db : Database) (pk : Z)
    (method : Method) (POST_publisher : option Z) :
  subscription_invariant db ->
  subscription_invariant
    (fst (fst (approve_role_application db pk method POST_publisher))).
Proof.
  intros Hi. unfold approve_role_application.
  destruct (find_pk RoleApplication.pk pk (role_applications db))
    as [application|]; [|exact Hi].
  destruct method; [exact Hi|].
  destruct POST_publisher as [k|].
  - destruct (find_pk Publisher.pk k (publishers db)) as [p|]; [|exact Hi].
    set (db1 := set_role_applications db _).
    assert (Hi1 : subscription_invariant db1)
      by (apply (subscription_invariant_ext db); auto).
    change (users db) with (users db1).
    destruct (find_pk CustomUser.pk _ (users db1)) as [user|]; [|exact Hi1].
    destruct (create_role_profile _ _ _ _) as [db4|e] eqn:Ec; simpl.
    + destruct (create_role_profile_frame _ _ _ _ _ Ec) as (E1 & E2 & E3 & _).
      apply (subscription_invariant_ext _ _ E1 E2 E3).
      now apply role_change_invariant.
    + now apply role_change_invariant.
  - set (db1 := set_role_applications db _).
    assert (Hi1 : subscription_invariant db1)
      by (apply (subscription_invariant_ext db); auto).
    change (users db) with (users db1).
    destruct (find_pk CustomUser.pk _ (users db1)) as [user|]; [|exact Hi1].
    destruct (create_role_profile _ _ _ _) as [db4|e] eqn:Ec; simpl.
    + destruct (create_role_profile_frame _ _ _ _ _ Ec) as (E1 & E2 & E3 & _).
      apply (subscription_invariant_ext _ _ E1 E2 E3).
      now apply role_change_invariant.
    + now apply role_change_invariant.
Qed.

Lemma reject_role_application_invariant (db : Database) (pk : Z) :
  subscription_invariant db ->
  subscription_invariant (fst (fst (reject_role_application db pk))).
Proof.
  intros Hi. unfold reject_role_application.
  destruct (find_pk RoleApplication.pk pk (role_applications db))
    as [application|]; [|exact Hi].
  simpl. destruct (find_pk CustomUser.pk _ (users db)); simpl;
    apply (subscription_invariant_ext db); auto.
Qed.

Lemma RoleApplicationAdmin_save_model_invariant (db : Database)
    (obj : RoleApplication.t) (form_publisher : option Publisher.t) :
  subscription_invariant db ->
  subscription_invariant
    (fst (fst (RoleApplicationAdmin_save_model db obj form_publisher))).
Proof.
  intros Hi. unfold RoleApplicationAdmin_save_model.
  set (db1 := set_role_applications db _).
  assert (Hi1 : subscription_invariant db1)
    by (apply (subscription_invariant_ext db); auto).
  change (users db) with (users db1).
  destruct (find_pk CustomUser.pk _ (users db1)) as [user|]; [|exact Hi1].
  destruct (RoleApplication.status obj); try exact Hi1.
  destruct (create_role_profile _ _ _ _) as [db4|e] eqn:Ec; simpl.
  - destruct (create_role_profile_frame _ _ _ _ _ Ec) as (E1 & E2 & E3 & _).
    apply (subscription_invariant_ext _ _ E1 E2 E3).
    now apply role_change_invariant.
  - now apply role_change_invariant.
Qed.

Lemma approve_article_invariant (db : Database) (user : CustomUser.t)
    (pk : Z) :
  subscription_invariant db ->
  subscription_invariant (fst (fst (approve_article db user pk))).
Proof.
  intros Hi. unfold approve_article.
  destruct (find_pk Article.pk pk (articles db)); [|exact Hi].
  destruct (Role.eqb _ _); [|exact Hi].
  destruct (editor_profile db user); [|exact Hi].
  destruct (_ =? _); [|exact Hi].
  apply (subscription_invariant_ext db); auto.
Qed.

Lemma reject_article_invariant (db : Database) (user : CustomUser.t)
    (pk : Z) :
  subscription_invariant db ->
  subscription_invariant (fst (fst (reject_article db user pk))).
Proof.
  intros Hi. unfold reject_article.
  destruct (find_pk Article.pk pk (articles db)); [|exact Hi].
  destruct (Role.eqb _ _); [|exact Hi].
  destruct (editor_profile db user); [|exact Hi].
  destruct (_ =? _); [|exact Hi].
  apply (subscription_invariant_ext db); auto.
Qed.

Lemma POST_articles_invariant (db : Database) (user : CustomUser.t)
    (data : ArticleData) (now : Z) :
  subscription_invariant db ->
  subscription_invariant (fst (POST_articles db user data now)).
Proof.
  intros Hi. unfold POST_articles, ArticleViewSet_create.
  destruct (IsJournalistOrPublisher_has_permission user); [|exact Hi].
  destruct (journalist_profile db user); [|exact Hi].
  destruct (ArticleCreateSerializer_is_valid data) as [[ti co]|e]; [|exact Hi].
  apply (subscription_invariant_ext db); auto.
Qed.

Lemma submit_article_invariant (db : Database) (user : CustomUser.t)
    (form : option (string * string)) (now : Z) :
  subscription_invariant db ->
  subscription_invariant (fst (submit_article db user form now)).
Proof.
  intros Hi. unfold submit_article.
  destruct (negb _); [exact Hi|].
  destruct form as [[ti co]|]; [|exact Hi].
  destruct (ModelForm_clean_field _ ti); [|exact Hi].
  destruct (ModelForm_clean_field _ co); [|exact Hi].
  destruct (journalist_profile db user); [|exact Hi].
  apply (subscription_invariant_ext db); auto.
Qed.

Lemma reset_password_invariant sha1_hexdigest make_password validate_password
    (db : Database) (token : string) (POST : option ResetPasswordForm)
    (now : Z) :
  subscription_invariant db ->
  subscription_invariant
    (fst (reset_password sha1_hexdigest make_password validate_password
            db token POST now)).
Proof.
  intros Hi. unfold reset_password.
  destruct (objects_get _ _) as [|reset_obj|]; try exact Hi.
  destruct (_ <? _); [exact Hi|].
  destruct POST as [form|]; [|exact Hi].
  destruct (ResetPasswordForm_is_valid _ _) as [cleaned|]; [|exact Hi].
  destruct (find_pk CustomUser.pk _ (users db)) as [user|]; [|exact Hi].
  simpl.
  apply (subscription_invariant_ext
           (CustomUser_save db
              (CustomUser.with_password user (make_password cleaned))));
    auto.
  now apply CustomUser_save_invariant.
Qed.

Lemma step_invariant (db db' : Database) :
  subscription_invariant db -> step db db' -> subscription_invariant db'.
Proof.
  intros Hi Hs. destruct Hs.
  - now apply CustomUser_save_invariant.
  - now apply CustomUser_save_invariant.
  - now apply subscribe_to_journalist_invariant.
  - now apply unsubscribe_from_journalist_invariant.
  - now apply subscribe_to_publisher_invariant.
  - now apply unsubscribe_from_publisher_invariant.
  - now apply approve_role_application_invariant.
  - now apply reject_role_application_invariant.
  - now apply RoleApplicationAdmin_save_model_invariant.
  - now apply approve_article_invariant.
  - now apply reject_article_invariant.
  - apply (subscription_invariant_ext db); auto.
  - apply (subscription_invariant_ext db); auto.
  - now apply POST_articles_invariant.
  - now apply submit_article_invariant.
  - unfold generate_reset_url in H.
    destruct (existsb _ _); [discriminate|]. injection H as <- _.
    apply (subscription_invariant_ext db); auto.
  - now apply reset_password_invariant.
  - now apply (subscription_invariant_ext db).
Qed.

Lemma steps_invariant (db db' : Database) :
  subscription_invariant db -> steps db db' -> subscription_invariant db'.
Proof.
  intros Hi Hs. induction Hs as [|db1 db2 _ IH Hstep]; [exact Hi|].
  now apply (step_invariant db1).
Qed.

(** ** Role applications *)

Lemma journalist_rows_off_idem (k : Z) (l : list JournalistSubscription.t) :
  journalist_rows_off k (journalist_rows_off k l) = journalist_rows_off k l.
Proof.
  unfold journalist_rows_off. rewrite map_map. apply map_ext.
  intros [i r j a]; simpl. destruct (r =? k) eqn:E; simpl; now rewrite E.
Qed.

Lemma publisher_rows_off_idem (k : Z) (l : list PublisherSubscription.t) :
  publisher_rows_off k (publisher_rows_off k l) = publisher_rows_off k l.
Proof.
  unfold publisher_rows_off. rewrite map_map. apply map_ext.
  intros [i r j a]; simpl. destruct (r =? k) eqn:E; simpl; now rewrite E.
Qed.

Lemma deactivate_journalist_eq (db : Database) (u : CustomUser.t) :
  deactivate_journalist_subscriptions db u
  = set_journalist_subscriptions db
      (journalist_rows_off (CustomUser.pk u) (journalist_subscriptions db)).
Proof.
  rewrite <- deactivate_journalist_table. now destruct db.
Qed.

Lemma deactivate_publisher_eq (db : Database) (u : CustomUser.t) :
  deactivate_publisher_subscriptions db u
  = set_publisher_subscriptions db
      (publisher_rows_off (CustomUser.pk u) (publisher_subscriptions db)).
Proof.
  rewrite <- deactivate_publisher_table. now destruct db.
Qed.

(** The database after the role of a user is written and the
    subscriptions of the user are deactivated, table by table. *)
Lemma role_change_db (db : Database) (u : CustomUser.t) :
  deactivate_publisher_subscriptions
    (deactivate_journalist_subscriptions (CustomUser_save db u) u) u
  = mkDB (save_instance CustomUser.pk CustomUser.with_pk u (users db))
         (publishers db) (editors db) (journalists db) (articles db)
         (newsletters db)
         (journalist_rows_off (CustomUser.pk u) (journalist_subscriptions db))
         (publisher_rows_off (CustomUser.pk u) (publisher_subscriptions db))
         (role_applications db) (reset_tokens db).
Proof.
  destruct (CustomUser_save_cases db u) as [(-> & _)|[-> _]];
    unfold _deactivate_subscriptions;
    rewrite !deactivate_publisher_eq, !deactivate_journalist_eq;
    destruct db; simpl;
    now rewrite ?journalist_rows_off_idem, ?publisher_rows_off_idem.
Qed.

(** A POST that finds the application, its user and the chosen publisher
    writes the status, the role and the deactivations and then runs the
    profile block; what the block refuses leaves those writes in place. *)
Lemma approve_role_application_POST (db : Database) (pk : Z)
    (application : RoleApplication.t) (user : CustomUser.t)
    (publisher : option Publisher.t) :
  find_pk RoleApplication.pk pk (role_applications db) = Some application ->
  find_pk CustomUser.pk (RoleApplication.user_id application) (users db)
  = Some user ->
  (forall p, publisher = Some p ->
     find_pk Publisher.pk (Publisher.pk p) (publishers db) = Some p) ->
  let applied_role := RoleApplication.applied_role application in
  let user' := CustomUser.with_role user (to_role applied_role) in
  let changed :=
    mkDB (save_instance CustomUser.pk CustomUser.with_pk user' (users db))
         (publishers db) (editors db) (journalists db) (articles db)
         (newsletters db)
         (journalist_rows_off (CustomUser.pk user)
                              (journalist_subscriptions db))
         (publisher_rows_off (CustomUser.pk user)
                             (publisher_subscriptions db))
         (save_row RoleApplication.pk
                   (RoleApplication.with_status application approved)
                   (role_applications db))
         (reset_tokens db) in
  approve_role_application db pk POST (option_map Publisher.pk publisher)
  = match create_role_profile changed user' applied_role publisher with
    | inl db' =>
        (db', redirect_with messages.success application_approved,
         [EmailBuilder.build_role_approved_email user' applied_role])
    | inr e => (changed, server_error e, [])
    end.
Proof.
  intros Ha Hu Hp applied_role user' changed.
  unfold approve_role_application. rewrite Ha.
  assert (Hpub :
    match option_map Publisher.pk publisher with
    | Some publisher_id =>
        match find_pk Publisher.pk publisher_id (publishers db) with
        | Some p => inl (Some p)
        | None => inr Http404
        end
    | None => inl None
    end = (inl publisher : option Publisher.t + HttpResponse)).
  { destruct publisher as [p|]; simpl; [|reflexivity].
    now rewrite (Hp p eq_refl). }
  rewrite Hpub. cbv zeta. simpl users. simpl RoleApplication.user_id.
  rewrite Hu. simpl RoleApplication.applied_role.
  fold applied_role. fold user'.
  rewrite role_change_db. simpl. fold changed.
  reflexivity.
Qed.

Section UniqueColumn.
Context {A : Type}.
Variable key : A -> Z.

Lemma filter_key_absent (g : A -> bool) (k : Z) (l : list A) :
  ~ In k (map key l) -> filter (fun r => (key r =? k) && g r) l = [].
Proof.
  intros Hn. apply filter_nil_iff. intros x Hx.
  destruct (key x =? k) eqn:E; [|reflexivity].
  apply Z.eqb_eq in E. exfalso. apply Hn. rewrite <- E. now apply in_map.
Qed.

(** On a unique column, the rows with a given value and a further
    condition are the one row with that value, when it meets the
    condition. *)
Lemma filter_unique_key (g : A -> bool) (k : Z) (l : list A) :
  NoDup (map key l) ->
  filter (fun r => (key r =? k) && g r) l
  = match find (fun r => key r =? k) l with
    | Some e => if g e then [e] else []
    | None => []
    end.
Proof.
  induction l as [|y l IH]; simpl; [reflexivity|].
  intros Hd. inversion Hd as [|? ? Hn Hd']; subst.
  destruct (key y =? k) eqn:E; simpl.
  - apply Z.eqb_eq in E. rewrite <- E.
    rewrite (filter_key_absent g (key y) l Hn).
    now destruct (g y).
  - now apply IH.
Qed.

Lemma find_key_app_new (k : Z) (l : list A) (x : A) :
  find (fun r => key r =? k) l = None -> key x = k ->
  find (fun r => key r =? k) (l ++ [x]) = Some x.
Proof.
  intros Hn Hx. induction l as [|y l IH]; simpl in *.
  - now rewrite Hx, Z.eqb_refl.
  - destruct (key y =? k); [discriminate | now apply IH].
Qed.

Lemma find_key_app_old (k : Z) (l l' : list A) (e : A) :
  find (fun r => key r =? k) l = Some e ->
  find (fun r => key r =? k) (l ++ l') = Some e.
Proof.
  intros H. induction l as [|y l IH]; simpl in *; [discriminate|].
  destruct (key y =? k); [assumption | now apply IH].
Qed.

Lemma existsb_key_find (k : Z) (l : list A) :
  existsb (fun r => key r =? k) l
  = match find (fun r => key r =? k) l with Some _ => true | None => false end.
Proof.
  induction l as [|y l IH]; simpl; [reflexivity|].
  now destruct (key y =? k).
Qed.

Lemma NoDup_key_app_new (k : Z) (l : list A) (x : A) :
  NoDup (map key l) -> find (fun r => key r =? k) l = None -> key x = k ->
  NoDup (map key (l ++ [x])).
Proof.
  intros Hd Hn Hx. rewrite map_app. simpl.
  apply Permutation_NoDup with (l := key x :: map key l);
    [apply Permutation_cons_append|].
  constructor; [|assumption].
  rewrite in_map_iff. intros [r [He Hin]].
  apply (find_none _ _ Hn) in Hin. rewrite He, Hx, Z.eqb_refl in Hin.
  discriminate.
Qed.
End UniqueColumn.

(** [get_or_create] on the editor table, whose user column is unique. *)
Lemma Editor_get_or_create_spec (l : list Editor.t) (uid pid : Z) :
  NoDup (map Editor.user_id l) ->
  Editor_get_or_create l uid pid
  = match find (fun e => Editor.user_id e =? uid) l with
    | None => inl (l ++ [Editor.mk (next_pk Editor.pk l) uid pid])
    | Some e =>
        if Editor.publisher_id e =? pid then inl l else inr IntegrityError
    end.
Proof.
  intros Hd. unfold Editor_get_or_create, objects_get.
  rewrite (filter_unique_key Editor.user_id
             (fun e => Editor.publisher_id e =? pid) uid l Hd).
  rewrite (existsb_key_find Editor.user_id).
  destruct (find _ l) as [e|]; [|reflexivity].
  now destruct (Editor.publisher_id e =? pid).
Qed.

Lemma Editor_get_or_create_idem (l l' : list Editor.t) (uid pid : Z) :
  NoDup (map Editor.user_id l) ->
  Editor_get_or_create l uid pid = inl l' ->
  NoDup (map Editor.user_id l') /\ Editor_get_or_create l' uid pid = inl l'.
Proof.
  intros Hd H. rewrite Editor_get_or_create_spec in H by assumption.
  destruct (find _ l) as [e|] eqn:Ef.
  - destruct (Editor.publisher_id e =? pid) eqn:Ep; [|discriminate].
    injection H as <-. split; [assumption|].
    rewrite Editor_get_or_create_spec by assumption. now rewrite Ef, Ep.
  - injection H as <-.
    assert (Hd' : NoDup (map Editor.user_id
                    (l ++ [Editor.mk (next_pk Editor.pk l) uid pid])))
      by now apply (NoDup_key_app_new Editor.user_id uid).
    split; [assumption|].
    rewrite Editor_get_or_create_spec by assumption.
    rewrite (find_key_app_new Editor.user_id uid l
               (Editor.mk (next_pk Editor.pk l) uid pid) Ef eq_refl). simpl.
    now rewrite Z.eqb_refl.
Qed.

Lemma Journalist_get_or_create_spec (l : list Journalist.t) (uid pid : Z) :
  NoDup (map Journalist.user_id l) ->
  Journalist_get_or_create l uid pid
  = match find (fun j => Journalist.user_id j =? uid) l with
    | None => inl (l ++ [Journalist.mk (next_pk Journalist.pk l) uid pid])
    | Some j =>
        if Journalist.publisher_id j =? pid then inl l else inr IntegrityError
    end.
Proof.
  intros Hd. unfold Journalist_get_or_create, objects_get.
  rewrite (filter_unique_key Journalist.user_id
             (fun j => Journalist.publisher_id j =? pid) uid l Hd).
  rewrite (existsb_key_find Journalist.user_id).
  destruct (find _ l) as [j|]; [|reflexivity].
  now destruct (Journalist.publisher_id j =? pid).
Qed.

Lemma Journalist_get_or_create_idem (l l' : list Journalist.t) (uid pid : Z) :
  NoDup (map Journalist.user_id l) ->
  Journalist_get_or_create l uid pid = inl l' ->
  NoDup (map Journalist.user_id l')
  /\ Journalist_get_or_create l' uid pid = inl l'.
Proof.
  intros Hd H. rewrite Journalist_get_or_create_spec in H by assumption.
  destruct (find _ l) as [j|] eqn:Ef.
  - destruct (Journalist.publisher_id j =? pid) eqn:Ep; [|discriminate].
    injection H as <-. split; [assumption|].
    rewrite Journalist_get_or_create_spec by assumption. now rewrite Ef, Ep.
  - injection H as <-.
    assert (Hd' : NoDup (map Journalist.user_id
                    (l ++ [Journalist.mk (next_pk Journalist.pk l) uid pid])))
      by now apply (NoDup_key_app_new Journalist.user_id uid).
    split; [assumption|].
    rewrite Journalist_get_or_create_spec by assumption.
    rewrite (find_key_app_new Journalist.user_id uid l
               (Journalist.mk (next_pk Journalist.pk l) uid pid) Ef eq_refl). simpl.
    now rewrite Z.eqb_refl.
Qed.

(** [get_or_create] on the publisher table: the user column is unique,
    and so is the name. *)
Lemma Publisher_get_or_create_spec (l : list Publisher.t) (uid : Z)
    (name : string) :
  NoDup (map Publisher.user_id l) ->
  Publisher_get_or_create l uid name
  = match find (fun p => Publisher.user_id p =? uid) l with
    | None =>
        if existsb (fun p => String.eqb (Publisher.name p) name) l
        then inr IntegrityError
        else inl (l ++ [Publisher.mk (next_pk Publisher.pk l) uid name])
    | Some p =>
        if String.eqb (Publisher.name p) name then inl l
        else inr IntegrityError
    end.
Proof.
  intros Hd. unfold Publisher_get_or_create, objects_get.
  rewrite (filter_unique_key Publisher.user_id
             (fun p => String.eqb (Publisher.name p) name) uid l Hd).
  destruct (find _ l) as [p|] eqn:Ef.
  - assert (He : existsb (fun p => (Publisher.user_id p =? uid)
                                   || String.eqb (Publisher.name p) name) l
                 = true).
    { apply existsb_exists. exists p. apply find_some in Ef.
      destruct Ef as [Hin ->]. now split. }
    rewrite He. now destruct (String.eqb (Publisher.name p) name).
  - assert (He : existsb (fun p => (Publisher.user_id p =? uid)
                                   || String.eqb (Publisher.name p) name) l
                 = existsb (fun p => String.eqb (Publisher.name p) name) l).
    { clear Hd. induction l as [|y l IH]; simpl in *; [reflexivity|].
      destruct (Publisher.user_id y =? uid); [discriminate|]. simpl.
      now rewrite IH. }
    now rewrite He.
Qed.

Lemma Publisher_get_or_create_idem (l l' : list Publisher.t) (uid : Z)
    (name : string) :
  NoDup (map Publisher.user_id l) ->
  Publisher_get_or_create l uid name = inl l' ->
  NoDup (map Publisher.user_id l')
  /\ Publisher_get_or_create l' uid name = inl l'.
Proof.
  intros Hd H. rewrite Publisher_get_or_create_spec in H by assumption.
  destruct (find _ l) as [p|] eqn:Ef.
  - destruct (String.eqb (Publisher.name p) name) eqn:Ep; [|discriminate].
    injection H as <-. split; [assumption|].
    rewrite Publisher_get_or_create_spec by assumption. now rewrite Ef, Ep.
  - destruct (existsb _ l); [discriminate|]. injection H as <-.
    assert (Hd' : NoDup (map Publisher.user_id
                    (l ++ [Publisher.mk (next_pk Publisher.pk l) uid name])))
      by now apply (NoDup_key_app_new Publisher.user_id uid).
    split; [assumption|].
    rewrite Publisher_get_or_create_spec by assumption.
    rewrite (find_key_app_new Publisher.user_id uid l
               (Publisher.mk (next_pk Publisher.pk l) uid name) Ef eq_refl). simpl.
    now rewrite String.eqb_refl.
Qed.

(** Running the profile block again on its own result changes no profile
    table. *)
Lemma create_role_profile_settles (dbA dbC : Database) (user : CustomUser.t)
    (applied_role : RoleApplication.role_choice)
    (publisher : option Publisher.t) :
  one_profile_per_user dbA ->
  let after d :=
    match create_role_profile d user applied_role publisher with
    | inl d' => d'
    | inr _ => d
    end in
  editors dbC = editors (after dbA) ->
  journalists dbC = journalists (after dbA) ->
  publishers dbC = publishers (after dbA) ->
  editors (after dbC) = editors dbC
  /\ journalists (after dbC) = journalists dbC
  /\ publishers (after dbC) = publishers dbC.
Proof.
  intros (He & Hj & Hp) after. subst after. unfold create_role_profile.
  destruct applied_role, publisher as [p|]; simpl; auto.
  - (* journalist *)
    destruct (Journalist_get_or_create (journalists dbA) _ _) as [l|e] eqn:E;
      simpl; intros _ El _.
    + destruct (Journalist_get_or_create_idem _ _ _ _ Hj E) as [_ E'].
      rewrite El, E'. simpl. auto.
    + rewrite El, E. auto.
  - (* editor *)
    destruct (Editor_get_or_create (editors dbA) _ _) as [l|e] eqn:E;
      simpl; intros El _ _.
    + destruct (Editor_get_or_create_idem _ _ _ _ He E) as [_ E'].
      rewrite El, E'. simpl. auto.
    + rewrite El, E. auto.
  - (* publisher, with a publisher chosen in the form *)
    destruct (Publisher_get_or_create (publishers dbA) _ _) as [l|e] eqn:E;
      simpl; intros _ _ El.
    + destruct (Publisher_get_or_create_idem _ _ _ _ Hp E) as [_ E'].
      rewrite El, E'. simpl. auto.
    + rewrite El, E. auto.
  - (* publisher *)
    destruct (Publisher_get_or_create (publishers dbA) _ _) as [l|e] eqn:E;
      simpl; intros _ _ El.
    + destruct (Publisher_get_or_create_idem _ _ _ _ Hp E) as [_ E'].
      rewrite El, E'. simpl. auto.
    + rewrite El, E. auto.
Qed.

Lemma save_instance_update_find (l : list CustomUser.t)
    (x old : CustomUser.t) :
  CustomUser.pk x <> 0 ->
  find_pk CustomUser.pk (CustomUser.pk x) l = Some old ->
  save_instance CustomUser.pk CustomUser.with_pk x l
  = save_row CustomUser.pk x l
  /\ find_pk CustomUser.pk (CustomUser.pk x)
       (save_instance CustomUser.pk CustomUser.with_pk x l) = Some x.
Proof.
  intros H0 Hf.
  destruct (save_instance_cases CustomUser.pk CustomUser.with_pk x l)
    as [[E _]|[(_ & _ & E)|(_ & En & _)]]; [contradiction| |congruence].
  rewrite E. split; [reflexivity|]. now apply (save_row_find_pk _ x old).
Qed.

(** The admin form saved with the status approved, for a stored
    application: the same writes as the approval view. *)
Lemma RoleApplicationAdmin_save_model_approved (db : Database) (pk : Z)
    (application : RoleApplication.t) (user : CustomUser.t)
    (publisher : option Publisher.t) :
  find_pk RoleApplication.pk pk (role_applications db) = Some application ->
  find_pk CustomUser.pk (RoleApplication.user_id application) (users db)
  = Some user ->
  pk <> 0 ->
  let applied_role := RoleApplication.applied_role application in
  let user' := CustomUser.with_role user (to_role applied_role) in
  let changed :=
    mkDB (save_instance CustomUser.pk CustomUser.with_pk user' (users db))
         (publishers db) (editors db) (journalists db) (articles db)
         (newsletters db)
         (journalist_rows_off (CustomUser.pk user)
                              (journalist_subscriptions db))
         (publisher_rows_off (CustomUser.pk user)
                             (publisher_subscriptions db))
         (save_row RoleApplication.pk
                   (RoleApplication.with_status application approved)
                   (role_applications db))
         (reset_tokens db) in
  RoleApplicationAdmin_save_model db
    (RoleApplication.with_status application approved) publisher
  = match create_role_profile changed user' applied_role publisher with
    | inl db' =>
        (db', None,
         [EmailBuilder.build_role_approved_email user' applied_role])
    | inr e => (changed, Some e, [])
    end.
Proof.
  intros Ha Hu H0 applied_role user' changed.
  destruct (find_pk_Some _ _ _ _ Ha) as [_ Hapk].
  unfold RoleApplicationAdmin_save_model.
  set (with_pk := fun (a : RoleApplication.t) (k : Z) =>
                    RoleApplication.mk k (RoleApplication.user_id a)
                      (RoleApplication.applied_role a)
                      (RoleApplication.motivation a)
                      (RoleApplication.status a)).
  assert (Hsave : save_instance RoleApplication.pk with_pk
                    (RoleApplication.with_status application approved)
                    (role_applications db)
                  = save_row RoleApplication.pk
                      (RoleApplication.with_status application approved)
                      (role_applications db)).
  { destruct (save_instance_cases RoleApplication.pk with_pk
                (RoleApplication.with_status application approved)
                (role_applications db))
      as [[E _]|[(_ & _ & E)|(_ & En & _)]].
    - simpl in E. congruence.
    - exact E.
    - simpl in En. rewrite Hapk in En. congruence. }
  rewrite Hsave. simpl users. simpl RoleApplication.user_id. rewrite Hu.
  simpl RoleApplication.status. cbv iota.
  simpl RoleApplication.applied_role. fold applied_role. fold user'.
  rewrite role_change_db. simpl. fold changed.
  reflexivity.
Qed.

(** A table whose rows of one reader are switched off holds no active
    subscription of that reader. *)
Lemma rows_off_no_active (db : Database) (k : Z)
    (lj : list JournalistSubscription.t) (lp : list PublisherSubscription.t) :
  journalist_subscriptions db = journalist_rows_off k lj ->
  publisher_subscriptions db = publisher_rows_off k lp ->
  no_active_subscription db k.
Proof.
  intros Ej Ep. split.
  - intros j [s (Hin & Hr & _ & Ha)]. rewrite Ej in Hin.
    unfold journalist_rows_off in Hin. apply in_map_iff in Hin.
    destruct Hin as [s0 [He Hin]].
    destruct (JournalistSubscription.reader_id s0 =? k) eqn:E.
    + subst s. discriminate.
    + subst s0. apply Z.eqb_neq in E. contradiction.
  - intros p [s (Hin & Hr & _ & Ha)]. rewrite Ep in Hin.
    unfold publisher_rows_off in Hin. apply in_map_iff in Hin.
    destruct Hin as [s0 [He Hin]].
    destruct (PublisherSubscription.reader_id s0 =? k) eqn:E.
    + subst s. discriminate.
    + subst s0. apply Z.eqb_neq in E. contradiction.
Qed.

(** C2.  Approving an application, pending or not, that is stored with
    its user, for a publisher that is stored when one is chosen: the
    application is approved; the user has the applied role (journalist
    for journalist, editor for editor, publisher for publisher) and is
    otherwise the same account; every
    subscription row of the user is inactive, no row is removed and the
    rows of other readers are as they were; the profile is made with
    get-or-create semantics: for an editor or a journalist with a
    publisher chosen, a profile row of the user for that publisher is
    added when the user has none and the table is left alone when the
    user has one (the request then succeeds when it is for that publisher
    and raises the integrity error otherwise); for a publisher the row is
    named after the user, under the same rule, the name being unique;
    for an editor or a journalist without a publisher the role is written
    and no profile table changes; approving the same way again changes no
    profile table; and the admin form saved with the status approved and
    the same publisher leaves the same database and sends the same
    mail.  The mail of an approval is one message about the approved role
    to the address of the user. *)
Theorem role_application_approval_spec (db : Database) (pk : Z)
    (application : RoleApplication.t) (user : CustomUser.t)
    (publisher : option Publisher.t) :
  find_pk RoleApplication.pk pk (role_applications db) = Some application ->
  find_pk CustomUser.pk (RoleApplication.user_id application) (users db)
  = Some user ->
  RoleApplication.user_id application <> 0 ->
  (forall p, publisher = Some p ->
     find_pk Publisher.pk (Publisher.pk p) (publishers db) = Some p) ->
  one_profile_per_user db ->
  let applied_role := RoleApplication.applied_role application in
  let uid := RoleApplication.user_id application in
  let user' := CustomUser.with_role user (to_role applied_role) in
  let POST_publisher := option_map Publisher.pk publisher in
  let first := approve_role_application db pk POST POST_publisher in
  let db' := fst (fst first) in
  let response := snd (fst first) in
  let db'' := fst (fst (approve_role_application db' pk POST POST_publisher)) in
  let approved_ok :=
    response = redirect_with messages.success application_approved
    /\ snd first = [EmailBuilder.build_role_approved_email user' applied_role]
  in
  find_pk RoleApplication.pk pk (role_applications db')
  = Some (RoleApplication.with_status application approved)
  /\ find_pk CustomUser.pk uid (users db') = Some user'
  /\ journalist_subscriptions db'
     = journalist_rows_off uid (journalist_subscriptions db)
  /\ publisher_subscriptions db'
     = publisher_rows_off uid (publisher_subscriptions db)
  /\ (applied_role = RoleApplication.editor ->
      forall p, publisher = Some p ->
        journalists db' = journalists db /\ publishers db' = publishers db
        /\ match find (fun e => Editor.user_id e =? uid) (editors db) with
           | None =>
               editors db'
               = editors db ++ [Editor.mk (next_pk Editor.pk (editors db))
                                          uid (Publisher.pk p)]
               /\ approved_ok
           | Some e =>
               editors db' = editors db
               /\ (Editor.publisher_id e = Publisher.pk p -> approved_ok)
               /\ (Editor.publisher_id e <> Publisher.pk p ->
                   response = server_error IntegrityError)
           end)
  /\ (applied_role = RoleApplication.journalist ->
      forall p, publisher = Some p ->
        editors db' = editors db /\ publishers db' = publishers db
        /\ match find (fun j => Journalist.user_id j =? uid)
                      (journalists db) with
           | None =>
               journalists db'
               = journalists db
                 ++ [Journalist.mk (next_pk Journalist.pk (journalists db))
                                   uid (Publisher.pk p)]
               /\ approved_ok
           | Some j =>
               journalists db' = journalists db
               /\ (Journalist.publisher_id j = Publisher.pk p -> approved_ok)
               /\ (Journalist.publisher_id j <> Publisher.pk p ->
                   response = server_error IntegrityError)
           end)
  /\ (applied_role = RoleApplication.publisher ->
      let name := (CustomUser.username user ++ " Publishing")%string in
      editors db' = editors db /\ journalists db' = journalists db
      /\ match find (fun p => Publisher.user_id p =? uid) (publishers db) with
         | None =>
             if existsb (fun p => String.eqb (Publisher.name p) name)
                        (publishers db)
             then publishers db' = publishers db
                  /\ response = server_error IntegrityError
             else publishers db'
                  = publishers db
                    ++ [Publisher.mk (next_pk Publisher.pk (publishers db))
                                     uid name]
                  /\ approved_ok
         | Some p =>
             publishers db' = publishers db
             /\ (Publisher.name p = name -> approved_ok)
             /\ (Publisher.name p <> name ->
                 response = server_error IntegrityError)
         end)
  /\ (applied_role <> RoleApplication.publisher -> publisher = None ->
      editors db' = editors db /\ journalists db' = journalists db
      /\ publishers db' = publishers db /\ approved_ok)
  /\ (editors db'' = editors db' /\ journalists db'' = journalists db'
      /\ publishers db'' = publishers db')
  /\ (pk <> 0 ->
      let admin :=
        RoleApplicationAdmin_save_model db
          (RoleApplication.with_status application approved) publisher in
      fst (fst admin) = db' /\ snd admin = snd first)
  /\ (exists stored,
        find_pk CustomUser.pk uid (users db') = Some stored
        /\ CustomUser.role stored
           = match applied_role with
             | RoleApplication.journalist => Role.journalist
             | RoleApplication.editor => Role.editor
             | RoleApplication.publisher => Role.publisher
             end
        /\ CustomUser.pk stored = CustomUser.pk user
        /\ CustomUser.username stored = CustomUser.username user
        /\ CustomUser.email stored = CustomUser.email user
        /\ CustomUser.password stored = CustomUser.password user)
  /\ (exists stored,
        find_pk RoleApplication.pk pk (role_applications db') = Some stored
        /\ RoleApplication.status stored = approved
        /\ RoleApplication.pk stored = RoleApplication.pk application
        /\ RoleApplication.user_id stored = uid
        /\ RoleApplication.applied_role stored = applied_role
        /\ RoleApplication.motivation stored
           = RoleApplication.motivation application)
  /\ no_active_subscription db' uid
  /\ map JournalistSubscription.pk (journalist_subscriptions db')
     = map JournalistSubscription.pk (journalist_subscriptions db)
  /\ map PublisherSubscription.pk (publisher_subscriptions db')
     = map PublisherSubscription.pk (publisher_subscriptions db)
  /\ (forall s, In s (journalist_subscriptions db) ->
        JournalistSubscription.reader_id s <> uid ->
        In s (journalist_subscriptions db'))
  /\ (forall s, In s (publisher_subscriptions db) ->
        PublisherSubscription.reader_id s <> uid ->
        In s (publisher_subscriptions db'))
  /\ (approved_ok ->
      exists m, snd first = [m]
                /\ kind m = role_approved applied_role
                /\ to m = [CustomUser.email user]).
Proof.
  intros Ha Hu H0 Hp Hprof applied_role uid user' POST_publisher first db'
    response db'' approved_ok.
  pose proof (approve_role_application_POST db pk application user publisher
                Ha Hu Hp) as Hfirst.
  cbv zeta in Hfirst. fold applied_role user' POST_publisher first in Hfirst.
  set (changed := mkDB _ _ _ _ _ _ _ _ _ _) in Hfirst.
  destruct (find_pk_Some _ _ _ _ Ha) as [_ Hapk].
  destruct (find_pk_Some _ _ _ _ Hu) as [_ Hupk]. fold uid in Hupk.
  assert (Hsave : find_pk CustomUser.pk uid (users changed) = Some user').
  { simpl. rewrite <- Hupk.
    change (CustomUser.pk user) with (CustomUser.pk user').
    apply (save_instance_update_find (users db) user' user); simpl;
      now rewrite Hupk. }
  assert (Happ : find_pk RoleApplication.pk pk (role_applications changed)
                 = Some (RoleApplication.with_status application approved)).
  { simpl. rewrite <- Hapk.
    apply (save_row_find_pk RoleApplication.pk
             (RoleApplication.with_status application approved) application).
    simpl. now rewrite Hapk. }
  (* the state after the first approval, in terms of the profile block *)
  assert (Hdb' : db' = match create_role_profile changed user' applied_role
                               publisher with
                       | inl d => d
                       | inr _ => changed
                       end).
  { subst db'. rewrite Hfirst. now destruct (create_role_profile _ _ _ _). }
  assert (Hframe : users db' = users changed
                   /\ journalist_subscriptions db'
                      = journalist_subscriptions changed
                   /\ publisher_subscriptions db'
                      = publisher_subscriptions changed
                   /\ role_applications db' = role_applications changed
                   /\ articles db' = articles changed
                   /\ reset_tokens db' = reset_tokens changed).
  { rewrite Hdb'.
    destruct (create_role_profile _ _ _ _) as [d|e] eqn:Ec;
      [now apply (create_role_profile_frame _ _ _ _ _ Ec) | repeat split]. }
  destruct Hframe as (Fu & Fj & Fp & Fa & _).
  assert (Hjs : journalist_subscriptions db'
                = journalist_rows_off uid (journalist_subscriptions db))
    by (now rewrite Fj; simpl; rewrite Hupk).
  assert (Hps : publisher_subscriptions db'
                = publisher_rows_off uid (publisher_subscriptions db))
    by (now rewrite Fp; simpl; rewrite Hupk).
  split; [now rewrite Fa|].
  split; [now rewrite Fu|].
  split; [exact Hjs|].
  split; [exact Hps|].
  assert (Hresp : response
                  = match create_role_profile changed user' applied_role
                            publisher with
                    | inl _ => redirect_with messages.success
                                 application_approved
                    | inr e => server_error e
                    end).
  { subst response. rewrite Hfirst.
    now destruct (create_role_profile _ _ _ _). }
  assert (Hmail : snd first
                  = match create_role_profile changed user' applied_role
                            publisher with
                    | inl _ => [EmailBuilder.build_role_approved_email
                                  user' applied_role]
                    | inr e => []
                    end).
  { rewrite Hfirst. now destruct (create_role_profile _ _ _ _). }
  destruct Hprof as (Hue & Huj & Hupub).
  subst approved_ok.
  split; [|split; [|split; [|split; [|split; [|split]]]]].
  - (* editor *)
    intros Er p ->.
    assert (Hc : create_role_profile changed user' applied_role (Some p)
                 = match Editor_get_or_create (editors db) uid
                           (Publisher.pk p) with
                   | inl l => inl (set_editors changed l)
                   | inr e => inr e
                   end)
      by (unfold create_role_profile; rewrite Er; simpl; now rewrite Hupk).
    rewrite Hdb', Hresp, Hmail, Hc.
    rewrite Editor_get_or_create_spec by assumption.
    destruct (find _ (editors db)) as [e|].
    + destruct (Editor.publisher_id e =? Publisher.pk p) eqn:E; simpl.
      * apply Z.eqb_eq in E. repeat split; auto. intros; contradiction.
      * apply Z.eqb_neq in E. repeat split; auto; intros; contradiction.
    + simpl. repeat split.
  - (* journalist *)
    intros Er p ->.
    assert (Hc : create_role_profile changed user' applied_role (Some p)
                 = match Journalist_get_or_create (journalists db) uid
                           (Publisher.pk p) with
                   | inl l => inl (set_journalists changed l)
                   | inr e => inr e
                   end)
      by (unfold create_role_profile; rewrite Er; simpl; now rewrite Hupk).
    rewrite Hdb', Hresp, Hmail, Hc.
    rewrite Journalist_get_or_create_spec by assumption.
    destruct (find _ (journalists db)) as [j|].
    + destruct (Journalist.publisher_id j =? Publisher.pk p) eqn:E; simpl.
      * apply Z.eqb_eq in E. repeat split; auto. intros; contradiction.
      * apply Z.eqb_neq in E. repeat split; auto; intros; contradiction.
    + simpl. repeat split.
  - (* publisher *)
    intros Er name.
    assert (Hc : create_role_profile changed user' applied_role publisher
                 = match Publisher_get_or_create (publishers db) uid name with
                   | inl l => inl (set_publishers changed l)
                   | inr e => inr e
                   end)
      by (unfold create_role_profile; rewrite Er; simpl; rewrite Hupk;
          now destruct publisher).
    rewrite Hdb', Hresp, Hmail, Hc.
    rewrite Publisher_get_or_create_spec by assumption.
    destruct (find _ (publishers db)) as [p|].
    + destruct (String.eqb (Publisher.name p) name) eqn:E; simpl.
      * apply String.eqb_eq in E. repeat split; auto. intros; contradiction.
      * apply String.eqb_neq in E. repeat split; auto; intros; contradiction.
    + destruct (existsb _ (publishers db)); simpl; repeat split.
  - (* editor or journalist without a publisher *)
    intros Hr ->. rewrite Hdb', Hresp, Hmail.
    unfold create_role_profile.
    destruct applied_role; [| |contradiction]; simpl; repeat split.
  - (* approving again *)
    subst db''. unfold POST_publisher.
    assert (Hp' : forall p, publisher = Some p ->
                    find_pk Publisher.pk (Publisher.pk p) (publishers db')
                    = Some p).
    { intros p ->. rewrite Hdb'. unfold create_role_profile.
      specialize (Hp p eq_refl).
      destruct applied_role; simpl;
        try (destruct (Journalist_get_or_create _ _ _); exact Hp);
        try (destruct (Editor_get_or_create _ _ _); exact Hp).
      rewrite Publisher_get_or_create_spec by assumption.
      destruct (find _ (publishers db)) as [q|].
      - destruct (String.eqb _ _); exact Hp.
      - destruct (existsb _ (publishers db)); [exact Hp|]. simpl.
        unfold find_pk in *. now apply (find_key_app_old Publisher.pk). }
    assert (Ha' : find_pk RoleApplication.pk pk (role_applications db')
                  = Some (RoleApplication.with_status application approved))
      by now rewrite Fa.
    assert (Hu' : find_pk CustomUser.pk
                    (RoleApplication.user_id
                       (RoleApplication.with_status application approved))
                    (users db') = Some user') by now rewrite Fu.
    rewrite (approve_role_application_POST db' pk _ user' publisher
               Ha' Hu' Hp').
    cbv zeta. simpl RoleApplication.applied_role. fold applied_role.
    change (CustomUser.with_role user' (to_role applied_role)) with user'.
    set (changed' := mkDB _ _ _ _ _ _ _ _ _ _).
    assert (Hs := create_role_profile_settles changed changed' user'
                    applied_role publisher).
    cbv beta zeta in Hs. rewrite <- Hdb' in Hs.
    specialize (Hs (conj Hue (conj Huj Hupub)) eq_refl eq_refl eq_refl).
    destruct (create_role_profile changed' _ _ _); exact Hs.
  - (* the admin form *)
    intros Hpk0 admin. subst admin.
    rewrite (RoleApplicationAdmin_save_model_approved db pk application user
               publisher Ha Hu Hpk0).
    cbv zeta. fold applied_role user' changed. rewrite Hdb', Hmail.
    now destruct (create_role_profile changed user' applied_role publisher).
  - (* what is stored and sent, field by field *)
    split.
    { exists user'. split; [now rewrite Fu|].
      split; [now destruct applied_role|]. repeat split. }
    split.
    { exists (RoleApplication.with_status application approved).
      split; [now rewrite Fa|]. repeat split. }
    split; [now apply (rows_off_no_active db' uid _ _ Hjs Hps)|].
    split.
    { rewrite Hjs. unfold journalist_rows_off. rewrite map_map.
      apply map_ext. intros s.
      now destruct (JournalistSubscription.reader_id s =? uid). }
    split.
    { rewrite Hps. unfold publisher_rows_off. rewrite map_map.
      apply map_ext. intros s.
      now destruct (PublisherSubscription.reader_id s =? uid). }
    split.
    { intros s Hin Hne. rewrite Hjs. unfold journalist_rows_off.
      apply in_map_iff. exists s. split; [|exact Hin].
      apply Z.eqb_neq in Hne. now rewrite Hne. }
    split.
    { intros s Hin Hne. rewrite Hps. unfold publisher_rows_off.
      apply in_map_iff. exists s. split; [|exact Hin].
      apply Z.eqb_neq in Hne. now rewrite Hne. }
    intros [_ Hsent]. eexists. split; [exact Hsent|]. split; reflexivity.
Qed.

(** C2 on the sample newsroom: erin's application for the editor role is
    approved for Acme; she becomes an editor with one editor profile, and
    approving again adds no second one. *)
Lemma role_application_approval_spec_witness :
  one_profile_per_user Sample.db
  /\ (let db' := fst (fst (approve_role_application Sample.db 1 POST
                             (Some 1))) in
      find_pk CustomUser.pk 5 (users db')
      = Some (CustomUser.with_role Sample.erin Role.editor)
      /\ editors (fst (fst (approve_role_application db' 1 POST (Some 1))))
         = editors db').
Proof.
  assert (Hprof : one_profile_per_user Sample.db).
  { repeat split; simpl; repeat constructor; simpl; tauto. }
  split; [exact Hprof|].
  assert (Hp : forall p, Some Sample.acme = Some p ->
                 find_pk Publisher.pk (Publisher.pk p) (publishers Sample.db)
                 = Some p).
  { intros p H. injection H as <-. reflexivity. }
  assert (H0 : RoleApplication.user_id
                 (RoleApplication.mk 1 5 RoleApplication.editor
                    "I edit well" pending) <> 0) by discriminate.
  pose proof (role_application_approval_spec Sample.db 1 _ Sample.erin
                (Some Sample.acme) eq_refl eq_refl H0 Hp Hprof) as H.
  cbv zeta in H.
  destruct H as (_ & Hrole & _ & _ & _ & _ & _ & _ & (Hagain & _) & _).
  split; [exact Hrole | exact Hagain].
Defined.

(** C3.  Only readers hold active subscriptions: the invariant (unique
    user keys, subscriptions of stored users only, no active subscription
    for a user who is not a reader) is kept by every transition of the
    system, hence along any run.  And each path that moves a user away
    from the reader role switches off every subscription row of that user
    in the same operation, keeping the rows: a direct [save] of a stored
    reader under another role, the approval view, and the admin form saved
    with the status approved. *)
Theorem only_readers_hold_active_subscriptions :
  (forall db db', subscription_invariant db -> steps db db' ->
                  subscription_invariant db')
  /\ (forall db self old,
        CustomUser.pk self <> 0 ->
        find_pk CustomUser.pk (CustomUser.pk self) (users db) = Some old ->
        CustomUser.role old = Role.reader ->
        CustomUser.role self <> Role.reader ->
        let db' := CustomUser_save db self in
        find_pk CustomUser.pk (CustomUser.pk self) (users db') = Some self
        /\ journalist_subscriptions db'
           = journalist_rows_off (CustomUser.pk self)
                                 (journalist_subscriptions db)
        /\ publisher_subscriptions db'
           = publisher_rows_off (CustomUser.pk self)
                                (publisher_subscriptions db)
        /\ no_active_subscription db' (CustomUser.pk self))
  /\ (forall db pk application user publisher,
        find_pk RoleApplication.pk pk (role_applications db)
        = Some application ->
        find_pk CustomUser.pk (RoleApplication.user_id application) (users db)
        = Some user ->
        (forall p, publisher = Some p ->
           find_pk Publisher.pk (Publisher.pk p) (publishers db) = Some p) ->
        let uid := RoleApplication.user_id application in
        let db' :=
          fst (fst (approve_role_application db pk POST
                      (option_map Publisher.pk publisher))) in
        journalist_subscriptions db'
        = journalist_rows_off uid (journalist_subscriptions db)
        /\ publisher_subscriptions db'
           = publisher_rows_off uid (publisher_subscriptions db)
        /\ no_active_subscription db' uid)
  /\ (forall db obj user form_publisher,
        RoleApplication.status obj = approved ->
        find_pk CustomUser.pk (RoleApplication.user_id obj) (users db)
        = Some user ->
        let uid := RoleApplication.user_id obj in
        let db' :=
          fst (fst (RoleApplicationAdmin_save_model db obj form_publisher)) in
        journalist_subscriptions db'
        = journalist_rows_off uid (journalist_subscriptions db)
        /\ publisher_subscriptions db'
           = publisher_rows_off uid (publisher_subscriptions db)
        /\ no_active_subscription db' uid).
Proof.
  split; [exact steps_invariant|]. split; [|split].
  - intros db self old H0 Hf Hold Hself db'. subst db'.
    destruct (CustomUser_save_cases db self) as [(E & _)|[_ Hkeep]];
      [|exfalso; apply Hself; now apply (Hkeep old)].
    rewrite E. unfold _deactivate_subscriptions.
    rewrite deactivate_publisher_eq, deactivate_journalist_eq. simpl.
    split; [now apply (save_instance_update_find (users db) self old)|].
    split; [reflexivity|]. split; [reflexivity|].
    now apply (rows_off_no_active _ _ (journalist_subscriptions db)
                 (publisher_subscriptions db)).
  - intros db pk application user publisher Ha Hu Hp uid db'.
    subst db'.
    rewrite (approve_role_application_POST db pk application user publisher
               Ha Hu Hp).
    cbv zeta. set (changed := mkDB _ _ _ _ _ _ _ _ _ _).
    destruct (find_pk_Some _ _ _ _ Hu) as [_ Hupk]. fold uid in Hupk.
    assert (Hj : journalist_subscriptions changed
                 = journalist_rows_off uid (journalist_subscriptions db))
      by (simpl; now rewrite Hupk).
    assert (Hq : publisher_subscriptions changed
                 = publisher_rows_off uid (publisher_subscriptions db))
      by (simpl; now rewrite Hupk).
    destruct (create_role_profile changed _ _ _) as [d|e] eqn:Ec; simpl.
    + destruct (create_role_profile_frame _ _ _ _ _ Ec) as (_ & E2 & E3 & _).
      rewrite E2, E3. split; [exact Hj|]. split; [exact Hq|].
      apply (rows_off_no_active _ _ (journalist_subscriptions db)
               (publisher_subscriptions db)); congruence.
    + split; [exact Hj|]. split; [exact Hq|].
      now apply (rows_off_no_active _ _ (journalist_subscriptions db)
                   (publisher_subscriptions db)).
  - intros db obj user form_publisher Hs Hu uid db'. subst db'.
    unfold RoleApplicationAdmin_save_model. simpl users. rewrite Hu, Hs.
    rewrite role_change_db. simpl.
    set (changed := mkDB _ _ _ _ _ _ _ _ _ _).
    destruct (find_pk_Some _ _ _ _ Hu) as [_ Hupk]. fold uid in Hupk.
    assert (Hj : journalist_subscriptions changed
                 = journalist_rows_off uid (journalist_subscriptions db))
      by (simpl; now rewrite Hupk).
    assert (Hq : publisher_subscriptions changed
                 = publisher_rows_off uid (publisher_subscriptions db))
      by (simpl; now rewrite Hupk).
    destruct (create_role_profile changed _ _ _) as [d|e] eqn:Ec; simpl.
    + destruct (create_role_profile_frame _ _ _ _ _ Ec) as (_ & E2 & E3 & _).
      rewrite E2, E3. split; [exact Hj|]. split; [exact Hq|].
      apply (rows_off_no_active _ _ (journalist_subscriptions db)
               (publisher_subscriptions db)); congruence.
    + split; [exact Hj|]. split; [exact Hq|].
      now apply (rows_off_no_active _ _ (journalist_subscriptions db)
                   (publisher_subscriptions db)).
Qed.

(** C3 on the sample newsroom, which meets the invariant: alice, a reader
    with two active subscriptions, is saved as a journalist; the invariant
    still holds and she holds no active subscription. *)
Lemma only_readers_hold_active_subscriptions_witness :
  subscription_invariant Sample.db
  /\ (let db' := CustomUser_save Sample.db
                   (CustomUser.with_role Sample.alice Role.journalist) in
      subscription_invariant db' /\ no_active_subscription db' 1).
Proof.
  assert (Hi : subscription_invariant Sample.db).
  { split; [simpl; repeat constructor; simpl; intuition discriminate|].
    split; [split|].
    - intros s [<-|[]]. exists Sample.alice. simpl. tauto.
    - intros s [<-|[]]. exists Sample.alice. simpl. tauto.
    - intros u Hu Hr. simpl in Hu.
      destruct Hu as [<-|[<-|[<-|[<-|[<-|[]]]]]];
        try (exfalso; apply Hr; reflexivity);
        split; intros k [s (Hin & Hs & _)]; simpl in Hin;
        destruct Hin as [<-|[]]; discriminate. }
  split; [exact Hi|].
  destruct only_readers_hold_active_subscriptions as (Hsteps & Hsave & _).
  split.
  - apply (Hsteps Sample.db); [exact Hi|].
    eapply steps_step; [apply steps_refl | apply step_CustomUser_save].
  - apply (Hsave Sample.db
             (CustomUser.with_role Sample.alice Role.journalist)
             Sample.alice); [discriminate | reflexivity | reflexivity
                             | discriminate].
Defined.

(** ** Article review *)

Lemma may_review_dec (db : Database) (user : CustomUser.t) (a : Article.t) :
  may_review db user a \/ ~ may_review db user a.
Proof.
  unfold may_review.
  destruct (Role.eqb (CustomUser.role user) Role.editor) eqn:Er;
    [apply Role_eqb_eq in Er | apply Role_eqb_neq in Er; right; tauto].
  destruct (editor_profile db user) as [e|].
  - destruct (Z.eq_dec (Editor.publisher_id e) (Article.publisher_id a)).
    + left. split; [assumption|]. now exists e.
    + right. intros [_ [e' [He Hp]]]. injection He as <-. contradiction.
  - right. intros [_ [e' [He _]]]. discriminate.
Qed.




(** The staff actions of the admin set the status of the selected
    articles without the guard of the views. *)
Lemma ArticleAdmin_actions_spec (db : Database) (queryset : list Z)
    (a : Article.t) :
  In a (articles db) -> In (Article.pk a) queryset ->
  In (Article.with_status a approved)
     (articles (ArticleAdmin_approve_articles db queryset))
  /\ In (Article.with_status a rejected)
        (articles (ArticleAdmin_reject_articles db queryset)).
Proof.
  intros Hin Hq. apply mem_In in Hq.
  unfold ArticleAdmin_approve_articles, ArticleAdmin_reject_articles,
    update_where. simpl.
  split; apply in_map_iff; exists a; now rewrite Hq.
Qed.

(** ** Notifications *)

Lemma existsb_String_eqb (e : string) (l : list string) :
  existsb (String.eqb e) l = true <-> In e l.
Proof.
  rewrite existsb_exists. split.
  - intros [x [Hin He]]. apply String.eqb_eq in He. now subst.
  - intros H. exists e. split; [assumption | apply String.eqb_refl].
Qed.

Lemma notify_subscribers_recipients (article : Article.t)
    (l : list CustomUser.t) (seen : list string) (e : string) :
  In e (recipients (notify_subscribers article l seen))
  <-> (exists u, In u l /\ CustomUser.email u = e) /\ ~ In e seen.
Proof.
  revert seen. induction l as [|u l IH]; intros seen; simpl.
  - split; [intros [] | intros [[u [[] _]] _]].
  - destruct (existsb (String.eqb (CustomUser.email u)) seen) eqn:Es.
    + apply existsb_String_eqb in Es. rewrite IH. split.
      * intros [[v [Hv He]] Hn]. split; [|assumption]. exists v. auto.
      * intros [[v [[<-|Hv] He]] Hn]; [subst e; contradiction|].
        split; [|assumption]. now exists v.
    + assert (Hns : ~ In (CustomUser.email u) seen).
      { intros H. apply existsb_String_eqb in H. congruence. }
      simpl. rewrite IH. simpl. split.
      * intros [<-|[[v [Hv He]] Hn]].
        -- split; [|assumption]. exists u. auto.
        -- split; [exists v; auto | tauto].
      * intros [[v [[<-|Hv] He]] Hn].
        -- now left.
        -- destruct (string_dec (CustomUser.email u) e) as [Heq|Hne];
             [now left|].
           right. split; [now exists v | tauto].
Qed.

Lemma notify_subscribers_NoDup (article : Article.t) (l : list CustomUser.t)
    (seen : list string) :
  NoDup (recipients (notify_subscribers article l seen)).
Proof.
  revert seen. induction l as [|u l IH]; intros seen; simpl.
  - constructor.
  - destruct (existsb (String.eqb (CustomUser.email u)) seen); [apply IH|].
    simpl. constructor; [|apply IH].
    intros H. apply notify_subscribers_recipients in H.
    destruct H as [_ Hn]. apply Hn. now left.
Qed.

Lemma notify_subscribers_messages (article : Article.t)
    (l : list CustomUser.t) (seen : list string) (m : EmailMessage) :
  In m (notify_subscribers article l seen) ->
  kind m = new_article_notification article
  /\ exists u, In u l /\ to m = [CustomUser.email u].
Proof.
  revert seen. induction l as [|u l IH]; intros seen; simpl; [intros []|].
  destruct (existsb (String.eqb (CustomUser.email u)) seen).
  - intros H. destruct (IH _ H) as [Hk [v [Hv Ht]]].
    split; [assumption|]. exists v. auto.
  - intros [<-|H].
    + split; [reflexivity|]. exists u. auto.
    + destruct (IH _ H) as [Hk [v [Hv Ht]]].
      split; [assumption|]. exists v. auto.
Qed.

Lemma readers_of_In (db : Database) (ids : list Z) (u : CustomUser.t) :
  In u (readers_of db ids)
  <-> exists k, In k ids /\ find_pk CustomUser.pk k (users db) = Some u.
Proof.
  unfold readers_of. rewrite in_flat_map. split.
  - intros [k [Hk Hu]]. exists k. split; [assumption|].
    destruct (find_pk CustomUser.pk k (users db)) as [v|]; [|contradiction].
    destruct Hu as [<-|[]]. reflexivity.
  - intros [k [Hk Hf]]. exists k. split; [assumption|]. rewrite Hf. now left.
Qed.



(** ** Creating articles *)

Lemma is_empty_true (s : string) : is_empty s = true <-> s = EmptyString.
Proof. destruct s; simpl; split; congruence. Qed.

Lemma is_empty_false (s : string) : is_empty s = false <-> s <> EmptyString.
Proof. destruct s; simpl; split; congruence. Qed.

Lemma rstrip_idem (s : string) : rstrip (rstrip s) = rstrip s.
Proof.
  induction s as [|c s IH]; simpl; [reflexivity|].
  destruct (rstrip s) as [|d r] eqn:E.
  - destruct (isspace c) eqn:Ec; simpl; [reflexivity | now rewrite Ec].
  - change (rstrip (String c (String d r)) = String c (String d r)).
    simpl rstrip at 1. simpl in IH. now rewrite IH.
Qed.

Lemma lstrip_head (s : string) :
  match lstrip s with
  | EmptyString => True
  | String c _ => isspace c = false
  end.
Proof.
  induction s as [|c s IH]; simpl; [exact I|].
  destruct (isspace c) eqn:E; [exact IH | simpl; exact E].
Qed.

Lemma lstrip_rstrip_head (s : string) :
  match s with
  | EmptyString => True
  | String c _ => isspace c = false
  end ->
  lstrip (rstrip s) = rstrip s.
Proof.
  destruct s as [|c s]; simpl; [reflexivity|]. intros Hc.
  destruct (rstrip s); rewrite ?Hc; simpl; now rewrite Hc.
Qed.

Lemma strip_idem (s : string) : strip (strip s) = strip s.
Proof.
  unfold strip. rewrite lstrip_rstrip_head by apply lstrip_head.
  apply rstrip_idem.
Qed.

Lemma isspace_whitespace (c : ascii) : isspace c = true <-> whitespace c.
Proof.
  unfold isspace, whitespace. cbv zeta.
  rewrite !orb_true_iff, !andb_true_iff, !Nat.leb_le, !Nat.eqb_eq.
  cbn [In]. lia.
Qed.

Lemma lstrip_trimmed (s : string) :
  exists l, s = (l ++ lstrip s)%string /\ all_whitespace l.
Proof.
  induction s as [|c s IH]; [now exists EmptyString|]. simpl.
  destruct (isspace c) eqn:E.
  - destruct IH as [l [Hs Hl]]. exists (String c l). simpl.
    split; [now rewrite <- Hs|]. split; [|exact Hl].
    now apply isspace_whitespace.
  - now exists EmptyString.
Qed.

Lemma rstrip_trimmed (s : string) :
  (exists r, s = (rstrip s ++ r)%string /\ all_whitespace r)
  /\ (rstrip s = EmptyString
      \/ exists v c, rstrip s = (v ++ String c EmptyString)%string
                     /\ ~ whitespace c).
Proof.
  induction s as [|c s [[r [Hs Hr]] Hlast]];
    [split; [now exists EmptyString | now left]|].
  simpl. destruct (rstrip s) as [|d t] eqn:E.
  - simpl in Hs. subst r. destruct (isspace c) eqn:Ec.
    + split; [|now left]. exists (String c s). split; [reflexivity|].
      split; [now apply isspace_whitespace | exact Hr].
    + split; [now exists s|]. right. exists EmptyString, c.
      split; [reflexivity|]. rewrite <- isspace_whitespace. congruence.
  - split.
    + exists r. split; [|exact Hr]. simpl in Hs |- *. now f_equal.
    + right. destruct Hlast as [Hlast|[v [e [Hv He]]]]; [discriminate|].
      exists (String c v), e. split; [|exact He]. simpl. now f_equal.
Qed.

Lemma has_null_spec (s : string) :
  has_null s = true
  <-> exists l r, s = (l ++ String Ascii.zero r)%string.
Proof.
  induction s as [|c s IH]; simpl.
  - split; [discriminate|]. intros [[|d l] [r H]]; discriminate.
  - rewrite orb_true_iff, Nat.eqb_eq, IH. split.
    + intros [Hc|[l [r ->]]].
      * exists EmptyString, s. simpl. f_equal.
        rewrite <- (ascii_nat_embedding c). now rewrite Hc.
      * now exists (String c l), r.
    + intros [[|d l] [r H]]; simpl in H; injection H as -> ->.
      * now left.
      * right. now exists l, r.
Qed.

Lemma strip_trimmed (s : string) : trimmed s (strip s).
Proof.
  unfold trimmed, strip.
  destruct (lstrip_trimmed s) as [l [Hs Hl]].
  destruct (rstrip_trimmed (lstrip s)) as [[r [Ht Hr]] Hlast].
  split.
  - exists l, r. split; [|split; assumption].
    rewrite Hs at 1. now rewrite <- Ht.
  - destruct Hlast as [Hlast|Hlast]; [now left|]. right.
    split; [|exact Hlast].
    pose proof (lstrip_head s) as Hhead.
    destruct (rstrip (lstrip s)) as [|c v] eqn:E.
    + destruct Hlast as [v [c [Hv _]]]. destruct v; discriminate.
    + exists c, v. split; [reflexivity|].
      rewrite Ht in Hhead. simpl in Hhead.
      rewrite <- isspace_whitespace. congruence.
Qed.

Lemma run_field_valid (name : string) (validate : string -> Validation)
    (max_length : option nat) (s : string) :
  strip s <> EmptyString ->
  has_null (strip s) = false ->
  match max_length with
  | Some n => (String.length (strip s) <= n)%nat
  | None => True
  end ->
  validate (strip s) = Valid (strip s) ->
  run_field name max_length validate (Some s) = inl (strip s).
Proof.
  intros Hne Hnull Hlen Hv. unfold run_field, CharField_run_validation.
  apply is_empty_false in Hne. rewrite Hne, Hnull.
  destruct max_length as [n|].
  - apply Nat.ltb_ge in Hlen. rewrite Hlen. now rewrite Hv.
  - now rewrite Hv.
Qed.

Lemma run_field_blank (name : string) (validate : string -> Validation)
    (max_length : option nat) (data : option string) :
  blank data ->
  exists m, run_field name max_length validate data = inr [(name, m)].
Proof.
  unfold run_field, CharField_run_validation.
  destruct data as [s|]; simpl; intros H.
  - rewrite H. simpl. now eexists.
  - now eexists.
Qed.

Lemma run_field_result (name : string) (validate : string -> Validation)
    (max_length : option nat) (data : option string) :
  (exists v, run_field name max_length validate data = inl v)
  \/ (exists m, run_field name max_length validate data = inr [(name, m)]).
Proof.
  unfold run_field.
  destruct (CharField_run_validation max_length data) as [v|m];
    [|right; now eexists].
  destruct (validate v) as [v'|m]; [left | right]; now eexists.
Qed.

Lemma validate_title_ok (s : string) :
  strip s <> EmptyString -> (String.length (strip s) <= 255)%nat ->
  validate_title (strip s) = Valid (strip s).
Proof.
  intros Hne Hlen. unfold validate_title. rewrite strip_idem.
  apply is_empty_false in Hne. rewrite Hne. simpl.
  apply Nat.ltb_ge in Hlen. now rewrite Hlen.
Qed.

Lemma validate_content_ok (s : string) :
  strip s <> EmptyString -> validate_content (strip s) = Valid (strip s).
Proof.
  intros Hne. unfold validate_content. rewrite strip_idem.
  apply is_empty_false in Hne. now rewrite Hne.
Qed.

Lemma serializer_valid (data : ArticleData) (t c : string) :
  data_title data = Some t -> data_content data = Some c ->
  strip t <> EmptyString -> strip c <> EmptyString ->
  has_null (strip t) = false -> has_null (strip c) = false ->
  (String.length (strip t) <= 255)%nat ->
  ArticleCreateSerializer_is_valid data = inl (strip t, strip c).
Proof.
  intros Ht Hc Hnt Hnc Hzt Hzc Hlen. unfold ArticleCreateSerializer_is_valid.
  rewrite Ht, Hc.
  rewrite (run_field_valid "title" validate_title (Some 255%nat) t Hnt Hzt
             Hlen (validate_title_ok t Hnt Hlen)).
  rewrite (run_field_valid "content" validate_content None c Hnc Hzc I
             (validate_content_ok c Hnc)).
  reflexivity.
Qed.

Lemma serializer_invalid (data : ArticleData) :
  invalid_article data ->
  exists errors, errors <> []
                 /\ ArticleCreateSerializer_is_valid data = inr errors.
Proof.
  intros H. unfold ArticleCreateSerializer_is_valid.
  assert (Ht : blank (data_title data)
               \/ (exists t, data_title data = Some t
                             /\ (255 < String.length (strip t))%nat)
               \/ blank (data_content data))
    by (unfold invalid_article in H; tauto).
  clear H.
  destruct Ht as [Ht|[[t [Et Hlen]]|Hc]].
  - destruct (run_field_blank "title" validate_title (Some 255%nat) _ Ht)
      as [m ->].
    destruct (run_field_result "content" validate_content None
                (data_content data)) as [[v ->]|[m' ->]];
      eexists; (split; [|reflexivity]); discriminate.
  - assert (Hr : exists m, run_field "title" (Some 255%nat) validate_title
                             (data_title data) = inr [("title"%string, m)]).
    { rewrite Et. unfold run_field, CharField_run_validation.
      destruct (is_empty (strip t)); [now eexists|].
      destruct (has_null (strip t)); [now eexists|].
      apply Nat.ltb_lt in Hlen. rewrite Hlen. now eexists. }
    destruct Hr as [m ->].
    destruct (run_field_result "content" validate_content None
                (data_content data)) as [[v ->]|[m' ->]];
      eexists; (split; [|reflexivity]); discriminate.
  - destruct (run_field_blank "content" validate_content None _ Hc)
      as [m ->].
    destruct (run_field_result "title" validate_title (Some 255%nat)
                (data_title data)) as [[v ->]|[m' ->]];
      eexists; (split; [|reflexivity]); discriminate.
Qed.



(** ** Password-reset tokens *)

Lemma CustomUser_save_reset_tokens (db : Database) (u : CustomUser.t) :
  reset_tokens (CustomUser_save db u) = reset_tokens db.
Proof.
  destruct (CustomUser_save_cases db u) as [(-> & _)|[-> _]]; reflexivity.
Qed.

Lemma HttpResponse_eq_dec (a b : HttpResponse) : {a = b} + {a <> b}.
Proof. repeat decide equality. Qed.

Section ResetTokenFacts.
Variables sha1_hexdigest make_password : string -> string.
Variable validate_password : string -> bool.

Local Abbreviation issue := (generate_reset_url sha1_hexdigest).
Local Abbreviation reset :=
  (reset_password sha1_hexdigest make_password validate_password).
Local Abbreviation run :=
  (token_steps sha1_hexdigest make_password validate_password).

(** What a reset attempt does, by the row it finds. *)
Lemma reset_password_success (db : Database) (token : string)
    (POST : option ResetPasswordForm) (now : Z) :
  snd (reset db token POST now) = reset_done ->
  exists row form cleaned user,
    filter (fun r => String.eqb (ResetToken.token r) (sha1_hexdigest token)
                     && negb (ResetToken.used r)) (reset_tokens db) = [row]
    /\ now <= ResetToken.expiry_date row
    /\ POST = Some form
    /\ ResetPasswordForm_is_valid validate_password form = Some cleaned
    /\ find_pk CustomUser.pk (ResetToken.user_id row) (users db) = Some user
    /\ reset_tokens (fst (reset db token POST now))
       = save_row ResetToken.pk (ResetToken.with_used row true)
                  (reset_tokens db)
    /\ users (fst (reset db token POST now))
       = users (CustomUser_save db
                  (CustomUser.with_password user (make_password cleaned))).
Proof.
  unfold reset_password, reset_done.
  destruct (objects_get _ (reset_tokens db)) as [|row|] eqn:Eg;
    try discriminate.
  apply objects_get_Found in Eg.
  destruct (ResetToken.expiry_date row <? now) eqn:Ee; [discriminate|].
  apply Z.ltb_ge in Ee.
  destruct POST as [form|]; [|discriminate].
  destruct (ResetPasswordForm_is_valid validate_password form)
    as [cleaned|] eqn:Ev; [|discriminate].
  destruct (find_pk CustomUser.pk _ (users db)) as [user|] eqn:Eu;
    [|discriminate].
  intros _. exists row, form, cleaned, user. simpl.
  rewrite CustomUser_save_reset_tokens. repeat split; auto.
Qed.

Lemma reset_password_failure (db : Database) (token : string)
    (POST : option ResetPasswordForm) (now : Z) :
  snd (reset db token POST now) <> reset_done ->
  fst (reset db token POST now) = db.
Proof.
  unfold reset_password, reset_done.
  destruct (objects_get _ (reset_tokens db)) as [|row|]; try reflexivity.
  destruct (ResetToken.expiry_date row <? now); [reflexivity|].
  destruct POST as [form|]; [|reflexivity].
  destruct (ResetPasswordForm_is_valid validate_password form);
    [|reflexivity].
  destruct (find_pk CustomUser.pk _ (users db)); [|reflexivity].
  simpl. intros H. now contradiction H.
Qed.

(** A spent hash cannot reset anything. *)
Lemma spent_token_is_refused (db : Database) (token : string)
    (POST : option ResetPasswordForm) (now : Z) :
  token_spent (sha1_hexdigest token) (reset_tokens db) ->
  reset db token POST now
  = (db, redirect_with messages.error invalid_or_expired_reset_link).
Proof.
  intros (_ & _ & Hused). unfold reset_password, objects_get.
  replace (filter _ (reset_tokens db)) with (@nil ResetToken.t);
    [reflexivity|].
  symmetry. apply filter_nil_iff. intros r Hr.
  destruct (String.eqb (ResetToken.token r) (sha1_hexdigest token)) eqn:E;
    [|reflexivity].
  apply String.eqb_eq in E. now rewrite (Hused r Hr E).
Qed.

(** A successful reset spends the hash of its token. *)
Lemma reset_spends_token (db : Database) (token : string)
    (POST : option ResetPasswordForm) (now : Z) :
  NoDup (map ResetToken.pk (reset_tokens db)) ->
  snd (reset db token POST now) = reset_done ->
  token_spent (sha1_hexdigest token)
              (reset_tokens (fst (reset db token POST now))).
Proof.
  intros Hd Hs.
  destruct (reset_password_success db token POST now Hs)
    as (row & form & cleaned & user & Hf & _ & _ & _ & _ & Ht & _).
  rewrite Ht.
  assert (Hrow : In row (reset_tokens db)
                 /\ String.eqb (ResetToken.token row) (sha1_hexdigest token)
                    && negb (ResetToken.used row) = true).
  { apply (filter_In (fun r => String.eqb (ResetToken.token r)
                                 (sha1_hexdigest token)
                               && negb (ResetToken.used r))).
    rewrite Hf. now left. }
  destruct Hrow as [Hin Hc]. apply andb_true_iff in Hc.
  destruct Hc as [Htok _]. apply String.eqb_eq in Htok.
  destruct (save_row_split ResetToken.pk (ResetToken.with_used row true)
              row (reset_tokens db) Hd Hin eq_refl) as [l1 [l2 [El Es]]].
  split; [now rewrite save_row_pks|]. split.
  - exists (ResetToken.with_used row true). split; [|exact Htok].
    rewrite Es. apply in_app_iff. right. now left.
  - intros r Hr Hrt. apply save_row_In in Hr.
    destruct Hr as [->|[Hr Hpk]]; [reflexivity|].
    destruct (ResetToken.used r) eqn:Eu; [reflexivity|].
    exfalso. apply Hpk.
    assert (Hrf : In r (filter (fun r => String.eqb (ResetToken.token r)
                                           (sha1_hexdigest token)
                                         && negb (ResetToken.used r))
                               (reset_tokens db))).
    { apply filter_In. split; [assumption|].
      rewrite Hrt, String.eqb_refl, Eu. reflexivity. }
    rewrite Hf in Hrf. destruct Hrf as [<-|[]]. reflexivity.
Qed.

(** Nothing that happens to the table revives a spent hash. *)
Lemma token_step_keeps_spent (hashed : string) (db db' : Database) :
  token_spent hashed (reset_tokens db) ->
  token_step sha1_hexdigest make_password validate_password db db' ->
  token_spent hashed (reset_tokens db').
Proof.
  intros (Hd & [r0 [Hr0 Ht0]] & Hused) Hstep.
  destruct Hstep as [user token now db' url Hi|token POST now|db' He].
  - (* a token is issued: its hash is new *)
    unfold generate_reset_url in Hi.
    destruct (existsb _ (reset_tokens db)) eqn:Ee; [discriminate|].
    injection Hi as <- _. simpl.
    assert (Hnew : sha1_hexdigest token <> hashed).
    { intros Heq.
      assert (Hex : existsb (fun r => String.eqb (ResetToken.token r)
                                        (sha1_hexdigest token))
                            (reset_tokens db) = true).
      { apply existsb_exists. exists r0. split; [assumption|].
        rewrite Ht0, Heq. apply String.eqb_refl. }
      congruence. }
    split; [now apply NoDup_pk_insert|]. split.
    + exists r0. split; [|assumption]. apply in_app_iff. now left.
    + intros r Hr Hrt. apply in_app_iff in Hr.
      destruct Hr as [Hr|[<-|[]]]; [now apply Hused|].
      simpl in Hrt. contradiction.
  - (* a reset is attempted *)
    destruct (HttpResponse_eq_dec (snd (reset db token POST now))
                                  reset_done) as [Hs|Hs].
    + destruct (reset_password_success db token POST now Hs)
        as (row & form & cleaned & user & Hf & _ & _ & _ & _ & Ht & _).
      rewrite Ht.
      assert (Hrow : In row (reset_tokens db)
                     /\ String.eqb (ResetToken.token row)
                          (sha1_hexdigest token)
                        && negb (ResetToken.used row) = true).
      { apply (filter_In (fun r => String.eqb (ResetToken.token r)
                                     (sha1_hexdigest token)
                                   && negb (ResetToken.used r))).
        rewrite Hf. now left. }
      destruct Hrow as [Hin Hc]. apply andb_true_iff in Hc.
      destruct Hc as [_ Hunused]. apply negb_true_iff in Hunused.
      split; [now rewrite save_row_pks|]. split.
      * destruct (Z.eq_dec (ResetToken.pk r0) (ResetToken.pk row)) as [E|E].
        -- assert (r0 = row).
           { assert (E1 := find_pk_In ResetToken.pk _ r0 Hd Hr0).
             assert (E2 := find_pk_In ResetToken.pk _ row Hd Hin).
             rewrite E in E1. congruence. }
           subst r0. rewrite (Hused row Hin Ht0) in Hunused. discriminate.
        -- exists r0. split; [|assumption].
           destruct (save_row_split ResetToken.pk
                       (ResetToken.with_used row true) row (reset_tokens db)
                       Hd Hin eq_refl) as [l1 [l2 [El Es]]].
           rewrite Es. rewrite El in Hr0. apply in_app_iff in Hr0.
           apply in_app_iff. destruct Hr0 as [H|[H|H]];
             [now left | subst r0; contradiction | right; now right].
      * intros r Hr Hrt. apply save_row_In in Hr.
        destruct Hr as [->|[Hr _]]; [reflexivity | now apply Hused].
    + rewrite (reset_password_failure db token POST now Hs).
      split; [assumption|]. split; [now exists r0 | assumption].
  - rewrite He. split; [assumption|]. split; [now exists r0 | assumption].
Qed.
End ResetTokenFacts.

Section ResetTokenClaim.
Variables sha1_hexdigest make_password : string -> string.
Variable validate_password : string -> bool.

(** A SHA-1 digest in hexadecimal has 40 characters. *)
Hypothesis sha1_hexdigest_length :
  forall s, String.length (sha1_hexdigest s) = 40%nat.

Local Abbreviation issue := (generate_reset_url sha1_hexdigest).
Local Abbreviation reset :=
  (reset_password sha1_hexdigest make_password validate_password).
Local Abbreviation run :=
  (token_steps sha1_hexdigest make_password validate_password).

(** C8.  Every issued token is stored as one new, unused row that holds
    the hash of the token, which is never the token itself (a token of
    [token_urlsafe(16)] has 22 characters, a digest 40), with an expiry 5
    minutes after the clock at issuance; issuing succeeds whenever the hash
    is not stored yet.  A reset changes the password only when exactly one
    unused row holds the hash of the presented token and its expiry is not
    before the clock at use; otherwise the database is unchanged.  A reset
    that succeeds leaves every row holding that hash used, and from then
    on, whatever happens to the table, the same token is refused: a token
    resets a password at most once. *)
Theorem reset_token_spec (db : Database) (user : CustomUser.t)
    (token : string) (POST : option ResetPasswordForm) (now : Z) :
  (forall db' url,
      issue db user token now = inl (db', url) ->
      exists row,
        reset_tokens db' = reset_tokens db ++ [row]
        /\ ResetToken.token row = sha1_hexdigest token
        /\ (String.length token = 22%nat -> ResetToken.token row <> token)
        /\ ResetToken.expiry_date row = now + 5 * 60 * 1000000
        /\ ResetToken.used row = false
        /\ ResetToken.user_id row = CustomUser.pk user
        /\ url = ("http://127.0.0.1:8000/reset_password/" ++ token ++ "/")%string)
  /\ ((forall r, In r (reset_tokens db) ->
                 ResetToken.token r <> sha1_hexdigest token) ->
      exists db' url, issue db user token now = inl (db', url))
  /\ (snd (reset db token POST now) = reset_done ->
      exists row,
        In row (reset_tokens db)
        /\ ResetToken.token row = sha1_hexdigest token
        /\ ResetToken.used row = false
        /\ now <= ResetToken.expiry_date row)
  /\ (snd (reset db token POST now) <> reset_done ->
      fst (reset db token POST now) = db)
  /\ (NoDup (map ResetToken.pk (reset_tokens db)) ->
      snd (reset db token POST now) = reset_done ->
      let db' := fst (reset db token POST now) in
      (forall row, In row (reset_tokens db') ->
         ResetToken.token row = sha1_hexdigest token ->
         ResetToken.used row = true)
      /\ forall db'' POST' now',
           run db' db'' ->
           reset db'' token POST' now'
           = (db'', redirect_with messages.error
                      invalid_or_expired_reset_link)).
Proof.
  split; [|split; [|split; [|split]]].
  - intros db' url Hi. unfold generate_reset_url in Hi.
    destruct (existsb _ (reset_tokens db)); [discriminate|].
    injection Hi as <- <-. eexists. split; [reflexivity|]. simpl.
    repeat split.
    intros Hlen Heq. pose proof (sha1_hexdigest_length token) as H40.
    rewrite Heq, Hlen in H40. discriminate.
  - intros Hfresh. unfold generate_reset_url.
    destruct (existsb _ (reset_tokens db)) eqn:Ee; [|now eexists; eexists].
    exfalso. apply existsb_exists in Ee. destruct Ee as [r [Hr He]].
    apply String.eqb_eq in He. now apply (Hfresh r Hr).
  - intros Hs.
    destruct (reset_password_success _ _ _ db token POST now Hs)
      as (row & form & cleaned & u & Hf & Hexp & _).
    exists row.
    assert (Hrow : In row (reset_tokens db)
                   /\ String.eqb (ResetToken.token row) (sha1_hexdigest token)
                      && negb (ResetToken.used row) = true).
    { apply (filter_In (fun r => String.eqb (ResetToken.token r)
                                   (sha1_hexdigest token)
                                 && negb (ResetToken.used r))).
      rewrite Hf. now left. }
    destruct Hrow as [Hin Hc]. apply andb_true_iff in Hc.
    destruct Hc as [Ht Hu]. apply String.eqb_eq in Ht.
    apply negb_true_iff in Hu. auto.
  - apply reset_password_failure.
  - intros Hd Hs db'.
    pose proof (reset_spends_token _ _ _ db token POST now Hd Hs) as Hspent.
    fold db' in Hspent. split; [apply Hspent|].
    intros db'' POST' now' Hrun. apply spent_token_is_refused.
    induction Hrun as [|db1 db2 _ IH Hstep]; [exact Hspent|].
    exact (token_step_keeps_spent sha1_hexdigest make_password
             validate_password _ db1 db2 IH Hstep).
Qed.
End ResetTokenClaim.

Lemma hex_prefix_length (n : nat) (s : string) :
  String.length (SampleCrypto.hex_prefix n s) = (2 * n)%nat.
Proof.
  revert s. induction n as [|n IH]; intros s; simpl; [reflexivity|].
  rewrite IH. lia.
Qed.

(** C8 on the sample newsroom, with stand-ins of the right shape for the
    digest, the hasher and the validators: alice's link, issued at time
    1000, resets her password at time 2000 and is refused afterwards. *)
Lemma reset_token_spec_witness :
  (forall s, String.length (SampleCrypto.digest s) = 40%nat)
  /\ NoDup (map ResetToken.pk (reset_tokens sample_issued))
  /\ (let first :=
        reset_password SampleCrypto.digest SampleCrypto.hasher
          SampleCrypto.validators sample_issued SampleCrypto.token
          (Some SampleCrypto.form) 2000 in
      snd first = reset_done
      /\ reset_password SampleCrypto.digest SampleCrypto.hasher
           SampleCrypto.validators (fst first) SampleCrypto.token
           (Some SampleCrypto.form) 3000
         = (fst first,
            redirect_with messages.error invalid_or_expired_reset_link)).
Proof.
  assert (H40 : forall s, String.length (SampleCrypto.digest s) = 40%nat)
    by (intros s; apply hex_prefix_length).
  assert (Hd : NoDup (map ResetToken.pk (reset_tokens sample_issued))).
  { simpl. repeat constructor. simpl. tauto. }
  assert (Hs : snd (reset_password SampleCrypto.digest SampleCrypto.hasher
                      SampleCrypto.validators sample_issued
                      SampleCrypto.token (Some SampleCrypto.form) 2000)
               = reset_done) by reflexivity.
  split; [exact H40|]. split; [exact Hd|]. split; [exact Hs|].
  destruct (reset_token_spec SampleCrypto.digest SampleCrypto.hasher
              SampleCrypto.validators H40 sample_issued Sample.alice
              SampleCrypto.token (Some SampleCrypto.form) 2000)
    as (_ & _ & _ & _ & H).
  destruct (H Hd Hs) as [_ Hagain].
  apply Hagain. apply token_steps_refl.
Defined.

(** ** Ordering on several columns *)

Section OrderByFacts.
Context {A : Type}.
Variable le : A -> A -> bool.
Hypothesis le_total : forall a b, le a b = true \/ le b a = true.
Hypothesis le_trans :
  forall a b c, le a b = true -> le b c = true -> le a c = true.

Lemma insert_by_Permutation (x : A) (l : list A) :
  Permutation (insert_by le x l) (x :: l).
Proof.
  induction l as [|y l IH]; simpl; [reflexivity|].
  destruct (le x y); [reflexivity|].
  rewrite IH. apply perm_swap.
Qed.

Lemma order_by_Permutation (l : list A) : Permutation (order_by le l) l.
Proof.
  induction l as [|x l IH]; simpl; [reflexivity|].
  rewrite insert_by_Permutation. now constructor.
Qed.

Lemma order_by_In (x : A) (l : list A) : In x (order_by le l) <-> In x l.
Proof.
  split; apply Permutation_in;
    [apply order_by_Permutation | symmetry; apply order_by_Permutation].
Qed.

Lemma insert_by_sorted (x : A) (l : list A) :
  StronglySorted (fun a b => le a b = true) l ->
  StronglySorted (fun a b => le a b = true) (insert_by le x l).
Proof.
  induction 1 as [|y l Hs IH Hy]; simpl.
  - constructor; constructor.
  - destruct (le x y) eqn:E.
    + constructor; [constructor; assumption|].
      constructor; [assumption|].
      eapply Forall_impl; [|exact Hy]. intros b Hb. now apply le_trans with y.
    + constructor; [assumption|].
      assert (Hyx : le y x = true) by (destruct (le_total x y); congruence).
      eapply Permutation_Forall;
        [symmetry; apply insert_by_Permutation|].
      constructor; assumption.
Qed.

Lemma order_by_sorted (l : list A) :
  StronglySorted (fun a b => le a b = true) (order_by le l).
Proof.
  induction l as [|x l IH]; simpl; [constructor|].
  now apply insert_by_sorted.
Qed.
End OrderByFacts.

Lemma StronglySorted_filter {A : Type} (R : A -> A -> Prop) (p : A -> bool)
    (l : list A) :
  StronglySorted R l -> StronglySorted R (filter p l).
Proof.
  induction 1 as [|x l Hs IH Hx]; simpl; [constructor|].
  destruct (p x); [|assumption].
  constructor; [assumption|].
  apply Forall_forall. intros y Hy. apply filter_In in Hy.
  rewrite Forall_forall in Hx. now apply Hx.
Qed.

Lemma StronglySorted_weaken {A : Type} (R R' : A -> A -> Prop) (P : A -> Prop)
    (l : list A) :
  (forall a b, P a -> P b -> R a b -> R' a b) ->
  Forall P l -> StronglySorted R l -> StronglySorted R' l.
Proof.
  intros HR HP Hs. induction Hs as [|x l Hs IH Hx]; [constructor|].
  inversion HP as [|? ? Px Pl]; subst.
  constructor; [now apply IH|].
  rewrite Forall_forall in *. intros y Hy. apply HR; auto.
Qed.

Lemma filter_none {A : Type} (p : A -> bool) (l : list A) :
  (forall x, In x l -> p x = false) -> filter p l = [].
Proof.
  induction l as [|x l IH]; simpl; [reflexivity|]. intros H.
  rewrite (H x) by now left. apply IH. intros y Hy. apply H. now right.
Qed.

Lemma status_then_newest_total (a b : Article.t) :
  status_then_newest a b = true \/ status_then_newest b a = true.
Proof.
  unfold status_then_newest.
  destruct (Z.ltb_spec (status_rank (Article.status a))
                       (status_rank (Article.status b)));
    [now left|].
  destruct (Z.ltb_spec (status_rank (Article.status b))
                       (status_rank (Article.status a)));
    [now right|].
  assert (E : status_rank (Article.status a) = status_rank (Article.status b))
    by lia.
  rewrite E, Z.eqb_refl. simpl.
  destruct (Z.leb_spec (Article.created_at b) (Article.created_at a));
    [now left|].
  right. apply Z.leb_le. lia.
Qed.

Lemma status_then_newest_spec (a b : Article.t) :
  status_then_newest a b = true
  <-> status_rank (Article.status a) < status_rank (Article.status b)
      \/ (status_rank (Article.status a) = status_rank (Article.status b)
          /\ Article.created_at b <= Article.created_at a).
Proof.
  unfold status_then_newest.
  rewrite orb_true_iff, andb_true_iff, Z.ltb_lt, Z.eqb_eq, Z.leb_le.
  reflexivity.
Qed.

Lemma status_then_newest_trans (a b c : Article.t) :
  status_then_newest a b = true -> status_then_newest b c = true ->
  status_then_newest a c = true.
Proof. rewrite !status_then_newest_spec. lia. Qed.

Lemma status_rank_inj (s s' : Status) :
  status_rank s = status_rank s' -> s = s'.
Proof. destruct s, s'; simpl; intros H; try reflexivity; discriminate H. Qed.

Lemma has_status_true (s : Status) (a : Article.t) :
  has_status s a = true <-> Article.status a = s.
Proof. apply Status_eqb_eq. Qed.

(** A list in the order of [order_by("status", "-created_at")] is its
    approved rows, then its pending rows, then its rejected rows. *)
Lemma status_blocks (l : list Article.t) :
  StronglySorted (fun a b => status_then_newest a b = true) l ->
  l = filter (has_status approved) l ++ filter (has_status pending) l
      ++ filter (has_status rejected) l.
Proof.
  induction 1 as [|a l Hs IH Ha]; [reflexivity|].
  rewrite Forall_forall in Ha.
  assert (Hrank : forall b, In b l ->
             status_rank (Article.status a) <= status_rank (Article.status b)).
  { intros b Hb. specialize (Ha b Hb).
    apply status_then_newest_spec in Ha. lia. }
  assert (Hn : forall s, status_rank s < status_rank (Article.status a) ->
                         filter (has_status s) l = []).
  { intros s Hlt. apply filter_none. intros b Hb.
    specialize (Hrank b Hb). unfold has_status.
    apply Status_eqb_neq. intros E. rewrite E in Hrank. lia. }
  assert (Hh : forall s, has_status s a = Status_eqb (Article.status a) s)
    by reflexivity.
  cbn [filter]. rewrite !Hh.
  destruct (Article.status a) eqn:Ea; cbn [Status_eqb].
  - (* pending *)
    rewrite (Hn approved) by (simpl; lia). simpl. f_equal.
    rewrite IH at 1. now rewrite (Hn approved) by (simpl; lia).
  - (* approved *)
    simpl. f_equal. exact IH.
  - (* rejected *)
    rewrite (Hn approved), (Hn pending) by (simpl; lia). simpl. f_equal.
    rewrite IH at 1.
    now rewrite (Hn approved), (Hn pending) by (simpl; lia).
Qed.

(** Within one status the order is newest first. *)
Lemma status_block_descending (s : Status) (l : list Article.t) :
  StronglySorted (fun a b => status_then_newest a b = true) l ->
  descending Article.created_at (filter (has_status s) l).
Proof.
  intros Hs. unfold descending.
  apply StronglySorted_weaken
    with (R := fun a b => status_then_newest a b = true)
         (P := fun a => Article.status a = s).
  - intros a b Ea Eb H. apply status_then_newest_spec in H.
    rewrite Ea, Eb in H. lia.
  - apply Forall_forall. intros a Ha. apply filter_In in Ha.
    now apply has_status_true.
  - now apply StronglySorted_filter.
Qed.

Lemma length_status_blocks (l : list Article.t) :
  StronglySorted (fun a b => status_then_newest a b = true) l ->
  List.length l
  = (List.length (filter (has_status pending) l)
     + List.length (filter (has_status approved) l)
     + List.length (filter (has_status rejected) l))%nat.
Proof.
  intros Hs. rewrite (status_blocks l Hs) at 1.
  rewrite !length_app. lia.
Qed.

(** ** Reading one article *)

Lemma find_None_iff {A : Type} (f : A -> bool) (l : list A) :
  find f l = None <-> forall x, In x l -> f x = false.
Proof.
  split; [apply find_none|].
  induction l as [|y l IH]; simpl; [reflexivity|]. intros H.
  rewrite (H y) by now left. apply IH. intros x Hx. apply H. now right.
Qed.

Lemma is_subscribed_to_journalist_follows (db : Database) (u : CustomUser.t)
    (j : Z) :
  is_subscribed_to_journalist db u j = true
  <-> follows_journalist db (CustomUser.pk u) j.
Proof.
  unfold is_subscribed_to_journalist, follows_journalist.
  rewrite existsb_exists. split.
  - intros [s [Hin Hc]]. apply andb_true_iff in Hc. destruct Hc as [Hc Ha].
    apply andb_true_iff in Hc. destruct Hc as [Hr Hj].
    apply Z.eqb_eq in Hr, Hj. now exists s.
  - intros [s (Hin & Hr & Hj & Ha)]. exists s. split; [assumption|].
    now rewrite Hr, Hj, Ha, !Z.eqb_refl.
Qed.

Lemma is_subscribed_to_publisher_follows (db : Database) (u : CustomUser.t)
    (p : Z) :
  is_subscribed_to_publisher db u p = true
  <-> follows_publisher db (CustomUser.pk u) p.
Proof.
  unfold is_subscribed_to_publisher, follows_publisher.
  rewrite existsb_exists. split.
  - intros [s [Hin Hc]]. apply andb_true_iff in Hc. destruct Hc as [Hc Ha].
    apply andb_true_iff in Hc. destruct Hc as [Hr Hp].
    apply Z.eqb_eq in Hr, Hp. now exists s.
  - intros [s (Hin & Hr & Hp & Ha)]. exists s. split; [assumption|].
    now rewrite Hr, Hp, Ha, !Z.eqb_refl.
Qed.

Lemma reads_unapproved_true (user : option CustomUser.t) :
  authenticated_and user
    (fun u => Role.eqb (CustomUser.role u) Role.editor
              || Role.eqb (CustomUser.role u) Role.journalist) = true
  <-> reads_unapproved user.
Proof.
  unfold reads_unapproved. destruct user as [u|]; simpl.
  - rewrite orb_true_iff, !Role_eqb_eq. split.
    + intros H. now exists u.
    + intros [v [Hv H]]. now inversion Hv; subst.
  - split; [discriminate | intros [v [Hv _]]; discriminate].
Qed.

(** The article [article_detail] looks up. *)
Lemma article_detail_lookup (db : Database) (user : option CustomUser.t)
    (pk : Z) :
  let article :=
    if authenticated_and user
         (fun u => Role.eqb (CustomUser.role u) Role.editor
                   || Role.eqb (CustomUser.role u) Role.journalist)
    then find_pk Article.pk pk (articles db)
    else find (fun a => (Article.pk a =? pk) && is_approved a) (articles db) in
  (article = None
   <-> forall a, In a (articles db) -> Article.pk a = pk ->
         Article.status a <> approved /\ ~ reads_unapproved user)
  /\ forall a, article = Some a ->
       In a (articles db) /\ Article.pk a = pk
       /\ (Article.status a = approved \/ reads_unapproved user).
Proof.
  destruct (authenticated_and user _) eqn:Eu; cbv zeta.
  - apply reads_unapproved_true in Eu. split.
    + unfold find_pk. rewrite find_None_iff. split.
      * intros H a Hin Hk. specialize (H a Hin). apply Z.eqb_neq in H.
        contradiction.
      * intros H a Hin. apply Z.eqb_neq. intros Hk.
        destruct (H a Hin Hk) as [_ Hn]. contradiction.
    + intros a Ha. apply find_pk_Some in Ha. tauto.
  - assert (Hn : ~ reads_unapproved user).
    { intros H. apply reads_unapproved_true in H. congruence. }
    split.
    + rewrite find_None_iff. split.
      * intros H a Hin Hk. specialize (H a Hin).
        apply Z.eqb_eq in Hk. rewrite Hk in H. simpl in H.
        split; [|assumption]. intros Hs. apply is_approved_true in Hs.
        congruence.
      * intros H a Hin. destruct (Article.pk a =? pk) eqn:Ek; [|reflexivity].
        apply Z.eqb_eq in Ek. destruct (H a Hin Ek) as [Hs _]. simpl.
        destruct (is_approved a) eqn:Ea; [|reflexivity].
        apply is_approved_true in Ea. contradiction.
    + intros a Ha. apply find_some in Ha. destruct Ha as [Hin Hc].
      apply andb_true_iff in Hc. destruct Hc as [Hk Hs].
      apply Z.eqb_eq in Hk. apply is_approved_true in Hs. tauto.
Qed.

(** A key under which nothing is stored is a 404 for everybody. *)
Lemma article_detail_missing (db : Database) (user : option CustomUser.t)
    (pk : Z) :
  (forall a, In a (articles db) -> Article.pk a <> pk) ->
  article_detail db user pk = Page.Http404.
Proof.
  intros H.
  pose proof (article_detail_lookup db user pk) as [Hnone _].
  cbv zeta in Hnone. unfold article_detail.
  destruct (if authenticated_and user _ then _ else _) as [a|] eqn:Ea;
    [|reflexivity].
  assert (Hn : Some a = None); [|discriminate].
  apply Hnone. intros b Hb Hk. now destruct (H b Hb).
Qed.

(** X1.  [article_detail] answers with the page or with a 404 and nothing
    else.  It is a 404 exactly when no stored article with the key may be
    shown: an article that is not approved is shown to a logged-in editor
    or journalist only, so not to its publisher, to a reader or to an
    anonymous visitor.  The page shows a stored article with that key, and
    it carries the two subscription flags for a reader and for nobody
    else; a flag is set exactly when the reader holds the active
    subscription. *)
Theorem article_detail_spec (db : Database) (user : option CustomUser.t)
    (pk : Z) :
  (article_detail db user pk = Page.Http404
   \/ exists ctx,
        article_detail db user pk
        = Page.render "news/article_detail.html" ctx)
  /\ (article_detail db user pk = Page.Http404
      <-> forall a, In a (articles db) -> Article.pk a = pk ->
            Article.status a <> approved /\ ~ reads_unapproved user)
  /\ forall template ctx,
       article_detail db user pk = Page.render template ctx ->
       let a := ArticleDetail.article ctx in
       In a (articles db) /\ Article.pk a = pk
       /\ (Article.status a = approved \/ reads_unapproved user)
       /\ (forall u, user = Some u -> CustomUser.role u = Role.reader ->
             exists bj bp,
               ArticleDetail.is_subscribed_to_journalist ctx = Some bj
               /\ ArticleDetail.is_subscribed_to_publisher ctx = Some bp
               /\ (bj = true
                   <-> follows_journalist db (CustomUser.pk u)
                         (Article.journalist_id a))
               /\ (bp = true
                   <-> follows_publisher db (CustomUser.pk u)
                         (Article.publisher_id a)))
       /\ ((forall u, user = Some u -> CustomUser.role u <> Role.reader) ->
           ArticleDetail.is_subscribed_to_journalist ctx = None
           /\ ArticleDetail.is_subscribed_to_publisher ctx = None).
Proof.
  pose proof (article_detail_lookup db user pk) as [Hnone Hsome].
  cbv zeta in Hnone, Hsome. unfold article_detail.
  destruct (if authenticated_and user _ then _ else _) as [a|] eqn:Ea.
  - specialize (Hsome a eq_refl). destruct Hsome as (Hin & Hk & Hs).
    assert (Hpage : forall ctx : ArticleDetail.t,
               Page.render "news/article_detail.html" ctx <> Page.Http404)
      by discriminate.
    split; [|split].
    + right. destruct user as [u|];
        [destruct (Role.eqb (CustomUser.role u) Role.reader)|];
        eexists; reflexivity.
    + split.
      * destruct user as [u|];
          [destruct (Role.eqb (CustomUser.role u) Role.reader)|];
          discriminate.
      * intros H. apply Hnone in H. discriminate.
    + intros template ctx Hr.
      destruct user as [u|].
      * destruct (Role.eqb (CustomUser.role u) Role.reader) eqn:Er;
          injection Hr as <- <-; simpl;
          (split; [exact Hin|]); (split; [exact Hk|]); (split; [exact Hs|]).
        -- split.
           ++ intros v Hv _. inversion Hv; subst v.
              eexists. eexists. split; [reflexivity|].
              split; [reflexivity|].
              split; [apply is_subscribed_to_journalist_follows
                     | apply is_subscribed_to_publisher_follows].
           ++ intros H. apply Role_eqb_eq in Er. now destruct (H u eq_refl).
        -- split; [|auto].
           intros v Hv Hrole. inversion Hv; subst v.
           apply Role_eqb_eq in Hrole. congruence.
      * injection Hr as <- <-; simpl.
        split; [exact Hin|]. split; [exact Hk|]. split; [exact Hs|].
        split; [discriminate | auto].
  - split; [now left|]. split.
    + split; [intros _; now apply Hnone | reflexivity].
    + discriminate.
Qed.

(** On the sample newsroom the pending article is a 404 for the reader
    alice, for the publisher dave and for an anonymous visitor, and the
    page for the editor carol. *)
Lemma article_detail_spec_witness :
  article_detail Sample.db (Some Sample.alice) 2 = Page.Http404
  /\ article_detail Sample.db (Some Sample.dave) 2 = Page.Http404
  /\ article_detail Sample.db None 2 = Page.Http404
  /\ In Sample.pending_article (articles Sample.db)
  /\ Article.pk Sample.pending_article = 2
  /\ (Article.status Sample.pending_article = approved
      \/ reads_unapproved (Some Sample.carol)).
Proof.
  split; [reflexivity|]. split; [reflexivity|]. split; [reflexivity|].
  destruct (article_detail_spec Sample.db (Some Sample.carol) 2)
    as (_ & _ & H).
  destruct (H "news/article_detail.html"%string
              (ArticleDetail.mk Sample.pending_article None None) eq_refl)
    as (Hin & Hk & Hs & _).
  exact (conj Hin (conj Hk Hs)).
Defined.

(** ** Editing and deleting an article *)

Section DeleteFacts.
Context {A : Type}.
Variable pk : A -> Z.

Lemma delete_row_find_pk (x : A) (l : list A) :
  find_pk pk (pk x) (delete_row pk x l) = None.
Proof.
  unfold find_pk, delete_row. apply find_None_iff.
  intros r Hr. apply filter_In in Hr. destruct Hr as [_ Hr].
  now apply negb_true_iff in Hr.
Qed.

Lemma delete_row_find_pk_other (x : A) (k : Z) (l : list A) :
  k <> pk x -> find_pk pk k (delete_row pk x l) = find_pk pk k l.
Proof.
  intros Hk. unfold find_pk, delete_row.
  induction l as [|y l IH]; simpl; [reflexivity|].
  destruct (pk y =? pk x) eqn:E; simpl.
  - apply Z.eqb_eq in E.
    assert (E' : (pk y =? k) = false) by (apply Z.eqb_neq; congruence).
    now rewrite E'.
  - destruct (pk y =? k); [reflexivity | exact IH].
Qed.

Lemma delete_row_In (x r : A) (l : list A) :
  In r (delete_row pk x l) <-> In r l /\ pk r <> pk x.
Proof.
  unfold delete_row. rewrite filter_In, negb_true_iff, Z.eqb_neq.
  reflexivity.
Qed.
End DeleteFacts.

Lemma set_articles_same (db : Database) : set_articles db (articles db) = db.
Proof. now destruct db. Qed.

Lemma set_articles_articles (db : Database) (l : list Article.t) :
  articles (set_articles db l) = l.
Proof. reflexivity. Qed.

(** The permission part of [update_article]: the caller passes it exactly
    when [may_edit_article] holds; a caller who does not pass is sent
    back with an error message, or the view fails on a missing profile. *)
Lemma update_article_cases (db : Database) (user : CustomUser.t) (pk : Z)
    (form : option (string * string)) (a : Article.t) :
  find_pk Article.pk pk (articles db) = Some a ->
  (may_edit_article db user a
   /\ update_article db user pk form
      = match form with
        | Some (title, content) =>
            match ModelForm_clean_field (Some 255%nat) title,
                  ModelForm_clean_field None content with
            | Some title, Some content =>
                (set_articles db
                   (save_row Article.pk (ArticleForm_save a title content)
                             (articles db)),
                 Page.redirect "news:article_detail" (Some pk)
                   (Some (messages.success,
                          ("Article '" ++ title
                           ++ "' updated successfully!")%string)))
            | _, _ => (db, Page.render "news/update_article.html" tt)
            end
        | None => (db, Page.render "news/update_article.html" tt)
        end)
  \/ (~ may_edit_article db user a
      /\ fst (update_article db user pk form) = db
      /\ ((exists m, snd (update_article db user pk form)
                     = Page.redirect "news:article_detail" (Some pk)
                         (Some (messages.error, m)))
          \/ snd (update_article db user pk form)
             = Page.server_error RelatedObjectDoesNotExist)).
Proof.
  intros Hf. unfold update_article, may_edit_article. rewrite Hf.
  destruct (Role.eqb (CustomUser.role user) Role.editor) eqn:Ee.
  - apply Role_eqb_eq in Ee.
    destruct (editor_profile db user) as [e|] eqn:Ep.
    + destruct (Article.publisher_id a =? Editor.publisher_id e) eqn:Eq;
        simpl.
      * apply Z.eqb_eq in Eq. left. split; [|reflexivity].
        left. split; [assumption|]. now exists e.
      * apply Z.eqb_neq in Eq. right. split; [|split; [reflexivity|]].
        -- intros [[_ [e' [He' Hp]]]|[Hr _]]; [|congruence].
           inversion He'; subst e'. contradiction.
        -- left. eexists. reflexivity.
    + right. split; [|split; [reflexivity|now right]].
      intros [[_ [e' [He' _]]]|[Hr _]]; congruence.
  - apply Role_eqb_neq in Ee.
    destruct (Role.eqb (CustomUser.role user) Role.journalist) eqn:Ej.
    + apply Role_eqb_eq in Ej.
      destruct (journalist_profile db user) as [j|] eqn:Ep.
      * destruct (Article.journalist_id a =? Journalist.pk j) eqn:Eq; simpl.
        -- apply Z.eqb_eq in Eq. left. split; [|reflexivity].
           right. split; [assumption|]. now exists j.
        -- apply Z.eqb_neq in Eq. right. split; [|split; [reflexivity|]].
           ++ intros [[Hr _]|[_ [j' [Hj' Hp]]]]; [contradiction|].
              inversion Hj'; subst j'. contradiction.
           ++ left. eexists. reflexivity.
      * right. split; [|split; [reflexivity|now right]].
        intros [[Hr _]|[_ [j' [Hj' _]]]]; [contradiction | congruence].
    + apply Role_eqb_neq in Ej. right. split; [|split; [reflexivity|]].
      * intros [[Hr _]|[Hr _]]; contradiction.
      * left. eexists. reflexivity.
Qed.

(** The case of a request that writes nothing. *)
Ltac unchanged_article a Hsame :=
  split; [now rewrite set_articles_same|]; split; [reflexivity|];
  split; [reflexivity|]; split; [discriminate|];
  let a0 := fresh "a0" in
  let Ha0 := fresh "Ha0" in
  intros a0 Ha0; injection Ha0 as Ha0; subst a0;
  split; [exists a; split; [assumption | now apply Hsame]|];
  split; [intros; reflexivity|]; split; [intros; reflexivity|];
  split; [intros; reflexivity|].



(** The permission part of [delete_article], the same as that of
    [update_article]. *)
Lemma delete_article_cases (db : Database) (user : CustomUser.t) (pk : Z)
    (method : Method) (a : Article.t) :
  find_pk Article.pk pk (articles db) = Some a ->
  (may_edit_article db user a
   /\ delete_article db user pk method
      = match method with
        | POST =>
            (set_articles db (delete_row Article.pk a (articles db)),
             Page.redirect "news:article_list" None
               (Some (messages.success,
                      ("Article '" ++ Article.title a
                       ++ "' deleted successfully!")%string)))
        | GET => (db, Page.render "news/delete_article.html" a)
        end)
  \/ (~ may_edit_article db user a
      /\ fst (delete_article db user pk method) = db
      /\ ((exists m, snd (delete_article db user pk method)
                     = Page.redirect "news:article_detail" (Some pk)
                         (Some (messages.error, m)))
          \/ snd (delete_article db user pk method)
             = Page.server_error RelatedObjectDoesNotExist)).
Proof.
  intros Hf. unfold delete_article, may_edit_article. rewrite Hf.
  destruct (Role.eqb (CustomUser.role user) Role.editor) eqn:Ee.
  - apply Role_eqb_eq in Ee.
    destruct (editor_profile db user) as [e|] eqn:Ep.
    + destruct (Article.publisher_id a =? Editor.publisher_id e) eqn:Eq;
        simpl.
      * apply Z.eqb_eq in Eq. left. split; [|reflexivity].
        left. split; [assumption|]. now exists e.
      * apply Z.eqb_neq in Eq. right. split; [|split; [reflexivity|]].
        -- intros [[_ [e' [He' Hp]]]|[Hr _]]; [|congruence].
           inversion He'; subst e'. contradiction.
        -- left. eexists. reflexivity.
    + right. split; [|split; [reflexivity|now right]].
      intros [[_ [e' [He' _]]]|[Hr _]]; congruence.
  - apply Role_eqb_neq in Ee.
    destruct (Role.eqb (CustomUser.role user) Role.journalist) eqn:Ej.
    + apply Role_eqb_eq in Ej.
      destruct (journalist_profile db user) as [j|] eqn:Ep.
      * destruct (Article.journalist_id a =? Journalist.pk j) eqn:Eq; simpl.
        -- apply Z.eqb_eq in Eq. left. split; [|reflexivity].
           right. split; [assumption|]. now exists j.
        -- apply Z.eqb_neq in Eq. right. split; [|split; [reflexivity|]].
           ++ intros [[Hr _]|[_ [j' [Hj' Hp]]]]; [contradiction|].
              inversion Hj'; subst j'. contradiction.
           ++ left. eexists. reflexivity.
      * right. split; [|split; [reflexivity|now right]].
        intros [[Hr _]|[_ [j' [Hj' _]]]]; [contradiction | congruence].
    + apply Role_eqb_neq in Ej. right. split; [|split; [reflexivity|]].
      * intros [[Hr _]|[Hr _]]; contradiction.
      * left. eexists. reflexivity.
Qed.



(** ** Dashboards *)

(** The articles of a dashboard: the rows selected by [q], by status and
    newest first within a status. *)
Lemma dashboard_articles (q : Article.t -> bool) (rows : list Article.t) :
  let l := order_by status_then_newest (filter q rows) in
  Permutation l (filter q rows)
  /\ l = filter (has_status approved) l ++ filter (has_status pending) l
         ++ filter (has_status rejected) l
  /\ (forall s a, In a (filter (has_status s) l)
                  <-> In a rows /\ q a = true /\ Article.status a = s)
  /\ (forall s, descending Article.created_at (filter (has_status s) l))
  /\ List.length l
     = (List.length (filter (has_status pending) l)
        + List.length (filter (has_status approved) l)
        + List.length (filter (has_status rejected) l))%nat.
Proof.
  intros l.
  assert (Hs : StronglySorted (fun a b => status_then_newest a b = true) l).
  { apply order_by_sorted;
      [apply status_then_newest_total | apply status_then_newest_trans]. }
  split; [apply order_by_Permutation|].
  split; [now apply status_blocks|].
  split.
  { intros s a. unfold l. rewrite filter_In, order_by_In, filter_In.
    rewrite has_status_true. tauto. }
  split; [intros s; now apply status_block_descending|].
  now apply length_status_blocks.
Qed.





(** ** Newsletters *)

Lemma set_newsletters_same (db : Database) :
  set_newsletters db (newsletters db) = db.
Proof. now destruct db. Qed.

(** X6.  For a user who is not a reader, the newsletters of the API are
    all newsletters; for a reader they are exactly the newsletters whose
    journalist or whose publisher the reader actively follows.  In both
    cases the newest comes first and, primary keys being unique, no
    newsletter is listed twice; what the API lists is always on the page
    [newsletter_list] as well. *)
Theorem visible_newsletters_spec (db : Database) (user : CustomUser.t) :
  NoDup (map Newsletter.pk (newsletters db)) ->
  let result := NewsletterViewSet_get_queryset db user in
  descending Newsletter.created_at result
  /\ NoDup (map Newsletter.pk result)
  /\ (CustomUser.role user <> Role.reader ->
      forall n, In n result <-> In n (newsletters db))
  /\ (CustomUser.role user = Role.reader ->
      forall n, In n result
                <-> In n (newsletters db)
                    /\ (follows_journalist db (CustomUser.pk user)
                                           (Newsletter.journalist_id n)
                        \/ follows_publisher db (CustomUser.pk user)
                                             (Newsletter.publisher_id n)))
  /\ (forall n, In n result -> In n (newsletter_list db user)).
Proof.
  intros Hpk result. subst result.
  assert (Hpage : forall n, In n (NewsletterViewSet_get_queryset db user) ->
                            In n (newsletter_list db user)).
  { intros n. unfold NewsletterViewSet_get_queryset, newsletter_list.
    destruct (Role.eqb (CustomUser.role user) Role.reader);
      rewrite !order_by_desc_In; [|auto].
    intros H. apply filter_In in H. tauto. }
  unfold NewsletterViewSet_get_queryset in *.
  destruct (Role.eqb (CustomUser.role user) Role.reader) eqn:Er.
  - apply Role_eqb_eq in Er.
    split; [apply order_by_desc_descending|].
    split; [now apply order_by_desc_NoDup, NoDup_map_filter|].
    split; [congruence|]. split; [|exact Hpage]. intros _ n.
    rewrite order_by_desc_In, filter_In.
    rewrite orb_true_iff, !mem_In.
    rewrite subscribed_journalist_ids_In, subscribed_publisher_ids_In.
    tauto.
  - apply Role_eqb_neq in Er.
    split; [apply order_by_desc_descending|].
    split; [now apply order_by_desc_NoDup|].
    split; [|split; [congruence | exact Hpage]]. intros _ n.
    now rewrite order_by_desc_In.
Qed.

(** The sample newsroom: alice follows bob and sees his newsletter, erin
    follows nobody and sees none. *)
Lemma visible_newsletters_spec_witness :
  NoDup (map Newsletter.pk (newsletters Sample.db))
  /\ descending Newsletter.created_at
       (NewsletterViewSet_get_queryset Sample.db Sample.alice)
  /\ NewsletterViewSet_get_queryset Sample.db Sample.alice
     = [Newsletter.mk 1 "Weekly" "News of the week" 1 1 15]
  /\ NewsletterViewSet_get_queryset Sample.db Sample.erin = [].
Proof.
  assert (H : NoDup (map Newsletter.pk (newsletters Sample.db))).
  { simpl. repeat constructor; simpl; intuition discriminate. }
  split; [exact H|].
  split; [apply (visible_newsletters_spec Sample.db Sample.alice H)|].
  split; reflexivity.
Defined.

(** *** Mail about a newsletter *)

Lemma notify_newsletter_recipients (newsletter : Newsletter.t)
    (l : list CustomUser.t) (seen : list string) (e : string) :
  In e (newsletter_recipients
          (notify_newsletter_subscribers newsletter l seen))
  <-> (exists u, In u l /\ CustomUser.email u = e) /\ ~ In e seen.
Proof.
  revert seen. induction l as [|u l IH]; intros seen; simpl.
  - split; [intros [] | intros [[u [[] _]] _]].
  - destruct (existsb (String.eqb (CustomUser.email u)) seen) eqn:Es.
    + apply existsb_String_eqb in Es. rewrite IH. split.
      * intros [[v [Hv He]] Hn]. split; [|assumption]. exists v. auto.
      * intros [[v [[<-|Hv] He]] Hn]; [subst e; contradiction|].
        split; [|assumption]. now exists v.
    + assert (Hns : ~ In (CustomUser.email u) seen).
      { intros H. apply existsb_String_eqb in H. congruence. }
      simpl. rewrite IH. simpl. split.
      * intros [<-|[[v [Hv He]] Hn]].
        -- split; [|assumption]. exists u. auto.
        -- split; [exists v; auto | tauto].
      * intros [[v [[<-|Hv] He]] Hn].
        -- now left.
        -- destruct (string_dec (CustomUser.email u) e) as [Heq|Hne];
             [now left|].
           right. split; [now exists v | tauto].
Qed.

Lemma notify_newsletter_NoDup (newsletter : Newsletter.t)
    (l : list CustomUser.t) (seen : list string) :
  NoDup (newsletter_recipients
           (notify_newsletter_subscribers newsletter l seen)).
Proof.
  revert seen. induction l as [|u l IH]; intros seen; simpl.
  - constructor.
  - destruct (existsb (String.eqb (CustomUser.email u)) seen); [apply IH|].
    simpl. constructor; [|apply IH].
    intros H. apply notify_newsletter_recipients in H.
    destruct H as [_ Hn]. apply Hn. now left.
Qed.

Lemma notify_newsletter_messages (newsletter : Newsletter.t)
    (l : list CustomUser.t) (seen : list string) (m : NewsletterEmail) :
  In m (notify_newsletter_subscribers newsletter l seen) ->
  exists u, In u l
            /\ m = build_new_newsletter_notification_email u newsletter.
Proof.
  revert seen. induction l as [|u l IH]; intros seen; simpl; [intros []|].
  destruct (existsb (String.eqb (CustomUser.email u)) seen).
  - intros H. destruct (IH _ H) as [v [Hv Hm]]. exists v. auto.
  - intros [<-|H].
    + exists u. auto.
    + destruct (IH _ H) as [v [Hv Hm]]. exists v. auto.
Qed.

(** The users the loop of [send_newsletter_notifications] runs over. *)
Lemma newsletter_subscribers_In (db : Database) (newsletter : Newsletter.t)
    (u : CustomUser.t) :
  In u (readers_of db
          (map JournalistSubscription.reader_id
               (filter (fun s => (JournalistSubscription.journalist_id s
                                  =? Newsletter.journalist_id newsletter)
                                 && JournalistSubscription.is_active s)
                       (journalist_subscriptions db)))
        ++ readers_of db
             (map PublisherSubscription.reader_id
                  (filter (fun s => (PublisherSubscription.publisher_id s
                                     =? Newsletter.publisher_id newsletter)
                                    && PublisherSubscription.is_active s)
                          (publisher_subscriptions db))))
  <-> newsletter_subscriber db newsletter u.
Proof.
  unfold newsletter_subscriber. rewrite in_app_iff, !readers_of_In. split.
  - intros [[k [Hk Hf]]|[k [Hk Hf]]];
      apply in_map_iff in Hk; destruct Hk as [s [Hr Hin]];
      apply filter_In in Hin; destruct Hin as [Hin Hc];
      apply andb_true_iff in Hc; destruct Hc as [Ht Ha];
      apply Z.eqb_eq in Ht; [left | right]; exists s; subst k; auto.
  - intros [[s (Hin & Ht & Ha & Hf)]|[s (Hin & Ht & Ha & Hf)]];
      [left | right]; eexists; (split; [|exact Hf]);
      apply in_map; apply filter_In; (split; [assumption|]);
      now rewrite Ht, Ha, Z.eqb_refl.
Qed.

(** X7.  [send_newsletter_notifications] writes to exactly the addresses
    of the users behind an active subscription to the journalist or to
    the publisher of the newsletter, each address once and one message
    per address, each message the notification of that newsletter to one
    of these users and addressed to that user alone.
    [send_newsletter_confirmation_email] writes one message, the
    confirmation for that newsletter, addressed to the user of the
    journalist of the newsletter and to nobody else, and nothing when
    that journalist or user is not stored. *)
Theorem newsletter_fan_out_spec (db : Database) (newsletter : Newsletter.t) :
  let out := send_newsletter_notifications db newsletter in
  NoDup (newsletter_recipients out)
  /\ (forall e, In e (newsletter_recipients out)
                <-> exists u, newsletter_subscriber db newsletter u
                              /\ CustomUser.email u = e)
  /\ (forall m, In m out ->
        exists u, newsletter_subscriber db newsletter u
                  /\ m = build_new_newsletter_notification_email u
                           newsletter)
  /\ (forall jr ju,
        find_pk Journalist.pk (Newsletter.journalist_id newsletter)
                (journalists db) = Some jr ->
        find_pk CustomUser.pk (Journalist.user_id jr) (users db) = Some ju ->
        send_newsletter_confirmation_email db newsletter
        = [build_newsletter_created_confirmation_email ju newsletter])
  /\ ((find_pk Journalist.pk (Newsletter.journalist_id newsletter)
               (journalists db) = None
       \/ exists jr,
            find_pk Journalist.pk (Newsletter.journalist_id newsletter)
                    (journalists db) = Some jr
            /\ find_pk CustomUser.pk (Journalist.user_id jr) (users db)
               = None) ->
      send_newsletter_confirmation_email db newsletter = [])
  /\ (forall m, In m out ->
        newsletter_kind m = new_newsletter_notification newsletter
        /\ exists u, newsletter_subscriber db newsletter u
                     /\ newsletter_to m = [CustomUser.email u])
  /\ (forall jr ju,
        find_pk Journalist.pk (Newsletter.journalist_id newsletter)
                (journalists db) = Some jr ->
        find_pk CustomUser.pk (Journalist.user_id jr) (users db) = Some ju ->
        exists confirmation,
          send_newsletter_confirmation_email db newsletter = [confirmation]
          /\ newsletter_kind confirmation
             = newsletter_created_confirmation newsletter
          /\ newsletter_to confirmation = [CustomUser.email ju]).
Proof.
  cbv zeta. unfold send_newsletter_notifications.
  split; [apply notify_newsletter_NoDup|].
  split; [|split; [|split; [|split; [|split]]]].
  - intros e. rewrite notify_newsletter_recipients. split.
    + intros [[u [Hu He]] _]. exists u. split; [|assumption].
      now apply newsletter_subscribers_In.
    + intros [u [Hu He]]. split; [|intros []]. exists u.
      split; [|assumption]. now apply newsletter_subscribers_In.
  - intros m Hm. apply notify_newsletter_messages in Hm.
    destruct Hm as [u [Hu Hm]]. exists u. split; [|assumption].
    now apply newsletter_subscribers_In.
  - intros jr ju Hj Hu. unfold send_newsletter_confirmation_email.
    now rewrite Hj, Hu.
  - unfold send_newsletter_confirmation_email.
    intros [Hn|[jr [Hj Hu]]]; [now rewrite Hn | now rewrite Hj, Hu].
  - intros m Hm. apply notify_newsletter_messages in Hm.
    destruct Hm as [u [Hu ->]]. split; [reflexivity|]. exists u.
    split; [now apply newsletter_subscribers_In | reflexivity].
  - intros jr ju Hj Hu. unfold send_newsletter_confirmation_email.
    rewrite Hj, Hu. eexists. split; [reflexivity|]. split; reflexivity.
Qed.

(** On the sample newsroom alice follows both bob and Acme and is written
    to once about bob's newsletter. *)
Lemma newsletter_fan_out_spec_witness :
  send_newsletter_confirmation_email Sample.db
    (Newsletter.mk 1 "Weekly" "News of the week" 1 1 15)
  = [mkNewsletterEmail
       (newsletter_created_confirmation
          (Newsletter.mk 1 "Weekly" "News of the week" 1 1 15))
       ["bob@example.com"%string]]
  /\ send_newsletter_notifications Sample.db
       (Newsletter.mk 1 "Weekly" "News of the week" 1 1 15)
     = [build_new_newsletter_notification_email Sample.alice
          (Newsletter.mk 1 "Weekly" "News of the week" 1 1 15)].
Proof.
  split; [|reflexivity].
  destruct (newsletter_fan_out_spec Sample.db
              (Newsletter.mk 1 "Weekly" "News of the week" 1 1 15))
    as (_ & _ & _ & H & _).
  apply (H (Journalist.mk 1 2 1) Sample.bob); reflexivity.
Defined.

(** A row under a fresh key is found under it once appended. *)
Lemma find_pk_fresh_append {A : Type} (pk : A -> Z) (x : A) (l : list A) :
  ~ In (pk x) (map pk l) -> find_pk pk (pk x) (l ++ [x]) = Some x.
Proof.
  intros Hn. unfold find_pk. apply find_key_app_new; [|reflexivity].
  apply find_None_iff. intros r Hr. apply Z.eqb_neq. intros E.
  apply Hn. rewrite <- E. now apply in_map.
Qed.

(** The subscribers of a newsletter can read it through the API as soon
    as it is stored. *)
Lemma newsletter_subscriber_sees (db : Database) (n : Newsletter.t)
    (u : CustomUser.t) :
  In n (newsletters db) -> newsletter_subscriber db n u ->
  In n (NewsletterViewSet_get_queryset db u).
Proof.
  intros Hin Hsub. unfold NewsletterViewSet_get_queryset.
  destruct (Role.eqb (CustomUser.role u) Role.reader);
    rewrite order_by_desc_In; [|assumption].
  apply filter_In. split; [assumption|]. apply orb_true_iff.
  destruct Hsub as [[s (Hs & Hj & Ha & Hf)]|[s (Hs & Hp & Ha & Hf)]];
    apply find_pk_Some in Hf; destruct Hf as [_ Hk]; [left | right];
    apply mem_In.
  - apply subscribed_journalist_ids_In. now exists s.
  - apply subscribed_publisher_ids_In. now exists s.
Qed.



(** *** Editing and deleting a newsletter *)

(** The three outcomes of the permission part that [update_newsletter],
    [delete_newsletter] and the [can_edit] flag of [newsletter_detail]
    share. *)
Lemma newsletter_guard (db : Database) (user : CustomUser.t)
    (n : Newsletter.t) :
  (may_edit_newsletter db user n)
  \/ (~ may_edit_newsletter db user n
      /\ ((CustomUser.role user = Role.journalist
           /\ journalist_profile db user = None)
          \/ (CustomUser.role user = Role.editor
              /\ editor_profile db user = None)))
  \/ (~ may_edit_newsletter db user n
      /\ (CustomUser.role user = Role.journalist ->
          journalist_profile db user <> None)
      /\ (CustomUser.role user = Role.editor ->
          editor_profile db user <> None)).
Proof.
  unfold may_edit_newsletter.
  destruct (CustomUser.role user) eqn:Er.
  - right. right. split; [|split; discriminate].
    intros [[H _]|[H _]]; discriminate.
  - destruct (journalist_profile db user) as [j|] eqn:Ej.
    + destruct (Z.eq_dec (Newsletter.journalist_id n) (Journalist.pk j))
        as [E|E].
      * left. left. split; [reflexivity|]. now exists j.
      * right. right. split; [|split; [discriminate | discriminate]].
        intros [[_ [j' [Hj' H]]]|[H _]]; [|discriminate].
        inversion Hj'; subst j'. contradiction.
    + right. left. split; [|left; auto].
      intros [[_ [j' [Hj' _]]]|[H _]]; discriminate.
  - destruct (editor_profile db user) as [e|] eqn:Ee.
    + destruct (Z.eq_dec (Newsletter.publisher_id n) (Editor.publisher_id e))
        as [E|E].
      * left. right. split; [reflexivity|]. now exists e.
      * right. right. split; [|split; [discriminate | discriminate]].
        intros [[H _]|[_ [e' [He' H]]]]; [discriminate|].
        inversion He'; subst e'. contradiction.
    + right. left. split; [|right; auto].
      intros [[H _]|[_ [e' [He' _]]]]; discriminate.
  - right. right. split; [|split; discriminate].
    intros [[H _]|[H _]]; discriminate.
Qed.

Lemma update_newsletter_cases (db : Database) (user : CustomUser.t) (pk : Z)
    (form : option (string * string)) (n : Newsletter.t) :
  find_pk Newsletter.pk pk (newsletters db) = Some n ->
  (may_edit_newsletter db user n
   /\ update_newsletter db user pk form
      = match form with
        | Some (title, content) =>
            match ModelForm_clean_field (Some 255%nat) title,
                  ModelForm_clean_field None content with
            | Some title, Some content =>
                (set_newsletters db
                   (save_row Newsletter.pk
                      (NewsletterForm_save n title content)
                      (newsletters db)),
                 Page.redirect "news:newsletter_detail" (Some pk)
                   (Some (messages.success,
                          ("Newsletter '" ++ title
                           ++ "' updated successfully!")%string)))
            | _, _ => (db, Page.render "news/update_newsletter.html" tt)
            end
        | None => (db, Page.render "news/update_newsletter.html" tt)
        end)
  \/ (~ may_edit_newsletter db user n
      /\ ((CustomUser.role user = Role.journalist
           /\ journalist_profile db user = None)
          \/ (CustomUser.role user = Role.editor
              /\ editor_profile db user = None))
      /\ update_newsletter db user pk form
         = (db, Page.server_error RelatedObjectDoesNotExist))
  \/ (~ may_edit_newsletter db user n
      /\ (CustomUser.role user = Role.journalist ->
          journalist_profile db user <> None)
      /\ (CustomUser.role user = Role.editor ->
          editor_profile db user <> None)
      /\ exists m,
           update_newsletter db user pk form
           = (db, Page.redirect "news:newsletter_detail" (Some pk)
                    (Some (messages.error, m)))).
Proof.
  intros Hf. unfold update_newsletter. rewrite Hf.
  destruct (newsletter_guard db user n)
    as [Hm|[[Hn Hmiss]|(Hn & Hj & He)]].
  - left. split; [assumption|].
    destruct Hm as [[Hr [j [Hj E]]]|[Hr [e [He E]]]]; rewrite Hr; simpl.
    + rewrite Hj, E, Z.eqb_refl. reflexivity.
    + rewrite He, E, Z.eqb_refl. reflexivity.
  - right. left. split; [assumption|]. split; [assumption|].
    destruct Hmiss as [[Hr Hp]|[Hr Hp]]; rewrite Hr; simpl; now rewrite Hp.
  - right. right. split; [assumption|]. split; [assumption|].
    split; [assumption|].
    destruct (CustomUser.role user) eqn:Er; simpl.
    + eexists. reflexivity.
    + destruct (journalist_profile db user) as [j|] eqn:Ej;
        [|now destruct (Hj eq_refl)].
      destruct (Newsletter.journalist_id n =? Journalist.pk j) eqn:E; simpl.
      * exfalso. apply Hn. left. split; [exact Er|]. exists j.
        apply Z.eqb_eq in E. auto.
      * eexists. reflexivity.
    + destruct (editor_profile db user) as [e|] eqn:Ee;
        [|now destruct (He eq_refl)].
      destruct (Newsletter.publisher_id n =? Editor.publisher_id e) eqn:E;
        simpl.
      * exfalso. apply Hn. right. split; [exact Er|]. exists e.
        apply Z.eqb_eq in E. auto.
      * eexists. reflexivity.
    + eexists. reflexivity.
Qed.

Lemma delete_newsletter_cases (db : Database) (user : CustomUser.t) (pk : Z)
    (method : Method) (n : Newsletter.t) :
  find_pk Newsletter.pk pk (newsletters db) = Some n ->
  (may_edit_newsletter db user n
   /\ delete_newsletter db user pk method
      = match method with
        | POST =>
            (set_newsletters db
               (delete_row Newsletter.pk n (newsletters db)),
             Page.redirect "news:newsletter_list" None
               (Some (messages.success,
                      ("Newsletter '" ++ Newsletter.title n
                       ++ "' deleted successfully!")%string)))
        | GET => (db, Page.render "news/delete_newsletter.html" n)
        end)
  \/ (~ may_edit_newsletter db user n
      /\ ((CustomUser.role user = Role.journalist
           /\ journalist_profile db user = None)
          \/ (CustomUser.role user = Role.editor
              /\ editor_profile db user = None))
      /\ delete_newsletter db user pk method
         = (db, Page.server_error RelatedObjectDoesNotExist))
  \/ (~ may_edit_newsletter db user n
      /\ (CustomUser.role user = Role.journalist ->
          journalist_profile db user <> None)
      /\ (CustomUser.role user = Role.editor ->
          editor_profile db user <> None)
      /\ exists m,
           delete_newsletter db user pk method
           = (db, Page.redirect "news:newsletter_detail" (Some pk)
                    (Some (messages.error, m)))).
Proof.
  intros Hf. unfold delete_newsletter. rewrite Hf.
  destruct (newsletter_guard db user n)
    as [Hm|[[Hn Hmiss]|(Hn & Hj & He)]].
  - left. split; [assumption|].
    destruct Hm as [[Hr [j [Hj E]]]|[Hr [e [He E]]]]; rewrite Hr; simpl.
    + rewrite Hj, E, Z.eqb_refl. reflexivity.
    + rewrite He, E, Z.eqb_refl. reflexivity.
  - right. left. split; [assumption|]. split; [assumption|].
    destruct Hmiss as [[Hr Hp]|[Hr Hp]]; rewrite Hr; simpl; now rewrite Hp.
  - right. right. split; [assumption|]. split; [assumption|].
    split; [assumption|].
    destruct (CustomUser.role user) eqn:Er; simpl.
    + eexists. reflexivity.
    + destruct (journalist_profile db user) as [j|] eqn:Ej;
        [|now destruct (Hj eq_refl)].
      destruct (Newsletter.journalist_id n =? Journalist.pk j) eqn:E; simpl.
      * exfalso. apply Hn. left. split; [exact Er|]. exists j.
        apply Z.eqb_eq in E. auto.
      * eexists. reflexivity.
    + destruct (editor_profile db user) as [e|] eqn:Ee;
        [|now destruct (He eq_refl)].
      destruct (Newsletter.publisher_id n =? Editor.publisher_id e) eqn:E;
        simpl.
      * exfalso. apply Hn. right. split; [exact Er|]. exists e.
        apply Z.eqb_eq in E. auto.
      * eexists. reflexivity.
    + eexists. reflexivity.
Qed.

(** What [newsletter_detail] answers a logged-in user about a stored
    newsletter. *)
Lemma newsletter_detail_cases (db : Database) (user : CustomUser.t) (pk : Z)
    (n : Newsletter.t) :
  find_pk Newsletter.pk pk (newsletters db) = Some n ->
  (may_edit_newsletter db user n
   /\ exists fj fp,
        newsletter_detail db (Some user) pk
        = Page.render "news/newsletter_detail.html"
            (NewsletterDetail.mk n fj fp true))
  \/ (~ may_edit_newsletter db user n
      /\ ((CustomUser.role user = Role.journalist
           /\ journalist_profile db user = None)
          \/ (CustomUser.role user = Role.editor
              /\ editor_profile db user = None))
      /\ newsletter_detail db (Some user) pk
         = Page.server_error RelatedObjectDoesNotExist)
  \/ (~ may_edit_newsletter db user n
      /\ (CustomUser.role user = Role.journalist ->
          journalist_profile db user <> None)
      /\ (CustomUser.role user = Role.editor ->
          editor_profile db user <> None)
      /\ exists fj fp,
           newsletter_detail db (Some user) pk
           = Page.render "news/newsletter_detail.html"
               (NewsletterDetail.mk n fj fp false)).
Proof.
  intros Hf. unfold newsletter_detail. rewrite Hf.
  destruct (newsletter_guard db user n)
    as [Hm|[[Hn Hmiss]|(Hn & Hj & He)]].
  - left. split; [assumption|].
    destruct Hm as [[Hr [j [Hj E]]]|[Hr [e [He E]]]]; simpl; rewrite Hr;
      simpl.
    + rewrite Hj, E, Z.eqb_refl. eexists. eexists. reflexivity.
    + rewrite He, E, Z.eqb_refl. eexists. eexists. reflexivity.
  - right. left. split; [assumption|]. split; [assumption|].
    destruct Hmiss as [[Hr Hp]|[Hr Hp]]; simpl; rewrite Hr; simpl;
      now rewrite Hp.
  - right. right. split; [assumption|]. split; [assumption|].
    split; [assumption|]. simpl.
    destruct (CustomUser.role user) eqn:Er; simpl.
    + eexists. eexists. reflexivity.
    + destruct (journalist_profile db user) as [j|] eqn:Ej;
        [|now destruct (Hj eq_refl)].
      destruct (Newsletter.journalist_id n =? Journalist.pk j) eqn:E; simpl.
      * exfalso. apply Hn. left. split; [exact Er|]. exists j.
        apply Z.eqb_eq in E. auto.
      * eexists. eexists. reflexivity.
    + destruct (editor_profile db user) as [e|] eqn:Ee;
        [|now destruct (He eq_refl)].
      destruct (Newsletter.publisher_id n =? Editor.publisher_id e) eqn:E;
        simpl.
      * exfalso. apply Hn. right. split; [exact Er|]. exists e.
        apply Z.eqb_eq in E. auto.
      * eexists. eexists. reflexivity.
    + eexists. eexists. reflexivity.
Qed.





(** *** Creating through the API and through the page *)

Lemma NewsletterCreateSerializer_validate_title_eq (value : string) :
  NewsletterCreateSerializer_validate_title value = validate_title value.
Proof. reflexivity. Qed.

Lemma NewsletterCreateSerializer_validate_content_eq (value : string) :
  NewsletterCreateSerializer_validate_content value = validate_content value.
Proof. reflexivity. Qed.

(** The field of a serializer followed by the [validate_<field>] method
    accepts what the field of the form accepts, and cleans it the same
    way. *)
Lemma run_field_title_form (s : string) :
  run_field "title" (Some 255%nat) validate_title (Some s)
  = match ModelForm_clean_field (Some 255%nat) s with
    | Some v => inl v
    | None =>
        inr [("title"%string,
              if is_empty (strip s) then "This field may not be blank."
              else if has_null (strip s)
                   then "Null characters are not allowed."
                   else "Ensure this field has no more than 255 characters."
             )%string]
    end.
Proof.
  unfold run_field, CharField_run_validation, ModelForm_clean_field.
  destruct (is_empty (strip s)) eqn:Ee; [reflexivity|].
  destruct (has_null (strip s)); [reflexivity|].
  destruct (255 <? String.length (strip s))%nat eqn:El; [reflexivity|].
  unfold validate_title. rewrite strip_idem, Ee, El.
  destruct (is_empty (strip s)); [discriminate|].
  now destruct (strip s).
Qed.

Lemma run_field_content_form (s : string) :
  run_field "content" None validate_content (Some s)
  = match ModelForm_clean_field None s with
    | Some v => inl v
    | None =>
        inr [("content"%string,
              if is_empty (strip s) then "This field may not be blank."
              else "Null characters are not allowed.")%string]
    end.
Proof.
  unfold run_field, CharField_run_validation, ModelForm_clean_field.
  destruct (is_empty (strip s)) eqn:Ee; [reflexivity|].
  destruct (has_null (strip s)); [reflexivity|].
  unfold validate_content. rewrite strip_idem, Ee.
  now destruct (strip s).
Qed.

(** X11.  For a caller whose role is journalist, submitting through the
    page and through the API leave the same database: [submit_article]
    and [POST /articles/] store the same article or both store nothing,
    whatever status the API body carries, and [create_newsletter] and
    [POST /newsletters/] store the same newsletter or both store
    nothing.  The page stores exactly when the API answers 201. *)
Theorem page_and_api_store_the_same (db : Database) (user : CustomUser.t)
    (title content : string) (status : option string) (now : Z) :
  CustomUser.role user = Role.journalist ->
  fst (submit_article db user (Some (title, content)) now)
  = fst (POST_articles db user
           (mkData (Some title) (Some content) status) now)
  /\ (fst (submit_article db user (Some (title, content)) now) <> db
      <-> exists a,
            snd (POST_articles db user
                   (mkData (Some title) (Some content) status) now)
            = HTTP_201_CREATED a)
  /\ fst (fst (create_newsletter db user (Some (title, content)) now))
     = fst (POST_newsletters db user
              (mkNewsletterData (Some title) (Some content)) now)
  /\ (fst (fst (create_newsletter db user (Some (title, content)) now)) <> db
      <-> exists n,
            snd (POST_newsletters db user
                   (mkNewsletterData (Some title) (Some content)) now)
            = HTTP_201_CREATED n).
Proof.
  intros Hr.
  assert (Harticles : forall a,
             set_articles db (articles db ++ [a]) <> db).
  { intros a H. apply (f_equal articles) in H. simpl in H.
    apply (f_equal (@List.length _)) in H. rewrite length_app in H.
    simpl in H. lia. }
  assert (Hnewsletters : forall n,
             set_newsletters db (newsletters db ++ [n]) <> db).
  { intros n H. apply (f_equal newsletters) in H. simpl in H.
    apply (f_equal (@List.length _)) in H. rewrite length_app in H.
    simpl in H. lia. }
  unfold submit_article, POST_articles, ArticleViewSet_create,
    ArticleCreateSerializer_is_valid, create_newsletter, POST_newsletters,
    NewsletterViewSet_create, NewsletterCreateSerializer_is_valid,
    IsJournalistOrPublisher_has_permission.
  rewrite Hr. simpl Role.eqb. cbv iota. simpl negb. cbv iota. simpl orb.
  cbv iota. cbn [data_title data_content newsletter_data_title
                 newsletter_data_content].
  change (run_field "title" (Some 255%nat)
            NewsletterCreateSerializer_validate_title (Some title))
    with (run_field "title" (Some 255%nat) validate_title (Some title)).
  change (run_field "content" None
            NewsletterCreateSerializer_validate_content (Some content))
    with (run_field "content" None validate_content (Some content)).
  rewrite run_field_title_form, run_field_content_form.
  destruct (ModelForm_clean_field (Some 255%nat) title) as [t|];
    destruct (ModelForm_clean_field None content) as [c|];
    destruct (journalist_profile db user) as [j|]; simpl;
    repeat split; try reflexivity; try (intros H; now destruct H);
    try (intros [x H]; discriminate);
    try (intros _; eexists; reflexivity);
    try (intros _; apply Harticles); try (intros _; apply Hnewsletters).
Qed.

(** On the sample newsroom bob's article and newsletter are stored the
    same way through either door. *)
Lemma page_and_api_store_the_same_witness :
  fst (submit_article Sample.db Sample.bob
         (Some (" Budget vote", "The council voted.")%string) 40)
  = fst (POST_articles Sample.db Sample.bob
           (mkData (Some " Budget vote"%string)
                   (Some "The council voted."%string)
                   (Some "approved"%string)) 40)
  /\ articles (fst (submit_article Sample.db Sample.bob
                      (Some (" Budget vote", "The council voted.")%string)
                      40))
     = articles Sample.db
       ++ [Article.mk 4 "Budget vote" "The council voted." 1 1 pending 40].
Proof.
  split; [|reflexivity].
  apply (page_and_api_store_the_same Sample.db Sample.bob
           " Budget vote"%string "The council voted."%string
           (Some "approved"%string) 40 eq_refl).
Defined.

Lemma newsletter_serializer_valid (data : NewsletterData) (t c : string) :
  newsletter_data_title data = Some t ->
  newsletter_data_content data = Some c ->
  strip t <> EmptyString -> strip c <> EmptyString ->
  has_null (strip t) = false -> has_null (strip c) = false ->
  (String.length (strip t) <= 255)%nat ->
  NewsletterCreateSerializer_is_valid data = inl (strip t, strip c).
Proof.
  intros Ht Hc Hnt Hnc Hzt Hzc Hlen.
  unfold NewsletterCreateSerializer_is_valid. rewrite Ht, Hc.
  rewrite (run_field_valid "title" NewsletterCreateSerializer_validate_title
             (Some 255%nat) t Hnt Hzt Hlen (validate_title_ok t Hnt Hlen)).
  rewrite (run_field_valid "content"
             NewsletterCreateSerializer_validate_content None c Hnc Hzc I
             (validate_content_ok c Hnc)).
  reflexivity.
Qed.

Lemma newsletter_serializer_invalid (data : NewsletterData) :
  invalid_newsletter data ->
  exists errors, errors <> []
                 /\ NewsletterCreateSerializer_is_valid data = inr errors.
Proof.
  intros H. unfold NewsletterCreateSerializer_is_valid.
  assert (Ht : blank (newsletter_data_title data)
               \/ (exists t, newsletter_data_title data = Some t
                             /\ (255 < String.length (strip t))%nat)
               \/ blank (newsletter_data_content data))
    by (unfold invalid_newsletter in H; tauto).
  clear H.
  destruct Ht as [Ht|[[t [Et Hlen]]|Hc]].
  - destruct (run_field_blank "title"
                NewsletterCreateSerializer_validate_title (Some 255%nat)
                _ Ht) as [m ->].
    destruct (run_field_result "content"
                NewsletterCreateSerializer_validate_content None
                (newsletter_data_content data)) as [[v ->]|[m' ->]];
      eexists; (split; [|reflexivity]); discriminate.
  - assert (Hr : exists m,
               run_field "title" (Some 255%nat)
                 NewsletterCreateSerializer_validate_title
                 (newsletter_data_title data)
               = inr [("title"%string, m)]).
    { rewrite Et. unfold run_field, CharField_run_validation.
      destruct (is_empty (strip t)); [now eexists|].
      destruct (has_null (strip t)); [now eexists|].
      apply Nat.ltb_lt in Hlen. rewrite Hlen. now eexists. }
    destruct Hr as [m ->].
    destruct (run_field_result "content"
                NewsletterCreateSerializer_validate_content None
                (newsletter_data_content data)) as [[v ->]|[m' ->]];
      eexists; (split; [|reflexivity]); discriminate.
  - destruct (run_field_blank "content"
                NewsletterCreateSerializer_validate_content None _ Hc)
      as [m ->].
    destruct (run_field_result "title"
                NewsletterCreateSerializer_validate_title (Some 255%nat)
                (newsletter_data_title data)) as [[v ->]|[m' ->]];
      eexists; (split; [|reflexivity]); discriminate.
Qed.



(** ** Applying for a role *)

Lemma CustomUser_save_role_applications (db : Database) (u : CustomUser.t) :
  role_applications (CustomUser_save db u) = role_applications db.
Proof.
  destruct (CustomUser_save_cases db u) as [(-> & _)|[-> _]]; reflexivity.
Qed.

(** Overwriting rows by rows that fail a test cannot add rows that pass
    it. *)
Lemma filter_save_row_le {A : Type} (pk : A -> Z) (p : A -> bool) (x : A)
    (l : list A) :
  p x = false ->
  (List.length (filter p (save_row pk x l)) <= List.length (filter p l))%nat.
Proof.
  intros Hx. unfold save_row, update_where.
  induction l as [|y l IH]; simpl; [lia|].
  destruct (pk y =? pk x).
  - rewrite Hx. destruct (p y); simpl; lia.
  - destruct (p y); simpl; lia.
Qed.

(** The application table after [approve_role_application]. *)
Lemma approve_role_application_table (db : Database) (pk : Z)
    (method : Method) (POST_publisher : option Z) :
  let db' := fst (fst (approve_role_application db pk method POST_publisher))
  in
  role_applications db' = role_applications db
  \/ exists application,
       role_applications db'
       = save_row RoleApplication.pk
                  (RoleApplication.with_status application approved)
                  (role_applications db).
Proof.
  cbv zeta. unfold approve_role_application.
  destruct (find_pk RoleApplication.pk pk (role_applications db))
    as [application|]; [|now left].
  destruct method; [now left|].
  destruct (match POST_publisher with
            | Some publisher_id =>
                match find_pk Publisher.pk publisher_id (publishers db) with
                | Some p => inl (Some p)
                | None => inr Http404
                end
            | None => inl None
            end) as [publisher|response]; [|now left].
  right. exists application. cbv zeta. simpl users.
  destruct (find_pk CustomUser.pk _ (users db)) as [user|]; [|reflexivity].
  match goal with
  | |- context [create_role_profile ?d ?u ?r ?p] =>
      destruct (create_role_profile d u r p) as [db2|e] eqn:Ec
  end; simpl.
  - apply create_role_profile_frame in Ec.
    destruct Ec as (_ & _ & _ & -> & _). simpl.
    now rewrite CustomUser_save_role_applications.
  - now rewrite CustomUser_save_role_applications.
Qed.

(** The test "the user has an application waiting" of [apply_for_role]. *)
Lemma pending_application_find (db : Database) (user : CustomUser.t) :
  find (fun a => (RoleApplication.user_id a =? CustomUser.pk user)
                 && Status_eqb (RoleApplication.status a) pending)
       (role_applications db) = None
  <-> pending_applications db (CustomUser.pk user) = [].
Proof.
  unfold pending_applications. rewrite find_None_iff. split.
  - intros H. now apply filter_none.
  - intros H x Hx.
    destruct ((RoleApplication.user_id x =? CustomUser.pk user)
              && Status_eqb (RoleApplication.status x) pending) eqn:E;
      [|reflexivity].
    assert (Hin : In x (filter
              (fun a => (RoleApplication.user_id a =? CustomUser.pk user)
                        && Status_eqb (RoleApplication.status a) pending)
              (role_applications db))) by (apply filter_In; auto).
    rewrite H in Hin. destruct Hin.
Qed.

(** X13.  [apply_for_role] sends anybody but a reader away with a
    warning, and shows a reader who has an application waiting the page
    that says so, whatever is posted.  Otherwise a POST with one of the
    three roles and a motivation stores one application for the caller,
    under a fresh key and with the status pending; nothing else is
    written, so the caller stays a reader until the application is
    approved.  No user ever gets a second application waiting: the view
    keeps "at most one pending application per user", and so do
    [approve_role_application] and [reject_role_application]. *)
Theorem apply_for_role_spec (db : Database) (user : CustomUser.t)
    (form : option (string * string)) :
  let db' := fst (apply_for_role db user form) in
  (CustomUser.role user <> Role.reader ->
   exists m,
     apply_for_role db user form
     = (db, Page.redirect "news:article_list" None
              (Some (messages.warning, m))))
  /\ (CustomUser.role user = Role.reader ->
      pending_applications db (CustomUser.pk user) <> [] ->
      apply_for_role db user form
      = (db, Page.render "news/application_pending.html" None))
  /\ (CustomUser.role user = Role.reader ->
      pending_applications db (CustomUser.pk user) = [] ->
      forall applied_role motivation r m,
        form = Some (applied_role, motivation) ->
        RoleApplicationForm_clean_applied_role applied_role = Some r ->
        ModelForm_clean_field None motivation = Some m ->
        apply_for_role db user form
        = (set_role_applications db
             (role_applications db
              ++ [RoleApplication.mk
                    (next_pk RoleApplication.pk (role_applications db))
                    (CustomUser.pk user) r m pending]),
           Page.render "news/applied.html" None))
  /\ (db' = db
      \/ exists a,
           db' = set_role_applications db (role_applications db ++ [a])
           /\ RoleApplication.user_id a = CustomUser.pk user
           /\ RoleApplication.status a = pending
           /\ ~ In (RoleApplication.pk a)
                   (map RoleApplication.pk (role_applications db))
           /\ CustomUser.role user = Role.reader
           /\ pending_applications db (CustomUser.pk user) = [])
  /\ (one_pending_application db -> one_pending_application db')
  /\ (forall pk method POST_publisher,
        one_pending_application db ->
        one_pending_application
          (fst (fst (approve_role_application db pk method POST_publisher))))
  /\ (forall pk,
        one_pending_application db ->
        one_pending_application (fst (fst (reject_role_application db pk)))).
Proof.
  cbv zeta.
  assert (Hshape :
    fst (apply_for_role db user form) = db
    \/ exists a,
         fst (apply_for_role db user form)
         = set_role_applications db (role_applications db ++ [a])
         /\ RoleApplication.user_id a = CustomUser.pk user
         /\ RoleApplication.status a = pending
         /\ ~ In (RoleApplication.pk a)
                 (map RoleApplication.pk (role_applications db))
         /\ CustomUser.role user = Role.reader
         /\ pending_applications db (CustomUser.pk user) = []).
  { unfold apply_for_role.
    destruct (Role.eqb (CustomUser.role user) Role.reader) eqn:Er; simpl;
      [|now left].
    apply Role_eqb_eq in Er.
    destruct (find _ (role_applications db)) eqn:Ef; [now left|].
    apply pending_application_find in Ef.
    destruct form as [[applied_role motivation]|]; [|now left].
    destruct (RoleApplicationForm_clean_applied_role applied_role) as [r|];
      [|now left].
    destruct (ModelForm_clean_field None motivation) as [m|]; [|now left].
    right. eexists. simpl. split; [reflexivity|].
    split; [reflexivity|]. split; [reflexivity|].
    split; [apply next_pk_fresh|]. auto. }
  split; [|split; [|split; [|split; [exact Hshape|split; [|split]]]]].
  - intros Hr. apply Role_eqb_neq in Hr. unfold apply_for_role.
    rewrite Hr. simpl. eexists. reflexivity.
  - intros Hr Hp. unfold apply_for_role. rewrite Hr. simpl.
    destruct (find _ (role_applications db)) eqn:Ef; [reflexivity|].
    apply pending_application_find in Ef. contradiction.
  - intros Hr Hp applied_role motivation r m -> Hrole Hm.
    unfold apply_for_role. rewrite Hr. simpl.
    apply pending_application_find in Hp. rewrite Hp, Hrole, Hm. reflexivity.
  - intros Hone.
    destruct Hshape as [->|[a (-> & Hu & Hs & _ & _ & Hp)]];
      [assumption|].
    intros k. unfold pending_applications. simpl.
    rewrite filter_app, length_app. simpl. rewrite Hu, Hs. simpl.
    destruct (CustomUser.pk user =? k) eqn:Ek; simpl.
    + apply Z.eqb_eq in Ek. subst k.
      unfold pending_applications in Hp. rewrite Hp. simpl. lia.
    + specialize (Hone k). unfold pending_applications in Hone. lia.
  - intros pk method POST_publisher Hone k.
    destruct (approve_role_application_table db pk method POST_publisher)
      as [H|[application H]]; unfold pending_applications; rewrite H.
    + apply Hone.
    + eapply Nat.le_trans; [|apply (Hone k)].
      apply filter_save_row_le. simpl. apply andb_false_r.
  - intros pk Hone k. unfold reject_role_application.
    destruct (find_pk RoleApplication.pk pk (role_applications db))
      as [application|]; [|apply Hone].
    cbv zeta. simpl users.
    assert (Hle : (List.length
                     (filter (fun a => (RoleApplication.user_id a =? k)%Z
                                       && Status_eqb
                                            (RoleApplication.status a)
                                            pending)
                             (save_row RoleApplication.pk
                                (RoleApplication.with_status application
                                                             rejected)
                                (role_applications db))) <= 1)%nat).
    { eapply Nat.le_trans; [|apply (Hone k)].
      apply filter_save_row_le. simpl. apply andb_false_r. }
    destruct (find_pk CustomUser.pk _ (users db)); exact Hle.
Qed.

(** On the sample newsroom alice applies for the journalist role and the
    application is stored as pending; erin, who has one waiting, is shown
    the waiting page. *)
Lemma apply_for_role_spec_witness :
  apply_for_role Sample.db Sample.alice
    (Some ("journalist", "I write well")%string)
  = (set_role_applications Sample.db
       (role_applications Sample.db
        ++ [RoleApplication.mk 2 1 RoleApplication.journalist "I write well"
                               pending]),
     Page.render "news/applied.html" None)
  /\ apply_for_role Sample.db Sample.erin
       (Some ("journalist", "Me too")%string)
     = (Sample.db, Page.render "news/application_pending.html" None).
Proof.
  split.
  - destruct (apply_for_role_spec Sample.db Sample.alice
                (Some ("journalist", "I write well")%string))
      as (_ & _ & H & _).
    apply (H eq_refl eq_refl "journalist"%string "I write well"%string);
      reflexivity.
  - destruct (apply_for_role_spec Sample.db Sample.erin
                (Some ("journalist", "Me too")%string))
      as (_ & H & _).
    apply (H eq_refl). discriminate.
Defined.

(** ** Asking for a reset link *)

Lemma CustomUser_save_users (db : Database) (u : CustomUser.t) :
  users (CustomUser_save db u)
  = save_instance CustomUser.pk CustomUser.with_pk u (users db).
Proof.
  destruct (CustomUser_save_cases db u) as [(-> & _)|[-> _]]; reflexivity.
Qed.

Section ForgotPasswordFacts.
Variables sha1_hexdigest make_password : string -> string.
Variable validate_password : string -> bool.
Variable EmailField_clean : string -> option string.

Local Abbreviation forgot :=
  (forgot_password sha1_hexdigest EmailField_clean).
Local Abbreviation reset :=
  (reset_password sha1_hexdigest make_password validate_password).

(** X14.  [forgot_password] stores a token and sends mail only for a POST
    whose address the form accepts and exactly one account carries.  A
    GET or a refused address shows the form; an address no account
    carries shows the form with an error; an address that several
    accounts carry makes the view fail; in each case nothing is stored
    and nothing is sent.  For the one account of an address, and a token
    whose hash is not stored yet, one unused row for that account is
    stored, expiring 5 minutes later, and one message goes to that
    address alone, with the link that ends in the token.  Following the
    link in time with a valid form then stores the hash of the new
    password as the password of that account, whose key, user name,
    address and role stay. *)
Theorem forgot_password_spec (db : Database) (POST : option string)
    (token : string) (now : Z) :
  ((POST = None
    \/ exists data, POST = Some data /\ EmailField_clean data = None) ->
   forgot db POST token now
   = (db, Page.render "news/forgot_password.html" None, []))
  /\ forall data email,
       POST = Some data -> EmailField_clean data = Some email ->
       let accounts :=
         filter (fun u => String.eqb (CustomUser.email u) email) (users db) in
       (accounts = [] ->
        exists m,
          forgot db POST token now
          = (db,
             Page.render "news/forgot_password.html"
               (Some (messages.error, m)),
             []))
       /\ ((2 <= List.length accounts)%nat ->
           forgot db POST token now
           = (db, Page.server_error MultipleObjectsReturned, []))
       /\ forall user,
            accounts = [user] ->
            (In (sha1_hexdigest token)
                (map ResetToken.token (reset_tokens db)) ->
             forgot db POST token now
             = (db, Page.server_error IntegrityError, []))
            /\ (~ In (sha1_hexdigest token)
                     (map ResetToken.token (reset_tokens db)) ->
                let row :=
                  ResetToken.mk (next_pk ResetToken.pk (reset_tokens db))
                                (CustomUser.pk user) (sha1_hexdigest token)
                                (now + timedelta_minutes 5) false in
                let db' :=
                  set_reset_tokens db (reset_tokens db ++ [row]) in
                let reset_url :=
                  ("http://127.0.0.1:8000/reset_password/" ++ token ++ "/"
                  )%string in
                (exists m,
                   forgot db POST token now
                   = (db',
                      Page.redirect "news:login" None
                        (Some (messages.success, m)),
                      [Mail.mk "Password Reset"
                         ("Hi " ++ CustomUser.username user ++ "," ++ LF
                          ++ "Here is a link to reset your password: "
                          ++ reset_url)
                         [email]]))
                /\ forall form new_password now',
                     NoDup (map CustomUser.pk (users db)) ->
                     CustomUser.pk user <> 0 ->
                     now' <= now + timedelta_minutes 5 ->
                     ResetPasswordForm_is_valid validate_password form
                     = Some new_password ->
                     snd (reset db' token (Some form) now') = reset_done
                     /\ find_pk CustomUser.pk (CustomUser.pk user)
                          (users (fst (reset db' token (Some form) now')))
                        = Some (CustomUser.mk (CustomUser.pk user)
                                  (CustomUser.username user)
                                  (CustomUser.email user)
                                  (make_password new_password)
                                  (CustomUser.role user))).
Proof.
  split.
  - intros [->|[data [-> Hc]]]; unfold forgot_password;
      [reflexivity | now rewrite Hc].
  - intros data email -> Hc accounts. unfold forgot_password. rewrite Hc.
    unfold objects_get. fold accounts.
    split; [|split].
    + intros ->. eexists. reflexivity.
    + intros Hlen. destruct accounts as [|a [|b t]]; simpl in Hlen;
        [lia | lia | reflexivity].
    + intros user Hacc. rewrite Hacc.
      assert (Huser : In user (users db)
                      /\ CustomUser.email user = email).
      { assert (H : In user accounts) by (rewrite Hacc; now left).
        apply filter_In in H. destruct H as [H E].
        apply String.eqb_eq in E. auto. }
      destruct Huser as [Hin Hemail].
      unfold generate_reset_url. split.
      * intros Hhash.
        assert (E : existsb (fun r => String.eqb (ResetToken.token r)
                                        (sha1_hexdigest token))
                            (reset_tokens db) = true).
        { apply existsb_exists. apply in_map_iff in Hhash.
          destruct Hhash as [r [Hr Hrin]]. exists r.
          split; [assumption|]. rewrite Hr. apply String.eqb_refl. }
        now rewrite E.
      * intros Hfresh.
        assert (Hold : forall r, In r (reset_tokens db) ->
                   String.eqb (ResetToken.token r) (sha1_hexdigest token)
                   = false).
        { intros r Hr. apply String.eqb_neq. intros E. apply Hfresh.
          rewrite <- E. now apply in_map. }
        assert (E : existsb (fun r => String.eqb (ResetToken.token r)
                                        (sha1_hexdigest token))
                            (reset_tokens db) = false).
        { destruct (existsb _ (reset_tokens db)) eqn:Ee; [|reflexivity].
          apply existsb_exists in Ee. destruct Ee as [r [Hr He]].
          rewrite (Hold r Hr) in He. discriminate. }
        rewrite E. cbv zeta. split.
        { unfold build_pw_reset_email. rewrite Hemail.
          eexists. reflexivity. }
        intros form new_password now' Hd Hpk Hnow Hform.
        unfold reset_password, objects_get. simpl reset_tokens.
        rewrite filter_app.
        rewrite (filter_none _ (reset_tokens db)).
        2:{ intros r Hr. now rewrite (Hold r Hr). }
        simpl. rewrite String.eqb_refl. simpl.
        apply Z.ltb_ge in Hnow. rewrite Hnow. rewrite Hform.
        rewrite (find_pk_In CustomUser.pk (users db) user Hd Hin).
        split; [reflexivity|]. simpl fst.
        match goal with
        | |- context [CustomUser_save ?d ?u] =>
            change (users (set_reset_tokens (CustomUser_save d u) _))
              with (users (CustomUser_save d u));
            rewrite (CustomUser_save_users d u)
        end.
        simpl users.
        change (CustomUser.mk (CustomUser.pk user) (CustomUser.username user)
                  (CustomUser.email user) (make_password new_password)
                  (CustomUser.role user))
          with (CustomUser.with_password user (make_password new_password)).
        apply (save_instance_update_find (users db)
                 (CustomUser.with_password user (make_password new_password))
                 user Hpk).
        exact (find_pk_In CustomUser.pk (users db) user Hd Hin).
Qed.
End ForgotPasswordFacts.

(** On the sample newsroom, with the stand-ins for the digest, the hasher
    and the validators, alice asks for a link at time 1000 and resets her
    password with it at time 2000; a request for an unknown address
    stores and sends nothing. *)
Lemma forgot_password_spec_witness :
  snd (reset_password SampleCrypto.digest SampleCrypto.hasher
         SampleCrypto.validators
         (fst (fst (forgot_password SampleCrypto.digest sample_clean_email
                      Sample.db (Some " alice@example.com"%string)
                      SampleCrypto.token 1000)))
         SampleCrypto.token (Some SampleCrypto.form) 2000)
  = reset_done
  /\ find_pk CustomUser.pk 1
       (users
          (fst (reset_password SampleCrypto.digest SampleCrypto.hasher
                  SampleCrypto.validators
                  (fst (fst (forgot_password SampleCrypto.digest
                               sample_clean_email Sample.db
                               (Some " alice@example.com"%string)
                               SampleCrypto.token 1000)))
                  SampleCrypto.token (Some SampleCrypto.form) 2000)))
     = Some (CustomUser.mk 1 "alice" "alice@example.com"
                           "hashed$correct horse" Role.reader)
  /\ exists m,
       forgot_password SampleCrypto.digest sample_clean_email Sample.db
         (Some "mallory@example.com"%string) SampleCrypto.token 1000
       = (Sample.db,
          Page.render "news/forgot_password.html" (Some (messages.error, m)),
          []).
Proof.
  destruct (forgot_password_spec SampleCrypto.digest SampleCrypto.hasher
              SampleCrypto.validators sample_clean_email Sample.db
              (Some " alice@example.com"%string) SampleCrypto.token 1000)
    as [_ H].
  destruct (H " alice@example.com"%string "alice@example.com"%string
              eq_refl eq_refl) as (_ & _ & Hone).
  destruct (Hone Sample.alice eq_refl) as [_ Hfresh].
  assert (Hn : ~ In (SampleCrypto.digest SampleCrypto.token)
                    (map ResetToken.token (reset_tokens Sample.db)))
    by (intros []).
  destruct (Hfresh Hn) as [_ Hreset].
  assert (Hd : NoDup (map CustomUser.pk (users Sample.db))).
  { simpl. repeat constructor; simpl; intuition discriminate. }
  assert (Hp : CustomUser.pk Sample.alice <> 0) by discriminate.
  assert (Ht : 2000 <= 1000 + timedelta_minutes 5)
    by (unfold timedelta_minutes; lia).
  destruct (Hreset SampleCrypto.form "correct horse"%string 2000 Hd Hp Ht
              eq_refl) as [Hdone Hstored].
  split; [exact Hdone|]. split; [exact Hstored|].
  destruct (forgot_password_spec SampleCrypto.digest SampleCrypto.hasher
              SampleCrypto.validators sample_clean_email Sample.db
              (Some "mallory@example.com"%string) SampleCrypto.token 1000)
    as [_ H'].
  destruct (H' "mallory@example.com"%string "mallory@example.com"%string
              eq_refl eq_refl) as (Hnone & _).
  exact (Hnone eq_refl).
Defined.

(** ** What a review does to the lists *)

Lemma save_row_In_new {A : Type} (pk : A -> Z) (x old : A) (l : list A) :
  In old l -> pk old = pk x -> In x (save_row pk x l).
Proof.
  intros Hin Hk. unfold save_row, update_where. apply in_map_iff.
  exists old. split; [|assumption]. now rewrite Hk, Z.eqb_refl.
Qed.

(** The subscribers of an approved article can read it through the
    API. *)
Lemma article_subscriber_sees (db : Database) (a : Article.t)
    (u : CustomUser.t) :
  In a (articles db) -> Article.status a = approved ->
  article_subscriber db a u ->
  In a (ArticleViewSet_get_queryset db u).
Proof.
  intros Hin Hs Hsub. apply is_approved_true in Hs.
  unfold ArticleViewSet_get_queryset.
  destruct (Role.eqb (CustomUser.role u) Role.reader);
    rewrite order_by_desc_In; [|apply filter_In; auto].
  apply filter_In. split; [apply filter_In; auto|]. apply orb_true_iff.
  destruct Hsub as [[s (Hsin & Hj & Ha & Hf)]|[s (Hsin & Hp & Ha & Hf)]];
    apply find_pk_Some in Hf; destruct Hf as [_ Hk]; [left | right];
    apply mem_In.
  - apply subscribed_journalist_ids_In. now exists s.
  - apply subscribed_publisher_ids_In. now exists s.
Qed.

(** The rows the API and the page can list are approved rows of the
    table. *)
Lemma listed_article (db : Database) (viewer : CustomUser.t) (a : Article.t) :
  In a (article_list db viewer)
  \/ In a (ArticleViewSet_get_queryset db viewer)
  \/ (exists k l, ArticleViewSet_by_journalist db viewer k = HTTP_200_OK l
                  /\ In a l)
  \/ (exists k l, ArticleViewSet_by_publisher db viewer k = HTTP_200_OK l
                  /\ In a l) ->
  In a (articles db) /\ Article.status a = approved.
Proof.
  intros [H|[H|[[k [l [H Hin]]]|[k [l [H Hin]]]]]].
  - unfold article_list in H. apply order_by_desc_In, filter_In in H.
    now rewrite is_approved_true in H.
  - unfold ArticleViewSet_get_queryset in H.
    destruct (Role.eqb (CustomUser.role viewer) Role.reader);
      apply order_by_desc_In, filter_In in H.
    + destruct H as [H _]. apply filter_In in H.
      now rewrite is_approved_true in H.
    + now rewrite is_approved_true in H.
  - unfold ArticleViewSet_by_journalist in H.
    destruct k as [k|]; [|discriminate].
    assert (Hl : l = order_by_desc Article.created_at
                       (filter (fun a => (Article.journalist_id a =? k)
                                         && is_approved a) (articles db))).
    { destruct (Role.eqb (CustomUser.role viewer) Role.reader);
        [destruct (negb _); [discriminate|]|]; congruence. }
    subst l. apply order_by_desc_In, filter_In in Hin.
    destruct Hin as [Hin Hc]. apply andb_true_iff in Hc.
    now rewrite is_approved_true in Hc.
  - unfold ArticleViewSet_by_publisher in H.
    destruct k as [k|]; [|discriminate].
    assert (Hl : l = order_by_desc Article.created_at
                       (filter (fun a => (Article.publisher_id a =? k)
                                         && is_approved a) (articles db))).
    { destruct (Role.eqb (CustomUser.role viewer) Role.reader);
        [destruct (negb _); [discriminate|]|]; congruence. }
    subst l. apply order_by_desc_In, filter_In in Hin.
    destruct Hin as [Hin Hc]. apply andb_true_iff in Hc.
    now rewrite is_approved_true in Hc.
Qed.

(** X15.  When an editor of the publisher approves a stored article, the
    approved article is on the article page of every user and in the API
    list of every subscriber of its journalist or publisher, so whoever
    is written to about it can read it; its own page shows it to
    everybody.  When the editor rejects it, also after it had been
    approved, no list shows an article with its key any more: not the
    article page, not the API list and not the two filtered API queries
    of any user; its own page is a 404 for a reader and for an anonymous
    visitor. *)
Theorem review_changes_visibility (db : Database) (editor : CustomUser.t)
    (pk : Z) (a : Article.t) :
  find_pk Article.pk pk (articles db) = Some a ->
  may_review db editor a ->
  (let db' := fst (fst (approve_article db editor pk)) in
   let a' := Article.with_status a approved in
   (forall viewer, In a' (article_list db' viewer))
   /\ (forall u, article_subscriber db a u ->
                 In a' (ArticleViewSet_get_queryset db' u))
   /\ (forall e,
         In e (recipients (send_article_subscriber_notifications db' a')) ->
         exists u, CustomUser.email u = e
                   /\ In a' (ArticleViewSet_get_queryset db' u))
   /\ forall viewer,
        exists ctx,
          article_detail db' viewer pk
          = Page.render "news/article_detail.html" ctx
          /\ ArticleDetail.article ctx = a')
  /\ (let db' := fst (fst (reject_article db editor pk)) in
      (forall viewer r,
         In r (article_list db' viewer)
         \/ In r (ArticleViewSet_get_queryset db' viewer)
         \/ (exists k l,
               ArticleViewSet_by_journalist db' viewer k = HTTP_200_OK l
               /\ In r l)
         \/ (exists k l,
               ArticleViewSet_by_publisher db' viewer k = HTTP_200_OK l
               /\ In r l) ->
         Article.pk r <> pk)
      /\ article_detail db' None pk = Page.Http404
      /\ forall viewer,
           CustomUser.role viewer = Role.reader ->
           article_detail db' (Some viewer) pk = Page.Http404).
Proof.
  intros Ha [Hr [e [He Hp]]].
  pose proof (find_pk_Some _ _ _ _ Ha) as [Hin Hpk].
  assert (Hrows : forall s r,
             In r (save_row Article.pk (Article.with_status a s)
                            (articles db)) ->
             Article.pk r = pk -> r = Article.with_status a s).
  { intros s r Hrin Hk. apply save_row_In in Hrin.
    destruct Hrin as [->|[_ Hne]]; [reflexivity|].
    exfalso. apply Hne. simpl. congruence. }
  split.
  - assert (Hdb : fst (fst (approve_article db editor pk))
                  = set_articles db
                      (save_row Article.pk (Article.with_status a approved)
                                (articles db))).
    { unfold approve_article. rewrite Ha, Hr, He, Hp, Z.eqb_refl.
      reflexivity. }
    cbv zeta. rewrite Hdb. clear Hdb.
    set (a' := Article.with_status a approved).
    set (db' := set_articles db (save_row Article.pk a' (articles db))).
    assert (Hnew : In a' (articles db')).
    { simpl. now apply save_row_In_new with (old := a). }
    assert (Hsees : forall u, article_subscriber db a u ->
                              In a' (ArticleViewSet_get_queryset db' u)).
    { intros u Hu. apply article_subscriber_sees;
        [assumption | reflexivity | exact Hu]. }
    split; [|split; [exact Hsees|split]].
    + intros viewer. unfold article_list. apply order_by_desc_In.
      apply filter_In. split; [assumption | reflexivity].
    + intros e0 He0. unfold send_article_subscriber_notifications in He0.
      simpl negb in He0. cbv iota in He0.
      apply notify_subscribers_recipients in He0.
      destruct He0 as [[u [Hu Hue]] _]. exists u. split; [assumption|].
      apply Hsees. apply in_app_iff in Hu.
      destruct Hu as [Hu|Hu]; apply readers_of_In in Hu;
        destruct Hu as [k [Hk Hf]]; apply in_map_iff in Hk;
        destruct Hk as [s [Hrd Hs]]; apply filter_In in Hs;
        destruct Hs as [Hs Hc]; apply andb_true_iff in Hc;
        destruct Hc as [Ht Hact]; apply Z.eqb_eq in Ht;
        [left | right]; exists s; subst k; auto.
    + intros viewer.
      pose proof (article_detail_lookup db' viewer pk) as [_ Hsome].
      cbv zeta in Hsome. unfold article_detail.
      destruct (if authenticated_and viewer _ then _ else _)
        as [found|] eqn:Ef.
      * destruct (Hsome found eq_refl) as (Hfin & Hfk & _).
        assert (found = a') by (apply (Hrows approved); assumption).
        subst found.
        destruct viewer as [u|];
          [destruct (Role.eqb (CustomUser.role u) Role.reader)|];
          eexists; split; reflexivity.
      * exfalso.
        pose proof (article_detail_lookup db' viewer pk) as [Hnone _].
        cbv zeta in Hnone. rewrite Ef in Hnone.
        destruct (proj1 Hnone eq_refl a' Hnew Hpk) as [Hs _].
        now apply Hs.
  - assert (Hdb : fst (fst (reject_article db editor pk))
                  = set_articles db
                      (save_row Article.pk (Article.with_status a rejected)
                                (articles db))).
    { unfold reject_article. rewrite Ha, Hr, He, Hp, Z.eqb_refl.
      reflexivity. }
    cbv zeta. rewrite Hdb. clear Hdb.
    set (a' := Article.with_status a rejected).
    set (db' := set_articles db (save_row Article.pk a' (articles db))).
    assert (Hgone : forall r, In r (articles db') -> Article.pk r = pk ->
                              Article.status r <> approved).
    { intros r Hrin Hk. rewrite (Hrows rejected r Hrin Hk). discriminate. }
    assert (Hanon : forall viewer,
               ~ reads_unapproved viewer ->
               article_detail db' viewer pk = Page.Http404).
    { intros viewer Hn.
      pose proof (article_detail_lookup db' viewer pk) as [Hnone _].
      cbv zeta in Hnone. unfold article_detail.
      destruct (if authenticated_and viewer _ then _ else _)
        as [found|] eqn:Ef; [|reflexivity].
      assert (Hf : Some found = None); [|discriminate].
      apply Hnone. intros r Hrin Hk. split; [now apply Hgone | assumption]. }
    split; [|split].
    + intros viewer r Hl Hk. apply listed_article in Hl.
      destruct Hl as [Hrin Hs]. now apply (Hgone r Hrin Hk).
    + apply Hanon. intros [u [Hu _]]. discriminate.
    + intros viewer Hrole. apply Hanon.
      intros [u [Hu [H|H]]]; injection Hu as <-; congruence.
Qed.

(** On the sample newsroom carol withdraws the approved first article:
    alice, who follows its journalist, no longer gets it from the API,
    and its page is a 404 for her. *)
Lemma review_changes_visibility_witness :
  may_review Sample.db Sample.carol Sample.first_article
  /\ ArticleViewSet_get_queryset
       (fst (fst (reject_article Sample.db Sample.carol 1))) Sample.alice
     = [Sample.third_article]
  /\ article_detail (fst (fst (reject_article Sample.db Sample.carol 1)))
                    (Some Sample.alice) 1
     = Page.Http404.
Proof.
  assert (Hm : may_review Sample.db Sample.carol Sample.first_article).
  { split; [reflexivity|]. exists (Editor.mk 1 3 1). split; reflexivity. }
  split; [exact Hm|]. split; [reflexivity|].
  destruct (review_changes_visibility Sample.db Sample.carol 1
              Sample.first_article eq_refl Hm) as [_ (_ & _ & H)].
  apply (H Sample.alice eq_refl).
Defined.

(** ** Accounts *)

Lemma save_row_map_same {A B : Type} (pk : A -> Z) (f : A -> B) (x old : A)
    (l : list A) :
  NoDup (map pk l) -> In old l -> pk x = pk old -> f x = f old ->
  map f (save_row pk x l) = map f l.
Proof.
  intros Hd Hin Hk Hf. unfold save_row, update_where. rewrite map_map.
  apply map_ext_in. intros r Hr.
  destruct (pk r =? pk x) eqn:E; [|reflexivity].
  apply Z.eqb_eq in E. rewrite Hf. f_equal.
  assert (Ho : find_pk pk (pk old) l = Some old) by now apply find_pk_In.
  assert (Hr' : find_pk pk (pk r) l = Some r) by now apply find_pk_In.
  rewrite E, Hk in Hr'. congruence.
Qed.

Section ResetFrame.
Variables sha1_hexdigest make_password : string -> string.
Variable validate_password : string -> bool.

Local Abbreviation reset :=
  (reset_password sha1_hexdigest make_password validate_password).

(** What [reset_password] writes to the database: nothing but passwords
    and [used] flags. *)
Lemma reset_password_db_frame (db : Database) (token : string)
    (POST : option ResetPasswordForm) (now : Z) :
  saved_users db ->
  NoDup (map ResetToken.pk (reset_tokens db)) ->
  let db' := fst (reset db token POST now) in
  map account_of (users db') = map account_of (users db)
  /\ map token_of (reset_tokens db') = map token_of (reset_tokens db)
  /\ journalist_subscriptions db' = journalist_subscriptions db
  /\ publisher_subscriptions db' = publisher_subscriptions db
  /\ db' = set_reset_tokens (set_users db (users db')) (reset_tokens db').
Proof.
  intros [Hd H0] Ht. cbv zeta. unfold reset_password.
  assert (Hsame : map account_of (users db) = map account_of (users db)
                  /\ map token_of (reset_tokens db)
                     = map token_of (reset_tokens db)
                  /\ journalist_subscriptions db = journalist_subscriptions db
                  /\ publisher_subscriptions db = publisher_subscriptions db
                  /\ db = set_reset_tokens (set_users db (users db))
                                           (reset_tokens db)).
  { repeat split. now destruct db. }
  destruct (objects_get _ (reset_tokens db)) as [|row|] eqn:Eg;
    try exact Hsame.
  apply objects_get_Found in Eg.
  assert (Hrow : In row (reset_tokens db)).
  { assert (H : In row [row]) by now left.
    rewrite <- Eg in H. apply filter_In in H. tauto. }
  destruct (ResetToken.expiry_date row <? now); [exact Hsame|].
  destruct POST as [form|]; [|exact Hsame].
  destruct (ResetPasswordForm_is_valid validate_password form)
    as [new_password|]; [|exact Hsame].
  destruct (find_pk CustomUser.pk _ (users db)) as [user|] eqn:Eu;
    [|exact Hsame].
  apply find_pk_Some in Eu. destruct Eu as [Hin Hk].
  set (user' := CustomUser.with_password user (make_password new_password)).
  assert (Hnot : CustomUser_save db user'
                 = set_users db (save_row CustomUser.pk user' (users db))).
  { destruct (CustomUser_save_cases db user')
      as [(_ & _ & Hne & old & Hold & Hrole)|[-> _]].
    - exfalso.
      change (CustomUser.pk user') with (CustomUser.pk user) in Hold.
      rewrite (find_pk_In CustomUser.pk (users db) user Hd Hin) in Hold.
      injection Hold as <-. apply Hne. exact Hrole.
    - f_equal.
      apply (save_instance_update_find (users db) user' user);
        [apply (H0 user Hin)|].
      exact (find_pk_In CustomUser.pk (users db) user Hd Hin). }
  simpl fst. rewrite Hnot. simpl.
  split; [|split; [|repeat split]].
  - now apply save_row_map_same with (old := user).
  - now apply save_row_map_same with (old := row).
Qed.
End ResetFrame.

(** ** The staff actions on articles *)


(** ** The subscriptions page *)

Lemma StronglySorted_app_cross {A : Type} (R : A -> A -> Prop)
    (l1 l2 : list A) :
  StronglySorted R (l1 ++ l2) ->
  forall a b, In a l1 -> In b l2 -> R a b.
Proof.
  induction l1 as [|x l1 IH]; simpl; [intros _ a b []|].
  intros Hs a b Ha Hb. inversion Hs as [|? ? Hs' Hx]; subst.
  destruct Ha as [<-|Ha].
  - rewrite Forall_forall in Hx. apply Hx. apply in_app_iff. now right.
  - now apply IH.
Qed.

(** X19.  [my_subscriptions] sends anybody but a reader away with an
    error.  A reader is shown the active subscriptions the reader holds,
    their number, and the ten newest of the articles the API lists for
    that reader: the recent articles are the front of the API list, at
    most ten, all ten when the list is longer, and nothing left out is
    newer than an article shown.  A reader without subscriptions is shown
    no article. *)
Theorem my_subscriptions_spec (db : Database) (user : CustomUser.t) :
  (CustomUser.role user <> Role.reader ->
   exists m,
     my_subscriptions db user
     = Page.redirect "news:article_list" None (Some (messages.error, m)))
  /\ forall template ctx,
       my_subscriptions db user = Page.render template ctx ->
       CustomUser.role user = Role.reader
       /\ (forall s,
             In s (MySubscriptions.journalist_subscriptions ctx)
             <-> In s (journalist_subscriptions db)
                 /\ JournalistSubscription.reader_id s = CustomUser.pk user
                 /\ JournalistSubscription.is_active s = true)
       /\ (forall s,
             In s (MySubscriptions.publisher_subscriptions ctx)
             <-> In s (publisher_subscriptions db)
                 /\ PublisherSubscription.reader_id s = CustomUser.pk user
                 /\ PublisherSubscription.is_active s = true)
       /\ MySubscriptions.total_subscriptions ctx
          = (List.length (MySubscriptions.journalist_subscriptions ctx)
             + List.length (MySubscriptions.publisher_subscriptions ctx))%nat
       /\ (MySubscriptions.total_subscriptions ctx = 0%nat ->
           MySubscriptions.recent_articles ctx = [])
       /\ (List.length (MySubscriptions.recent_articles ctx) <= 10)%nat
       /\ exists older,
            ArticleViewSet_get_queryset db user
            = MySubscriptions.recent_articles ctx ++ older
            /\ (older <> [] ->
                List.length (MySubscriptions.recent_articles ctx) = 10%nat)
            /\ forall a b,
                 In a (MySubscriptions.recent_articles ctx) -> In b older ->
                 Article.created_at b <= Article.created_at a.
Proof.
  unfold my_subscriptions. split.
  - intros Hr. apply Role_eqb_neq in Hr. rewrite Hr. simpl.
    eexists. reflexivity.
  - intros template ctx. remember 10%nat as ten eqn:Hten.
    destruct (Role.eqb (CustomUser.role user) Role.reader) eqn:Er;
      cbn [negb]; [|discriminate].
    intros H. injection H as <- <-.
    cbn [MySubscriptions.journalist_subscriptions
         MySubscriptions.publisher_subscriptions
         MySubscriptions.recent_articles
         MySubscriptions.total_subscriptions].
    assert (Hfeed : ArticleViewSet_get_queryset db user
                    = order_by_desc Article.created_at
                        (filter (fun a => mem (Article.journalist_id a)
                                              (subscribed_journalist_ids
                                                 db user)
                                          || mem (Article.publisher_id a)
                                                 (subscribed_publisher_ids
                                                    db user))
                                (filter is_approved (articles db)))).
    { unfold ArticleViewSet_get_queryset. now rewrite Er. }
    fold (subscribed_journalist_ids db user).
    fold (subscribed_publisher_ids db user).
    rewrite <- Hfeed.
    set (feed := ArticleViewSet_get_queryset db user).
    split; [now apply Role_eqb_eq|].
    split.
    { intros s. rewrite filter_In, andb_true_iff, Z.eqb_eq. tauto. }
    split.
    { intros s. rewrite filter_In, andb_true_iff, Z.eqb_eq. tauto. }
    split; [reflexivity|].
    split.
    { intros Hzero.
      assert (Hj : subscribed_journalist_ids db user = []).
      { unfold subscribed_journalist_ids.
        destruct (filter _ (journalist_subscriptions db));
          [reflexivity | simpl in Hzero; lia]. }
      assert (Hp : subscribed_publisher_ids db user = []).
      { unfold subscribed_publisher_ids.
        destruct (filter _ (publisher_subscriptions db));
          [reflexivity | simpl in Hzero; lia]. }
      unfold feed. rewrite Hfeed, Hj, Hp. cbn [mem existsb orb].
      rewrite filter_none by reflexivity. apply firstn_nil. }
    split; [apply firstn_le_length|].
    exists (skipn ten feed). split; [now rewrite firstn_skipn|]. split.
    + intros Hne. rewrite length_firstn.
      assert (Hlen : (List.length feed <= ten)%nat -> skipn ten feed = [])
        by apply skipn_all2.
      destruct (Nat.le_gt_cases (List.length feed) ten) as [Hle|Hgt];
        [now destruct (Hne (Hlen Hle)) | lia].
    + assert (Hs : descending Article.created_at
                     (firstn ten feed ++ skipn ten feed)).
      { rewrite firstn_skipn. unfold feed. rewrite Hfeed.
        apply order_by_desc_descending. }
      intros a b Ha Hb.
      apply (StronglySorted_app_cross _ _ _ Hs a b Ha Hb).
Qed.

(** On the sample newsroom alice is shown her two subscriptions and the
    two approved articles of bob, the newer first. *)
Lemma my_subscriptions_spec_witness :
  CustomUser.role Sample.alice = Role.reader
  /\ (List.length [Sample.third_article; Sample.first_article] <= 10)%nat.
Proof.
  destruct (my_subscriptions_spec Sample.db Sample.alice) as [_ H].
  destruct (H "news/my_subscriptions.html"%string
              (MySubscriptions.mk [JournalistSubscription.mk 1 1 1 true]
                 [PublisherSubscription.mk 1 1 1 true]
                 [Sample.third_article; Sample.first_article] 2) eq_refl)
    as (Hr & _ & _ & _ & _ & Hlen & _).
  exact (conj Hr Hlen).
Defined.

(** ** Text sent out *)

Lemma length_append (s1 s2 : string) :
  String.length (s1 ++ s2) = (String.length s1 + String.length s2)%nat.
Proof. induction s1 as [|c s1 IH]; simpl; [reflexivity | now rewrite IH]. Qed.

Lemma string_app_assoc (s1 s2 s3 : string) :
  ((s1 ++ s2) ++ s3 = s1 ++ s2 ++ s3)%string.
Proof. induction s1 as [|c s1 IH]; simpl; [reflexivity | now rewrite IH]. Qed.

Lemma length_prefix_of (n : nat) (s : string) :
  String.length (prefix_of n s) = Nat.min n (String.length s).
Proof.
  unfold prefix_of. revert s.
  induction n as [|n IH]; intros [|c s]; simpl; try reflexivity.
  now rewrite IH.
Qed.

Lemma prefix_of_all (n : nat) (s : string) :
  (String.length s <= n)%nat -> prefix_of n s = s.
Proof.
  unfold prefix_of. revert s.
  induction n as [|n IH]; intros [|c s]; simpl; try reflexivity.
  - lia.
  - intros H. rewrite IH; [reflexivity | lia].
Qed.

Lemma prefix_of_prefix (n : nat) (s : string) :
  String.prefix (prefix_of n s) s = true.
Proof.
  unfold prefix_of. revert s.
  induction n as [|n IH]; intros [|c s]; simpl; try reflexivity.
  destruct (ascii_dec c c) as [_|Hne]; [apply IH | now destruct Hne].
Qed.

(** X20.  The text [post_article_to_twitter] posts never has more than
    280 characters.  It is the announcement of the title and the author
    itself when that has at most 280 characters; a longer announcement is
    cut to its first 275 characters followed by three dots, 278
    characters in all. *)
Theorem tweet_text_spec (article : Article.t) (journalist_name : string) :
  let announcement :=
    ("New article published: " ++ Article.title article ++ LF
     ++ "By: " ++ journalist_name)%string in
  (String.length (tweet_text article journalist_name) <= 280)%nat
  /\ ((String.length announcement <= 280)%nat ->
      tweet_text article journalist_name = announcement)
  /\ ((280 < String.length announcement)%nat ->
      tweet_text article journalist_name
      = (prefix_of 275 announcement ++ "...")%string
      /\ String.length (tweet_text article journalist_name) = 278%nat
      /\ String.prefix (prefix_of 275 announcement) announcement = true).
Proof.
  intros announcement. unfold tweet_text. fold announcement.
  destruct (280 <? String.length announcement)%nat eqn:E.
  - apply Nat.ltb_lt in E.
    assert (Hlen : String.length (prefix_of 275 announcement ++ "...")
                   = 278%nat).
    { rewrite length_append, length_prefix_of.
      change (String.length "...") with 3%nat. lia. }
    split; [rewrite Hlen; lia|]. split; [lia|]. intros _.
    split; [reflexivity|]. split; [exact Hlen | apply prefix_of_prefix].
  - apply Nat.ltb_ge in E. split; [exact E|]. split; [reflexivity | lia].
Qed.

(** X21.  The preview of the content in the newsletter notification has
    at most 203 characters: it is the content itself when that has at
    most 200 characters, and otherwise its first 200 characters followed
    by three dots.  The body of the notification quotes that preview. *)
Theorem content_preview_spec (content : string) :
  (String.length (content_preview content) <= 203)%nat
  /\ ((String.length content <= 200)%nat -> content_preview content = content)
  /\ ((200 < String.length content)%nat ->
      content_preview content = (prefix_of 200 content ++ "...")%string
      /\ String.length (content_preview content) = 203%nat
      /\ String.prefix (prefix_of 200 content) content = true)
  /\ forall subscriber_user author_name publisher_name newsletter,
       Newsletter.content newsletter = content ->
       exists before after,
         new_newsletter_notification_body subscriber_user author_name
           publisher_name newsletter
         = (before ++ "Content Preview:" ++ LF ++ content_preview content
            ++ LF ++ LF ++ after)%string.
Proof.
  assert (Hbody : forall subscriber_user author_name publisher_name
                         newsletter,
             Newsletter.content newsletter = content ->
             exists before after,
               new_newsletter_notification_body subscriber_user author_name
                 publisher_name newsletter
               = (before ++ "Content Preview:" ++ LF
                  ++ content_preview content ++ LF ++ LF ++ after)%string).
  { intros subscriber_user author_name publisher_name newsletter Hc.
    unfold new_newsletter_notification_body. rewrite Hc.
    exists ("Hi " ++ CustomUser.username subscriber_user ++ "," ++ LF ++ LF
            ++ "A new newsletter has been published by " ++ author_name
            ++ "!" ++ LF ++ LF
            ++ "Title: " ++ Newsletter.title newsletter ++ LF
            ++ "Publisher: " ++ publisher_name ++ LF ++ LF)%string.
    exists ("Read the full newsletter at YourNews." ++ LF ++ LF
            ++ "Best regards," ++ LF ++ "The YourNews Team")%string.
    generalize (content_preview content). intros preview.
    repeat rewrite string_app_assoc. reflexivity. }
  unfold content_preview at 1 2 3 4.
  destruct (200 <? String.length content)%nat eqn:E.
  - apply Nat.ltb_lt in E.
    assert (Hlen : String.length (prefix_of 200 content ++ "...")
                   = 203%nat).
    { rewrite length_append, length_prefix_of.
      change (String.length "...") with 3%nat. lia. }
    split; [rewrite Hlen; lia|]. split; [lia|]. split; [|exact Hbody].
    intros _. split; [reflexivity|].
    split; [exact Hlen | apply prefix_of_prefix].
  - apply Nat.ltb_ge in E.
    assert (Heq : (prefix_of 200 content ++ "")%string = content).
    { rewrite prefix_of_all by exact E.
      clear. induction content as [|c s IH]; simpl; [reflexivity|].
      now rewrite IH. }
    rewrite Heq. split; [lia|]. split; [reflexivity|].
    split; [lia | exact Hbody].
Qed.

(** ** What subscribing does to the API *)

(** The articles the API lists for a reader. *)
Lemma reader_feed_In (db : Database) (user : CustomUser.t) (a : Article.t) :
  CustomUser.role user = Role.reader ->
  In a (ArticleViewSet_get_queryset db user)
  <-> In a (articles db) /\ Article.status a = approved
      /\ (follows_journalist db (CustomUser.pk user) (Article.journalist_id a)
          \/ follows_publisher db (CustomUser.pk user)
                               (Article.publisher_id a)).
Proof.
  intros Hr. apply Role_eqb_eq in Hr. unfold ArticleViewSet_get_queryset.
  rewrite Hr, order_by_desc_In, filter_In, filter_In, is_approved_true.
  rewrite orb_true_iff, !mem_In.
  rewrite subscribed_journalist_ids_In, subscribed_publisher_ids_In.
  tauto.
Qed.

(** The answer of the filtered query to a reader. *)
Lemma reader_by_journalist (db : Database) (user : CustomUser.t) (j : Z) :
  CustomUser.role user = Role.reader ->
  (follows_journalist db (CustomUser.pk user) j ->
   ArticleViewSet_by_journalist db user (Some j)
   = HTTP_200_OK
       (order_by_desc Article.created_at
          (filter (fun a => (Article.journalist_id a =? j) && is_approved a)
                  (articles db))))
  /\ (~ follows_journalist db (CustomUser.pk user) j ->
      ArticleViewSet_by_journalist db user (Some j)
      = HTTP_403_FORBIDDEN
          [("error", "You are not subscribed to this journalist")]%string).
Proof.
  intros Hr. apply Role_eqb_eq in Hr. unfold ArticleViewSet_by_journalist.
  rewrite Hr. split; intros H.
  - apply journalist_filter_cond in H. now rewrite H.
  - destruct (existsb _ (journalist_subscriptions db)) eqn:E;
      [|reflexivity].
    apply journalist_filter_cond in E. contradiction.
Qed.

Lemma reader_by_publisher (db : Database) (user : CustomUser.t) (p : Z) :
  CustomUser.role user = Role.reader ->
  (follows_publisher db (CustomUser.pk user) p ->
   ArticleViewSet_by_publisher db user (Some p)
   = HTTP_200_OK
       (order_by_desc Article.created_at
          (filter (fun a => (Article.publisher_id a =? p) && is_approved a)
                  (articles db))))
  /\ (~ follows_publisher db (CustomUser.pk user) p ->
      ArticleViewSet_by_publisher db user (Some p)
      = HTTP_403_FORBIDDEN
          [("error", "You are not subscribed to this publisher")]%string).
Proof.
  intros Hr. apply Role_eqb_eq in Hr. unfold ArticleViewSet_by_publisher.
  rewrite Hr. split; intros H.
  - apply publisher_filter_cond in H. now rewrite H.
  - destruct (existsb _ (publisher_subscriptions db)) eqn:E;
      [|reflexivity].
    apply publisher_filter_cond in E. contradiction.
Qed.

(** Whom a reader follows after [subscribe_to_journalist] and after
    [unsubscribe_from_journalist]. *)
Lemma follows_after_journalist_toggle (db : Database) (user : CustomUser.t)
    (j : Z) (jr : Journalist.t) :
  journalist_subscriptions_unique db ->
  find_pk Journalist.pk j (journalists db) = Some jr ->
  CustomUser.role user = Role.reader ->
  let r := CustomUser.pk user in
  let on := fst (subscribe_to_journalist db user j) in
  let off := fst (unsubscribe_from_journalist db user j) in
  (forall j', follows_journalist on r j'
              <-> j' = j \/ follows_journalist db r j')
  /\ (forall j', follows_journalist off r j'
                 <-> j' <> j /\ follows_journalist db r j')
  /\ (forall p, follows_publisher on r p <-> follows_publisher db r p)
  /\ (forall p, follows_publisher off r p <-> follows_publisher db r p)
  /\ articles on = articles db /\ articles off = articles db.
Proof.
  intros Hu Hj Hr r on off.
  destruct (subscribe_to_journalist_spec db user j jr Hu Hj Hr)
    as ([s [Hrow Hact]] & Hother & _ & Hdb & _).
  destruct (unsubscribe_from_journalist_spec db user j jr Hu Hj Hr)
    as (_ & _ & Hother' & _ & Hnot & Hdb').
  fold r on in Hrow, Hother, Hdb. fold r off in Hother', Hnot, Hdb'.
  split; [|split; [|split; [|split; [|split]]]].
  - intros j'. destruct (Z.eq_dec j' j) as [->|Hne].
    + split; [now left|]. intros _. apply journalist_rows_follows.
      exists s. rewrite Hrow. split; [now left | assumption].
    + rewrite !journalist_rows_follows.
      rewrite (Hother r j') by congruence. tauto.
  - intros j'. destruct (Z.eq_dec j' j) as [->|Hne].
    + split; [intros H; contradiction | intros [H _]; now destruct H].
    + rewrite !journalist_rows_follows.
      rewrite (Hother' r j') by congruence. tauto.
  - intros p. rewrite Hdb. reflexivity.
  - intros p. rewrite Hdb'. reflexivity.
  - rewrite Hdb. reflexivity.
  - rewrite Hdb'. reflexivity.
Qed.

(** X22.  For a reader, an existing journalist and a subscription table
    that meets its constraints: after [subscribe_to_journalist] the API
    lists for the reader the approved articles of that journalist next
    to what it listed before, and the filtered query for the journalist
    answers 200 with exactly the journalist's approved articles; after
    [unsubscribe_from_journalist] the filtered query answers 403, and the
    API list keeps an article of that journalist only when the reader
    follows its publisher.  Subscriptions to other journalists and to
    publishers count as before. *)
Theorem journalist_subscription_opens_the_api (db : Database)
    (user : CustomUser.t) (j : Z) (jr : Journalist.t) :
  journalist_subscriptions_unique db ->
  find_pk Journalist.pk j (journalists db) = Some jr ->
  CustomUser.role user = Role.reader ->
  let r := CustomUser.pk user in
  let on := fst (subscribe_to_journalist db user j) in
  let off := fst (unsubscribe_from_journalist db user j) in
  (forall a, In a (ArticleViewSet_get_queryset on user)
             <-> In a (articles db) /\ Article.status a = approved
                 /\ (Article.journalist_id a = j
                     \/ follows_journalist db r (Article.journalist_id a)
                     \/ follows_publisher db r (Article.publisher_id a)))
  /\ (exists l,
        ArticleViewSet_by_journalist on user (Some j) = HTTP_200_OK l
        /\ forall a, In a l
                     <-> In a (articles db) /\ Article.journalist_id a = j
                         /\ Article.status a = approved)
  /\ (forall a, In a (ArticleViewSet_get_queryset off user)
                <-> In a (articles db) /\ Article.status a = approved
                    /\ ((Article.journalist_id a <> j
                         /\ follows_journalist db r (Article.journalist_id a))
                        \/ follows_publisher db r (Article.publisher_id a)))
  /\ (exists payload,
        ArticleViewSet_by_journalist off user (Some j)
        = HTTP_403_FORBIDDEN payload)
  /\ (forall p, p <> j ->
        ArticleViewSet_by_journalist on user (Some p)
        = ArticleViewSet_by_journalist db user (Some p)
        /\ ArticleViewSet_by_journalist off user (Some p)
           = ArticleViewSet_by_journalist db user (Some p)).
Proof.
  intros Hu Hj Hr r on off.
  destruct (follows_after_journalist_toggle db user j jr Hu Hj Hr)
    as (Hon & Hoff & Hpon & Hpoff & Haon & Haoff).
  fold r on off in Hon, Hoff, Hpon, Hpoff, Haon, Haoff.
  split; [|split; [|split; [|split]]].
  - intros a. rewrite (reader_feed_In on user a Hr).
    fold r. rewrite Hon, Hpon, Haon. tauto.
  - destruct (reader_by_journalist on user j Hr) as [Hyes _].
    rewrite Hyes by (apply Hon; now left).
    eexists. split; [reflexivity|]. intros a.
    rewrite order_by_desc_In, filter_In, andb_true_iff, Z.eqb_eq.
    rewrite is_approved_true, Haon. tauto.
  - intros a. rewrite (reader_feed_In off user a Hr).
    fold r. rewrite Hoff, Hpoff, Haoff. tauto.
  - destruct (reader_by_journalist off user j Hr) as [_ Hno].
    rewrite Hno; [now eexists|]. intros H. apply Hoff in H. tauto.
  - intros p Hp.
    assert (Hsame : forall d,
               articles d = articles db ->
               (follows_journalist d r p <-> follows_journalist db r p) ->
               ArticleViewSet_by_journalist d user (Some p)
               = ArticleViewSet_by_journalist db user (Some p)).
    { intros d Ha Hf.
      destruct (reader_by_journalist d user p Hr) as [Hy Hn].
      destruct (reader_by_journalist db user p Hr) as [Hy' Hn'].
      assert (Hdec : follows_journalist db r p \/ ~ follows_journalist db r p).
      { destruct (existsb (fun s =>
                    (JournalistSubscription.reader_id s =? CustomUser.pk user)
                    && (JournalistSubscription.journalist_id s =? p)
                    && JournalistSubscription.is_active s)
                  (journalist_subscriptions db)) eqn:E.
        - left. now apply journalist_filter_cond.
        - right. intros H. apply journalist_filter_cond in H. congruence. }
      destruct Hdec as [H|H].
      - rewrite Hy by now apply Hf. rewrite Hy' by assumption.
        now rewrite Ha.
      - rewrite Hn by (intros H'; now apply H, Hf). now rewrite Hn'. }
    split; apply Hsame; try assumption.
    + rewrite Hon. split; [intros [H|H]; [contradiction | assumption]|auto].
    + rewrite Hoff. tauto.
Qed.

(** On the sample newsroom erin subscribes to bob and the filtered query
    for bob answers her with his two approved articles; alice
    unsubscribes from bob and is refused. *)
Lemma journalist_subscription_opens_the_api_witness :
  journalist_subscriptions_unique Sample.db
  /\ (exists l,
        ArticleViewSet_by_journalist
          (fst (subscribe_to_journalist Sample.db Sample.erin 1))
          Sample.erin (Some 1)
        = HTTP_200_OK l
        /\ forall a, In a l
                     <-> In a (articles Sample.db)
                         /\ Article.journalist_id a = 1
                         /\ Article.status a = approved)
  /\ exists payload,
       ArticleViewSet_by_journalist
         (fst (unsubscribe_from_journalist Sample.db Sample.alice 1))
         Sample.alice (Some 1)
       = HTTP_403_FORBIDDEN payload.
Proof.
  assert (Hj : journalist_subscriptions_unique Sample.db).
  { split; [simpl; repeat constructor; simpl; tauto|].
    intros r t. unfold pair_rows. simpl.
    match goal with |- context [if ?b then _ else _] => destruct b end;
      simpl; lia. }
  split; [exact Hj|]. split.
  - destruct (journalist_subscription_opens_the_api Sample.db Sample.erin 1
                (Journalist.mk 1 2 1) Hj eq_refl eq_refl)
      as (_ & H & _).
    exact H.
  - destruct (journalist_subscription_opens_the_api Sample.db Sample.alice 1
                (Journalist.mk 1 2 1) Hj eq_refl eq_refl)
      as (_ & _ & _ & H & _).
    exact H.
Defined.

(** ** Groups and permissions *)

Lemma NoDup_map_inj_on {A B : Type} (f : A -> B) (l : list A) (x y : A) :
  NoDup (map f l) -> In x l -> In y l -> f x = f y -> x = y.
Proof.
  induction l as [|z l IH]; simpl; [intros _ []|].
  intros Hd Hx Hy E. inversion Hd as [|? ? Hn Hd']; subst.
  destruct Hx as [->|Hx], Hy as [->|Hy].
  - reflexivity.
  - exfalso. apply Hn. rewrite E. now apply in_map.
  - exfalso. apply Hn. rewrite <- E. now apply in_map.
  - now apply IH.
Qed.

Lemma find_app_l {A : Type} (f : A -> bool) (l l' : list A) (x : A) :
  find f l = Some x -> find f (l ++ l') = Some x.
Proof.
  induction l as [|y l IH]; simpl; [discriminate|].
  destruct (f y); [auto | exact IH].
Qed.

Lemma find_app_r {A : Type} (f : A -> bool) (l l' : list A) :
  find f l = None -> find f (l ++ l') = find f l'.
Proof.
  induction l as [|y l IH]; simpl; [reflexivity|].
  destruct (f y); [discriminate | exact IH].
Qed.

(** What [Group.objects.get_or_create] leaves behind. *)
Lemma Group_get_or_create_spec (auth : AuthDatabase) (name : string) :
  let auth' := fst (Group_get_or_create auth name) in
  let group := snd (Group_get_or_create auth name) in
  group_named auth' name = Some group
  /\ Group.name group = name
  /\ In group (auth_group auth')
  /\ (NoDup (map Group.pk (auth_group auth)) ->
      NoDup (map Group.pk (auth_group auth')))
  /\ (forall n g, group_named auth n = Some g -> group_named auth' n = Some g)
  /\ (forall g, In g (auth_group auth) -> In g (auth_group auth'))
  /\ (forall g, In g (auth_group auth') ->
                In g (auth_group auth) \/ g = group)
  /\ auth_permission auth' = auth_permission auth
  /\ auth_group_permissions auth' = auth_group_permissions auth
  /\ customuser_groups auth' = customuser_groups auth
  /\ (forall g, group_named auth name = Some g -> auth' = auth /\ group = g).
Proof.
  cbv zeta. unfold Group_get_or_create, group_named.
  destruct (find _ (auth_group auth)) as [g|] eqn:Ef; simpl.
  - pose proof (find_some _ _ Ef) as [Hin Hn].
    apply String.eqb_eq in Hn.
    split; [exact Ef|]. split; [assumption|]. split; [assumption|].
    split; [auto|]. split; [auto|]. split; [auto|]. split; [auto|].
    split; [reflexivity|]. split; [reflexivity|]. split; [reflexivity|].
    intros g' H. now injection H as <-.
  - split.
    { rewrite find_app_r by assumption. simpl.
      now rewrite String.eqb_refl. }
    split; [reflexivity|].
    split; [apply in_app_iff; right; now left|].
    split; [intros Hd; now apply NoDup_pk_insert|].
    split; [intros n g0 H; now apply find_app_l|].
    split; [intros g0 H; apply in_app_iff; now left|].
    split.
    { intros g0 H. apply in_app_iff in H.
      destruct H as [H|[<-|[]]]; auto. }
    split; [reflexivity|]. split; [reflexivity|]. split; [reflexivity|].
    intros g' H. discriminate.
Qed.

(** The permissions of a group after [permissions.set] on some group. *)
Lemma Group_permissions_set_spec (auth : AuthDatabase) (group : Group.t)
    (perms : list Permission.t) (k : Z) :
  group_permissions (Group_permissions_set auth group perms) k
  = if k =? Group.pk group then map Permission.pk perms
    else group_permissions auth k.
Proof.
  unfold group_permissions, Group_permissions_set. simpl.
  rewrite filter_app, map_app.
  destruct (k =? Group.pk group) eqn:E.
  - apply Z.eqb_eq in E. subst k.
    rewrite (filter_none _ (filter _ (auth_group_permissions auth))).
    + simpl. induction perms as [|p perms IH]; simpl; [reflexivity|].
      rewrite Z.eqb_refl. simpl. f_equal. exact IH.
    + intros row Hrow. apply filter_In in Hrow. destruct Hrow as [_ Hrow].
      now apply negb_true_iff in Hrow.
  - rewrite (filter_none _ (map _ perms)).
    + rewrite app_nil_r. f_equal.
      induction (auth_group_permissions auth) as [|row rows IH]; simpl;
        [reflexivity|].
      destruct (fst row =? Group.pk group) eqn:Eg; simpl.
      * destruct (fst row =? k) eqn:Ek; [|exact IH].
        apply Z.eqb_eq in Eg, Ek. apply Z.eqb_neq in E. congruence.
      * destruct (fst row =? k); [now rewrite IH | exact IH].
    + intros row Hrow. apply in_map_iff in Hrow.
      destruct Hrow as [p [<- _]]. simpl.
      rewrite Z.eqb_sym. exact E.
Qed.

(** A code name that starts with [add_] starts with none of [change_],
    [delete_] and [view_]. *)
Lemma prefix_cons (a b : ascii) (s1 s2 : string) :
  String.prefix (String a s1) (String b s2)
  = if ascii_dec a b then String.prefix s1 s2 else false.
Proof. reflexivity. Qed.

Lemma is_add_not_others (p : Permission.t) :
  is_add p = true -> is_change_delete_view p = false /\ is_view p = false.
Proof.
  unfold is_add, is_change_delete_view, is_view.
  destruct (Permission.codename p) as [|c s]; [discriminate|].
  rewrite prefix_cons.
  destruct (ascii_dec "a" c) as [<-|Hne]; [|discriminate].
  intros _. split; reflexivity.
Qed.

Lemma is_view_change_delete_view (p : Permission.t) :
  is_view p = true -> is_change_delete_view p = true.
Proof.
  unfold is_view, is_change_delete_view. intros ->. apply orb_true_r.
Qed.

(** The four groups after [create_roles_and_permissions] has run for
    the app, and their permissions. *)
Lemma roles_created (article_ct newsletter_ct : Z) (auth : AuthDatabase) :
  NoDup (map Group.pk (auth_group auth)) ->
  let auth' :=
    create_roles_and_permissions "news" article_ct newsletter_ct auth in
  let perms := auth_permission auth in
  (exists reader_group journalist_group editor_group publisher_group,
     group_named auth' "Reader" = Some reader_group
     /\ group_named auth' "Journalist" = Some journalist_group
     /\ group_named auth' "Editor" = Some editor_group
     /\ group_named auth' "Publisher" = Some publisher_group
     /\ NoDup [Group.pk reader_group; Group.pk journalist_group;
               Group.pk editor_group; Group.pk publisher_group]
     /\ group_permissions auth' (Group.pk reader_group)
        = map Permission.pk
              (role_permissions article_ct newsletter_ct Role.reader perms)
     /\ group_permissions auth' (Group.pk journalist_group)
        = map Permission.pk
              (role_permissions article_ct newsletter_ct Role.journalist
                                perms)
     /\ group_permissions auth' (Group.pk editor_group)
        = map Permission.pk
              (role_permissions article_ct newsletter_ct Role.editor perms)
     /\ group_permissions auth' (Group.pk publisher_group)
        = map Permission.pk
              (role_permissions article_ct newsletter_ct Role.publisher
                                perms)
     /\ (forall g, In g (auth_group auth) ->
           ~ In (Group.name g)
                ["Reader"; "Journalist"; "Editor"; "Publisher"]%string ->
           group_permissions auth' (Group.pk g)
           = group_permissions auth (Group.pk g)))
  /\ NoDup (map Group.pk (auth_group auth'))
  /\ auth_permission auth' = perms
  /\ customuser_groups auth' = customuser_groups auth.
Proof.
  intros Hd auth' perms.
  (* the four groups *)
  pose proof (Group_get_or_create_spec auth "Reader") as H1.
  destruct (Group_get_or_create auth "Reader") as [a1 g1] eqn:E1.
  cbv zeta in H1. simpl fst in H1. simpl snd in H1.
  destruct H1 as (F1 & N1 & I1 & D1 & K1 & In1 & Out1 & P1 & GP1 & UG1 & _).
  pose proof (Group_get_or_create_spec a1 "Journalist") as H2.
  destruct (Group_get_or_create a1 "Journalist") as [a2 g2] eqn:E2.
  cbv zeta in H2. simpl fst in H2. simpl snd in H2.
  destruct H2 as (F2 & N2 & I2 & D2 & K2 & In2 & Out2 & P2 & GP2 & UG2 & _).
  pose proof (Group_get_or_create_spec a2 "Editor") as H3.
  destruct (Group_get_or_create a2 "Editor") as [a3 g3] eqn:E3.
  cbv zeta in H3. simpl fst in H3. simpl snd in H3.
  destruct H3 as (F3 & N3 & I3 & D3 & K3 & In3 & Out3 & P3 & GP3 & UG3 & _).
  pose proof (Group_get_or_create_spec a3 "Publisher") as H4.
  destruct (Group_get_or_create a3 "Publisher") as [a4 g4] eqn:E4.
  cbv zeta in H4. simpl fst in H4. simpl snd in H4.
  destruct H4 as (F4 & N4 & I4 & D4 & K4 & In4 & Out4 & P4 & GP4 & UG4 & _).
  assert (D : NoDup (map Group.pk (auth_group a4))) by auto.
  assert (Hperms : auth_permission a4 = perms) by (unfold perms; congruence).
  assert (Hrows : auth_group_permissions a4 = auth_group_permissions auth)
    by congruence.
  assert (Hneq : forall g g', In g (auth_group a4) -> In g' (auth_group a4) ->
                   Group.name g <> Group.name g' -> Group.pk g <> Group.pk g').
  { intros g g' Hg Hg' Hn E. apply Hn. f_equal.
    now apply (NoDup_map_inj_on Group.pk (auth_group a4)). }
  assert (J1 : In g1 (auth_group a4)) by auto.
  assert (J2 : In g2 (auth_group a4)) by auto.
  assert (J3 : In g3 (auth_group a4)) by auto.
  assert (Hshape :
    auth'
    = Group_permissions_set
        (Group_permissions_set
           (Group_permissions_set
              (Group_permissions_set a4 g1
                 (role_permissions article_ct newsletter_ct Role.reader
                                   perms))
              g2 (role_permissions article_ct newsletter_ct Role.journalist
                                   perms))
           g3 (role_permissions article_ct newsletter_ct Role.editor perms))
        g4 (role_permissions article_ct newsletter_ct Role.publisher perms)).
  { unfold auth', create_roles_and_permissions. simpl negb. cbv iota.
    rewrite E1, E2, E3, E4. cbv zeta. simpl auth_permission.
    rewrite Hperms. reflexivity. }
  assert (Hgroups : auth_group auth' = auth_group a4)
    by (rewrite Hshape; reflexivity).
  assert (Hpk12 : Group.pk g1 <> Group.pk g2)
    by (apply Hneq; auto; rewrite N1, N2; discriminate).
  assert (Hpk13 : Group.pk g1 <> Group.pk g3)
    by (apply Hneq; auto; rewrite N1, N3; discriminate).
  assert (Hpk14 : Group.pk g1 <> Group.pk g4)
    by (apply Hneq; auto; rewrite N1, N4; discriminate).
  assert (Hpk23 : Group.pk g2 <> Group.pk g3)
    by (apply Hneq; auto; rewrite N2, N3; discriminate).
  assert (Hpk24 : Group.pk g2 <> Group.pk g4)
    by (apply Hneq; auto; rewrite N2, N4; discriminate).
  assert (Hpk34 : Group.pk g3 <> Group.pk g4)
    by (apply Hneq; auto; rewrite N3, N4; discriminate).
  assert (Hfinal : forall k,
            group_permissions auth' k
            = if k =? Group.pk g4
              then map Permission.pk
                     (role_permissions article_ct newsletter_ct
                                       Role.publisher perms)
              else if k =? Group.pk g3
              then map Permission.pk
                     (role_permissions article_ct newsletter_ct Role.editor
                                       perms)
              else if k =? Group.pk g2
              then map Permission.pk
                     (role_permissions article_ct newsletter_ct
                                       Role.journalist perms)
              else if k =? Group.pk g1
              then map Permission.pk
                     (role_permissions article_ct newsletter_ct Role.reader
                                       perms)
              else group_permissions auth k).
  { intros k. rewrite Hshape. rewrite !Group_permissions_set_spec.
    unfold group_permissions. now rewrite Hrows. }
  split.
  - exists g1, g2, g3, g4.
    unfold group_named in *. rewrite Hgroups.
    split; [auto|]. split; [auto|]. split; [auto|]. split; [auto|].
    split.
    { repeat constructor; simpl; intuition congruence. }
    split.
    { rewrite Hfinal.
      apply Z.eqb_neq in Hpk14, Hpk13, Hpk12.
      now rewrite Hpk14, Hpk13, Hpk12, Z.eqb_refl. }
    split.
    { rewrite Hfinal. apply Z.eqb_neq in Hpk24, Hpk23.
      now rewrite Hpk24, Hpk23, Z.eqb_refl. }
    split.
    { rewrite Hfinal. apply Z.eqb_neq in Hpk34.
      now rewrite Hpk34, Z.eqb_refl. }
    split.
    { rewrite Hfinal. now rewrite Z.eqb_refl. }
    intros g Hg Hname. rewrite Hfinal.
    assert (Jg : In g (auth_group a4)) by auto.
    assert (Hg1 : Group.pk g <> Group.pk g1).
    { apply Hneq; auto. rewrite N1. intros E. apply Hname. rewrite E.
      simpl. auto. }
    assert (Hg2 : Group.pk g <> Group.pk g2).
    { apply Hneq; auto. rewrite N2. intros E. apply Hname. rewrite E.
      simpl. auto. }
    assert (Hg3 : Group.pk g <> Group.pk g3).
    { apply Hneq; auto. rewrite N3. intros E. apply Hname. rewrite E.
      simpl. auto. }
    assert (Hg4 : Group.pk g <> Group.pk g4).
    { apply Hneq; auto. rewrite N4. intros E. apply Hname. rewrite E.
      simpl. auto. }
    apply Z.eqb_neq in Hg1, Hg2, Hg3, Hg4.
    now rewrite Hg4, Hg3, Hg2, Hg1.
  - split; [now rewrite Hgroups|].
    split; [rewrite Hshape; exact Hperms|].
    rewrite Hshape; simpl; congruence.
Qed.

(** X23.  After [create_roles_and_permissions] has run for the app, on
    group and permission tables with unique keys, the four groups Reader,
    Journalist, Editor and Publisher exist with four different keys, and
    of the permissions on articles and newsletters the Reader group
    carries exactly those whose code name starts with [view_], the
    Journalist group all of them, and the Editor and the Publisher group
    exactly those that start with [change_], [delete_] or [view_]: the
    same list for both, which has every permission of the Reader group
    and is part of that of the Journalist group, and which holds no
    permission that starts with [add_].  No permission on another model
    is in any of the four groups; the permissions of the other groups,
    the permission table and the groups of the users stay as they were.
    For another sender nothing changes. *)
Theorem create_roles_and_permissions_spec (article_ct newsletter_ct : Z)
    (auth : AuthDatabase) :
  NoDup (map Group.pk (auth_group auth)) ->
  NoDup (map Permission.pk (auth_permission auth)) ->
  let auth' :=
    create_roles_and_permissions "news" article_ct newsletter_ct auth in
  let perms := auth_permission auth in
  (exists reader_group journalist_group editor_group publisher_group,
     group_named auth' "Reader" = Some reader_group
     /\ group_named auth' "Journalist" = Some journalist_group
     /\ group_named auth' "Editor" = Some editor_group
     /\ group_named auth' "Publisher" = Some publisher_group
     /\ NoDup [Group.pk reader_group; Group.pk journalist_group;
               Group.pk editor_group; Group.pk publisher_group]
     /\ group_permissions auth' (Group.pk reader_group)
        = map Permission.pk
              (role_permissions article_ct newsletter_ct Role.reader perms)
     /\ group_permissions auth' (Group.pk journalist_group)
        = map Permission.pk
              (role_permissions article_ct newsletter_ct Role.journalist
                                perms)
     /\ group_permissions auth' (Group.pk editor_group)
        = map Permission.pk
              (role_permissions article_ct newsletter_ct Role.editor perms)
     /\ group_permissions auth' (Group.pk publisher_group)
        = map Permission.pk
              (role_permissions article_ct newsletter_ct Role.publisher
                                perms)
     /\ (forall g, In g (auth_group auth) ->
           ~ In (Group.name g)
                ["Reader"; "Journalist"; "Editor"; "Publisher"]%string ->
           group_permissions auth' (Group.pk g)
           = group_permissions auth (Group.pk g)))
  /\ NoDup (map Group.pk (auth_group auth'))
  /\ auth_permission auth' = perms
  /\ customuser_groups auth' = customuser_groups auth
  /\ (forall r p,
        In p (role_permissions article_ct newsletter_ct r perms) ->
        In p perms /\ on_content article_ct newsletter_ct p = true)
  /\ (forall p,
        In p (role_permissions article_ct newsletter_ct Role.reader perms) ->
        In p (role_permissions article_ct newsletter_ct Role.editor perms))
  /\ (forall p,
        In p (role_permissions article_ct newsletter_ct Role.editor perms) ->
        In p (role_permissions article_ct newsletter_ct Role.journalist
                               perms))
  /\ (forall r p,
        r <> Role.journalist -> In p perms -> is_add p = true ->
        ~ In (Permission.pk p)
             (map Permission.pk
                  (role_permissions article_ct newsletter_ct r perms)))
  /\ forall sender_name,
       sender_name <> "news"%string ->
       create_roles_and_permissions sender_name article_ct newsletter_ct auth
       = auth.
Proof.
  intros Hd Hp auth' perms.
  destruct (roles_created article_ct newsletter_ct auth Hd)
    as (Hgroups & Hnodup & Hperms & Husers).
  fold auth' perms in Hgroups, Hnodup, Hperms, Husers.
  split; [exact Hgroups|]. split; [exact Hnodup|].
  split; [exact Hperms|]. split; [exact Husers|].
  split.
  { intros r p Hin. destruct r; simpl in Hin;
      repeat (apply filter_In in Hin; destruct Hin as [Hin ?]);
      try (apply filter_In in Hin; destruct Hin as [Hin ?]);
      try (match goal with
           | H : (_ && _) = true |- _ => apply andb_true_iff in H;
                                         destruct H
           end); auto. }
  split.
  { intros p Hin. simpl in *. apply filter_In in Hin.
    destruct Hin as [Hin Hc]. apply andb_true_iff in Hc.
    destruct Hc as [Hc Hv]. apply filter_In.
    split; [apply filter_In; auto|].
    now apply is_view_change_delete_view. }
  split.
  { intros p Hin. simpl in *. apply filter_In in Hin. tauto. }
  split.
  { intros r p Hr Hin Hadd Hmem. apply in_map_iff in Hmem.
    destruct Hmem as [q [Hk Hq]].
    destruct (is_add_not_others p Hadd) as [Hn1 Hn2].
    assert (Hqin : In q perms /\ (is_change_delete_view q = true
                                  \/ is_view q = true)).
    { destruct r; simpl in Hq; [| contradiction | |];
        apply filter_In in Hq; destruct Hq as [Hq Hc].
      - apply andb_true_iff in Hc. tauto.
      - apply filter_In in Hq. tauto.
      - apply filter_In in Hq. tauto. }
    destruct Hqin as [Hqin Hc].
    assert (q = p)
      by (apply (NoDup_map_inj_on Permission.pk perms); assumption).
    subst q. destruct Hc; congruence. }
  intros sender_name Hs. unfold create_roles_and_permissions.
  apply String.eqb_neq in Hs. now rewrite Hs.
Qed.

Lemma create_roles_and_permissions_spec_witness :
  NoDup (map Group.pk (auth_group sample_auth))
  /\ NoDup (map Permission.pk (auth_permission sample_auth))
  /\ exists reader_group editor_group,
       group_named (create_roles_and_permissions "news" 7 8 sample_auth)
                   "Reader" = Some reader_group
       /\ group_named (create_roles_and_permissions "news" 7 8 sample_auth)
                      "Editor" = Some editor_group
       /\ group_permissions
            (create_roles_and_permissions "news" 7 8 sample_auth)
            (Group.pk reader_group) = [4; 8]
       /\ group_permissions
            (create_roles_and_permissions "news" 7 8 sample_auth)
            (Group.pk editor_group) = [2; 3; 4; 6; 7; 8].
Proof.
  assert (Hd : NoDup (map Group.pk (auth_group sample_auth)))
    by (simpl; constructor).
  assert (Hp : NoDup (map Permission.pk (auth_permission sample_auth))).
  { simpl. repeat (constructor; [simpl; lia|]). constructor. }
  split; [exact Hd|]. split; [exact Hp|].
  destruct (create_roles_and_permissions_spec 7 8 sample_auth Hd Hp)
    as [(reader_group & journalist_group & editor_group & publisher_group
         & Hr & _ & He & _ & _ & Pr & _ & Pe & _) _].
  exists reader_group, editor_group.
  split; [exact Hr|]. split; [exact He|].
  split; [rewrite Pr | rewrite Pe]; reflexivity.
Defined.

(** ** The group of a saved user *)

Lemma capitalize_Role_value (r : Role.t) :
  capitalize (Role_value r)
  = match r with
    | Role.reader => "Reader"
    | Role.journalist => "Journalist"
    | Role.editor => "Editor"
    | Role.publisher => "Publisher"
    end%string.
Proof. destruct r; reflexivity. Qed.

(** The rows of a user after [groups.clear()] and [groups.add(group)]. *)
Lemma groups_cleared_and_added (rows : list (Z * Z)) (user_id group_id k : Z) :
  map snd
      (filter (fun row => fst row =? k)
              (filter (fun row => negb (fst row =? user_id)) rows
               ++ [(user_id, group_id)]))
  = if k =? user_id then [group_id]
    else map snd (filter (fun row => fst row =? k) rows).
Proof.
  rewrite filter_app, map_app. simpl. rewrite (Z.eqb_sym user_id k).
  destruct (k =? user_id) eqn:E.
  - apply Z.eqb_eq in E. subst k.
    rewrite (filter_none _ (filter _ rows)); [reflexivity|].
    intros row Hrow. apply filter_In in Hrow. destruct Hrow as [_ Hrow].
    now apply negb_true_iff in Hrow.
  - simpl. rewrite app_nil_r. f_equal.
    induction rows as [|row rows IH]; simpl; [reflexivity|].
    destruct (fst row =? user_id) eqn:Eu; simpl.
    + destruct (fst row =? k) eqn:Ek; [|exact IH].
      apply Z.eqb_eq in Eu, Ek. apply Z.eqb_neq in E. congruence.
    + destruct (fst row =? k); [now rewrite IH | exact IH].
Qed.

(** [CustomUser.save] on any tables: the group of the role exists
    afterwards and is the one group of the user. *)
Lemma CustomUser_save_groups_cases (auth : AuthDatabase) (self : CustomUser.t) :
  let name := capitalize (Role_value (CustomUser.role self)) in
  let auth' := CustomUser_save_groups auth self in
  exists group,
    group_named auth' name = Some group
    /\ (forall k, groups_of auth' k
                  = if k =? CustomUser.pk self then [Group.pk group]
                    else groups_of auth k)
    /\ auth_permission auth' = auth_permission auth
    /\ auth_group_permissions auth' = auth_group_permissions auth
    /\ (forall g, group_named auth name = Some g ->
                  group = g /\ auth_group auth' = auth_group auth)
    /\ (group_named auth name = None ->
        auth_group auth' = auth_group auth ++ [group]
        /\ Group.pk group = next_pk Group.pk (auth_group auth)).
Proof.
  intros name auth'. unfold auth', CustomUser_save_groups. fold name.
  pose proof (Group_get_or_create_spec auth name) as H. cbv zeta in H.
  destruct H as (Hn & _ & _ & _ & _ & _ & _ & Hp & Hgp & Hug & Hsame).
  assert (Hnew : group_named auth name = None ->
                 auth_group (fst (Group_get_or_create auth name))
                 = auth_group auth ++ [snd (Group_get_or_create auth name)]
                 /\ Group.pk (snd (Group_get_or_create auth name))
                    = next_pk Group.pk (auth_group auth)).
  { unfold Group_get_or_create, group_named. intros ->. split; reflexivity. }
  destruct (Group_get_or_create auth name) as [auth1 group]. simpl in *.
  exists group.
  split; [exact Hn|].
  split.
  { intros k. unfold groups_of. simpl. rewrite Hug.
    apply groups_cleared_and_added. }
  split; [exact Hp|]. split; [exact Hgp|].
  split; [|exact Hnew].
  intros g Hg. destruct (Hsame g Hg) as [-> ->]. split; reflexivity.
Qed.

(** X24.  Once [create_roles_and_permissions] has run for the app, the
    group part of [CustomUser.save] creates no group and changes no
    permission: the saved user is left in exactly one group, the one of
    the four that is named after the role, whatever groups the user was
    in before, and so holds through the groups exactly the permissions of
    that role on articles and newsletters; the groups of every other user
    stay as they were. *)
Theorem CustomUser_save_groups_spec (article_ct newsletter_ct : Z)
    (auth0 : AuthDatabase) (self : CustomUser.t) :
  NoDup (map Group.pk (auth_group auth0)) ->
  let auth :=
    create_roles_and_permissions "news" article_ct newsletter_ct auth0 in
  let auth' := CustomUser_save_groups auth self in
  (exists group,
     group_named auth
       (match CustomUser.role self with
        | Role.reader => "Reader"
        | Role.journalist => "Journalist"
        | Role.editor => "Editor"
        | Role.publisher => "Publisher"
        end) = Some group
     /\ groups_of auth' (CustomUser.pk self) = [Group.pk group])
  /\ get_group_permissions auth' (CustomUser.pk self)
     = map Permission.pk
           (role_permissions article_ct newsletter_ct (CustomUser.role self)
                             (auth_permission auth0))
  /\ (forall other, other <> CustomUser.pk self ->
        groups_of auth' other = groups_of auth other
        /\ get_group_permissions auth' other
           = get_group_permissions auth other)
  /\ auth_group auth' = auth_group auth
  /\ auth_permission auth' = auth_permission auth
  /\ auth_group_permissions auth' = auth_group_permissions auth.
Proof.
  intros Hd auth auth'.
  destruct (roles_created article_ct newsletter_ct auth0 Hd)
    as ((reader_group & journalist_group & editor_group & publisher_group
         & Hr & Hj & He & Hp & _ & Pr & Pj & Pe & Pp & _) & _ & _ & _).
  fold auth in Hr, Hj, He, Hp, Pr, Pj, Pe, Pp.
  destruct (CustomUser_save_groups_cases auth self)
    as (group & Hnamed & Hgroups & Hperms & Hgp & Hsame & _).
  fold auth' in Hnamed, Hgroups, Hperms, Hgp, Hsame.
  rewrite capitalize_Role_value in Hsame.
  assert (Hsame_perms : forall k,
            group_permissions auth' k = group_permissions auth k).
  { intros k. unfold group_permissions. now rewrite Hgp. }
  assert (Hmine : groups_of auth' (CustomUser.pk self) = [Group.pk group]).
  { rewrite Hgroups. now rewrite Z.eqb_refl. }
  assert (Hrole : exists g,
            group_named auth
              (match CustomUser.role self with
               | Role.reader => "Reader"
               | Role.journalist => "Journalist"
               | Role.editor => "Editor"
               | Role.publisher => "Publisher"
               end) = Some g
            /\ group_permissions auth (Group.pk g)
               = map Permission.pk
                     (role_permissions article_ct newsletter_ct
                        (CustomUser.role self) (auth_permission auth0))).
  { destruct (CustomUser.role self); eauto. }
  destruct Hrole as (g & Hg & Pg).
  destruct (Hsame g Hg) as [-> Hgs].
  split; [exists g; split; [exact Hg | exact Hmine]|].
  split.
  { unfold get_group_permissions. rewrite Hmine. simpl.
    rewrite app_nil_r, Hsame_perms. exact Pg. }
  split.
  { intros other Hne.
    assert (Ho : groups_of auth' other = groups_of auth other).
    { rewrite Hgroups. apply Z.eqb_neq in Hne. now rewrite Hne. }
    split; [exact Ho|].
    unfold get_group_permissions. rewrite Ho.
    apply flat_map_ext. exact Hsame_perms. }
  split; [exact Hgs|]. split; [exact Hperms | exact Hgp].
Qed.

Lemma CustomUser_save_groups_spec_witness :
  NoDup (map Group.pk (auth_group sample_auth))
  /\ get_group_permissions
       (CustomUser_save_groups
          (create_roles_and_permissions "news" 7 8 sample_auth) Sample.bob)
       (CustomUser.pk Sample.bob)
     = map Permission.pk
           (role_permissions 7 8 (CustomUser.role Sample.bob)
                             (auth_permission sample_auth)).
Proof.
  assert (Hd : NoDup (map Group.pk (auth_group sample_auth)))
    by (simpl; constructor).
  split; [exact Hd|].
  exact (proj1 (proj2 (CustomUser_save_groups_spec 7 8 sample_auth Sample.bob
                                                   Hd))).
Defined.

(** ** Browsing journalists and publishers *)

Lemma Count_distinct_NoDup (ids : list Z) :
  NoDup ids -> Count_distinct ids = List.length ids.
Proof.
  intros H. unfold Count_distinct. now rewrite nodup_fixed_point.
Qed.

Lemma Count_distinct_pk {A : Type} (pk : A -> Z) (p : A -> bool)
    (l : list A) :
  NoDup (map pk l) ->
  Count_distinct (map pk (filter p l)) = List.length (filter p l).
Proof.
  intros H. rewrite Count_distinct_NoDup by now apply NoDup_map_filter.
  apply length_map.
Qed.

Lemma descending_map {A B : Type} (f : A -> B) (key : A -> Z)
    (key' : B -> Z) (l : list A) :
  (forall x, key' (f x) = key x) ->
  descending key l -> descending key' (map f l).
Proof.
  intros Hk. unfold descending.
  induction 1 as [|x l Hs IH Hx]; simpl; constructor; [exact IH|].
  apply Forall_forall. intros y Hy. apply in_map_iff in Hy.
  destruct Hy as [z [<- Hz]]. rewrite !Hk.
  rewrite Forall_forall in Hx. now apply Hx.
Qed.

(** X25.  [browse_journalists] sends everyone but a reader back to the
    article list with an error.  For a reader, when the keys of the
    article table are unique, the page lists every journalist of the
    table exactly once, also one without an approved article, the one
    with the most approved articles first; the count shown with a
    journalist is the number of approved articles of that journalist,
    the subscriber count the number of active subscriptions, and the
    journalists marked as subscribed are exactly those the reader
    follows. *)
Theorem browse_journalists_spec (db : Database) (user : CustomUser.t) :
  NoDup (map Article.pk (articles db)) ->
  (CustomUser.role user <> Role.reader ->
   browse_journalists db user
   = Page.redirect "news:article_list" None
       (Some (messages.error, "Only readers can browse journalists."%string)))
  /\ (CustomUser.role user = Role.reader ->
      exists context,
        browse_journalists db user
        = Page.render "news/browse_journalists.html" context
        /\ Permutation (map BrowseJournalists.journalist
                            (BrowseJournalists.journalists context))
                       (journalists db)
        /\ descending (fun r => Z.of_nat (BrowseJournalists.article_count r))
                      (BrowseJournalists.journalists context)
        /\ (forall r, In r (BrowseJournalists.journalists context) ->
              BrowseJournalists.article_count r
              = List.length
                  (approved_of_journalist db
                     (Journalist.pk (BrowseJournalists.journalist r)))
              /\ BrowseJournalists.subscriber_count r
                 = List.length
                     (active_journalist_subscriptions db
                        (Journalist.pk (BrowseJournalists.journalist r))))
        /\ (forall j,
              In j (BrowseJournalists.user_subscribed_journalists context)
              <-> follows_journalist db (CustomUser.pk user) j)).
Proof.
  intros Hd. unfold browse_journalists. split.
  - intros Hr. apply Role_eqb_neq in Hr. now rewrite Hr.
  - intros Hr. rewrite Hr. cbn [Role.eqb negb].
    set (annotated := map _ (journalists db)).
    eexists. split; [reflexivity|].
    cbn [BrowseJournalists.journalists
           BrowseJournalists.user_subscribed_journalists].
    split.
    { rewrite map_map. cbn [BrowseJournalists.journalist].
      rewrite (order_by_desc_Permutation _ annotated).
      unfold annotated. rewrite map_map. cbn [fst]. now rewrite map_id. }
    split.
    { apply descending_map with (key := fun r => Z.of_nat (snd r));
        [reflexivity | apply order_by_desc_descending]. }
    split; [|intros j; apply subscribed_journalist_ids_In].
    intros r Hin. apply in_map_iff in Hin. destruct Hin as [[j n] [<- Hin]].
    apply order_by_desc_In in Hin. apply in_map_iff in Hin.
    destruct Hin as [j' [E _]]. injection E as -> <-.
    cbn [BrowseJournalists.article_count BrowseJournalists.journalist
           BrowseJournalists.subscriber_count fst snd].
    split; [|reflexivity].
    now apply Count_distinct_pk.
Qed.

Lemma browse_journalists_spec_witness :
  NoDup (map Article.pk (articles Sample.db))
  /\ CustomUser.role Sample.alice = Role.reader
  /\ exists context,
       browse_journalists Sample.db Sample.alice
       = Page.render "news/browse_journalists.html" context
       /\ map BrowseJournalists.article_count
              (BrowseJournalists.journalists context) = [2%nat]
       /\ forall j,
            In j (BrowseJournalists.user_subscribed_journalists context)
            <-> follows_journalist Sample.db (CustomUser.pk Sample.alice) j.
Proof.
  assert (Hd : NoDup (map Article.pk (articles Sample.db))).
  { simpl. repeat (constructor; [simpl; lia|]). constructor. }
  split; [exact Hd|]. split; [reflexivity|].
  destruct (proj2 (browse_journalists_spec Sample.db Sample.alice Hd)
                  eq_refl)
    as (context & E & _ & _ & _ & Hs).
  exists context. split; [exact E|]. split; [|exact Hs].
  injection E as <-. reflexivity.
Defined.

(** X26.  [browse_publishers] sends everyone but a reader back to the
    article list with an error.  For a reader, when the keys of the
    article table are unique, the page lists every publisher of the
    table exactly once, the one with the most approved articles first;
    the count shown with a publisher is the number of approved articles
    published under it, the subscriber count the number of active
    subscriptions, and the publishers marked as subscribed are exactly
    those the reader follows. *)
Theorem browse_publishers_spec (db : Database) (user : CustomUser.t) :
  NoDup (map Article.pk (articles db)) ->
  (CustomUser.role user <> Role.reader ->
   browse_publishers db user
   = Page.redirect "news:article_list" None
       (Some (messages.error, "Only readers can browse publishers."%string)))
  /\ (CustomUser.role user = Role.reader ->
      exists context,
        browse_publishers db user
        = Page.render "news/browse_publishers.html" context
        /\ Permutation (map BrowsePublishers.publisher
                            (BrowsePublishers.publishers context))
                       (publishers db)
        /\ descending (fun r => Z.of_nat (BrowsePublishers.article_count r))
                      (BrowsePublishers.publishers context)
        /\ (forall r, In r (BrowsePublishers.publishers context) ->
              BrowsePublishers.article_count r
              = List.length
                  (approved_of_publisher db
                     (Publisher.pk (BrowsePublishers.publisher r)))
              /\ BrowsePublishers.subscriber_count r
                 = List.length
                     (active_publisher_subscriptions db
                        (Publisher.pk (BrowsePublishers.publisher r))))
        /\ (forall p,
              In p (BrowsePublishers.user_subscribed_publishers context)
              <-> follows_publisher db (CustomUser.pk user) p)).
Proof.
  intros Hd. unfold browse_publishers. split.
  - intros Hr. apply Role_eqb_neq in Hr. now rewrite Hr.
  - intros Hr. rewrite Hr. cbn [Role.eqb negb].
    set (annotated := map _ (publishers db)).
    eexists. split; [reflexivity|].
    cbn [BrowsePublishers.publishers
           BrowsePublishers.user_subscribed_publishers].
    split.
    { rewrite map_map. cbn [BrowsePublishers.publisher].
      rewrite (order_by_desc_Permutation _ annotated).
      unfold annotated. rewrite map_map. cbn [fst]. now rewrite map_id. }
    split.
    { apply descending_map with (key := fun r => Z.of_nat (snd r));
        [reflexivity | apply order_by_desc_descending]. }
    split; [|intros p; apply subscribed_publisher_ids_In].
    intros r Hin. apply in_map_iff in Hin. destruct Hin as [[p n] [<- Hin]].
    apply order_by_desc_In in Hin. apply in_map_iff in Hin.
    destruct Hin as [p' [E _]]. injection E as -> <-.
    cbn [BrowsePublishers.article_count BrowsePublishers.publisher
           BrowsePublishers.subscriber_count fst snd].
    split; [|reflexivity].
    now apply Count_distinct_pk.
Qed.

Lemma browse_publishers_spec_witness :
  NoDup (map Article.pk (articles Sample.db))
  /\ CustomUser.role Sample.bob <> Role.reader
  /\ browse_publishers Sample.db Sample.bob
     = Page.redirect "news:article_list" None
         (Some (messages.error,
                "Only readers can browse publishers."%string)).
Proof.
  assert (Hd : NoDup (map Article.pk (articles Sample.db))).
  { simpl. repeat (constructor; [simpl; lia|]). constructor. }
  assert (Hr : CustomUser.role Sample.bob <> Role.reader) by discriminate.
  split; [exact Hd|]. split; [exact Hr|].
  exact (proj1 (browse_publishers_spec Sample.db Sample.bob Hd) Hr).
Defined.

(** ** The publisher dashboard *)

(** The rows of a table fall into the three statuses. *)
Lemma length_by_status (l : list Article.t) :
  List.length l
  = (List.length (filter (has_status pending) l)
     + List.length (filter (has_status approved) l)
     + List.length (filter (has_status rejected) l))%nat.
Proof.
  induction l as [|a l IH]; [reflexivity|].
  assert (Hh : forall s, has_status s a = Status_eqb (Article.status a) s)
    by reflexivity.
  cbn [filter]. rewrite !Hh.
  destruct (Article.status a); cbn [Status_eqb List.length]; lia.
Qed.

(** X27.  [publisher_dashboard] sends everyone but a publisher back to
    the article list with a warning, and fails for a publisher without a
    publisher profile.  For a publisher with a profile the page shows
    exactly the editors and the journalists assigned to that publisher,
    with their numbers; the three totals by status add up to the number
    of articles of the publisher; and, when the keys of the article
    table are unique, the pending, approved and rejected counts of each
    journalist add up to the article count of that journalist, which is
    the number of the articles written by that journalist. *)
Theorem publisher_dashboard_spec (db : Database) (user : CustomUser.t) :
  NoDup (map Article.pk (articles db)) ->
  (CustomUser.role user <> Role.publisher ->
   publisher_dashboard db user
   = Page.redirect "news:article_list" None
       (Some (messages.warning,
              "You do not have access to this page."%string)))
  /\ (CustomUser.role user = Role.publisher ->
      (forall p, In p (publishers db) ->
                 Publisher.user_id p <> CustomUser.pk user) ->
      publisher_dashboard db user
      = Page.server_error RelatedObjectDoesNotExist)
  /\ (CustomUser.role user = Role.publisher ->
      forall publisher,
        publisher_profile db user = Some publisher ->
        exists context,
          publisher_dashboard db user
          = Page.render "news/publisher_dashboard.html" context
          /\ PublisherDashboard.publisher context = publisher
          /\ (forall e, In e (PublisherDashboard.editors context)
                        <-> In e (editors db)
                            /\ Editor.publisher_id e = Publisher.pk publisher)
          /\ map PublisherDashboard.journalist
                 (PublisherDashboard.journalists context)
             = filter (fun j => Journalist.publisher_id j
                                =? Publisher.pk publisher)
                      (journalists db)
          /\ PublisherDashboard.editors_count context
             = List.length (PublisherDashboard.editors context)
          /\ PublisherDashboard.journalists_count context
             = List.length (PublisherDashboard.journalists context)
          /\ PublisherDashboard.total_articles_count context
             = (PublisherDashboard.total_pending_articles context
                + PublisherDashboard.total_approved_articles context
                + PublisherDashboard.total_rejected_articles context)%nat
          /\ PublisherDashboard.total_articles_count context
             = List.length
                 (filter (fun a => Article.publisher_id a
                                   =? Publisher.pk publisher)
                         (articles db))
          /\ PublisherDashboard.publisher_subscriber_count context
             = List.length
                 (active_publisher_subscriptions db (Publisher.pk publisher))
          /\ (forall r, In r (PublisherDashboard.journalists context) ->
                PublisherDashboard.article_count r
                = (PublisherDashboard.pending_article_count r
                   + PublisherDashboard.approved_article_count r
                   + PublisherDashboard.rejected_article_count r)%nat
                /\ PublisherDashboard.article_count r
                   = List.length
                       (filter (fun a => Article.journalist_id a
                                         =? Journalist.pk
                                              (PublisherDashboard.journalist
                                                 r))
                               (articles db))
                /\ PublisherDashboard.approved_article_count r
                   = List.length
                       (approved_of_journalist db
                          (Journalist.pk (PublisherDashboard.journalist r)))
                /\ PublisherDashboard.subscriber_count r
                   = List.length
                       (active_journalist_subscriptions db
                          (Journalist.pk
                             (PublisherDashboard.journalist r))))).
Proof.
  intros Hd. unfold publisher_dashboard. split; [|split].
  - intros Hr. apply Role_eqb_neq in Hr. now rewrite Hr.
  - intros Hr Hnone. rewrite Hr. cbn [Role.eqb negb].
    destruct (publisher_profile db user) as [p|] eqn:Ep; [|reflexivity].
    apply find_some in Ep. destruct Ep as [Hin Hu].
    apply Z.eqb_eq in Hu. now destruct (Hnone p Hin).
  - intros Hr publisher Ep. rewrite Hr, Ep. cbn [Role.eqb negb].
    eexists. split; [reflexivity|].
    cbn [PublisherDashboard.publisher PublisherDashboard.editors
         PublisherDashboard.journalists PublisherDashboard.editors_count
         PublisherDashboard.journalists_count
         PublisherDashboard.total_articles_count
         PublisherDashboard.total_pending_articles
         PublisherDashboard.total_approved_articles
         PublisherDashboard.total_rejected_articles
         PublisherDashboard.publisher_subscriber_count].
    split; [reflexivity|].
    split.
    { intros e. rewrite filter_In, Z.eqb_eq. reflexivity. }
    split.
    { rewrite map_map. cbn [PublisherDashboard.journalist]. apply map_id. }
    split; [reflexivity|]. split; [reflexivity|].
    split; [apply length_by_status|].
    split; [reflexivity|]. split; [reflexivity|].
    intros r Hin. apply in_map_iff in Hin. destruct Hin as [j [<- _]].
    cbn [PublisherDashboard.article_count PublisherDashboard.journalist
         PublisherDashboard.pending_article_count
         PublisherDashboard.approved_article_count
         PublisherDashboard.rejected_article_count
         PublisherDashboard.subscriber_count].
    assert (Hdj : NoDup (map Article.pk
                     (filter (fun a => Article.journalist_id a
                                       =? Journalist.pk j) (articles db))))
      by now apply NoDup_map_filter.
    rewrite (Count_distinct_pk Article.pk _ (articles db)) by assumption.
    rewrite !(Count_distinct_pk Article.pk _ (filter _ (articles db)))
      by assumption.
    split; [apply length_by_status|]. split; [reflexivity|].
    split; [|reflexivity].
    unfold approved_of_journalist. f_equal.
    generalize (articles db). intros l.
    induction l as [|a l IH]; [reflexivity|]. cbn [filter].
    destruct (Article.journalist_id a =? Journalist.pk j); cbn [filter andb];
      [|exact IH].
    change (has_status approved a) with (is_approved a).
    destruct (is_approved a); [now rewrite IH | exact IH].
Qed.

Lemma publisher_dashboard_spec_witness :
  NoDup (map Article.pk (articles Sample.db))
  /\ CustomUser.role Sample.dave = Role.publisher
  /\ publisher_profile Sample.db Sample.dave = Some Sample.acme
  /\ exists context,
       publisher_dashboard Sample.db Sample.dave
       = Page.render "news/publisher_dashboard.html" context
       /\ PublisherDashboard.total_articles_count context = 3%nat
       /\ PublisherDashboard.total_articles_count context
          = (PublisherDashboard.total_pending_articles context
             + PublisherDashboard.total_approved_articles context
             + PublisherDashboard.total_rejected_articles context)%nat.
Proof.
  assert (Hd : NoDup (map Article.pk (articles Sample.db))).
  { simpl. repeat (constructor; [simpl; lia|]). constructor. }
  split; [exact Hd|]. split; [reflexivity|]. split; [reflexivity|].
  destruct (proj2 (proj2 (publisher_dashboard_spec Sample.db Sample.dave Hd))
                  eq_refl Sample.acme eq_refl)
    as (context & E & _ & _ & _ & _ & _ & Hsum & Htotal & _).
  exists context. split; [exact E|]. split; [|exact Hsum].
  rewrite Htotal. reflexivity.
Defined.

(** ** API tokens *)

Lemma has_token_find (tokens : list Token.t) (k : Z) :
  has_token tokens k
  <-> exists token,
        find (fun t => Token.user_id t =? k) tokens = Some token.
Proof.
  unfold has_token. split.
  - intros [token [Hin Hk]].
    destruct (find (fun t => Token.user_id t =? k) tokens) as [t|] eqn:Ef;
      [now exists t|].
    apply (find_none _ _ Ef) in Hin. apply Z.eqb_neq in Hin. contradiction.
  - intros [token Hf]. apply find_some in Hf. destruct Hf as [Hin Hk].
    apply Z.eqb_eq in Hk. now exists token.
Qed.

Lemma has_token_app (tokens new : list Token.t) (k : Z) :
  has_token tokens k -> has_token (tokens ++ new) k.
Proof.
  intros [token [Hin Hk]]. exists token. split; [|exact Hk].
  apply in_app_iff. now left.
Qed.

Section CreateApiTokensFacts.
Variable generate_key : nat -> string.

Lemma Token_get_or_create_new (tokens : list Token.t) (drawn : nat)
    (user : CustomUser.t) :
  find (fun t => Token.user_id t =? CustomUser.pk user) tokens = None ->
  fresh_keys generate_key tokens drawn ->
  let token := Token.mk (generate_key drawn) (CustomUser.pk user) in
  Token_get_or_create generate_key (tokens, drawn) user
  = inl ((tokens ++ [token], S drawn), token, true)
  /\ fresh_keys generate_key (tokens ++ [token]) (S drawn).
Proof.
  intros Hf [Hinj Hfresh] token. unfold Token_get_or_create. rewrite Hf.
  fold token. split.
  - destruct (existsb _ tokens) eqn:Ee; [|reflexivity].
    apply existsb_exists in Ee. destruct Ee as [t [Hin Hk]].
    apply String.eqb_eq in Hk. exfalso.
    apply (Hfresh drawn (Nat.le_refl _)). simpl in Hk. rewrite <- Hk.
    now apply in_map.
  - split; [exact Hinj|]. intros n Hn Hin.
    rewrite map_app in Hin. apply in_app_iff in Hin.
    destruct Hin as [Hin|[Hin|[]]].
    + apply (Hfresh n); [lia | exact Hin].
    + simpl in Hin. apply Hinj in Hin. lia.
Qed.

(** The loop: the tokens it adds, one for each user that had none. *)
Lemma create_for_all_spec (users : list CustomUser.t) :
  forall tokens drawn created_count existing_count stdout,
    fresh_keys generate_key tokens drawn ->
    exists new lines existing,
      create_for_all generate_key users (tokens, drawn) created_count
                     existing_count stdout
      = inl ((tokens ++ new, (drawn + List.length new)%nat),
             (created_count + List.length new)%nat,
             (existing_count + existing)%nat, stdout ++ lines)
      /\ (List.length new + existing)%nat = List.length users
      /\ List.length lines = List.length new
      /\ (forall u, In u users ->
                    has_token (tokens ++ new) (CustomUser.pk u))
      /\ (forall t, In t new ->
            ~ has_token tokens (Token.user_id t)
            /\ exists u, In u users /\ CustomUser.pk u = Token.user_id t)
      /\ NoDup (map Token.user_id new).
Proof.
  induction users as [|user users IH];
    intros tokens drawn created_count existing_count stdout Hfresh.
  - exists [], [], 0%nat. simpl.
    rewrite !app_nil_r, !Nat.add_0_r.
    split; [reflexivity|]. split; [reflexivity|]. split; [reflexivity|].
    split; [intros u []|]. split; [intros t []|]. constructor.
  - cbn [create_for_all].
    destruct (find (fun t => Token.user_id t =? CustomUser.pk user) tokens)
      as [token|] eqn:Ef.
    + unfold Token_get_or_create. rewrite Ef.
      destruct (IH tokens drawn created_count (S existing_count) stdout
                   Hfresh)
        as (new & lines & existing & E & Hlen & Hlines & Hall & Hnew & Hd).
      exists new, lines, (S existing).
      split.
      { rewrite E. now rewrite Nat.add_succ_comm. }
      split; [simpl; lia|]. split; [exact Hlines|].
      split.
      { intros u [<-|Hu]; [|now apply Hall].
        apply has_token_app, has_token_find. now exists token. }
      split; [|exact Hd].
      intros t Ht. destruct (Hnew t Ht) as [Hno [u [Hu Hk]]].
      split; [exact Hno|]. exists u. split; [now right | exact Hk].
    + destruct (Token_get_or_create_new tokens drawn user Ef Hfresh)
        as [E Hfresh'].
      rewrite E.
      set (token := Token.mk (generate_key drawn) (CustomUser.pk user)) in *.
      destruct (IH (tokens ++ [token]) (S drawn) (S created_count)
                   existing_count
                   (stdout ++ [token_created_for (CustomUser.username user)
                                                 (Token.key token)])
                   Hfresh')
        as (new & lines & existing & E' & Hlen & Hlines & Hall & Hnew & Hd).
      exists (token :: new),
             (token_created_for (CustomUser.username user) (Token.key token)
              :: lines), existing.
      assert (Happ : (tokens ++ [token]) ++ new = tokens ++ token :: new)
        by now rewrite <- app_assoc.
      split.
      { rewrite E', Happ, <- app_assoc. cbn [List.length app].
        now rewrite <- !Nat.add_succ_comm. }
      split; [simpl; lia|]. split; [simpl; lia|].
      split.
      { intros u [<-|Hu].
        - exists token. split; [|reflexivity].
          apply in_app_iff. right. now left.
        - rewrite <- Happ. now apply Hall. }
      split.
      { intros t [<-|Ht].
        - split.
          + intros H. apply has_token_find in H. destruct H as [t' Hf].
            simpl in Hf. congruence.
          + exists user. split; [now left | reflexivity].
        - destruct (Hnew t Ht) as [Hno [u [Hu Hk]]].
          split; [intros H; apply Hno; now apply has_token_app|].
          exists u. split; [now right | exact Hk]. }
      cbn [map]. constructor; [|exact Hd].
      intros Hin. apply in_map_iff in Hin. destruct Hin as [t [Hk Ht]].
      destruct (Hnew t Ht) as [Hno _]. apply Hno.
      exists token. split; [|now rewrite Hk].
      apply in_app_iff. right. now left.
Qed.

(** When every user has a token the loop only counts. *)
Lemma create_for_all_existing (users : list CustomUser.t)
    (tokens : list Token.t) (drawn : nat) :
  (forall u, In u users -> has_token tokens (CustomUser.pk u)) ->
  forall created_count existing_count stdout,
    create_for_all generate_key users (tokens, drawn) created_count
                   existing_count stdout
    = inl ((tokens, drawn), created_count,
           (existing_count + List.length users)%nat, stdout).
Proof.
  induction users as [|user users IH]; intros Hall c e out.
  - simpl. now rewrite Nat.add_0_r.
  - cbn [create_for_all]. unfold Token_get_or_create.
    destruct (proj1 (has_token_find tokens (CustomUser.pk user))
                    (Hall user (or_introl eq_refl))) as [token Hf].
    rewrite Hf. rewrite IH by (intros u Hu; apply Hall; now right).
    cbn [List.length]. now rewrite Nat.add_succ_comm.
Qed.

(** X28.  [create_api_tokens] without a user name, when the keys drawn
    are new: the command succeeds and leaves every user with a token; the
    tokens that were in the table stay, in place and with their keys, and
    one token is added for each user that had none, so that no user has
    two; a line is written for each token created, and the last line
    counts the tokens created and the users that had one, which together
    are all users.  A second run creates nothing and reports every user
    as existing.  With the name of no user, the command writes the error
    and leaves the table as it is. *)
Theorem create_api_tokens_spec (db : Database) (tokens : list Token.t)
    (drawn : nat) :
  fresh_keys generate_key tokens drawn ->
  NoDup (map Token.user_id tokens) ->
  (exists new lines existing_count,
     handle generate_key db (tokens, drawn) None
     = inl ((tokens ++ new, (drawn + List.length new)%nat),
            lines ++ [tokens_created (List.length new) existing_count])
     /\ (List.length new + existing_count)%nat = List.length (users db)
     /\ List.length lines = List.length new
     /\ (forall u, In u (users db) ->
                   has_token (tokens ++ new) (CustomUser.pk u))
     /\ (forall t, In t new ->
           ~ has_token tokens (Token.user_id t)
           /\ exists u, In u (users db)
                        /\ CustomUser.pk u = Token.user_id t)
     /\ NoDup (map Token.user_id (tokens ++ new))
     /\ handle generate_key db
               (tokens ++ new, (drawn + List.length new)%nat) None
        = inl ((tokens ++ new, (drawn + List.length new)%nat),
               [tokens_created 0 (List.length (users db))]))
  /\ (forall c name,
        (forall u, In u (users db) ->
                   CustomUser.username u <> String c name) ->
        handle generate_key db (tokens, drawn) (Some (String c name))
        = inl ((tokens, drawn), [user_does_not_exist (String c name)])).
Proof.
  intros Hfresh Hd. split.
  - destruct (create_for_all_spec (users db) tokens drawn 0%nat 0%nat []
                                  Hfresh)
      as (new & lines & existing & E & Hlen & Hlines & Hall & Hnew & Hdn).
    exists new, lines, existing. unfold handle.
    split; [now rewrite E|]. split; [exact Hlen|]. split; [exact Hlines|].
    split; [exact Hall|]. split; [exact Hnew|].
    split.
    { rewrite map_app. apply NoDup_app; [exact Hd | exact Hdn |].
      intros k Hk Hk'. apply in_map_iff in Hk, Hk'.
      destruct Hk as [t [Ek Ht]], Hk' as [t' [Ek' Ht']].
      destruct (Hnew t' Ht') as [Hno _]. apply Hno.
      exists t. split; [exact Ht | congruence]. }
    now rewrite create_for_all_existing.
  - intros c name Hno. unfold handle, objects_get.
    rewrite filter_none; [reflexivity|].
    intros u Hu. apply String.eqb_neq. now apply Hno.
Qed.
End CreateApiTokensFacts.

Lemma sample_generate_key_length (n : nat) :
  String.length (sample_generate_key n) = (40 + n)%nat.
Proof.
  induction n as [|n IH]; [reflexivity|].
  cbn [sample_generate_key String.length]. rewrite IH. lia.
Qed.

Lemma create_api_tokens_spec_witness :
  fresh_keys sample_generate_key [] 0
  /\ NoDup (map Token.user_id [])
  /\ exists new lines existing_count,
       handle sample_generate_key Sample.db ([], 0%nat) None
       = inl ((new, List.length new),
              lines ++ [tokens_created (List.length new) existing_count])
       /\ (List.length new + existing_count)%nat
          = List.length (users Sample.db)
       /\ forall u, In u (users Sample.db) ->
                    has_token new (CustomUser.pk u).
Proof.
  assert (Hfresh : fresh_keys sample_generate_key [] 0).
  { split; [|intros n _ []].
    intros n m E. apply (f_equal String.length) in E.
    rewrite !sample_generate_key_length in E. lia. }
  assert (Hd : NoDup (map Token.user_id [])) by constructor.
  split; [exact Hfresh|]. split; [exact Hd|].
  destruct (proj1 (create_api_tokens_spec sample_generate_key Sample.db []
                                          0%nat Hfresh Hd))
    as (new & lines & existing_count & E & Hlen & _ & Hall & _).
  exists new, lines, existing_count.
  split; [exact E|]. split; [exact Hlen | exact Hall].
Defined.

(** ** Accounts, with the groups *)

Lemma filter_filter_same {A : Type} (p : A -> bool) (l : list A) :
  filter p (filter p l) = filter p l.
Proof.
  induction l as [|x l IH]; simpl; [reflexivity|].
  destruct (p x) eqn:E; simpl; [rewrite E; now f_equal | exact IH].
Qed.

Lemma save_row_same {A : Type} (pk : A -> Z) (x : A) (l : list A) :
  NoDup (map pk l) -> In x l -> save_row pk x l = l.
Proof.
  intros Hd Hin. unfold save_row, update_where.
  rewrite <- (map_id l) at 2. apply map_ext_in. intros r Hr.
  destruct (pk r =? pk x) eqn:E; [|reflexivity].
  apply Z.eqb_eq in E. symmetry.
  now apply (NoDup_map_inj_on pk l).
Qed.

(** Saving a stored user as it is stored changes no table of the
    database. *)
Lemma CustomUser_save_same (db : Database) (u : CustomUser.t) :
  NoDup (map CustomUser.pk (users db)) -> CustomUser.pk u <> 0 ->
  In u (users db) -> CustomUser_save db u = db.
Proof.
  intros Hd H0 Hin.
  pose proof (find_pk_In CustomUser.pk (users db) u Hd Hin) as Hf.
  destruct (CustomUser_save_cases db u)
    as [(_ & _ & Hne & old & Hold & Hrole)|[-> _]].
  - rewrite Hf in Hold. injection Hold as <-. contradiction.
  - destruct (save_instance_update_find (users db) u u H0 Hf) as [-> _].
    rewrite save_row_same by assumption. now destruct db.
Qed.

(** The group part of a save is the same when it runs twice. *)
Lemma CustomUser_save_groups_idem (auth : AuthDatabase) (u : CustomUser.t) :
  CustomUser_save_groups (CustomUser_save_groups auth u) u
  = CustomUser_save_groups auth u.
Proof.
  unfold CustomUser_save_groups.
  set (name := capitalize (Role_value (CustomUser.role u))).
  pose proof (Group_get_or_create_spec auth name) as H. cbv zeta in H.
  destruct H as (Hn & _).
  destruct (Group_get_or_create auth name) as [auth1 group]. simpl in Hn.
  set (rows := filter _ (customuser_groups auth1) ++ _).
  pose proof (Group_get_or_create_spec (set_customuser_groups auth1 rows)
                name) as H2.
  cbv zeta in H2.
  destruct H2 as (_ & _ & _ & _ & _ & _ & _ & _ & _ & _ & Hsame).
  destruct (Hsame group Hn) as [Ea Eg].
  destruct (Group_get_or_create (set_customuser_groups auth1 rows) name)
    as [auth2 group2].
  simpl in Ea, Eg. subst auth2 group2.
  unfold set_customuser_groups. simpl. f_equal.
  unfold rows. rewrite filter_app. simpl. rewrite Z.eqb_refl. simpl.
  rewrite app_nil_r. f_equal. apply filter_filter_same.
Qed.

(** The groups after the group part of a save: the user is in exactly
    one group, the one named after the role, made when it was missing;
    nothing else changes. *)
Lemma CustomUser_save_groups_one_group (auth : AuthDatabase)
    (user : CustomUser.t) :
  let auth' := CustomUser_save_groups auth user in
  auth_permission auth' = auth_permission auth
  /\ auth_group_permissions auth' = auth_group_permissions auth
  /\ exists group,
       group_named auth'
         (match CustomUser.role user with
          | Role.reader => "Reader"
          | Role.journalist => "Journalist"
          | Role.editor => "Editor"
          | Role.publisher => "Publisher"
          end) = Some group
       /\ groups_of auth' (CustomUser.pk user) = [Group.pk group]
       /\ (forall other, other <> CustomUser.pk user ->
             groups_of auth' other = groups_of auth other)
       /\ (In group (auth_group auth) -> auth_group auth' = auth_group auth)
       /\ (~ In group (auth_group auth) ->
           auth_group auth' = auth_group auth ++ [group]).
Proof.
  intros auth'.
  destruct (CustomUser_save_groups_cases auth user)
    as (group & Hnamed & Hgroups & Hperms & Hgp & Hsame & Hnew).
  rewrite capitalize_Role_value in Hnamed, Hsame, Hnew.
  fold auth' in Hnamed, Hgroups, Hperms, Hgp, Hsame, Hnew.
  split; [exact Hperms|]. split; [exact Hgp|].
  exists group. split; [exact Hnamed|].
  split; [now rewrite Hgroups, Z.eqb_refl|].
  split.
  { intros other Hne. rewrite Hgroups. apply Z.eqb_neq in Hne.
    now rewrite Hne. }
  set (name := match CustomUser.role user with
               | Role.reader => "Reader"
               | Role.journalist => "Journalist"
               | Role.editor => "Editor"
               | Role.publisher => "Publisher"
               end%string) in *.
  destruct (group_named auth name) as [g|] eqn:Eg.
  - destruct (Hsame g eq_refl) as [-> Hgs]. split; [now intros _|].
    intros Hn. exfalso. apply Hn. unfold group_named in Eg.
    now apply find_some in Eg.
  - destruct (Hnew eq_refl) as [Hgs Hk]. split; [|now intros _].
    intros Hin. exfalso.
    unfold group_named in Eg, Hnamed.
    apply (find_none _ _ Eg) in Hin.
    apply find_some in Hnamed. destruct Hnamed as [_ Hn].
    congruence.
Qed.

Section ResetWithGroupsFacts.
Variables sha1_hexdigest make_password : string -> string.
Variable validate_password : string -> bool.

Local Abbreviation reset :=
  (reset_password sha1_hexdigest make_password validate_password).
Local Abbreviation reset_all :=
  (reset_password_with_groups sha1_hexdigest make_password
     validate_password).

(** On the database the view with the groups is the view without. *)
Lemma reset_password_with_groups_db (db : Database) (auth : AuthDatabase)
    (token : string) (POST : option ResetPasswordForm) (now : Z) :
  fst (fst (reset_all (db, auth) token POST now))
  = fst (reset db token POST now)
  /\ snd (reset_all (db, auth) token POST now)
     = snd (reset db token POST now).
Proof.
  unfold reset_password_with_groups, reset_password.
  destruct (objects_get _ (reset_tokens db)) as [|row|];
    try (split; reflexivity).
  destruct (ResetToken.expiry_date row <? now); [split; reflexivity|].
  destruct POST as [form|]; [|split; reflexivity].
  destruct (ResetPasswordForm_is_valid validate_password form);
    [|split; reflexivity].
  destruct (find_pk CustomUser.pk _ (users db)); split; reflexivity.
Qed.

(** The groups after the view: as they were, or those of one save of the
    account of the token. *)
Lemma reset_password_with_groups_auth (db : Database) (auth : AuthDatabase)
    (token : string) (POST : option ResetPasswordForm) (now : Z) :
  (forall u, In u (users db) -> CustomUser.pk u <> 0) ->
  let result := reset_all (db, auth) token POST now in
  (snd result <> reset_done /\ fst result = (db, auth))
  \/ (snd result = reset_done
      /\ exists row user,
           In row (reset_tokens db)
           /\ ResetToken.token row = sha1_hexdigest token
           /\ ResetToken.used row = false
           /\ find_pk CustomUser.pk (ResetToken.user_id row) (users db)
              = Some user
           /\ snd (fst result) = CustomUser_save_groups auth user).
Proof.
  intros H0. cbv zeta. unfold reset_password_with_groups, reset_done.
  destruct (objects_get _ (reset_tokens db)) as [|row|] eqn:Eg;
    try (left; split; [discriminate | reflexivity]).
  apply objects_get_Found in Eg.
  assert (Hrow : In row (reset_tokens db)
                 /\ ResetToken.token row = sha1_hexdigest token
                 /\ ResetToken.used row = false).
  { assert (H : In row [row]) by now left.
    rewrite <- Eg in H. apply filter_In in H. destruct H as [H Hc].
    apply andb_true_iff in Hc. destruct Hc as [Ht Hu].
    apply String.eqb_eq in Ht. apply negb_true_iff in Hu. auto. }
  destruct (ResetToken.expiry_date row <? now);
    [left; split; [discriminate | reflexivity]|].
  destruct POST as [form|]; [|left; split; [discriminate | reflexivity]].
  destruct (ResetPasswordForm_is_valid validate_password form)
    as [new_password|]; [|left; split; [discriminate | reflexivity]].
  destruct (find_pk CustomUser.pk _ (users db)) as [user|] eqn:Eu;
    [|left; split; [discriminate | reflexivity]].
  right. split; [reflexivity|]. exists row, user.
  destruct Hrow as (Hin & Ht & Hu).
  split; [exact Hin|]. split; [exact Ht|]. split; [exact Hu|].
  split; [exact Eu|].
  apply find_pk_Some in Eu. destruct Eu as [Huin _].
  unfold CustomUser_save_with_groups. simpl CustomUser.pk.
  specialize (H0 user Huin). apply Z.eqb_neq in H0. rewrite H0.
  reflexivity.
Qed.

(** X16.  [reset_password] writes only when the reset succeeds.  It then
    writes the password of the account of the token and the [used] flag
    of the token row, and, through the save of the account, the groups of
    that account: the account is left in exactly one group, the one
    named after its role, which is created when it does not exist.  In
    every case every account keeps its key, its user name, its address
    and its role, every token row its key, its account, its hash and its
    expiry, and the subscriptions, the other tables of the database, the
    permissions, the permissions of the groups and the groups of every
    other account stay as they were.  So a reader who resets a password
    keeps all subscriptions. *)
Theorem reset_password_frame (db : Database) (auth : AuthDatabase)
    (token : string) (POST : option ResetPasswordForm) (now : Z) :
  saved_users db ->
  NoDup (map ResetToken.pk (reset_tokens db)) ->
  let result := reset_all (db, auth) token POST now in
  let db' := fst (fst result) in
  let auth' := snd (fst result) in
  map account_of (users db') = map account_of (users db)
  /\ map token_of (reset_tokens db') = map token_of (reset_tokens db)
  /\ journalist_subscriptions db' = journalist_subscriptions db
  /\ publisher_subscriptions db' = publisher_subscriptions db
  /\ db' = set_reset_tokens (set_users db (users db')) (reset_tokens db')
  /\ auth_permission auth' = auth_permission auth
  /\ auth_group_permissions auth' = auth_group_permissions auth
  /\ (snd result <> reset_done -> db' = db /\ auth' = auth)
  /\ (snd result = reset_done ->
      exists row user group,
        In row (reset_tokens db)
        /\ ResetToken.token row = sha1_hexdigest token
        /\ ResetToken.used row = false
        /\ find_pk CustomUser.pk (ResetToken.user_id row) (users db)
           = Some user
        /\ group_named auth'
             (match CustomUser.role user with
              | Role.reader => "Reader"
              | Role.journalist => "Journalist"
              | Role.editor => "Editor"
              | Role.publisher => "Publisher"
              end) = Some group
        /\ groups_of auth' (CustomUser.pk user) = [Group.pk group]
        /\ (forall other, other <> CustomUser.pk user ->
              groups_of auth' other = groups_of auth other)
        /\ (In group (auth_group auth) -> auth_group auth' = auth_group auth)
        /\ (~ In group (auth_group auth) ->
            auth_group auth' = auth_group auth ++ [group])).
Proof.
  intros Hu Ht result db' auth'.
  destruct (reset_password_with_groups_db db auth token POST now)
    as [Hdb Hresp].
  fold result in Hdb, Hresp. fold db' in Hdb.
  destruct (reset_password_db_frame sha1_hexdigest make_password
              validate_password db token POST now Hu Ht)
    as (Fu & Ft & Fj & Fp & Fdb).
  rewrite <- Hdb in Fu, Ft, Fj, Fp, Fdb.
  split; [exact Fu|]. split; [exact Ft|]. split; [exact Fj|].
  split; [exact Fp|]. split; [exact Fdb|].
  pose proof (reset_password_with_groups_auth db auth token POST now
                (proj2 Hu)) as Hcases.
  cbv zeta in Hcases. fold result in Hcases.
  destruct Hcases
    as [[Hne Hsame]|[Hdone (row & user & Hrow & Htok & Hused & Huser & Ha)]].
  - assert (Ea : auth' = auth) by (unfold auth'; now rewrite Hsame).
    assert (Ed : db' = db) by (unfold db'; now rewrite Hsame).
    rewrite Ea. split; [reflexivity|]. split; [reflexivity|].
    split; [now split|]. intros Hd. contradiction.
  - fold auth' in Ha.
    destruct (CustomUser_save_groups_one_group auth user)
      as (Hperms & Hgp & group & Hnamed & Hmine & Hothers & Hold & Hnew).
    rewrite <- Ha in Hperms, Hgp, Hnamed, Hmine, Hothers, Hold, Hnew.
    split; [exact Hperms|]. split; [exact Hgp|].
    split; [intros Hd; contradiction|].
    intros _. exists row, user, group.
    split; [exact Hrow|]. split; [exact Htok|]. split; [exact Hused|].
    split; [exact Huser|]. split; [exact Hnamed|].
    split; [exact Hmine|]. split; [exact Hothers|].
    split; [exact Hold | exact Hnew].
Qed.
End ResetWithGroupsFacts.

(** On the sample newsroom, after alice asked for a link, her reset keeps
    her subscription and the five accounts, and leaves her in the group
    of the readers, with the groups as the migration made them. *)
Lemma reset_password_frame_witness :
  saved_users sample_issued
  /\ NoDup (map ResetToken.pk (reset_tokens sample_issued))
  /\ map account_of
         (users
            (fst (fst (reset_password_with_groups SampleCrypto.digest
                         SampleCrypto.hasher SampleCrypto.validators
                         (sample_issued, sample_roles) SampleCrypto.token
                         (Some SampleCrypto.form) 2000))))
     = map account_of (users sample_issued)
  /\ journalist_subscriptions
       (fst (fst (reset_password_with_groups SampleCrypto.digest
                    SampleCrypto.hasher SampleCrypto.validators
                    (sample_issued, sample_roles) SampleCrypto.token
                    (Some SampleCrypto.form) 2000)))
     = [JournalistSubscription.mk 1 1 1 true]
  /\ auth_group_permissions
       (snd (fst (reset_password_with_groups SampleCrypto.digest
                    SampleCrypto.hasher SampleCrypto.validators
                    (sample_issued, sample_roles) SampleCrypto.token
                    (Some SampleCrypto.form) 2000)))
     = auth_group_permissions sample_roles
  /\ groups_of
       (snd (fst (reset_password_with_groups SampleCrypto.digest
                    SampleCrypto.hasher SampleCrypto.validators
                    (sample_issued, sample_roles) SampleCrypto.token
                    (Some SampleCrypto.form) 2000))) 1
     = [1].
Proof.
  assert (Hu : saved_users sample_issued).
  { split.
    - simpl. repeat constructor; simpl; intuition discriminate.
    - intros u Hin. simpl in Hin.
      repeat (destruct Hin as [<-|Hin]; [discriminate|]). destruct Hin. }
  assert (Ht : NoDup (map ResetToken.pk (reset_tokens sample_issued))).
  { simpl. repeat constructor; simpl; intuition discriminate. }
  split; [exact Hu|]. split; [exact Ht|].
  destruct (reset_password_frame SampleCrypto.digest SampleCrypto.hasher
              SampleCrypto.validators sample_issued sample_roles
              SampleCrypto.token (Some SampleCrypto.form) 2000 Hu Ht)
    as (Ha & _ & Hj & _ & _ & _ & Hgp & _).
  split; [exact Ha|]. split; [rewrite Hj; reflexivity|].
  split; [exact Hgp | reflexivity].
Defined.

(** ** Registration *)

Lemma CustomUser_save_with_groups_new (db : Database) (auth : AuthDatabase)
    (u : CustomUser.t) :
  CustomUser.pk u = 0 ->
  let saved := CustomUser.with_pk u (next_pk CustomUser.pk (users db)) in
  CustomUser_save_with_groups (db, auth) u
  = ((set_users db (users db ++ [saved]), CustomUser_save_groups auth saved),
     saved).
Proof.
  intros H0 saved. unfold CustomUser_save_with_groups, CustomUser_save.
  rewrite H0. simpl. unfold save_instance. rewrite H0. reflexivity.
Qed.

Lemma CustomUser_save_with_groups_same (db : Database) (auth : AuthDatabase)
    (u : CustomUser.t) :
  NoDup (map CustomUser.pk (users db)) -> CustomUser.pk u <> 0 ->
  In u (users db) ->
  CustomUser_save_with_groups (db, CustomUser_save_groups auth u) u
  = ((db, CustomUser_save_groups auth u), u).
Proof.
  intros Hd H0 Hin. unfold CustomUser_save_with_groups.
  rewrite (CustomUser_save_same db u Hd H0 Hin).
  apply Z.eqb_neq in H0. rewrite H0.
  now rewrite CustomUser_save_groups_idem.
Qed.

Section RegisterFacts.
Variable RegisterForm_clean :
  Database -> RegisterData -> option (string * string * string).
Variable make_password : string -> string.

Local Abbreviation register_view :=
  (register RegisterForm_clean make_password).

End RegisterFacts.


